(** * Archive toolkit: manifest-driven organisation of staged notes

    A shallow embedding of the two command-line variants of the toolkit,

      - [Toolkit]   : src/ARCHIVE-TOOLKIT.py (the root variant)
      - [Directive] : src/directive/archive_toolkit.py (the directive variant)

    together with the parts of the Python run time they call ([Py], [Re],
    [Json], [Fs]).

    Modelling conventions.
      - A Python [str] is a [string]; a character is a code point below 256
        (Latin-1), the range on which case mapping and white space are
        written out below.  Files hold text: decoding is not modelled.
      - [word_count] is a Python [int]: [Z], with Python's slice semantics.
      - A [csv.DictReader] row is a [gmap string string]; the CSV syntax
        itself is not modelled, the manifest is the list of its rows, each
        with a value for every column it has.
      - A path is the list of its components, as [pathlib] splits it; two
        paths are the same file when their components are the same (no
        symbolic links, and a double dot is a name like any other).
      - The file system is a finite map from paths to nodes, files with
        their text or directories.  Exceptions are values of [exn]; a
        command takes the world and returns it with a result.
      - [print] appends an event to the console output of the world.
      - [date.today()] / [datetime.now()] is a parameter [today]. *)

From Stdlib Require Import Ascii ZArith Lia.
From stdpp Require Import gmap strings list sorting.

Local Open Scope Z_scope.
Local Open Scope nat_scope.

(* ===================================================================== *)
(** * Python built-ins on strings and lists *)
(* ===================================================================== *)

Module Py.

Definition LF : ascii := "010"%char.
Definition nl : string := String LF "".

(** [str.isspace] on one character, for code points below 256. *)
Definition isspace (c : ascii) : bool :=
  match c with
  | "009" | "010" | "011" | "012" | "013"
  | "028" | "029" | "030" | "031" | " "
  | "133" | "160" => true
  | _ => false
  end%char.

(** [str.lower] on one character: A-Z, and the Latin-1 capitals
    0xC0-0xDE except the multiplication sign 0xD7. *)
Definition lower_char (c : ascii) : ascii :=
  let n := N_of_ascii c in
  if ((65 <=? n) && (n <=? 90) ||
      (192 <=? n) && (n <=? 222) && negb (n =? 215))%N
  then ascii_of_N (n + 32) else c.

Fixpoint lower (s : string) : string :=
  match s with
  | "" => ""
  | String c s' => String (lower_char c) (lower s')
  end.

(** [s.startswith(p)] *)
Fixpoint startswith (p s : string) : bool :=
  match p, s with
  | "", _ => true
  | String _ _, "" => false
  | String a p', String b s' => bool_decide (a = b) && startswith p' s'
  end.

(** [sub in s] *)
Fixpoint contains (sub s : string) : bool :=
  startswith sub s ||
  match s with
  | "" => false
  | String _ s' => contains sub s'
  end.

Fixpoint drop (n : nat) (s : string) : string :=
  match n, s with
  | S n', String _ s' => drop n' s'
  | _, _ => s
  end.

Fixpoint rev_app (s acc : string) : string :=
  match s with
  | "" => acc
  | String c s' => rev_app s' (String c acc)
  end.

Definition rev (s : string) : string := rev_app s "".

(** [s.endswith(p)] *)
Definition endswith (p s : string) : bool := startswith (rev p) (rev s).

(** [s.partition(sep)] when [sep] occurs: the text before the first
    occurrence and the text after it.  [sep] is never empty here. *)
Fixpoint split_once (sep s : string) : option (string * string) :=
  if startswith sep s then Some ("", drop (String.length sep) s)
  else match s with
       | "" => None
       | String c s' =>
           match split_once sep s' with
           | Some (a, b) => Some (String c a, b)
           | None => None
           end
       end.

(** [s.split(sep, n)]: at most [n] splits, at most [n + 1] parts. *)
Fixpoint splitn (sep : string) (n : nat) (s : string) : list string :=
  match n with
  | 0 => [s]
  | S n' =>
      match split_once sep s with
      | None => [s]
      | Some (a, b) => a :: splitn sep n' b
      end
  end.

(** [s.split(c)] for a separator of one character. *)
Fixpoint split_char (c : ascii) (s : string) : list string :=
  match s with
  | "" => [""]
  | String d s' =>
      if bool_decide (d = c) then "" :: split_char c s'
      else match split_char c s' with
           | w :: ws => String d w :: ws
           | [] => [String d ""]
           end
  end.

(** [sep.join(l)] *)
Fixpoint join (sep : string) (l : list string) : string :=
  match l with
  | [] => ""
  | [x] => x
  | x :: l' => x +:+ sep +:+ join sep l'
  end.

(** [s.replace(old, new)] for a non-empty [old]: scan left to right,
    [skip] counts the characters of a replaced occurrence still to pass. *)
Fixpoint replace_aux (old new : string) (skip : nat) (s : string) : string :=
  match s with
  | "" => ""
  | String c s' =>
      match skip with
      | S k => replace_aux old new k s'
      | 0 =>
          if startswith old s
          then new +:+ replace_aux old new (String.length old - 1) s'
          else String c (replace_aux old new 0 s')
      end
  end.

Definition replace (old new s : string) : string := replace_aux old new 0 s.

(** [s.lstrip()], [s.rstrip()], [s.strip()] *)
Fixpoint lstrip (s : string) : string :=
  match s with
  | "" => ""
  | String c s' => if isspace c then lstrip s' else s
  end.

Fixpoint rstrip (s : string) : string :=
  match s with
  | "" => ""
  | String c s' =>
      match rstrip s' with
      | "" => if isspace c then "" else String c ""
      | r => String c r
      end
  end.

Definition strip (s : string) : string := rstrip (lstrip s).

(** [s.split()]: maximal runs of non-space characters. *)
Fixpoint split_ws (s : string) : list string :=
  match s with
  | "" => []
  | String c s' =>
      if isspace c then split_ws s'
      else match s' with
           | "" => [String c ""]
           | String c' _ =>
               if isspace c' then String c "" :: split_ws s'
               else match split_ws s' with
                    | w :: ws => String c w :: ws
                    | [] => [String c ""]
                    end
           end
  end.

(** [l[:n]] for a Python [int] [n]: a negative stop counts from the end. *)
Definition slice_to {A} (n : Z) (l : list A) : list A :=
  if (n <? 0)%Z then take (length l - Z.to_nat (- n)) l
  else take (Z.to_nat n) l.

(** Truthiness of a string: [if s:]. *)
Definition truthy (s : string) : bool :=
  match s with "" => false | _ => true end.

(** [[t.strip() for t in s.split(c) if t.strip()]] *)
Definition stripped_items (c : ascii) (s : string) : list string :=
  filter (λ t, t ≠ "") (strip <$> split_char c s).

(** [d.get(k, default)] on a dictionary of strings. *)
Definition get (d : gmap string string) (k default : string) : string :=
  match d !! k with Some v => v | None => default end.

(** [d[k] = d.get(k, 0) + 1] on a dictionary of counters. *)
Definition count_up (k : string) (d : gmap string nat) : gmap string nat :=
  <[k := default 0 (d !! k) + 1]> d.

(** The order of tuples of a string and a number: by the string, then
    by the number. *)
Definition item_le (a b : string * nat) : Prop :=
  a.1 ≠ b.1 ∧ String.le a.1 b.1 ∨ a.1 = b.1 ∧ a.2 ≤ b.2.

Definition item_le_dec (a b : string * nat) : Decision (item_le a b) :=
  or_dec (and_dec (not_dec (decide (a.1 = b.1))) (decide (String.le a.1 b.1)))
         (and_dec (decide (a.1 = b.1)) (decide (a.2 ≤ b.2))).

(** [sorted(d.items())] *)
Definition sorted_items (d : gmap string nat) : list (string * nat) :=
  @merge_sort _ item_le item_le_dec (map_to_list d).

(** The order [sorted] puts the items of a dictionary in: the keys
    differ, so the values are never compared. *)
Definition key_le {A} (a b : string * A) : Prop := String.le a.1 b.1.

Definition key_le_dec {A} (a b : string * A) : Decision (key_le a b) :=
  decide (String.le a.1 b.1).

(** [sorted(d.items())] for values of any kind. *)
Definition sorted_by_key {A} (d : gmap string A) : list (string * A) :=
  @merge_sort _ key_le key_le_dec (map_to_list d).

End Py.

(* ===================================================================== *)
(** * Exceptions *)
(* ===================================================================== *)

Inductive exn : Type :=
  | KeyError (key : string)
  | ValueError
  | IndexError
  | FileNotFoundError
  | FileExistsError
  | IsADirectoryError
  | NotADirectoryError.

Inductive result (A : Type) : Type :=
  | Ok (a : A)
  | Raise (e : exn).
Arguments Ok {A} a.
Arguments Raise {A} e.

Definition rbind {A B} (r : result A) (k : A → result B) : result B :=
  match r with
  | Ok a => k a
  | Raise e => Raise e
  end.

(** [d[k]] *)
Definition getitem (d : gmap string string) (k : string) : result string :=
  match d !! k with Some v => Ok v | None => Raise (KeyError k) end.

(** [try: r except ValueError: h] *)
Definition except_ValueError {A} (r : result A) (h : result A) : result A :=
  match r with
  | Raise ValueError => h
  | _ => r
  end.

(* ===================================================================== *)
(** * The regular expressions of the toolkit *)
(* ===================================================================== *)

Module Re.
Import Py.

(** The text after a literal prefix, when it is there. *)
Fixpoint strip_prefix (p s : string) : option string :=
  match p, s with
  | "", _ => Some s
  | String _ _, "" => None
  | String a p', String b s' =>
      if bool_decide (a = b) then strip_prefix p' s' else None
  end.

Definition fm_open : string := "---" +:+ nl.
Definition fm_close : string := nl +:+ "---" +:+ nl.

(** [re.sub(r'^---\n.*?\n---\n', '', content, flags=re.DOTALL)]: the
    pattern is anchored at the start, so at most one match is replaced;
    the lazy [.*?] stops at the first closing line. *)
Definition strip_frontmatter (content : string) : string :=
  match strip_prefix fm_open content with
  | None => content
  | Some rest =>
      match split_once fm_close rest with
      | None => content
      | Some (_, body) => body
      end
  end.

Fixpoint hashes (n : nat) : string :=
  match n with
  | 0 => ""
  | S n' => String "#" (hashes n')
  end.

(** [re.sub(r'#+\s', '', text)]: [pending] is the length of the run of
    number signs just read.  The run and the space after it are dropped;
    a run followed by anything else is kept (no shorter match exists, the
    character after a shorter run being a number sign). *)
Fixpoint sub_hashes_aux (pending : nat) (s : string) : string :=
  match s with
  | "" => hashes pending
  | String c s' =>
      if bool_decide (c = "#"%char) then sub_hashes_aux (S pending) s'
      else match pending with
           | 0 => String c (sub_hashes_aux 0 s')
           | S _ =>
               if isspace c then sub_hashes_aux 0 s'
               else hashes pending +:+ String c (sub_hashes_aux 0 s')
           end
  end.

Definition sub_hashes (s : string) : string := sub_hashes_aux 0 s.

(** [re.sub(r'[^a-z0-9-]', '', s)] *)
Definition slug_char (c : ascii) : bool :=
  let n := N_of_ascii c in
  ((97 <=? n) && (n <=? 122) || (48 <=? n) && (n <=? 57) || (n =? 45))%N.

Fixpoint sub_non_slug (s : string) : string :=
  match s with
  | "" => ""
  | String c s' =>
      if slug_char c then String c (sub_non_slug s') else sub_non_slug s'
  end.

End Re.

(* ===================================================================== *)
(** * [json.dumps] and [json.loads] on lists of strings *)
(* ===================================================================== *)

Module Json.
Import Py.

Definition dq : ascii := "034"%char.
Definition bs : ascii := "092"%char.

Definition hex_digit (n : N) : ascii :=
  if (n <? 10)%N then ascii_of_N (48 + n) else ascii_of_N (87 + n).

(** One character of a string as [json.dumps] writes it with
    [ensure_ascii]: the two-character escapes, the character itself from
    space to tilde, and a [\u00XX] escape for the rest. *)
Definition escape_char (c : ascii) : string :=
  let n := N_of_ascii c in
  if (n =? 34)%N then String bs (String dq "")
  else if (n =? 92)%N then String bs (String bs "")
  else if (n =? 10)%N then String bs "n"
  else if (n =? 13)%N then String bs "r"
  else if (n =? 9)%N then String bs "t"
  else if (n =? 8)%N then String bs "b"
  else if (n =? 12)%N then String bs "f"
  else if ((32 <=? n) && (n <=? 126))%N then String c ""
  else String bs (String "u" (String "0" (String "0"
         (String (hex_digit (n / 16)) (String (hex_digit (n mod 16)) ""))))).

Fixpoint escape (s : string) : string :=
  match s with
  | "" => ""
  | String c s' => escape_char c +:+ escape s'
  end.

Definition dumps_str (s : string) : string :=
  String dq (escape s +:+ String dq "").

(** [json.dumps(l)] for a list of strings. *)
Definition dumps (l : list string) : string :=
  "[" +:+ join ", " (map dumps_str l) +:+ "]".

Definition hex_value (c : ascii) : option N :=
  let n := N_of_ascii c in
  if ((48 <=? n) && (n <=? 57))%N then Some (n - 48)%N
  else if ((97 <=? n) && (n <=? 102))%N then Some (n - 87)%N
  else if ((65 <=? n) && (n <=? 70))%N then Some (n - 55)%N
  else None.

(** The character a [\uXXXX] escape stands for, when below 256. *)
Definition unicode_escape (h1 h2 h3 h4 : ascii) : option ascii :=
  match hex_value h1, hex_value h2, hex_value h3, hex_value h4 with
  | Some 0%N, Some 0%N, Some a, Some b => Some (ascii_of_N (16 * a + b))
  | _, _, _, _ => None
  end.

Definition simple_escape (e : ascii) : option ascii :=
  match e with
  | "034" | "092" | "/" => Some e
  | "b" => Some "008"
  | "f" => Some "012"
  | "n" => Some "010"
  | "r" => Some "013"
  | "t" => Some "009"
  | _ => None
  end%char.

(** The decoder's string scanner, started after the opening quote: the
    decoded string and the text after the closing quote.  A raw control
    character is refused (strict mode). *)
Fixpoint scan_string (s : string) : option (string * string) :=
  match s with
  | "" => None
  | String c s' =>
      if bool_decide (c = dq) then Some ("", s')
      else if bool_decide (c = bs) then
        match s' with
        | "" => None
        | String e s'' =>
            if bool_decide (e = "u"%char) then
              match s'' with
              | String h1 (String h2 (String h3 (String h4 s3))) =>
                  match unicode_escape h1 h2 h3 h4, scan_string s3 with
                  | Some d, Some (t, r) => Some (String d t, r)
                  | _, _ => None
                  end
              | _ => None
              end
            else
              match simple_escape e, scan_string s'' with
              | Some d, Some (t, r) => Some (String d t, r)
              | _, _ => None
              end
        end
      else if (N_of_ascii c <? 32)%N then None
      else match scan_string s' with
           | Some (t, r) => Some (String c t, r)
           | None => None
           end
  end.

Definition is_ws (c : ascii) : bool :=
  match c with
  | " " | "009" | "010" | "013" => true
  | _ => false
  end%char.

Fixpoint skip_ws (s : string) : string :=
  match s with
  | "" => ""
  | String c s' => if is_ws c then skip_ws s' else s
  end.

(** The elements of an array after its first one is due: a string, then
    a comma and more, or the closing bracket.  The text after the
    bracket is returned with the elements. *)
Fixpoint scan_elems (fuel : nat) (s : string) : option (list string * string) :=
  match fuel with
  | 0 => None
  | S fuel' =>
      match s with
      | String c s1 =>
          if bool_decide (c = dq) then
            match scan_string s1 with
            | None => None
            | Some (x, r) =>
                match skip_ws r with
                | String d r' =>
                    if bool_decide (d = ","%char) then
                      match scan_elems fuel' (skip_ws r') with
                      | Some (xs, rest) => Some (x :: xs, rest)
                      | None => None
                      end
                    else if bool_decide (d = "]"%char) then Some ([x], r')
                    else None
                | "" => None
                end
            end
          else None
      | "" => None
      end
  end.

(** [json.dumps(l, indent=2)] for a list of objects whose values are
    strings: every item on lines of its own, two spaces deeper than what
    holds it; an empty list or object is written closed. *)
Definition dumps_member (kv : string * string) : string :=
  dumps_str kv.1 +:+ ": " +:+ dumps_str kv.2.

Definition dumps_object_indent (o : list (string * string)) : string :=
  match o with
  | [] => "{}"
  | _ => "{" +:+ nl +:+ "    "
         +:+ join ("," +:+ nl +:+ "    ") (dumps_member <$> o)
         +:+ nl +:+ "  }"
  end.

Definition dumps_indent (l : list (list (string * string))) : string :=
  match l with
  | [] => "[]"
  | _ => "[" +:+ nl +:+ "  "
         +:+ join ("," +:+ nl +:+ "  ") (dumps_object_indent <$> l)
         +:+ nl +:+ "]"
  end.

(** [json.loads(s)] when the document is an array of strings; [None]
    where [json.loads] raises, and for every other document. *)
Definition loads (s : string) : option (list string) :=
  match skip_ws s with
  | String c s1 =>
      if bool_decide (c = "["%char) then
        match skip_ws s1 with
        | String d s2 =>
            if bool_decide (d = "]"%char) then
              match skip_ws s2 with "" => Some [] | _ => None end
            else
              match scan_elems (String.length s1) (skip_ws s1) with
              | Some (xs, rest) =>
                  match skip_ws rest with "" => Some xs | _ => None end
              | None => None
              end
        | "" => None
        end
      else None
  | "" => None
  end.
End Json.

(* ===================================================================== *)
(** * Paths, the file system and the console *)
(* ===================================================================== *)

Module Fs.
Import Py.

(** A path is the list of its components below the file-system root
    ([pathlib.PurePosixPath.parts] without the leading slash). *)
Abbreviation path := (list string).

(** What is at a path: a file with its text as it is decoded, or a
    directory.  A file whose bytes are no text is not represented. *)
Inductive node : Type :=
  | File (content : string)
  | Dir.

(** The components of a path written as text: empty components and
    single dots are dropped, double dots are kept, as pathlib does (two
    slashes at the very start are read as one). *)
Definition parts (s : string) : path :=
  filter (λ x, x ≠ "" ∧ x ≠ ".") (split_char "/" s).

(** [p / s]: an absolute right operand replaces the left one.  Double
    dots stay in the result as a component; a statement about the file
    the system finds at a path takes the path to have none. *)
Definition pjoin (p : path) (s : string) : path :=
  if startswith "/" s then parts s else p ++ parts s.

(** [p.name] *)
Definition name (p : path) : string := List.last p "".

(** [p.parent] *)
Definition parent (p : path) : path := removelast p.

(** The text before and after the last dot of a name. *)
Fixpoint rsplit_dot (s : string) : option (string * string) :=
  match s with
  | "" => None
  | String c s' =>
      match rsplit_dot s' with
      | Some (a, b) => Some (String c a, b)
      | None => if bool_decide (c = "."%char) then Some ("", s') else None
      end
  end.

(** [p.stem]: the name without its last suffix; a leading or a trailing
    dot starts no suffix. *)
Definition stem (p : path) : string :=
  match rsplit_dot (name p) with
  | Some (String c a, String d b) => String c a
  | _ => name p
  end.

(** [p.relative_to(base)] *)
Definition relative_to (base p : path) : result path :=
  if bool_decide (base `prefix_of` p) then Ok (List.skipn (length base) p)
  else Raise ValueError.

(** [str(p)] and [p.as_posix()] for a relative path: its components
    with slashes between them, a single dot when there is none. *)
Definition as_posix (rel : path) : string :=
  match rel with
  | [] => "."
  | _ => join "/" rel
  end.

(** What the console shows: one event per [print]. *)
Inductive event : Type :=
  (* src/ARCHIVE-TOOLKIT.py *)
  | Manifest_not_found
  | Skipping_missing_file (original_path : string)
  | Moved (filename : string) (target : path)
  | Error_processing (filename : string) (e : exn)
  | Organization_complete (count : nat)
  (* src/directive/archive_toolkit.py *)
  | ERROR_manifest_not_found
  | SKIP_no_domain (filename : string)
  | WARN_source_not_found (src : path)
  | ERROR_reading (src : path) (e : exn)
  | MOVE (name : string) (dest : path)
  | ERROR_writing (dest : path) (e : exn).

(** The state a command runs in: the files, the console output so far,
    and the counter of the root variant. *)
Record world : Type := World {
  files : gmap path node;
  out : list event;
  success_count : nat
}.

Definition set_files (f : gmap path node) (w : world) : world :=
  World f (out w) (success_count w).

(** Commands: a state transformer that returns or raises. *)
Definition io (A : Type) : Type := world → result A * world.

Definition ret {A} (a : A) : io A := λ w, (Ok a, w).
Definition raise {A} (e : exn) : io A := λ w, (Raise e, w).
Definition lift {A} (r : result A) : io A := λ w, (r, w).
Definition bind {A B} (m : io A) (k : A → io B) : io B :=
  λ w, match m w with
       | (Ok a, w') => k a w'
       | (Raise e, w') => (Raise e, w')
       end.
(** [try: m except Exception as e: h e] *)
Definition try_except {A} (m : io A) (h : exn → io A) : io A :=
  λ w, match m w with
       | (Ok a, w') => (Ok a, w')
       | (Raise e, w') => h e w'
       end.

(** [print(...)] *)
Definition print (ev : event) : io unit :=
  λ w, (Ok tt, World (files w) (out w ++ [ev]) (success_count w)).

Definition incr_success : io unit :=
  λ w, (Ok tt, World (files w) (out w) (S (success_count w))).

(** The node at a path; the root is always a directory. *)
Definition node_at (p : path) (f : gmap path node) : option node :=
  match p with [] => Some Dir | _ => f !! p end.

(** [p.exists()] *)
Definition exists_ (p : path) : io bool :=
  λ w, (Ok (bool_decide (is_Some (node_at p (files w)))), w).

(** [open(p, 'r').read()] *)
Definition read_text (p : path) : io string :=
  λ w, match node_at p (files w) with
       | Some (File c) => (Ok c, w)
       | Some Dir => (Raise IsADirectoryError, w)
       | None => (Raise FileNotFoundError, w)
       end.

(** [open(p, 'w').write(c)]: the parent must be a directory and [p]
    must not be one; an existing file is overwritten. *)
Definition write_text (p : path) (c : string) : io unit :=
  λ w, match node_at p (files w) with
       | Some Dir => (Raise IsADirectoryError, w)
       | _ =>
           match node_at (parent p) (files w) with
           | Some Dir => (Ok tt, set_files (<[p := File c]> (files w)) w)
           | Some (File _) => (Raise NotADirectoryError, w)
           | None => (Raise FileNotFoundError, w)
           end
       end.

(** [os.remove(p)] *)
Definition remove (p : path) : io unit :=
  λ w, match node_at p (files w) with
       | Some (File _) => (Ok tt, set_files (delete p (files w)) w)
       | Some Dir => (Raise IsADirectoryError, w)
       | None => (Raise FileNotFoundError, w)
       end.

(** The directories [base/x1], [base/x1/x2], ... made in turn; a file
    in the way stops it. *)
Fixpoint mkdir_from (base : path) (rest : list string) (f : gmap path node)
  : result (gmap path node) :=
  match rest with
  | [] => Ok f
  | x :: rest' =>
      let p := base ++ [x] in
      match f !! p with
      | Some (File _) =>
          Raise (match rest' with [] => FileExistsError | _ => NotADirectoryError end)
      | _ => mkdir_from p rest' (<[p := Dir]> f)
      end
  end.

(** The directories [mkdir_from base rest] makes or finds. *)
Fixpoint made (base : path) (rest : list string) : list path :=
  match rest with
  | [] => []
  | x :: rest' => (base ++ [x]) :: made (base ++ [x]) rest'
  end.

(** No file lies on the way to the directory [p]. *)
Definition way_clear (p : path) (f : gmap path node) : Prop :=
  ∀ q c, q `prefix_of` p → f !! q ≠ Some (File c).

(** The same, decided on the prefixes of [p]. *)
Definition way_clearb (p : path) (f : gmap path node) : bool :=
  forallb (λ k, match f !! take k p with Some (File _) => false | _ => true end)
          (seq 0 (S (length p))).

(** [p.mkdir(parents=True, exist_ok=True)]; nothing is made when it
    raises. *)
Definition mkdir_p (p : path) : io unit :=
  λ w, match mkdir_from [] p (files w) with
       | Ok f => (Ok tt, set_files f w)
       | Raise e => (Raise e, w)
       end.

(** [p.mkdir(exist_ok=True)]: the parent must be there, and only a
    directory at [p] is put up with. *)
Definition mkdir (p : path) : io unit :=
  λ w, match node_at p (files w) with
       | Some Dir => (Ok tt, w)
       | Some (File _) => (Raise FileExistsError, w)
       | None =>
           match node_at (parent p) (files w) with
           | Some Dir => (Ok tt, set_files (<[p := Dir]> (files w)) w)
           | Some (File _) => (Raise NotADirectoryError, w)
           | None => (Raise FileNotFoundError, w)
           end
       end.

(** [for x in l: body x], stopped by the first exception. *)
Fixpoint for_each {A} (l : list A) (body : A → io unit) : io unit :=
  match l with
  | [] => ret tt
  | x :: l' => bind (body x) (λ _, for_each l' body)
  end.

(** Lines, each ended by a line feed. *)
Fixpoint unlines (l : list string) : string :=
  match l with
  | [] => ""
  | x :: l' => x +:+ nl +:+ unlines l'
  end.

End Fs.

Declare Scope io_scope.
Delimit Scope io_scope with io.
Notation "x ← m ; k" := (Fs.bind m (λ x, k))
  (at level 20, m at level 100, k at level 200, only parsing) : io_scope.
Notation "m ;; k" := (Fs.bind m (λ _, k))
  (at level 100, k at level 200, right associativity, only parsing) : io_scope.

(* ===================================================================== *)
(** * The other sub-commands: files and a console of their own *)
(* ===================================================================== *)

Module Cmd.
Import Fs.

(** The state of a sub-command other than the organizer: the files, and
    the lines printed so far, of a kind [L] the sub-command declares. *)
Record session (L : Type) : Type := Session {
  disk : gmap path node;
  printed : list L
}.
Arguments Session {L} disk printed.
Arguments disk {L} s.
Arguments printed {L} s.

Definition cmd (L A : Type) : Type := session L → result A * session L.

Definition ret {L A} (a : A) : cmd L A := λ s, (Ok a, s).
Definition lift {L A} (r : result A) : cmd L A := λ s, (r, s).
Definition bind {L A B} (m : cmd L A) (k : A → cmd L B) : cmd L B :=
  λ s, match m s with
       | (Ok a, s') => k a s'
       | (Raise e, s') => (Raise e, s')
       end.
(** [try: m except Exception as e: h e] *)
Definition try_except {L A} (m : cmd L A) (h : exn → cmd L A) : cmd L A :=
  λ s, match m s with
       | (Ok a, s') => (Ok a, s')
       | (Raise e, s') => h e s'
       end.

(** [print(...)] *)
Definition print {L} (line : L) : cmd L unit :=
  λ s, (Ok tt, Session (disk s) (printed s ++ [line])).

(** A file operation of [Fs], run on the files of the session. *)
Definition on_disk {L A} (m : io A) : cmd L A :=
  λ s, match m (World (disk s) [] 0) with
       | (r, w) => (r, Session (files w) (printed s))
       end.

(** [for x in l: body x], stopped by the first exception. *)
Fixpoint for_each {L A} (l : list A) (body : A → cmd L unit) : cmd L unit :=
  match l with
  | [] => ret tt
  | x :: l' => bind (body x) (λ _, for_each l' body)
  end.

(** [for d in dirs: d.mkdir(parents=True, exist_ok=True); print(line d)] *)
Definition make_directories {L} (line : path → L) (dirs : list path)
  : cmd L unit :=
  for_each dirs (λ d, bind (on_disk (mkdir_p d)) (λ _, print (line d))).

End Cmd.

Declare Scope cmd_scope.
Delimit Scope cmd_scope with cmd.
Notation "x ← m ; k" := (Cmd.bind m (λ x, k))
  (at level 20, m at level 100, k at level 200, only parsing) : cmd_scope.
Notation "m ;; k" := (Cmd.bind m (λ _, k))
  (at level 100, k at level 200, right associativity, only parsing) : cmd_scope.

(* ===================================================================== *)
(** * src/ARCHIVE-TOOLKIT.py *)
(* ===================================================================== *)

Module Toolkit.
Import Py Re Fs.
Local Open Scope io_scope.

(** src/ARCHIVE-TOOLKIT.py, [extract_snippet]. *)
Definition extract_snippet (content : string) (word_count : Z) : string :=
  let content := strip_frontmatter content in
  let words := split_ws content in
  join " " (slice_to word_count words).

(** src/ARCHIVE-TOOLKIT.py, [suggest_metadata]: (domain, tags, stage). *)
Definition suggest_metadata (content filename : string)
  : string * string * string :=
  let lower_content := lower content in
  let stage :=
    if contains "doctrine" lower_content
    then "formalizedframework" else "experientialdata" in
  let '(domain, tags) :=
    if contains "code" lower_content || contains "function" lower_content
       || contains "def " lower_content
    then ("tradecraft", ["code-snippet"])
    else if contains "journal" lower_content
            || contains "diary" lower_content
            || contains "felt" lower_content
    then ("forensic-psychology", ["reflection"])
    else ("social-engineering", []) in
  (domain, join ";" tags, stage).

Section Organizer.
(** [ROOT_DIR] and today's date in ISO format. *)
Variable ROOT_DIR : path.
Variable today : string.

Definition STAGING_DIR : path := ROOT_DIR ++ ["notebooklm-import-raw"].
Definition ARCHIVE_DIR : path := ROOT_DIR ++ ["knowledge-archive"].

(** [stage_map.get(stage, "experiential_data")] *)
Definition stage_folder (stage : string) : string :=
  if bool_decide (stage = "experientialdata") then "experiential_data"
  else if bool_decide (stage = "analyticalsynthesis") then "analytical_synthesis"
  else if bool_decide (stage = "formalizedframework") then "formalized_frameworks"
  else "experiential_data".

Definition quoted (s : string) : string :=
  String Json.dq (s +:+ String Json.dq "").

(** The values the loop takes from a row. *)
Definition domain_of (row : gmap string string) : string :=
  get row "suggested_domain" "mixed-pattern".
Definition stage_of (row : gmap string string) : string :=
  get row "maturation_stage" "experientialdata".
Definition tags_of (row : gmap string string) : list string :=
  stripped_items ";" (get row "suggested_tags" "").
Definition links_of (row : gmap string string) : list string :=
  stripped_items ";" (get row "related_links" "").

Definition target_dir (row : gmap string string) : path :=
  pjoin (pjoin ARCHIVE_DIR (domain_of row)) (stage_folder (stage_of row)).

Definition slug (filename : string) : string :=
  sub_non_slug (replace " " "-" (replace ".md" "" (lower filename))).

(** [f"{domain}-{slug}-{import_date}.md"] *)
Definition new_filename (row : gmap string string) (filename : string) : string :=
  domain_of row +:+ "-" +:+ slug filename +:+ "-" +:+ today +:+ ".md".

Definition target_path (row : gmap string string) (filename : string) : path :=
  pjoin (target_dir row) (new_filename row filename).

(** The lines of the header between its two delimiters. *)
Definition header_lines (row : gmap string string) : list string :=
  [ "patterndomain: " +:+ domain_of row;
    "maturationstage: " +:+ stage_of row;
    "patterntags: " +:+ Json.dumps (tags_of row);
    "validationstatus: " +:+ get row "validation_status" "singleobservation";
    "instructionalreadiness: "
      +:+ get row "instructional_readiness" "internalreference";
    "temporal_context:";
    "  experience_date: " +:+ get row "experience_date" today;
    "  analysis_date: " +:+ today;
    "provenance: " +:+ get row "provenance" "personaldocumentation";
    "source: " +:+ quoted "notebooklm";
    "source_url: " +:+ quoted (get row "source_url" "");
    "related_links: " +:+ Json.dumps (links_of row);
    "import_date: " +:+ today ].

(** The header of an archived file, with the empty line after it. *)
Definition frontmatter (row : gmap string string) : string :=
  unlines ("---" :: header_lines row ++ ["---"; ""]).

(** What is written to the destination for a source of this content. *)
Definition archived_text (row : gmap string string) (content : string) : string :=
  frontmatter row +:+ strip_frontmatter content.

(** The body of the [try] in the loop of [organize_archive].  A row is
    the dictionary of its cells, each of them a text; a data line shorter
    than the header, whose missing cells are [None], is not
    represented. *)
Definition process_row (row : gmap string string) : io unit :=
  original_path ← lift (getitem row "original_path");
  let source_path := pjoin ROOT_DIR original_path in
  found ← exists_ source_path;
  if negb found then print (Skipping_missing_file original_path)
  else
    mkdir_p (target_dir row);;
    filename ← lift (getitem row "filename");
    content ← read_text source_path;
    write_text (target_path row filename) (archived_text row content);;
    remove source_path;;
    incr_success;;
    shown ← lift (relative_to ROOT_DIR (target_path row filename));
    print (Moved filename shown).

(** One turn of the loop: the [try] and its [except Exception]. *)
Definition organize_row (row : gmap string string) : io unit :=
  try_except (process_row row)
    (λ e, print (Error_processing (get row "filename" "unknown") e)).

(** [organize_archive]; [manifest] is [None] when the manifest file
    does not exist, and its rows otherwise. *)
Definition organize_archive (manifest : option (list (gmap string string)))
  : io unit :=
  match manifest with
  | None => print Manifest_not_found
  | Some rows =>
      for_each rows organize_row;;
      λ w, print (Organization_complete (success_count w)) w
  end.
End Organizer.

(** ** [validate_manifest] *)

(** A taxonomy table as [json.load] returns it: bare ids, or records
    with an id and a description. *)
Record taxonomy_entry : Type := Entry { id : string; description : string }.

Inductive taxonomy : Type :=
  | Bare (ids : list string)
  | Entries (entries : list taxonomy_entry).

(** The stub tables [initialize_directories] writes. *)
Definition DEFAULT_DOMAINS : taxonomy :=
  Entries [
    Entry "forensic-psychology"
      "Analysis of psychological manipulation and coercive control.";
    Entry "tradecraft" "Operational tactics, techniques, and procedures.";
    Entry "neurobiology"
      "Biological and neurological impacts of psychological stress.";
    Entry "social-engineering"
      "Manipulation of social structures and human behavior.";
    Entry "tactical-doctrine"
      "Strategic principles of non-kinetic warfare and asymmetric engagement." ].

Definition DEFAULT_TAGS : taxonomy :=
  Entries [
    Entry "humint" "Human Intelligence";
    Entry "non-kinetic" "Non-physical warfare tactics";
    Entry "gaslighting" "Psychological manipulation to sow doubt";
    Entry "c-ptsd" "Complex Post-Traumatic Stress Disorder";
    Entry "civilian-weaponization" "Use of civilians as proxies in conflict";
    Entry "smear-campaign" "Systematic reputation destruction";
    Entry "cognitive-collapse" "Breakdown of cognitive function under stress";
    Entry "plausible-deniability" "Ability to deny involvement in operations";
    Entry "code-snippet" "Technical implementation details";
    Entry "reflection" "Personal retrospective analysis" ].

(** The set of valid ids; a table whose file is missing gives none. *)
Definition valid_ids (table : option taxonomy) : gset string :=
  match table with
  | None => ∅
  | Some (Entries entries) => list_to_set (id <$> entries)
  | Some (Bare ids) => list_to_set ids
  end.

(** [sorted(list(ids))] *)
Definition sorted_ids (ids : gset string) : list string :=
  merge_sort String.le (elements ids).

Inductive issue : Type :=
  | Invalid_domain (filename domain : string) (expected : list string)
  | Invalid_tag (filename tag : string) (expected : list string).

(** The issues of one row, in the order they are appended; the row
    gives a text for each of its cells. *)
Definition row_issues (valid_domains valid_tags : gset string)
    (row : gmap string string) : result (list issue) :=
  rbind (getitem row "filename") (λ filename,
    let tags := stripped_items ";" (get row "suggested_tags" "") in
    Ok ((match row !! "suggested_domain" with
         | Some domain =>
             if truthy domain && bool_decide (domain ∉ valid_domains)
             then [Invalid_domain filename domain (sorted_ids valid_domains)]
             else []
         | None => []
         end)
        ++ ((λ tag, Invalid_tag filename tag (sorted_ids valid_tags))
              <$> filter (λ tag, tag ∉ valid_tags) tags))).

Fixpoint collect_issues (valid_domains valid_tags : gset string)
    (rows : list (gmap string string)) : result (list issue) :=
  match rows with
  | [] => Ok []
  | row :: rows' =>
      rbind (row_issues valid_domains valid_tags row) (λ here,
      rbind (collect_issues valid_domains valid_tags rows') (λ there,
        Ok (here ++ there)))
  end.

(** What [validate_manifest] prints. *)
Inductive report : Type :=
  | Validation_manifest_not_found
  | Validation_failed (count : nat) (shown : list issue) (more : option nat)
  | Validation_successful.

Definition validate_manifest (manifest : option (list (gmap string string)))
    (domains tags : option taxonomy) : result report :=
  match manifest with
  | None => Ok Validation_manifest_not_found
  | Some rows =>
      rbind (collect_issues (valid_ids domains) (valid_ids tags) rows) (λ issues,
        Ok (match issues with
            | [] => Validation_successful
            | _ =>
                Validation_failed (length issues) (take 10 issues)
                  (if bool_decide (10 < length issues)
                   then Some (length issues - 10) else None)
            end))
  end.

(** ** The domain of a file, as [generate_indices] reads it *)

Fixpoint until_LF (s : string) : string :=
  match s with
  | "" => ""
  | String c s' => if bool_decide (c = LF) then "" else String c (until_LF s')
  end.

(** The last character of a run of white space that is no line feed. *)
Fixpoint last_non_LF (s : string) : option ascii :=
  match s with
  | "" => None
  | String c s' =>
      match last_non_LF s' with
      | Some d => Some d
      | None => if bool_decide (c = LF) then None else Some c
      end
  end.

(** [\s*(.+)] matched against the text after the key: the greedy white
    space gives way only when nothing but white space is left. *)
Definition match_value (after_key : string) : option string :=
  match lstrip after_key with
  | String c r => Some (until_LF (String c r))
  | "" =>
      match last_non_LF after_key with
      | Some d => Some (String d "")
      | None => None
      end
  end.

(** [re.search(r'patterndomain:\s*(.+)', content)], group 1. *)
Fixpoint search_patterndomain (content : string) : option string :=
  match
    (match strip_prefix "patterndomain:" content with
     | Some after_key => match_value after_key
     | None => None
     end)
  with
  | Some g => Some g
  | None =>
      match content with
      | "" => None
      | String _ content' => search_patterndomain content'
      end
  end.

Definition index_domain (content : string) : option string :=
  strip <$> search_patterndomain content.

(** ** [generate_manifest] *)

Section Manifest.
Import Cmd.
Local Open Scope cmd_scope.
(** [ROOT_DIR], today's date in ISO format, and the text
    [csv.DictWriter] writes for a list of field names and a list of
    rows. *)
Variable ROOT_DIR : path.
Variable today : string.
Variable csv : list string → list (gmap string string) → string.

Definition MANIFEST_FILE : path := ROOT_DIR ++ ["classification-manifest.csv"].

Definition fieldnames : list string :=
  [ "original_path"; "filename"; "suggested_domain"; "suggested_tags";
    "maturation_stage"; "validation_status"; "instructional_readiness";
    "experience_date"; "provenance"; "source_url"; "related_links";
    "snippet"; "status" ].

(** The record appended to [files_data] for a file of this content. *)
Definition manifest_record (file_path : path) (content : string)
  : result (gmap string string) :=
  let snippet := extract_snippet content 75 in
  let '(domain, tags, stage) := suggest_metadata content (name file_path) in
  rbind (relative_to ROOT_DIR file_path) (λ rel,
    Ok (list_to_map
          [ ("original_path", as_posix rel);
            ("filename", name file_path);
            ("suggested_domain", domain);
            ("suggested_tags", tags);
            ("maturation_stage", stage);
            ("validation_status", "singleobservation");
            ("instructional_readiness", "internalreference");
            ("experience_date", today);
            ("provenance", "personaldocumentation");
            ("source_url", "");
            ("related_links", "");
            ("snippet", snippet);
            ("status", "pending") ])).

(** What [generate_manifest] prints. *)
Inductive manifest_line : Type :=
  | Staging_directory_not_found (d : path)
  | Error_processing_path (file_path : path) (e : exn)
  | Manifest_generated (manifest : path) (entries : nat)
  | First_5_Files_Analysis
  | Analysis_file (i : nat) (filename : string)
  | Analysis_domain (domain : string)
  | Analysis_tags (tags : string)
  | Analysis_snippet (first_100 : string).

(** One turn of the loop: the record of a file that could be read, or
    an error line. *)
Definition collect_record (file_path : path)
  : cmd manifest_line (list (gmap string string)) :=
  try_except
    (content ← on_disk (read_text file_path);
     record ← lift (manifest_record file_path content);
     ret [record])
    (λ e, print (Error_processing_path file_path e);; ret []).

(** The loop over the files found: the records of the files that could
    be read, in the order of the listing. *)
Fixpoint collect_records (found : list path)
  : cmd manifest_line (list (gmap string string)) :=
  match found with
  | [] => ret []
  | file_path :: rest =>
      here ← collect_record file_path;
      there ← collect_records rest;
      ret (here ++ there)
  end.

(** [s[:n]] on a string, for [n] at least 0. *)
Fixpoint str_take (n : nat) (s : string) : string :=
  match n, s with
  | S n', String c s' => String c (str_take n' s')
  | _, _ => ""
  end.

(** The lines printed for the [i]-th of the first five records. *)
Definition print_analysis (i : nat) (data : gmap string string)
  : cmd manifest_line unit :=
  filename ← lift (getitem data "filename");
  print (Analysis_file (i + 1) filename);;
  domain ← lift (getitem data "suggested_domain");
  print (Analysis_domain domain);;
  tags ← lift (getitem data "suggested_tags");
  print (Analysis_tags tags);;
  snippet ← lift (getitem data "snippet");
  print (Analysis_snippet (str_take 100 snippet)).

Fixpoint print_analyses (i : nat) (l : list (gmap string string))
  : cmd manifest_line unit :=
  match l with
  | [] => ret tt
  | data :: l' => print_analysis i data;; print_analyses (S i) l'
  end.

(** [generate_manifest]; [found] is what [STAGING_DIR.rglob("*.md")]
    yields, in its order.  The result is the list of the records
    written to the manifest, [None] when no manifest is written. *)
Definition generate_manifest (found : list path)
  : cmd manifest_line (option (list (gmap string string))) :=
  there ← on_disk (exists_ (STAGING_DIR ROOT_DIR));
  if negb there
  then print (Staging_directory_not_found (STAGING_DIR ROOT_DIR));; ret None
  else
    files_data ← collect_records found;
    on_disk (write_text MANIFEST_FILE (csv fieldnames files_data));;
    print (Manifest_generated MANIFEST_FILE (length files_data));;
    print First_5_Files_Analysis;;
    print_analyses 0 (take 5 files_data);;
    ret (Some files_data).
End Manifest.

(** ** [initialize_directories] *)

(** A table of records as [json.dump] gets it: the keys of each record
    in the order of the source. *)
Definition entry_object (e : taxonomy_entry) : list (string * string) :=
  [ ("id", id e); ("description", description e) ].

Definition entries_of (table : taxonomy) : list taxonomy_entry :=
  match table with
  | Entries entries => entries
  | Bare _ => []
  end.

(** [json.dump(table, f, indent=2)] for one of the two stub tables. *)
Definition dump_stub (table : taxonomy) : string :=
  Json.dumps_indent (entry_object <$> entries_of table).

Inductive init_line : Type :=
  | Verified_directory (d : path).

Section Init.
Import Cmd.
Local Open Scope cmd_scope.
Variable ROOT_DIR : path.

Definition TAXONOMY_DIR : path := ARCHIVE_DIR ROOT_DIR ++ ["taxonomy"].

(** The stub written at [file] unless something is there. *)
Definition write_stub_if_missing (file : path) (table : taxonomy)
  : cmd init_line unit :=
  there ← on_disk (exists_ file);
  if negb there then on_disk (write_text file (dump_stub table)) else ret tt.

Definition initialize_directories : cmd init_line unit :=
  make_directories Verified_directory
    [STAGING_DIR ROOT_DIR; ARCHIVE_DIR ROOT_DIR; TAXONOMY_DIR];;
  write_stub_if_missing (pjoin TAXONOMY_DIR "domains.json") DEFAULT_DOMAINS;;
  write_stub_if_missing (pjoin TAXONOMY_DIR "tags.json") DEFAULT_TAGS.
End Init.

(** ** [validate_manifest] on the files *)

(** What [validate_manifest] prints: the line for a taxonomy file that
    could not be loaded, the line before the rows are read, and the
    report. *)
Inductive validate_line : Type :=
  | Error_loading_taxonomy (e : exn)
  | Validating_manifest_against_taxonomy
  | Report (r : report).

Section Validate.
Import Cmd.
Local Open Scope cmd_scope.
(** [ROOT_DIR]; the rows [csv.DictReader] reads from the text of a
    manifest whose data lines give a text for every column; and
    [json.load] on the text of a taxonomy file that holds a table of one
    of the two shapes the validator tells apart. *)
Variable ROOT_DIR : path.
Variable read_rows : string → list (gmap string string).
Variable json_load : string → result taxonomy.

(** The table of a taxonomy file; none when nothing is at [file]. *)
Definition load_table (file : path) : cmd validate_line (option taxonomy) :=
  there ← on_disk (exists_ file);
  if there
  then text ← on_disk (read_text file);
       data ← lift (json_load text);
       ret (Some data)
  else ret None.

(** The two tables; an exception while they are loaded is printed and
    ends the command. *)
Definition load_taxonomy
  : cmd validate_line (option (option taxonomy * option taxonomy)) :=
  try_except
    (domains ← load_table (pjoin (TAXONOMY_DIR ROOT_DIR) "domains.json");
     tags ← load_table (pjoin (TAXONOMY_DIR ROOT_DIR) "tags.json");
     ret (Some (domains, tags)))
    (λ e, print (Error_loading_taxonomy e);; ret None).

(** [validate_manifest] as the sub-command runs it: the manifest and the
    two tables are read from the files, the report is printed. *)
Definition validate_manifest_command : cmd validate_line unit :=
  there ← on_disk (exists_ (MANIFEST_FILE ROOT_DIR));
  if negb there then print (Report Validation_manifest_not_found)
  else
    loaded ← load_taxonomy;
    match loaded with
    | None => ret tt
    | Some (domains, tags) =>
        print Validating_manifest_against_taxonomy;;
        text ← on_disk (read_text (MANIFEST_FILE ROOT_DIR));
        report ← lift (validate_manifest (Some (read_rows text)) domains tags);
        print (Report report)
    end.
End Validate.

(** ** [generate_report] *)

Record stats : Type := Stats {
  total_files : nat;
  domains : gmap string nat;
  stages : gmap string nat
}.

(** What [generate_report] prints. *)
Inductive report_line : Type :=
  | Generating_Archive_Report
  | Archive_directory_not_found
  | Knowledge_Archive_Statistics
  | Total_Documents (count : nat)
  | By_Domain
  | By_Maturation_Stage
  | Count (key : string) (count : nat)
  | Closing_rule.

Section Report.
Import Cmd.
Local Open Scope cmd_scope.
Variable ROOT_DIR : path.

(** One turn of the loop over the files found.  A file under a
    [taxonomy] component or named like a readme is passed over; the
    others are counted, and filed under the first two components below
    the archive when there are at least two. *)
Definition report_file (st : stats) (file_path : path) : stats :=
  if bool_decide ("taxonomy" ∈ file_path)
     || bool_decide (lower (name file_path) = "readme.md")
  then st
  else
    let st := Stats (total_files st + 1) (domains st) (stages st) in
    match relative_to (ARCHIVE_DIR ROOT_DIR) file_path with
    | Ok (domain :: stage :: _) =>
        Stats (total_files st) (count_up domain (domains st))
              (count_up stage (stages st))
    | _ => st
    end.

Definition print_counts (d : gmap string nat) : cmd report_line unit :=
  for_each (sorted_items d) (λ '(key, count), print (Count key count)).

(** [generate_report]; [found] is what [ARCHIVE_DIR.rglob("*.md")]
    yields, in its order. *)
Definition generate_report (found : list path) : cmd report_line unit :=
  print Generating_Archive_Report;;
  there ← on_disk (exists_ (ARCHIVE_DIR ROOT_DIR));
  if negb there then print Archive_directory_not_found
  else
    let stats := foldl report_file (Stats 0 ∅ ∅) found in
    print Knowledge_Archive_Statistics;;
    print (Total_Documents (total_files stats));;
    print By_Domain;;
    print_counts (domains stats);;
    print By_Maturation_Stage;;
    print_counts (stages stats);;
    print Closing_rule.
End Report.

(** ** [generate_indices] *)

(** An entry of [index_data]. *)
Record index_entry : Type := IndexEntry {
  entry_filename : string;
  entry_path : string;
  entry_snippet : string
}.

(** What [generate_indices] prints. *)
Inductive index_line : Type :=
  | Generating_indices
  | Skipping (file : string) (e : exn)
  | Generated_indices (domains : nat).

(** [if domain not in index_data: index_data[domain] = []]; a dictionary
    keeps its keys in the order they came in. *)
Definition ensure_domain (domain : string)
    (index_data : list (string * list index_entry))
  : list (string * list index_entry) :=
  if bool_decide (domain ∈ index_data.*1) then index_data
  else index_data ++ [(domain, [])].

(** [index_data[domain].append(entry)] *)
Fixpoint append_entry (domain : string) (entry : index_entry)
    (index_data : list (string * list index_entry))
  : list (string * list index_entry) :=
  match index_data with
  | [] => []
  | (d, files) :: rest =>
      if bool_decide (d = domain) then (d, files ++ [entry]) :: rest
      else (d, files) :: append_entry domain entry rest
  end.

(** The text of the index of a domain. *)
Definition entry_text (entry : index_entry) : string :=
  "## [" +:+ entry_filename entry +:+ "](../" +:+ entry_path entry +:+ ")" +:+ nl
  +:+ entry_snippet entry +:+ "..." +:+ nl +:+ nl.

Definition index_text (domain : string) (files : list index_entry) : string :=
  "# Index: " +:+ domain +:+ nl +:+ nl +:+ join "" (entry_text <$> files).

Section Indices.
Import Cmd.
Local Open Scope cmd_scope.
Variable ROOT_DIR : path.

Definition indices_dir : path := ROOT_DIR ++ ["_indexes"].

(** One turn of the scan.  A file under a [taxonomy] component is
    passed over.  The list of the domain is made before the entry is
    built, so it stays when building the entry raises. *)
Definition index_file (index_data : list (string * list index_entry))
    (file_path : path) : cmd index_line (list (string * list index_entry)) :=
  if bool_decide ("taxonomy" ∈ file_path) then ret index_data
  else
    read ← try_except
              (content ← on_disk (read_text file_path); ret (Some content))
              (λ e, print (Skipping (name file_path) e);; ret None);
    match read with
    | None => ret index_data
    | Some content =>
        match index_domain content with
        | None => ret index_data
        | Some domain =>
            let index_data := ensure_domain domain index_data in
            match relative_to ROOT_DIR file_path with
            | Raise e => print (Skipping (name file_path) e);; ret index_data
            | Ok rel =>
                ret (append_entry domain
                       (IndexEntry (name file_path)
                          (replace (String Json.bs "") "/" (as_posix rel))
                          (extract_snippet content 75))
                       index_data)
            end
        end
    end.

Fixpoint index_files (index_data : list (string * list index_entry))
    (found : list path) : cmd index_line (list (string * list index_entry)) :=
  match found with
  | [] => ret index_data
  | file_path :: rest =>
      index_data ← index_file index_data file_path;
      index_files index_data rest
  end.

(** One turn of the loop that writes the index files. *)
Definition write_index_file (item : string * list index_entry)
  : cmd index_line unit :=
  let '(domain, files) := item in
  on_disk (write_text (pjoin indices_dir (domain +:+ "-index.md"))
             (index_text domain files)).

(** [generate_indices]; [found] is what [ARCHIVE_DIR.rglob("*.md")]
    yields, in its order.  The result is [index_data]. *)
Definition generate_indices (found : list path)
  : cmd index_line (list (string * list index_entry)) :=
  print Generating_indices;;
  on_disk (mkdir indices_dir);;
  index_data ← index_files [] found;
  for_each index_data write_index_file;;
  print (Generated_indices (length index_data));;
  ret index_data.
End Indices.
End Toolkit.

(* ===================================================================== *)
(** * src/directive/archive_toolkit.py *)
(* ===================================================================== *)

Module Directive.
Import Py Re Fs.
Local Open Scope io_scope.

(** [_, _, content = parts] *)
Definition unpack3 (parts : list string) : result (string * string * string) :=
  match parts with
  | [a; b; c] => Ok (a, b, c)
  | _ => Raise ValueError
  end.

(** The frontmatter skip of [extract_snippet], on the stripped text. *)
Definition skip_frontmatter (text : string) : result string :=
  if startswith "---" text
  then except_ValueError
         (rbind (unpack3 (splitn "---" 2 text))
                (λ '(_, _, content), Ok (strip content)))
         (Ok text)
  else Ok text.

(** src/directive/archive_toolkit.py, [extract_snippet]. *)
Definition extract_snippet (text : string) (word_count : Z) : result string :=
  let text := strip text in
  rbind (skip_frontmatter text) (λ text,
    let text := sub_hashes text in
    let words := split_ws text in
    let snippet := join " " (slice_to word_count words) in
    Ok (if (word_count <? Z.of_nat (length words))%Z
        then snippet +:+ "..." else snippet)).

Section Organizer.
(** [ROOT_DIR] and today's date, [%Y-%m-%d]. *)
Variable ROOT_DIR : path.
Variable today : string.

Definition STAGING_DIR : path := ROOT_DIR ++ ["notebooklm-import-raw"].
Definition ARCHIVE_DIR : path := ROOT_DIR ++ ["archive"].

(** [stage_map.get(clean_stage, "experiential_data")] *)
Definition stage_folder (clean_stage : string) : string :=
  if bool_decide (clean_stage = "experientialdata") then "experiential_data"
  else if bool_decide (clean_stage = "analyticalsynthesis") then "analytical_synthesis"
  else if bool_decide (clean_stage = "formalizedframework") then "formalized_frameworks"
  else if bool_decide (clean_stage = "raw") then "experiential_data"
  else "experiential_data".

Definition normalize_domain (pattern_domain : string) : string :=
  replace " " "-" (lower (strip pattern_domain)).

Definition clean_stage (raw_stage : string) : string :=
  replace "-" "" (replace " " "" (lower raw_stage)).

(** The destination file name: the given one, or its stem with [.md]. *)
Definition dest_filename (filename : string) : string :=
  if endswith ".md" filename then filename
  else stem (parts filename) +:+ ".md".

(** The value written after [patterntags:]. *)
Definition tags_value (row : gmap string string) : string :=
  let tags := get row "pattern_tags" "[]" in
  if truthy tags && negb (startswith "[" tags)
  then Json.dumps (stripped_items "," tags)
  else if negb (truthy tags) then "[]"
  else tags.

Definition dest_dir (pattern_domain maturation_stage : string) : path :=
  pjoin (pjoin ARCHIVE_DIR (normalize_domain pattern_domain))
        (stage_folder (clean_stage (strip maturation_stage))).

Definition dest_path (pattern_domain maturation_stage filename : string) : path :=
  pjoin (dest_dir pattern_domain maturation_stage) (dest_filename filename).

(** The lines of the header between its two delimiters. *)
Definition header_lines (domain raw_stage tags : string) : list string :=
  [ "patterndomain: " +:+ domain;
    "maturationstage: " +:+ raw_stage;
    "patterntags: " +:+ tags;
    "validationstatus: singleobservation";
    "instructionalreadiness: internalreference";
    "temporal_context:";
    "  experience_date: ''";
    "  analysis_date: " +:+ today;
    "provenance: personaldocumentation";
    "source: notebooklm";
    "import_date: " +:+ today ].

(** The lines of an archived file, to be joined by line feeds. *)
Definition frontmatter (domain raw_stage tags content : string) : list string :=
  "---" :: header_lines domain raw_stage tags ++ ["---"; ""; content].

(** What is written to the destination for a source of this content. *)
Definition archived_text (row : gmap string string)
    (pattern_domain maturation_stage content : string) : string :=
  join nl (frontmatter (normalize_domain pattern_domain) (strip maturation_stage)
             (tags_value row) content).

(** One turn of the loop of [organize_archive].  Only reading the
    source and writing the destination are guarded by a [try]. *)
Definition organize_row (row : gmap string string) : io unit :=
  if negb (truthy (get row "pattern_domain" ""))
  then
    filename ← lift (getitem row "filename");
    print (SKIP_no_domain filename)
  else
    filepath ← lift (getitem row "filepath");
    let src_path := pjoin STAGING_DIR filepath in
    found ← exists_ src_path;
    if negb found then print (WARN_source_not_found src_path)
    else
      pattern_domain ← lift (getitem row "pattern_domain");
      maturation_stage ← lift (getitem row "maturation_stage");
      mkdir_p (dest_dir pattern_domain maturation_stage);;
      filename ← lift (getitem row "filename");
      let dest := dest_path pattern_domain maturation_stage filename in
      try_except
        (content ← read_text src_path;
         try_except
           (write_text dest
              (archived_text row pattern_domain maturation_stage content);;
            print (MOVE (name src_path) dest))
           (λ e, print (ERROR_writing dest e)))
        (λ e, print (ERROR_reading src_path e)).

(** [organize_archive]; [manifest] is [None] when no manifest file is
    found.  An exception of a row ends the loop. *)
Definition organize_archive (manifest : option (list (gmap string string)))
  : io unit :=
  match manifest with
  | None => print ERROR_manifest_not_found
  | Some rows => for_each rows organize_row
  end.
End Organizer.

(** ** The header as [report_statistics] reads it *)

Record header_info : Type := Header {
  h_domain : string;
  h_stage : string;
  h_tags : list string
}.

(** [parts[1]] *)
Definition second (parts : list string) : result string :=
  match parts with
  | _ :: v :: _ => Ok v
  | _ => Raise IndexError
  end.

(** [line.split(":", 1)[1].strip()] *)
Definition value_of (line : string) : result string :=
  rbind (second (splitn ":" 1 line)) (λ v, Ok (strip v)).

(** One turn of the loop over the header lines. *)
Definition report_line (h : header_info) (line : string) : result header_info :=
  let line := strip line in
  if startswith "patterndomain:" line then
    rbind (value_of line) (λ v, Ok (Header v (h_stage h) (h_tags h)))
  else if startswith "maturationstage:" line then
    rbind (value_of line) (λ v, Ok (Header (h_domain h) v (h_tags h)))
  else if startswith "patterntags:" line then
    rbind (value_of line) (λ tag_str,
      Ok (match Json.loads tag_str with
          | Some tags => Header (h_domain h) (h_stage h) tags
          | None => h
          end))
  else Ok h.

Fixpoint report_lines (h : header_info) (lines : list string) : result header_info :=
  match lines with
  | [] => Ok h
  | line :: lines' => rbind (report_line h line) (λ h', report_lines h' lines')
  end.

(** The domain, stage and tags [report_statistics] counts a file under. *)
Definition report_header (content : string) : result header_info :=
  let unknown := Header "unknown" "unknown" [] in
  if startswith "---" content then
    match splitn "---" 2 content with
    | _ :: fm :: _ => report_lines unknown (split_char LF fm)
    | _ => Ok unknown
    end
  else Ok unknown.

(** ** The stub tables of the directive variant *)

Definition DEFAULT_DOMAINS : Toolkit.taxonomy :=
  Toolkit.Entries [
    Toolkit.Entry "forensic-psychology"
      "Analysis of psychological manipulation and coercive control.";
    Toolkit.Entry "tradecraft" "Operational tactics, techniques, and procedures.";
    Toolkit.Entry "neurobiology"
      "Biological and neurological impacts of psychological stress.";
    Toolkit.Entry "social-engineering"
      "Manipulation of social structures and human behavior." ].

Definition DEFAULT_TAGS : Toolkit.taxonomy :=
  Toolkit.Entries [
    Toolkit.Entry "humint" "Human Intelligence";
    Toolkit.Entry "non-kinetic" "Non-physical warfare tactics";
    Toolkit.Entry "gaslighting" "Psychological manipulation to sow doubt";
    Toolkit.Entry "c-ptsd" "Complex Post-Traumatic Stress Disorder" ].

(** ** [generate_manifest] *)

Section Manifest.
Import Cmd.
Local Open Scope cmd_scope.
(** [ROOT_DIR] and the text [csv.DictWriter] writes for a list of field
    names and a list of rows. *)
Variable ROOT_DIR : path.
Variable csv : list string → list (gmap string string) → string.

Definition MANIFEST_DIR : path := ROOT_DIR ++ ["manifests"].
Definition MANIFEST_FILE : path := MANIFEST_DIR ++ ["classification-manifest.csv"].

Definition fieldnames : list string :=
  [ "filepath"; "filename"; "pattern_domain"; "pattern_tags";
    "maturation_stage"; "snippet" ].

(** The record appended to [records] for a file of this content. *)
Definition manifest_record (file_path : path) (content : string)
  : result (gmap string string) :=
  rbind (extract_snippet content 75) (λ snippet,
  rbind (relative_to (STAGING_DIR ROOT_DIR) file_path) (λ rel_path,
    Ok (list_to_map
          [ ("filepath", as_posix rel_path);
            ("filename", name file_path);
            ("pattern_domain", "");
            ("pattern_tags", "");
            ("maturation_stage", "raw");
            ("snippet", snippet) ]))).

(** What [generate_manifest] prints. *)
Inductive manifest_line : Type :=
  | WARN_staging_directory_does_not_exist (d : path)
  | INFO_scanning (d : path)
  | ERROR_could_not_process (file : string) (e : exn)
  | SUCCESS_manifest_generated (manifest : path) (entries : nat).

(** One turn of the loop: only a name that ends in [.txt] or [.md] is
    read; the record of the file, or an error line. *)
Definition collect_record (file_path : path)
  : cmd manifest_line (list (gmap string string)) :=
  if endswith ".txt" (name file_path) || endswith ".md" (name file_path)
  then try_except
         (content ← on_disk (read_text file_path);
          record ← lift (manifest_record file_path content);
          ret [record])
         (λ e, print (ERROR_could_not_process (name file_path) e);; ret [])
  else ret [].

(** The loop over the files walked. *)
Fixpoint collect_records (walked : list path)
  : cmd manifest_line (list (gmap string string)) :=
  match walked with
  | [] => ret []
  | file_path :: rest =>
      here ← collect_record file_path;
      there ← collect_records rest;
      ret (here ++ there)
  end.

(** [generate_manifest]; [walked] lists the files [os.walk(STAGING_DIR)]
    yields, each as [Path(root) / file], in its order.  The result is the
    list of the records written to the manifest, [None] when no manifest
    is written. *)
Definition generate_manifest (walked : list path)
  : cmd manifest_line (option (list (gmap string string))) :=
  there ← on_disk (exists_ (STAGING_DIR ROOT_DIR));
  if negb there
  then print (WARN_staging_directory_does_not_exist (STAGING_DIR ROOT_DIR));;
       ret None
  else
    print (INFO_scanning (STAGING_DIR ROOT_DIR));;
    records ← collect_records walked;
    on_disk (write_text MANIFEST_FILE (csv fieldnames records));;
    print (SUCCESS_manifest_generated MANIFEST_FILE (length records));;
    ret (Some records).
End Manifest.

(** ** [init_directories] *)

Inductive init_line : Type :=
  | INFO_verified_directory (d : path)
  | INFO_created_taxonomy_stub (file : path).

Section Init.
Import Cmd.
Local Open Scope cmd_scope.
Variable ROOT_DIR : path.

Definition TAXONOMY_DIR : path := ROOT_DIR ++ ["taxonomy"].

(** The stub written at [file], and reported, unless something is
    there. *)
Definition write_stub_if_missing (file : path) (table : Toolkit.taxonomy)
  : cmd init_line unit :=
  there ← on_disk (exists_ file);
  if negb there
  then on_disk (write_text file (Toolkit.dump_stub table));;
       print (INFO_created_taxonomy_stub file)
  else ret tt.

Definition init_directories : cmd init_line unit :=
  make_directories INFO_verified_directory
    [STAGING_DIR ROOT_DIR; ARCHIVE_DIR ROOT_DIR; TAXONOMY_DIR;
     MANIFEST_DIR ROOT_DIR];;
  write_stub_if_missing (pjoin TAXONOMY_DIR "domains.json") DEFAULT_DOMAINS;;
  write_stub_if_missing (pjoin TAXONOMY_DIR "tags.json") DEFAULT_TAGS.
End Init.


(** ** [generate_indexes] *)

(** An entry of [docs]. *)
Record doc : Type := Doc {
  doc_path : string;
  doc_name : string;
  doc_meta : gmap string string;
  doc_snippet : string
}.

(** What [generate_indexes] prints. *)
Inductive index_line : Type :=
  | INFO_scanning_archive
  | WARN_skipping (file : string) (e : exn)
  | INDEX_generated (out_path : path).

(** [k, v = parts] *)
Definition unpack2 (parts : list string) : result (string * string) :=
  match parts with
  | [k; v] => Ok (k, v)
  | _ => Raise ValueError
  end.

(** One turn of the loop over the lines of the header. *)
Definition meta_line (meta : gmap string string) (line : string)
  : result (gmap string string) :=
  if contains ":" line
  then rbind (unpack2 (splitn ":" 1 line))
             (λ '(k, v), Ok (<[strip k := strip v]> meta))
  else Ok meta.

Fixpoint meta_lines (meta : gmap string string) (fm_lines : list string)
  : result (gmap string string) :=
  match fm_lines with
  | [] => Ok meta
  | line :: rest => rbind (meta_line meta line) (λ meta, meta_lines meta rest)
  end.

(** [meta] and [content] of a text. *)
Definition split_frontmatter (text : string)
  : result (gmap string string * string) :=
  if startswith "---" text then
    match splitn "---" 2 text with
    | _ :: fm :: content :: _ =>
        rbind (meta_lines ∅ (split_char LF (strip fm)))
              (λ meta, Ok (meta, content))
    | _ => Ok (∅, text)
    end
  else Ok (∅, text).

(** The lines of an item, of a group and of an index. *)
Definition item_text (item : doc) : string :=
  "### [" +:+ doc_name item +:+ "](../" +:+ doc_path item +:+ ")" +:+ nl
  +:+ "> " +:+ doc_snippet item +:+ nl +:+ nl
  +:+ "- **Domain:** `" +:+ get (doc_meta item) "patterndomain" "N/A" +:+ "`" +:+ nl
  +:+ "- **Stage:** `" +:+ get (doc_meta item) "maturationstage" "N/A" +:+ "`"
  +:+ nl +:+ nl.

Definition group_text (g : string * list doc) : string :=
  "## " +:+ g.1 +:+ nl +:+ nl +:+ join "" (item_text <$> g.2).

(** [groups.setdefault(val, []).append(d)] for each of [docs]. *)
Definition group_doc (key : string) (groups : gmap string (list doc)) (d : doc)
  : gmap string (list doc) :=
  let val := get (doc_meta d) key "Uncategorized" in
  <[val := default [] (groups !! val) ++ [d]]> groups.

Definition group_docs (key : string) (docs : list doc) : gmap string (list doc) :=
  foldl (group_doc key) ∅ docs.

Definition index_text (title key : string) (docs : list doc) : string :=
  "# " +:+ title +:+ nl +:+ nl
  +:+ join "" (group_text <$> sorted_by_key (group_docs key docs)).

Section Indexes.
Import Cmd.
Local Open Scope cmd_scope.
Variable ROOT_DIR : path.

Definition index_dir : path := ROOT_DIR ++ ["_indexes"].

(** The entry appended to [docs] for a file of this text. *)
Definition index_doc (p : path) (text : string) : result doc :=
  rbind (split_frontmatter text) (λ '(meta, content),
  rbind (extract_snippet content 75) (λ snippet,
  rbind (relative_to ROOT_DIR p) (λ rel,
    Ok (Doc (as_posix rel) (stem p) meta snippet)))).

(** One turn of the scan: the entry of a file, or a warning. *)
Definition scan_doc (p : path) : cmd index_line (list doc) :=
  try_except
    (text ← on_disk (read_text p);
     d ← lift (index_doc p text);
     ret [d])
    (λ e, print (WARN_skipping (name p) e);; ret []).

Fixpoint scan_docs (found : list path) : cmd index_line (list doc) :=
  match found with
  | [] => ret []
  | p :: rest =>
      here ← scan_doc p;
      there ← scan_docs rest;
      ret (here ++ there)
  end.

Definition write_index (docs : list doc) (filename title key : string)
  : cmd index_line unit :=
  let out_path := pjoin index_dir filename in
  on_disk (write_text out_path (index_text title key docs));;
  print (INDEX_generated out_path).

(** [generate_indexes]; [found] is what [ARCHIVE_DIR.rglob('*.md')]
    yields, in its order.  The result is [docs]. *)
Definition generate_indexes (found : list path) : cmd index_line (list doc) :=
  on_disk (mkdir index_dir);;
  print INFO_scanning_archive;;
  docs ← scan_docs found;
  write_index docs "index-maturation.md" "Index by Maturation Stage"
    "maturationstage";;
  write_index docs "index-domains.md" "Index by Pattern Domain" "patterndomain";;
  write_index docs "index-validation.md" "Index by Validation Status"
    "validationstatus";;
  ret docs.
End Indexes.
End Directive.

(* ===================================================================== *)
(** * A small staging area, used for the worked examples *)
(* ===================================================================== *)

Module Sample.
Import Py Fs.

Definition ROOT_DIR : list string := ["home"; "user"].
Definition today : string := "2026-11-03".
Definition staged : list string := ["home"; "user"; "notebooklm-import-raw"; "foo.md"].

(** A staging area that holds [foo.md] with the given content. *)
Definition staging (content : string) : gmap (list string) node :=
  <[ staged := File content ]>
    (<[ ["home"; "user"; "notebooklm-import-raw"] := Dir ]>
       (<[ ["home"; "user"] := Dir ]> (<[ ["home"] := Dir ]> ∅))).

Definition start (content : string) : world := World (staging content) [] 0.

(** The same staging area next to the [manifests] directory of the
    directive variant. *)
Definition with_manifests (content : string) : gmap (list string) node :=
  <[ ["home"; "user"; "manifests"] := Dir ]> (staging content).

(** A note that already carries a header. *)
Definition headed_note : string :=
  unlines ["---"; "old: 1"; "---"] +:+ "Body".

(** Rows of the root variant. *)
Definition toolkit_row (domain stage tags : string) : gmap string string :=
  list_to_map [ ("original_path", "notebooklm-import-raw/foo.md");
                ("filename", "foo.md");
                ("suggested_domain", domain);
                ("suggested_tags", tags);
                ("maturation_stage", stage) ].

(** Rows of the directive variant. *)
Definition directive_row (domain stage tags : string) : gmap string string :=
  list_to_map [ ("filepath", "foo.md");
                ("filename", "foo.md");
                ("pattern_domain", domain);
                ("pattern_tags", tags);
                ("maturation_stage", stage) ].




(** A staging area with two notes of the same name in two folders, and a
    row of the root variant for each. *)
Definition two_notes : world :=
  World (<[ ["home"; "user"; "notebooklm-import-raw"; "a"; "note.md"] := File "First" ]>
        (<[ ["home"; "user"; "notebooklm-import-raw"; "b"; "note.md"] := File "Second" ]>
        (<[ ["home"; "user"; "notebooklm-import-raw"; "a"] := Dir ]>
        (<[ ["home"; "user"; "notebooklm-import-raw"; "b"] := Dir ]>
        (<[ ["home"; "user"; "notebooklm-import-raw"] := Dir ]>
        (<[ ["home"; "user"] := Dir ]> (<[ ["home"] := Dir ]> ∅)))))))
        [] 0.

Definition toolkit_row_in (folder : string) : gmap string string :=
  list_to_map [ ("original_path", "notebooklm-import-raw/" +:+ folder +:+ "/note.md");
                ("filename", "note.md");
                ("suggested_domain", "tradecraft");
                ("suggested_tags", "");
                ("maturation_stage", "experientialdata") ].

(** A manifest with one compliant row and one row with an unknown
    domain and an unknown tag. *)
Definition manifest : list (gmap string string) :=
  [ toolkit_row "tradecraft" "experientialdata" "humint; code-snippet";
    toolkit_row "astrology" "experientialdata" "humint;horoscope" ].

(** A row without a [filename] cell whose domain is no id of the stub
    table of domains. *)
Definition toolkit_row_unnamed : gmap string string :=
  list_to_map [ ("original_path", "notebooklm-import-raw/foo.md");
                ("suggested_domain", "astrology");
                ("suggested_tags", "humint") ].

(** Files with a manifest and the two stub tables, and a reader of the
    two stub tables. *)
Definition validated : gmap (list string) node :=
  <[ ["home"; "user"; "classification-manifest.csv"] := File "manifest" ]>
    (<[ ["home"; "user"; "knowledge-archive"; "taxonomy"; "domains.json"]
          := File (Toolkit.dump_stub Toolkit.DEFAULT_DOMAINS) ]>
    (<[ ["home"; "user"; "knowledge-archive"; "taxonomy"; "tags.json"]
          := File (Toolkit.dump_stub Toolkit.DEFAULT_TAGS) ]> ∅)).

Definition load_stub (text : string) : result Toolkit.taxonomy :=
  if bool_decide (text = Toolkit.dump_stub Toolkit.DEFAULT_DOMAINS)
  then Ok Toolkit.DEFAULT_DOMAINS
  else if bool_decide (text = Toolkit.dump_stub Toolkit.DEFAULT_TAGS)
  then Ok Toolkit.DEFAULT_TAGS
  else Raise ValueError.

(** An archive that holds the note the root organizer makes of [foo.md]
    for a given row. *)
Definition archive_note : list string :=
  ["home"; "user"; "knowledge-archive"; "tradecraft"; "formalized_frameworks";
   "tradecraft-foo-2026-11-03.md"].

Definition archived (content : string) : gmap (list string) node :=
  <[ archive_note :=
       File (Toolkit.archived_text today
               (toolkit_row "tradecraft" "formalizedframework" "humint") content) ]>
    (<[ ["home"; "user"; "knowledge-archive"; "tradecraft"; "formalized_frameworks"]
          := Dir ]>
    (<[ ["home"; "user"; "knowledge-archive"; "tradecraft"] := Dir ]>
    (<[ ["home"; "user"; "knowledge-archive"] := Dir ]>
    (<[ ["home"; "user"] := Dir ]> (<[ ["home"] := Dir ]> ∅))))).
End Sample.

(* ===================================================================== *)
(** * Specification-level notions *)
(* ===================================================================== *)

Module Spec.
Import Py.

(** [sub] occurs in [s]. *)
Definition substring (sub s : string) : Prop :=
  ∃ a b, s = a +:+ sub +:+ b.

Fixpoint nospace (w : string) : bool :=
  match w with
  | "" => true
  | String c w' => negb (isspace c) && nospace w'
  end.

(** A whitespace-delimited token: not empty, no white space inside. *)
Definition token (w : string) : Prop := w ≠ "" ∧ nospace w = true.

(** The number of whitespace-delimited tokens of a text. *)
Definition token_count (s : string) : nat := length (split_ws s).

(** The snippet as the specification words it: the first [word_count]
    tokens of the text left after header stripping, joined by single
    spaces, with an ellipsis exactly when tokens were cut off. *)
Definition claimed_snippet (remaining : string) (word_count : Z) : string :=
  let words := split_ws remaining in
  join " " (take (Z.to_nat word_count) words)
  +:+ (if (word_count <? Z.of_nat (length words))%Z then "..." else "").

(** What the validator has to report for a row named [filename]: its
    domain when it is not empty and not a valid one, and each of its tags
    that is not a valid one, with the sorted valid ids. *)
Definition flagged (valid_domains valid_tags : gset string)
    (row : gmap string string) (filename : string) (i : Toolkit.issue) : Prop :=
  (∃ domain,
     row !! "suggested_domain" = Some domain ∧ domain ≠ "" ∧
     (domain ∉ valid_domains) ∧
     i = Toolkit.Invalid_domain filename domain (Toolkit.sorted_ids valid_domains)) ∨
  (∃ tag,
     tag ∈ stripped_items ";" (get row "suggested_tags" "") ∧
     (tag ∉ valid_tags) ∧
     i = Toolkit.Invalid_tag filename tag (Toolkit.sorted_ids valid_tags)).

(** The ids of a taxonomy table in the words of the specification: the
    ids themselves for a table of bare ids, the [id] of each record for a
    table of records; a table whose file is missing has none. *)
Definition table_id (table : option Toolkit.taxonomy) (x : string) : Prop :=
  match table with
  | None => False
  | Some (Toolkit.Bare ids) => x ∈ ids
  | Some (Toolkit.Entries entries) => ∃ e, e ∈ entries ∧ Toolkit.id e = x
  end.

(** The tags of a row: what stands between the semicolons of its tag
    cell, without the white space around it, when that is not empty. *)
Definition row_tag (row : gmap string string) (tag : string) : Prop :=
  tag ≠ "" ∧
  ∃ piece, piece ∈ split_char ";" (get row "suggested_tags" "") ∧ tag = strip piece.

(** The list an issue names as expected: the ids of the table, each
    once, in ascending order. *)
Definition expected_ids (table : option Toolkit.taxonomy) (l : list string) : Prop :=
  Sorted String.le l ∧ NoDup l ∧ ∀ x, x ∈ l ↔ table_id table x.

(** What the validator has to report for a row named [filename], in
    terms of the two tables: its domain when that is not empty and no id
    of the domain table, and each of its tags that is no id of the tag
    table. *)
Definition must_flag (domains tags : option Toolkit.taxonomy)
    (row : gmap string string) (filename : string) (i : Toolkit.issue) : Prop :=
  (∃ domain expected,
     row !! "suggested_domain" = Some domain ∧ domain ≠ "" ∧
     ¬ table_id domains domain ∧ expected_ids domains expected ∧
     i = Toolkit.Invalid_domain filename domain expected) ∨
  (∃ tag expected,
     row_tag row tag ∧ ¬ table_id tags tag ∧ expected_ids tags expected ∧
     i = Toolkit.Invalid_tag filename tag expected).

(** The file at [file] holds the table: nothing is there when there is
    no table, else a text from which [json_load] reads it. *)
Definition holds_table (json_load : string → result Toolkit.taxonomy)
    (f : gmap (list string) Fs.node) (file : list string)
    (table : option Toolkit.taxonomy) : Prop :=
  match table with
  | None => Fs.node_at file f = None
  | Some t => ∃ text, Fs.node_at file f = Some (Fs.File text) ∧ json_load text = Ok t
  end.

(** A text that can stand on one line of a header: it has no line feed
    and does not contain the delimiter. *)
Definition header_safe (v : string) : Prop :=
  contains "---" v = false ∧ contains nl v = false.

Definition header_safeb (v : string) : bool :=
  negb (contains "---" v) && negb (contains nl v).

(** A header line that is none of the three lines the report reads. *)
Definition other_line (l : string) : Prop :=
  startswith "patterndomain:" (strip l) = false ∧
  startswith "maturationstage:" (strip l) = false ∧
  startswith "patterntags:" (strip l) = false.

(** [x] glued to the last element of a list. *)
Fixpoint glue_last (x : string) (l : list string) : list string :=
  match l with
  | [] => []
  | [w] => [w +:+ x]
  | w :: l' => w :: glue_last x l'
  end.

(** The character [c] occurs nowhere in [s]. *)
Definition free_of (c : ascii) (s : string) : Prop :=
  contains (String c "") s = false.

(** An item of a separated list as the toolkit reads it back: not empty,
    no white space around it, no separator inside. *)
Definition clean_item (c : ascii) (t : string) : Prop :=
  t ≠ "" ∧ strip t = t ∧ free_of c t.

(** A text made of tokens with one space between them: no other white
    space, none at either end. *)
Definition single_spaced (s : string) : Prop :=
  join " " (split_ws s) = s.

(** A name that can be one component of a path: not empty, not the
    single dot, no slash. *)
Definition component (x : string) : Prop :=
  x ≠ "" ∧ x ≠ "." ∧ free_of "/" x.

(** A path without a step up.  The file system resolves [..] where it
    stands; the model compares paths as lists of components, which is
    comparing the files they name for the paths that have none. *)
Definition plain (p : list string) : Prop := ".." ∉ p.

(** A file [generate_report] counts: no component is [taxonomy] and
    the name is no readme.  [level archive k p] is the component of [p]
    at depth [k] below the archive, for a path at least two levels below
    it; [tally] counts the files of a listing filed under a name. *)
Definition counted (p : list string) : bool :=
  negb (bool_decide ("taxonomy" ∈ p))
  && negb (bool_decide (lower (Fs.name p) = "readme.md")).

Definition level (archive : list string) (k : nat) (p : list string)
  : option string :=
  match Fs.relative_to archive p with
  | Ok rel => if bool_decide (2 ≤ length rel) then rel !! k else None
  | Raise _ => None
  end.

Definition tally (archive : list string) (k : nat) (found : list (list string))
    (x : string) : nat :=
  length (filter (λ p, counted p = true ∧ level archive k p = Some x) found).

(** A printed table of counters: in the order of the keys, one line for
    each name that has files, with their number. *)
Definition table_of (count : string → nat) (items : list (string * nat)) : Prop :=
  Sorted item_le items ∧ NoDup items.*1 ∧
  ∀ x n, (x, n) ∈ items ↔ 0 < n ∧ n = count x.


(** What the scan of [generate_indices] makes of a listed path: the
    domain it files the path under and the entry it appends there.
    Nothing for a path under [taxonomy], a path that is not a file and a
    text that names no domain; the domain without an entry for a path
    that is not below [ROOT_DIR]. *)
Definition filed (ROOT_DIR : list string) (f : gmap (list string) Fs.node)
    (p : list string) : option (string * option Toolkit.index_entry) :=
  if bool_decide ("taxonomy" ∈ p) then None
  else
    match Fs.node_at p f with
    | Some (Fs.File content) =>
        match Toolkit.index_domain content with
        | Some domain =>
            Some (domain,
                  match Fs.relative_to ROOT_DIR p with
                  | Ok rel =>
                      Some (Toolkit.IndexEntry (Fs.name p)
                              (replace (String Json.bs "") "/" (Fs.as_posix rel))
                              (Toolkit.extract_snippet content 75))
                  | Raise _ => None
                  end)
        | None => None
        end
    | _ => None
    end.

(** The entries of the paths of a listing filed under a domain, in the
    order of the listing. *)
Definition filed_under (ROOT_DIR : list string) (f : gmap (list string) Fs.node)
    (domain : string) (found : list (list string)) : list Toolkit.index_entry :=
  omap (λ p, match filed ROOT_DIR f p with
             | Some (d, Some entry) =>
                 if bool_decide (d = domain) then Some entry else None
             | _ => None
             end) found.

(** The domains a listing names, one for each path that names one. *)
Definition domains_named (ROOT_DIR : list string) (f : gmap (list string) Fs.node)
    (found : list (list string)) : list string :=
  omap (λ p, fst <$> filed ROOT_DIR f p) found.

(** The entries of [docs] an index lists under a group. *)
Definition grouped (key group : string) (docs : list Directive.doc)
  : list Directive.doc :=
  filter (λ d, get (Directive.doc_meta d) key "Uncategorized" = group) docs.

(** The entry the scan of [generate_indexes] makes of a listed path:
    none for a path that is not a file and for a text or a path that
    makes building the entry raise. *)
Definition listed (ROOT_DIR : list string) (f : gmap (list string) Fs.node)
    (p : list string) : option Directive.doc :=
  match Fs.node_at p f with
  | Some (Fs.File text) =>
      match Directive.index_doc ROOT_DIR p text with
      | Ok d => Some d
      | Raise _ => None
      end
  | _ => None
  end.
End Spec.

(* ===================================================================== *)
(** * Facts about the Python built-ins *)
(* ===================================================================== *)

Section PyFacts.
Import Py Spec.
Local Arguments String.append : simpl nomatch.

Lemma sapp_nil_r s : s +:+ "" = s.
Proof. induction s; simpl; congruence. Qed.

Lemma sapp_assoc a b c : (a +:+ b) +:+ c = a +:+ b +:+ c.
Proof. induction a; simpl; congruence. Qed.

Lemma sapp_length a b : String.length (a +:+ b) = String.length a + String.length b.
Proof. induction a; simpl; congruence. Qed.

Lemma startswith_spec p s : startswith p s = true ↔ ∃ t, s = p +:+ t.
Proof.
  revert s. induction p as [|a p IH]; intros s; simpl.
  - split; eauto.
  - destruct s as [|b s].
    + split; [done | intros [t Ht]; discriminate].
    + rewrite andb_true_iff, bool_decide_eq_true, IH. split.
      * intros [-> [t ->]]. eauto.
      * intros [t Ht]. injection Ht as -> ->. eauto.
Qed.

Lemma contains_spec sub s : contains sub s = true ↔ substring sub s.
Proof.
  unfold substring. induction s as [|c s IH].
  - simpl. rewrite orb_false_r, startswith_spec. split.
    + intros [t Ht]. exists "", t. done.
    + intros [a [b Hab]]. destruct a; simpl in Hab; [eauto | discriminate].
  - cbn [contains]. rewrite orb_true_iff, IH, startswith_spec. split.
    + intros [[t Ht] | [a [b Hab]]].
      * exists "", t. done.
      * exists (String c a), b. simpl. congruence.
    + intros [[|c' a] [b Hab]].
      * left. eauto.
      * right. simpl in Hab. injection Hab as -> ->. eauto.
Qed.

Lemma slice_to_nonneg {A} (n : Z) (l : list A) :
  (0 ≤ n)%Z → slice_to n l = take (Z.to_nat n) l.
Proof. intros Hn. unfold slice_to. destruct (Z.ltb_spec n 0); [lia | done]. Qed.

Lemma split_ws_run c w r :
  isspace c = false → nospace w = true →
  (r = "" ∨ ∃ d r', r = String d r' ∧ isspace d = true) →
  split_ws (String c (w +:+ r)) = String c w :: split_ws r.
Proof.
  revert c. induction w as [|c' w IH]; intros c Hc Hw Hr.
  - simpl. rewrite Hc. destruct Hr as [-> | (d & r' & -> & Hd)]; [done |].
    by rewrite Hd.
  - simpl in Hw. apply andb_true_iff in Hw as [Hc' Hw].
    apply negb_true_iff in Hc'.
    change (String c (String c' w +:+ r)) with (String c (String c' (w +:+ r))).
    cbn [split_ws]. rewrite Hc, Hc'.
    specialize (IH c' Hc' Hw Hr). cbn [split_ws] in IH. rewrite Hc' in IH.
    by rewrite IH.
Qed.

Lemma split_ws_tokens s : Forall token (split_ws s).
Proof.
  induction s as [|c s IH]; [constructor |].
  cbn [split_ws]. destruct (isspace c) eqn:Hc; [done |].
  assert (Hone : token (String c "")).
  { split; [done |]. simpl. by rewrite Hc. }
  destruct s as [|c' s]; [by apply Forall_singleton |].
  destruct (isspace c') eqn:Hc'; [by apply Forall_cons |].
  destruct (split_ws (String c' s)) as [|w ws]; [by apply Forall_singleton |].
  inversion IH as [|? ? [_ Hw] Hws]; subst. constructor; [|done].
  split; [done |]. simpl. by rewrite Hc, Hw.
Qed.

Lemma split_ws_token w : token w → split_ws w = [w].
Proof.
  intros [Hne Hw]. destruct w as [|c w]; [done |].
  simpl in Hw. apply andb_true_iff in Hw as [Hc Hw].
  apply negb_true_iff in Hc.
  rewrite <- (sapp_nil_r w) at 1. rewrite split_ws_run; auto.
Qed.

Lemma join_cons2 sep x y l :
  join sep (x :: y :: l) = x +:+ sep +:+ join sep (y :: l).
Proof. done. Qed.

Lemma sapp_cons c a b : String c a +:+ b = String c (a +:+ b).
Proof. done. Qed.

Lemma split_ws_join ws : Forall token ws → split_ws (join " " ws) = ws.
Proof.
  induction 1 as [|w ws Hw Hws IH]; [done |].
  destruct ws as [|w' ws]; [by apply split_ws_token |].
  rewrite join_cons2. destruct Hw as [Hne Hw]. destruct w as [|c w]; [done |].
  simpl in Hw. apply andb_true_iff in Hw as [Hc Hw].
  apply negb_true_iff in Hc.
  rewrite sapp_cons, split_ws_run; [| done | done | right; by eexists _, _].
  f_equal. exact IH.
Qed.

Lemma nospace_app a b : nospace (a +:+ b) = nospace a && nospace b.
Proof. induction a; simpl; [done |]. by rewrite IHa, andb_assoc. Qed.

Lemma token_app w x : token w → nospace x = true → token (w +:+ x).
Proof.
  intros [Hne Hw] Hx. split.
  - destruct w; [done | discriminate].
  - by rewrite nospace_app, Hw, Hx.
Qed.

Lemma glue_last_length x l : length (glue_last x l) = length l.
Proof.
  induction l as [|w l IH]; [done |]. destruct l; [done |].
  cbn [glue_last length] in *. by rewrite IH.
Qed.

Lemma glue_last_tokens x l :
  nospace x = true → Forall token l → Forall token (glue_last x l).
Proof.
  intros Hx. induction 1 as [|w l Hw Hl IH]; [constructor |].
  destruct l; cbn [glue_last].
  - constructor; [by apply token_app | constructor].
  - by constructor.
Qed.

Lemma join_glue_last sep x l :
  l ≠ [] → join sep l +:+ x = join sep (glue_last x l).
Proof.
  induction l as [|w l IH]; [done |]. intros _.
  destruct l as [|w' l]; [done |].
  cbn [join glue_last]. cbn [join glue_last] in IH.
  rewrite !sapp_assoc, IH; [|done].
  by destruct l.
Qed.

Lemma token_count_join ws : Forall token ws → token_count (join " " ws) = length ws.
Proof. intros H. unfold token_count. by rewrite split_ws_join. Qed.

Lemma token_count_join_ellipsis ws :
  Forall token ws → ws ≠ [] → token_count (join " " ws +:+ "...") = length ws.
Proof.
  intros H Hne. rewrite join_glue_last by done.
  rewrite token_count_join by (by apply glue_last_tokens).
  apply glue_last_length.
Qed.
Lemma sapp_inv_head a x y : a +:+ x = a +:+ y → x = y.
Proof. induction a; simpl; [done |]. intros H. injection H. auto. Qed.

Lemma drop_sapp a b : drop (String.length a) (a +:+ b) = b.
Proof. induction a; simpl; [by destruct b | done]. Qed.

Lemma strip_prefix_spec p s r : Re.strip_prefix p s = Some r ↔ s = p +:+ r.
Proof.
  revert s. induction p as [|a p IH]; intros s; simpl.
  - split; congruence.
  - destruct s as [|b s]; [split; discriminate |].
    case_bool_decide as Hab.
    + subst b. rewrite IH. split; [by intros -> | by intros [= ->]].
    + split; [discriminate | intros [= -> ?]; done].
Qed.

Lemma split_once_eq sep s :
  split_once sep s =
    if startswith sep s then Some ("", drop (String.length sep) s)
    else match s with
         | "" => None
         | String c s' =>
             match split_once sep s' with
             | Some (a, b) => Some (String c a, b)
             | None => None
             end
         end.
Proof. by destruct s. Qed.

Lemma startswith_drop sep s :
  startswith sep s = true → s = sep +:+ drop (String.length sep) s.
Proof.
  intros [t Ht]%startswith_spec. rewrite Ht at 2. by rewrite drop_sapp.
Qed.

Lemma split_once_Some sep s a b :
  split_once sep s = Some (a, b) → s = a +:+ sep +:+ b.
Proof.
  revert a b. induction s as [|c s IH]; intros a b; rewrite split_once_eq.
  - destruct (startswith sep "") eqn:Hs; [|done].
    intros [= <- <-]. by apply startswith_drop.
  - destruct (startswith sep (String c s)) eqn:Hs.
    + intros [= <- <-]. by apply startswith_drop.
    + destruct (split_once sep s) as [[a0 b0]|]; [|done].
      intros [= <- <-]. simpl. f_equal. by apply IH.
Qed.

Lemma split_once_None sep s : split_once sep s = None ↔ ¬ substring sep s.
Proof.
  rewrite <- contains_spec. induction s as [|c s IH]; rewrite split_once_eq.
  - cbn [contains]. destruct (startswith sep ""); simpl; split; congruence.
  - cbn [contains]. destruct (startswith sep (String c s)); simpl.
    + split; [discriminate | by intros []].
    + destruct (split_once sep s) as [[a0 b0]|].
      * split; [discriminate |]. intros H. by apply IH in H.
      * split; [|done]. intros _. by apply IH.
Qed.

(** The split is at the first occurrence. *)
Lemma split_once_first sep a b :
  (∀ a' b', a +:+ sep +:+ b = a' +:+ sep +:+ b' →
            String.length a ≤ String.length a') →
  split_once sep (a +:+ sep +:+ b) = Some (a, b).
Proof.
  induction a as [|c a IH]; intros Hmin; rewrite split_once_eq.
  - simpl. rewrite (proj2 (startswith_spec sep (sep +:+ b))) by eauto.
    by rewrite drop_sapp.
  - destruct (startswith sep (String c a +:+ sep +:+ b)) eqn:Hs.
    + apply startswith_spec in Hs as [t Ht].
      specialize (Hmin "" t Ht). simpl in Hmin. lia.
    + rewrite sapp_cons, IH; [done |].
      intros a' b' Heq. specialize (Hmin (String c a') b').
      simpl in Hmin. rewrite Heq in Hmin. specialize (Hmin eq_refl). lia.
Qed.

Lemma split_once_minimal sep s a b a' b' :
  split_once sep s = Some (a, b) → s = a' +:+ sep +:+ b' →
  String.length a ≤ String.length a'.
Proof.
  revert a b a'. induction s as [|c s IH]; intros a b a'; rewrite split_once_eq.
  - destruct (startswith sep ""); [|done]. intros [= <- <-]. simpl. lia.
  - destruct (startswith sep (String c s)) eqn:Hs.
    + intros [= <- <-]. simpl. lia.
    + destruct (split_once sep s) as [[a0 b0]|] eqn:Hso; [|done].
      intros [= <- <-] Heq. destruct a' as [|c' a'].
      * simpl in Heq. rewrite (proj2 (startswith_spec sep (String c s))) in Hs
          by eauto. done.
      * simpl in Heq. injection Heq as -> Heq. simpl.
        specialize (IH a0 b0 a' eq_refl Heq). lia.
Qed.

(** The frontmatter pattern of the root variant: nothing changes without
    a leading block, and a leading block is removed up to its first
    closing line. *)
Lemma strip_frontmatter_none c :
  (∀ h body, c ≠ Re.fm_open +:+ h +:+ Re.fm_close +:+ body) →
  Re.strip_frontmatter c = c.
Proof.
  intros Hno. unfold Re.strip_frontmatter.
  destruct (Re.strip_prefix Re.fm_open c) as [rest|] eqn:Hp; [|done].
  apply strip_prefix_spec in Hp.
  destruct (split_once Re.fm_close rest) as [[h body]|] eqn:Hs; [|done].
  apply split_once_Some in Hs. subst. by destruct (Hno h body).
Qed.

Lemma strip_frontmatter_block c h body :
  c = Re.fm_open +:+ h +:+ Re.fm_close +:+ body →
  (∀ h' body', c = Re.fm_open +:+ h' +:+ Re.fm_close +:+ body' →
               String.length h ≤ String.length h') →
  Re.strip_frontmatter c = body.
Proof.
  intros -> Hmin. unfold Re.strip_frontmatter.
  rewrite (proj2 (strip_prefix_spec _ _ _) eq_refl).
  rewrite split_once_first; [done |].
  intros a' b' Heq. apply (Hmin a' b'). by rewrite Heq.
Qed.

(** In every case the result is the content itself or what follows a
    leading block. *)
Lemma strip_frontmatter_cases c :
  Re.strip_frontmatter c = c ∨
  ∃ h, c = Re.fm_open +:+ h +:+ Re.fm_close +:+ Re.strip_frontmatter c.
Proof.
  unfold Re.strip_frontmatter.
  destruct (Re.strip_prefix Re.fm_open c) as [rest|] eqn:Hp; [|by left].
  apply strip_prefix_spec in Hp.
  destruct (split_once Re.fm_close rest) as [[h body]|] eqn:Hs; [|by left].
  apply split_once_Some in Hs. right. exists h. by subst.
Qed.
End PyFacts.

(* ===================================================================== *)
(** * Lines, delimiters and white space *)
(* ===================================================================== *)

Section LineFacts.
Import Py Spec Fs.
Local Arguments String.append : simpl nomatch.

Lemma unlines_app a b : unlines (a ++ b) = unlines a +:+ unlines b.
Proof.
  induction a as [|x a IH]; [done |].
  cbn [app unlines]. by rewrite IH, !sapp_assoc.
Qed.

Lemma join_unlines ls x tail :
  join nl (ls ++ x :: tail) = unlines ls +:+ join nl (x :: tail).
Proof.
  induction ls as [|l ls IH]; [done |].
  assert (Hne : ∃ y t, ls ++ x :: tail = y :: t) by (destruct ls; eauto).
  destruct Hne as (y & t & Heq).
  cbn [app unlines]. rewrite Heq, join_cons2, <- Heq, IH.
  by rewrite !sapp_assoc.
Qed.

Lemma startswith_dashes_line l r :
  startswith "---" (l +:+ String LF r) = startswith "---" l.
Proof.
  destruct l as [|a [|b [|c l]]]; cbn; repeat case_bool_decide; subst; try done.
Qed.

Lemma contains_cons sub c s :
  contains sub (String c s) = startswith sub (String c s) || contains sub s.
Proof. done. Qed.

Lemma startswith_nl_cons c l : startswith nl (String c l) = bool_decide (LF = c).
Proof. unfold nl. cbn [startswith]. by rewrite andb_true_r. Qed.

(** A line without the delimiter is passed over when the text is split
    at the first delimiter. *)
Lemma split_once_line l r :
  contains "---" l = false →
  split_once "---" (l +:+ nl +:+ r) =
    match split_once "---" r with
    | Some (a, b) => Some (l +:+ nl +:+ a, b)
    | None => None
    end.
Proof.
  induction l as [|c l IH]; intros Hl.
  - rewrite split_once_eq. cbn. by destruct (split_once "---" r) as [[a b]|].
  - rewrite contains_cons in Hl. apply orb_false_iff in Hl as [Hs Hl].
    rewrite split_once_eq.
    change (String c l +:+ nl +:+ r) with (String c l +:+ String LF r).
    rewrite startswith_dashes_line, Hs.
    rewrite sapp_cons.
    change (l +:+ String LF r) with (l +:+ nl +:+ r).
    rewrite (IH Hl). by destruct (split_once "---" r) as [[a b]|].
Qed.

Lemma split_once_unlines ls tail :
  Forall (λ l, contains "---" l = false) ls →
  split_once "---" (unlines ls +:+ "---" +:+ tail) = Some (unlines ls, tail).
Proof.
  induction 1 as [|l ls Hl Hls IH]; [done |].
  cbn [unlines]. rewrite !sapp_assoc, split_once_line by done.
  by rewrite IH.
Qed.

Lemma split_char_line l r :
  contains nl l = false →
  split_char LF (l +:+ nl +:+ r) = l :: split_char LF r.
Proof.
  induction l as [|c l IH]; intros Hl; [done |].
  rewrite contains_cons in Hl. apply orb_false_iff in Hl as [Hs Hl].
  rewrite sapp_cons. cbn [split_char].
  rewrite startswith_nl_cons in Hs. apply bool_decide_eq_false in Hs.
  case_bool_decide as Hc; [congruence |].
  by rewrite (IH Hl).
Qed.

Lemma split_char_unlines ls :
  Forall (λ l, contains nl l = false) ls →
  split_char LF (unlines ls) = ls ++ [""].
Proof.
  induction 1 as [|l ls Hl Hls IH]; [done |].
  cbn [unlines]. rewrite split_char_line by done. by rewrite IH.
Qed.

Lemma until_LF_line l r :
  contains nl l = false → Toolkit.until_LF (l +:+ nl +:+ r) = l.
Proof.
  induction l as [|c l IH]; intros Hl; [done |].
  rewrite contains_cons in Hl. apply orb_false_iff in Hl as [Hs Hl].
  rewrite sapp_cons. cbn [Toolkit.until_LF].
  rewrite startswith_nl_cons in Hs. apply bool_decide_eq_false in Hs.
  case_bool_decide as Hc; [congruence |].
  by rewrite (IH Hl).
Qed.

Lemma rstrip_cons_nonspace c s :
  isspace c = false → rstrip (String c s) = String c (rstrip s).
Proof. intros Hc. cbn [rstrip]. rewrite Hc. by destruct (rstrip s). Qed.

Lemma rstrip_idem s : rstrip (rstrip s) = rstrip s.
Proof.
  induction s as [|c s IH]; [done |].
  cbn [rstrip]. destruct (rstrip s) as [|d r] eqn:Hr.
  - destruct (isspace c) eqn:Hc; [done |]. cbn [rstrip]. by rewrite Hc.
  - cbn [rstrip]. cbn [rstrip] in IH. by rewrite IH.
Qed.

Lemma lstrip_rstrip s : lstrip (rstrip s) = rstrip (lstrip s).
Proof.
  induction s as [|c s IH]; [done |].
  cbn [lstrip]. destruct (isspace c) eqn:Hc.
  - rewrite <- IH. cbn [rstrip]. destruct (rstrip s) as [|d r].
    + by rewrite Hc.
    + cbn [lstrip]. by rewrite Hc.
  - rewrite rstrip_cons_nonspace by done. cbn [lstrip]. by rewrite Hc.
Qed.

Lemma lstrip_idem s : lstrip (lstrip s) = lstrip s.
Proof.
  induction s as [|c s IH]; [done |]. cbn [lstrip].
  destruct (isspace c) eqn:Hc; [done |]. cbn [lstrip]. by rewrite Hc.
Qed.

Lemma strip_idem s : strip (strip s) = strip s.
Proof. unfold strip. by rewrite lstrip_rstrip, lstrip_idem, rstrip_idem. Qed.

(** The value read back after a key and one space. *)
Lemma strip_after_space v : strip v = v → strip (rstrip (String " " v)) = v.
Proof.
  intros Hv. unfold strip. rewrite lstrip_rstrip, rstrip_idem.
  exact Hv.
Qed.

Lemma lstrip_length s : String.length (lstrip s) ≤ String.length s.
Proof.
  induction s as [|c s IH]; [done |]. cbn [lstrip].
  destruct (isspace c); simpl; lia.
Qed.

Lemma rstrip_length s : String.length (rstrip s) ≤ String.length s.
Proof.
  induction s as [|c s IH]; [done |]. cbn [rstrip].
  destruct (rstrip s); [destruct (isspace c)|]; simpl in *; lia.
Qed.

(** A stripped text that is not empty starts with a character that is no
    white space. *)
Lemma strip_fixed_head v :
  strip v = v → v ≠ "" → ∃ c v', v = String c v' ∧ isspace c = false.
Proof.
  intros Hv Hne. destruct v as [|c v]; [done |].
  exists c, v. split; [done |].
  destruct (isspace c) eqn:Hc; [|done].
  apply (f_equal String.length) in Hv. unfold strip in Hv.
  cbn [lstrip] in Hv. rewrite Hc in Hv.
  pose proof (rstrip_length (lstrip v)). pose proof (lstrip_length v).
  simpl in Hv. lia.
Qed.

Lemma rstrip_app_nonspace s c :
  isspace c = false → rstrip (s +:+ String c "") = s +:+ String c "".
Proof.
  intros Hc. induction s as [|d s IH].
  - cbn. by rewrite Hc.
  - rewrite sapp_cons. cbn [rstrip]. rewrite IH.
    by destruct (s +:+ String c "") eqn:Hs; [destruct s|].
Qed.

Lemma strip_dumps l : strip (Json.dumps l) = Json.dumps l.
Proof.
  unfold Json.dumps, strip.
  change ("[" +:+ join ", " (map Json.dumps_str l) +:+ "]")
    with (String "[" (join ", " (map Json.dumps_str l) +:+ "]")).
  cbn [lstrip]. replace (isspace "[") with false by done.
  rewrite <- sapp_cons. by apply rstrip_app_nonspace.
Qed.
End LineFacts.

(* ===================================================================== *)
(** * [json.loads] undoes [json.dumps] *)
(* ===================================================================== *)

Section JsonFacts.
Import Py Json.
Local Arguments String.append : simpl nomatch.

Lemma scan_escape_char c rest :
  scan_string (escape_char c +:+ rest) =
    match scan_string rest with
    | Some (t, r) => Some (String c t, r)
    | None => None
    end.
Proof. destruct c as [[] [] [] [] [] [] [] []]; reflexivity. Qed.

Lemma scan_escape s rest :
  scan_string (escape s +:+ String dq rest) = Some (s, rest).
Proof.
  induction s as [|c s IH]; [done |].
  cbn [escape]. by rewrite sapp_assoc, scan_escape_char, IH.
Qed.

Lemma scan_dumps_str s rest :
  ∃ body, dumps_str s +:+ rest = String dq body ∧ scan_string body = Some (s, rest).
Proof.
  exists (escape s +:+ String dq rest). split.
  - unfold dumps_str. rewrite sapp_cons, sapp_assoc. done.
  - apply scan_escape.
Qed.

Lemma scan_elems_join fuel x xs rest :
  length xs < fuel →
  scan_elems fuel (join ", " (map dumps_str (x :: xs)) +:+ String "]" rest)
  = Some (x :: xs, rest).
Proof.
  revert fuel x. induction xs as [|y ys IH]; intros fuel x Hfuel.
  - destruct fuel as [|fuel]; [simpl in Hfuel; lia |].
    cbn [map join].
    destruct (scan_dumps_str x (String "]" rest)) as (body & -> & Hscan).
    cbn [scan_elems]. rewrite bool_decide_eq_true_2 by done.
    rewrite Hscan. done.
  - destruct fuel as [|fuel]; [simpl in Hfuel; lia |].
    change (map dumps_str (x :: y :: ys)) with (dumps_str x :: map dumps_str (y :: ys)).
    change (join ", " (dumps_str x :: map dumps_str (y :: ys)))
      with (dumps_str x +:+ ", " +:+ join ", " (map dumps_str (y :: ys))).
    rewrite !sapp_assoc.
    destruct (scan_dumps_str x (", " +:+ join ", " (map dumps_str (y :: ys))
                                  +:+ String "]" rest)) as (body & -> & Hscan).
    cbn [scan_elems]. rewrite bool_decide_eq_true_2 by done.
    rewrite Hscan.
    destruct (scan_dumps_str y (match map dumps_str ys with
                                | [] => ""
                                | _ :: _ => ", " +:+ join ", " (map dumps_str ys)
                                end +:+ String "]" rest)) as (body' & Hb & _).
    assert (Hnext : join ", " (map dumps_str (y :: ys)) +:+ String "]" rest
                    = String dq body').
    { rewrite <- Hb. cbn [map join]. destruct (map dumps_str ys); [done |].
      by rewrite !sapp_assoc. }
    specialize (IH fuel y ltac:(simpl in Hfuel; lia)).
    rewrite Hnext in IH.
    change (", " +:+ join ", " (map dumps_str (y :: ys)) +:+ String "]" rest)
      with (String "," (String " " (join ", " (map dumps_str (y :: ys))
                                      +:+ String "]" rest))).
    rewrite Hnext. cbn [skip_ws is_ws]. cbn.
    rewrite IH. done.
Qed.

Lemma dumps_str_length s : 2 ≤ String.length (dumps_str s).
Proof. unfold dumps_str. simpl. rewrite sapp_length. simpl. lia. Qed.

Lemma join_dumps_length l :
  length l ≤ String.length (join ", " (map dumps_str l)).
Proof.
  induction l as [|x l IH]; [done |].
  destruct l as [|y l].
  - simpl. pose proof (dumps_str_length x). lia.
  - change (map dumps_str (x :: y :: l)) with (dumps_str x :: map dumps_str (y :: l)).
    change (join ", " (dumps_str x :: map dumps_str (y :: l)))
      with (dumps_str x +:+ ", " +:+ join ", " (map dumps_str (y :: l))).
    rewrite !sapp_length. pose proof (dumps_str_length x). simpl in *. lia.
Qed.

(** Decoding what [json.dumps] wrote for a list of strings gives the list
    back. *)
Lemma loads_dumps l : loads (dumps l) = Some l.
Proof.
  unfold dumps. destruct l as [|x xs]; [done |].
  pose proof (scan_elems_join
                (String.length (join ", " (map dumps_str (x :: xs)) +:+ "]"))
                x xs "") as Hscan.
  destruct (scan_dumps_str x (match map dumps_str xs with
                              | [] => ""
                              | _ :: _ => ", " +:+ join ", " (map dumps_str xs)
                              end +:+ "]")) as (body & Hb & _).
  assert (Hfirst : join ", " (map dumps_str (x :: xs)) +:+ "]" = String dq body).
  { rewrite <- Hb. cbn [map join]. destruct (map dumps_str xs); [done |].
    by rewrite !sapp_assoc. }
  rewrite Hfirst in Hscan.
  change ("[" +:+ join ", " (map dumps_str (x :: xs)) +:+ "]")
    with (String "[" (join ", " (map dumps_str (x :: xs)) +:+ "]")).
  rewrite Hfirst. unfold loads. cbn [skip_ws is_ws].
  replace (is_ws dq) with false by reflexivity.
  replace (bool_decide ("["%char = "["%char)) with true by reflexivity.
  replace (bool_decide (dq = "]"%char)) with false by reflexivity.
  cbv iota. rewrite Hscan; [done |].
  rewrite <- Hfirst, sapp_length. pose proof (join_dumps_length (x :: xs)).
  simpl in *. lia.
Qed.
End JsonFacts.

(* ===================================================================== *)
(** * The metadata extractor *)
(* ===================================================================== *)

Section Extractor.
Import Py Re Spec.
Local Arguments String.append : simpl nomatch.

(** The [ValueError] of the unpacking is caught: the header skip of the
    directive variant always returns. *)
Lemma skip_frontmatter_total text : ∃ body, Directive.skip_frontmatter text = Ok body.
Proof.
  unfold Directive.skip_frontmatter. destruct (startswith "---" text); [|eauto].
  destruct (splitn "---" 2 text) as [|a [|b [|c [|d l]]]]; simpl; eauto.
Qed.

(** The header skip of the directive variant: the text itself, or the
    stripped text after the second delimiter. *)
Lemma skip_frontmatter_cases text :
  ∃ body, Directive.skip_frontmatter text = Ok body ∧
          (body = text ∨
           ∃ h rest, text = "---" +:+ h +:+ "---" +:+ rest ∧ body = strip rest).
Proof.
  unfold Directive.skip_frontmatter.
  destruct (startswith "---" text) eqn:Hs; [|eauto].
  cbn [splitn]. rewrite split_once_eq, Hs.
  destruct (split_once "---" (drop (String.length "---") text)) as [[h rest]|] eqn:Hh.
  - exists (strip rest). split; [done |]. right. exists h, rest. split; [|done].
    apply split_once_Some in Hh. rewrite <- Hh. by apply startswith_drop.
  - exists text. split; [done | by left].
Qed.

Lemma directive_snippet_eq text wc body :
  Directive.skip_frontmatter (strip text) = Ok body →
  Directive.extract_snippet text wc =
    Ok (let words := split_ws (sub_hashes body) in
        let snippet := join " " (slice_to wc words) in
        if (wc <? Z.of_nat (length words))%Z then snippet +:+ "..." else snippet).
Proof. intros H. unfold Directive.extract_snippet. by rewrite H. Qed.

Lemma take_tokens n s : Forall token (take n (split_ws s)).
Proof. apply Forall_take, split_ws_tokens. Qed.

(** C5 (as amended): [extract_snippet] always returns, in both variants;
    the snippet of the directive variant has at most [word_count] tokens
    when [word_count] is at least 1, and the snippet of the root variant
    when [word_count] is at least 0. *)
Theorem C5_snippet_token_bound (text : string) (word_count : Z) :
  (∃ s, Directive.extract_snippet text word_count = Ok s ∧
        ((1 ≤ word_count)%Z → (Z.of_nat (token_count s) ≤ word_count)%Z)) ∧
  ((0 ≤ word_count)%Z →
   (Z.of_nat (token_count (Toolkit.extract_snippet text word_count)) ≤ word_count)%Z).
Proof.
  split.
  - destruct (skip_frontmatter_total (strip text)) as [body Hbody].
    rewrite (directive_snippet_eq _ _ _ Hbody). eexists; split; [done |].
    intros Hwc. cbv zeta. rewrite slice_to_nonneg by lia.
    set (words := split_ws (sub_hashes body)).
    destruct (Z.ltb_spec word_count (Z.of_nat (length words))) as [Hlt | Hge].
    + rewrite token_count_join_ellipsis.
      * rewrite length_take. lia.
      * apply take_tokens.
      * intros Hnil. apply (f_equal length) in Hnil.
        rewrite length_take in Hnil. simpl in Hnil. lia.
    + rewrite token_count_join by apply take_tokens.
      rewrite length_take. lia.
  - intros Hwc. unfold Toolkit.extract_snippet.
    rewrite slice_to_nonneg by lia.
    rewrite token_count_join by apply take_tokens.
    rewrite length_take. lia.
Qed.

Lemma C5_snippet_token_bound_witness :
  (∃ s, Directive.extract_snippet "# one  two three" 2 = Ok s ∧
        (Z.of_nat (token_count s) ≤ 2)%Z) ∧
  (Z.of_nat (token_count (Toolkit.extract_snippet "one  two three" 0)) ≤ 0)%Z.
Proof.
  destruct (C5_snippet_token_bound "# one  two three" 2) as [[s [Hs Hb]] _].
  destruct (C5_snippet_token_bound "one  two three" 0) as [_ Hr].
  split; [exists s; split; [exact Hs | apply Hb; lia] | apply Hr; lia].
Defined.

(** C5, as stated, fails: with [word_count = 0] the directive variant
    returns the bare ellipsis, one token; with a negative [word_count]
    the slice drops tokens from the end instead. *)
Lemma C5_counterexample :
  Directive.extract_snippet "hello" 0 = Ok "..." ∧
  ¬ (Z.of_nat (token_count "...") ≤ 0)%Z ∧
  Toolkit.extract_snippet "a b c" (-1) = "a b" ∧
  ¬ (Z.of_nat (token_count "a b") ≤ -1)%Z.
Proof. repeat split; by vm_compute. Qed.

(** The header skip of the directive variant, exactly: a text that
    does not start with the delimiter or holds no second one is kept; of
    any other text the part after the first delimiter that follows the
    opening one is kept, stripped. *)
Lemma skip_frontmatter_exact text :
  ∃ body, Directive.skip_frontmatter text = Ok body ∧
    (¬ (∃ h rest, text = "---" +:+ h +:+ "---" +:+ rest) → body = text) ∧
    ((∃ h rest, text = "---" +:+ h +:+ "---" +:+ rest) →
     ∃ h rest, text = "---" +:+ h +:+ "---" +:+ rest ∧
               ¬ substring "---" h ∧
               (∀ h' rest', text = "---" +:+ h' +:+ "---" +:+ rest' →
                            String.length h ≤ String.length h') ∧
               body = strip rest).
Proof.
  unfold Directive.skip_frontmatter.
  destruct (startswith "---" text) eqn:Hs.
  2:{ exists text. split; [done |]. split; [done |].
      intros (h & rest & Heq).
      rewrite (proj2 (startswith_spec "---" text)) in Hs by eauto. done. }
  cbn [splitn]. rewrite split_once_eq, Hs.
  pose proof (startswith_drop _ _ Hs) as Htext.
  destruct (split_once "---" (drop (String.length "---") text)) as [[h rest]|] eqn:Hh.
  - exists (strip rest). split; [done |].
    assert (Heq : text = "---" +:+ h +:+ "---" +:+ rest).
    { apply split_once_Some in Hh. by rewrite <- Hh. }
    assert (Hmin : ∀ h' rest', text = "---" +:+ h' +:+ "---" +:+ rest' →
                               String.length h ≤ String.length h').
    { intros h' rest' Heq'. apply (split_once_minimal _ _ _ _ _ rest' Hh).
      rewrite Heq' in Htext at 1. by apply sapp_inv_head in Htext. }
    split; [intros Hno; destruct Hno; eauto |].
    intros _. exists h, rest. split; [done |]. split; [|done].
    intros (a & b & ->).
    specialize (Hmin a (b +:+ "---" +:+ rest)).
    rewrite Heq, !sapp_assoc in Hmin. specialize (Hmin eq_refl).
    rewrite !sapp_length in Hmin. simpl in Hmin. lia.
  - exists text. split; [done |]. split; [done |].
    intros (h & rest & Heq). apply split_once_None in Hh. destruct Hh.
    exists h, rest. rewrite Heq in Htext at 1. apply sapp_inv_head in Htext.
    by rewrite <- Htext.
Qed.

(** The header pattern of the root variant, exactly: a content without a
    leading block is kept; of any other content the part after the first
    closing line is kept. *)
Lemma strip_frontmatter_exact c :
  (¬ (∃ h body, c = fm_open +:+ h +:+ fm_close +:+ body) → strip_frontmatter c = c) ∧
  ((∃ h body, c = fm_open +:+ h +:+ fm_close +:+ body) →
   ∃ h, c = fm_open +:+ h +:+ fm_close +:+ strip_frontmatter c ∧
        ∀ h' body', c = fm_open +:+ h' +:+ fm_close +:+ body' →
                    String.length h ≤ String.length h').
Proof.
  split.
  - intros Hno. apply strip_frontmatter_none. intros h body Heq. apply Hno. eauto.
  - intros (h0 & body0 & Heq0). unfold strip_frontmatter.
    destruct (strip_prefix fm_open c) as [r|] eqn:Hp.
    2:{ rewrite (proj2 (strip_prefix_spec fm_open c _) Heq0) in Hp. done. }
    apply strip_prefix_spec in Hp.
    destruct (split_once fm_close r) as [[h body]|] eqn:Hso.
    + exists h. pose proof (split_once_Some _ _ _ _ Hso) as Hr. split.
      * by rewrite Hp, Hr.
      * intros h' body' Heq'. apply (split_once_minimal _ _ _ _ _ body' Hso).
        rewrite Hp in Heq'. by apply sapp_inv_head in Heq'.
    + apply split_once_None in Hso. destruct Hso. exists h0, body0.
      rewrite Hp in Heq0. by apply sapp_inv_head in Heq0.
Qed.

(** C7 (as amended): for a [word_count] of at least 0.  The directive
    variant strips the text; when the stripped text starts with the
    delimiter and holds a second one, it keeps the stripped text after
    the first delimiter that follows the opening one, so that no
    delimiter lies in what it skips between the two; otherwise it keeps
    the stripped text.  It then deletes every run of number signs that a
    white-space character follows, and returns the first [word_count]
    tokens of the result joined by single spaces, with three dots
    exactly when tokens were cut off.  The root variant removes a
    leading block up to its first closing line when the text starts with
    one, and nothing otherwise, and returns the first [word_count]
    tokens of what is left, joined by single spaces, never an ellipsis.
    Splitting the joined tokens gives the tokens back. *)
Theorem C7_snippet_shape (text : string) (word_count : Z) :
  (0 ≤ word_count)%Z →
  let n := Z.to_nat word_count in
  (∃ body, Directive.skip_frontmatter (strip text) = Ok body ∧
     (¬ (∃ h rest, strip text = "---" +:+ h +:+ "---" +:+ rest) → body = strip text) ∧
     ((∃ h rest, strip text = "---" +:+ h +:+ "---" +:+ rest) →
      ∃ h rest, strip text = "---" +:+ h +:+ "---" +:+ rest ∧
                ¬ substring "---" h ∧
                (∀ h' rest', strip text = "---" +:+ h' +:+ "---" +:+ rest' →
                             String.length h ≤ String.length h') ∧
                body = strip rest) ∧
     let words := split_ws (sub_hashes body) in
     Directive.extract_snippet text word_count =
       Ok (join " " (take n words) +:+ (if decide (n < length words) then "..." else "")) ∧
     (length words ≤ n →
      Directive.extract_snippet text word_count = Ok (join " " words)) ∧
     split_ws (join " " (take n words)) = take n words) ∧
  ((¬ (∃ h body, text = fm_open +:+ h +:+ fm_close +:+ body) →
    strip_frontmatter text = text) ∧
   ((∃ h body, text = fm_open +:+ h +:+ fm_close +:+ body) →
    ∃ h, text = fm_open +:+ h +:+ fm_close +:+ strip_frontmatter text ∧
         ∀ h' body', text = fm_open +:+ h' +:+ fm_close +:+ body' →
                     String.length h ≤ String.length h') ∧
   let words := split_ws (strip_frontmatter text) in
   Toolkit.extract_snippet text word_count = join " " (take n words) ∧
   split_ws (join " " (take n words)) = take n words).
Proof.
  intros Hwc n. split.
  - destruct (skip_frontmatter_exact (strip text)) as (body & Hbody & Hkeep & Hskip).
    exists body. split; [done |]. split; [done |]. split; [done |]. cbv zeta.
    rewrite (directive_snippet_eq _ _ _ Hbody). cbv zeta.
    rewrite slice_to_nonneg by lia. fold n.
    set (words := split_ws (sub_hashes body)).
    split; [|split].
    + destruct (Z.ltb_spec word_count (Z.of_nat (length words)));
        destruct (decide (n < length words)); try lia; [done |].
      by rewrite sapp_nil_r.
    + intros Hle. destruct (Z.ltb_spec word_count (Z.of_nat (length words))); [lia |].
      by rewrite take_ge.
    + apply split_ws_join, take_tokens.
  - destruct (strip_frontmatter_exact text) as [Hkeep Hblock].
    split; [done |]. split; [done |].
    cbv zeta. unfold Toolkit.extract_snippet.
    rewrite slice_to_nonneg by lia. split; [done |].
    apply split_ws_join, take_tokens.
Qed.

Lemma C7_snippet_shape_witness :
  Directive.extract_snippet ("---" +:+ nl +:+ "old: 1" +:+ nl +:+ "---" +:+ nl
                             +:+ "# one  two three") 2
    = Ok "one two..." ∧
  Toolkit.extract_snippet Sample.headed_note 2 = "Body".
Proof.
  destruct (C7_snippet_shape ("---" +:+ nl +:+ "old: 1" +:+ nl +:+ "---" +:+ nl
                              +:+ "# one  two three") 2)
    as [(body & Hbody & _ & _ & Hsnippet & _) _]; [lia |].
  destruct (C7_snippet_shape Sample.headed_note 2) as [_ (_ & _ & Hroot & _)]; [lia |].
  vm_compute in Hbody. injection Hbody as <-.
  split.
  - rewrite Hsnippet. by vm_compute.
  - rewrite Hroot. by vm_compute.
Defined.

(** C7, as stated, fails in both variants: the directive variant drops
    the heading mark of the text [# Title], which is a token of the text
    left after header stripping, and the root variant cuts without an
    ellipsis. *)
Lemma C7_counterexample :
  Directive.skip_frontmatter (strip "# Title") = Ok "# Title" ∧
  Directive.extract_snippet "# Title" 75 = Ok "Title" ∧
  Directive.extract_snippet "# Title" 75 ≠ Ok (claimed_snippet "# Title" 75) ∧
  strip_frontmatter "a b c" = "a b c" ∧
  Toolkit.extract_snippet "a b c" 2 = "a b" ∧
  Toolkit.extract_snippet "a b c" 2 ≠ claimed_snippet "a b c" 2.
Proof. repeat split; by vm_compute. Qed.

(** C8: the stage is "formalizedframework" exactly when "doctrine"
    occurs in the lowercased content and "experientialdata" otherwise;
    the domain is "tradecraft" with tag "code-snippet" when one of
    "code", "function", "def " occurs, otherwise "forensic-psychology"
    with tag "reflection" when one of "journal", "diary", "felt" occurs,
    otherwise the default "social-engineering" with no tag. *)
Theorem C8_suggest_metadata_rules (content filename : string) :
  let lc := lower content in
  let code := substring "code" lc ∨ substring "function" lc ∨ substring "def " lc in
  let refl := substring "journal" lc ∨ substring "diary" lc ∨ substring "felt" lc in
  ∃ domain tags stage,
    Toolkit.suggest_metadata content filename = (domain, tags, stage) ∧
    (substring "doctrine" lc → stage = "formalizedframework") ∧
    (¬ substring "doctrine" lc → stage = "experientialdata") ∧
    (code → domain = "tradecraft" ∧ tags = "code-snippet") ∧
    (¬ code → refl → domain = "forensic-psychology" ∧ tags = "reflection") ∧
    (¬ code → ¬ refl → domain = "social-engineering" ∧ tags = "").
Proof.
  intros lc code refl. unfold Toolkit.suggest_metadata. fold lc.
  assert (Hcode : (contains "code" lc || contains "function" lc
                   || contains "def " lc) = true ↔ code).
  { unfold code. rewrite !orb_true_iff, !contains_spec. tauto. }
  assert (Hrefl : (contains "journal" lc || contains "diary" lc
                   || contains "felt" lc) = true ↔ refl).
  { unfold refl. rewrite !orb_true_iff, !contains_spec. tauto. }
  pose proof (contains_spec "doctrine" lc) as Hdoc.
  destruct (contains "doctrine" lc);
    destruct (contains "code" lc || contains "function" lc || contains "def " lc);
    destruct (contains "journal" lc || contains "diary" lc || contains "felt" lc);
    eexists _, _, _; (split; [reflexivity |]);
    repeat split; intros; try done;
    try (exfalso; intuition congruence).
Qed.

(** C10: the suggestion does not depend on the file name. *)
Theorem C10_suggest_metadata_ignores_filename (content f1 f2 : string) :
  Toolkit.suggest_metadata content f1 = Toolkit.suggest_metadata content f2.
Proof. reflexivity. Qed.
End Extractor.

(* ===================================================================== *)
(** * Facts about the file system *)
(* ===================================================================== *)

Section FsFacts.
Import Py Fs.

Lemma made_prefix base rest q : q ∈ made base rest → q `prefix_of` base ++ rest.
Proof.
  revert base. induction rest as [|x rest IH]; intros base; simpl.
  - by intros ?%elem_of_nil.
  - intros [-> | Hq]%elem_of_cons.
    + rewrite (cons_middle x base rest), app_assoc. by apply prefix_app_r.
    + apply IH in Hq. by rewrite <- app_assoc in Hq.
Qed.

Lemma made_length base rest q :
  q ∈ made base rest → length base < length q ≤ length base + length rest.
Proof.
  revert base. induction rest as [|x rest IH]; intros base; simpl.
  - by intros ?%elem_of_nil.
  - intros [-> | Hq]%elem_of_cons.
    + rewrite length_app. simpl. lia.
    + apply IH in Hq. rewrite length_app in Hq. simpl in Hq. lia.
Qed.

Lemma made_last base rest : rest ≠ [] → base ++ rest ∈ made base rest.
Proof.
  revert base. induction rest as [|x rest IH]; intros base Hne; [done |].
  simpl. destruct rest as [|y rest].
  - apply elem_of_cons. by left.
  - apply elem_of_cons. right.
    rewrite (cons_middle x base (y :: rest)), app_assoc. by apply IH.
Qed.

(** [mkdir_from] succeeds when no file is in the way; it then turns the
    paths of [made] into directories and leaves the rest alone. *)
Lemma mkdir_from_ok base rest f :
  (∀ q c, q ∈ made base rest → f !! q ≠ Some (File c)) →
  ∃ f', mkdir_from base rest f = Ok f' ∧
        (∀ q, q ∈ made base rest → f' !! q = Some Dir) ∧
        (∀ q, q ∉ made base rest → f' !! q = f !! q).
Proof.
  revert base f. induction rest as [|x rest IH]; intros base f Hclear; simpl.
  - exists f. split; [done |]. split; [by intros q ?%elem_of_nil | done].
  - assert (Hnf : ∀ c, f !! (base ++ [x]) ≠ Some (File c)).
    { intros c. apply Hclear. apply elem_of_cons. by left. }
    destruct (IH (base ++ [x]) (<[base ++ [x] := Dir]> f)) as (f' & Hmk & Hin & Hout).
    { intros q c Hq. destruct (decide (q = base ++ [x])) as [-> | Hne].
      - by rewrite lookup_insert_eq.
      - rewrite lookup_insert_ne by done. apply Hclear, elem_of_cons. by right. }
    exists f'. split; [|split].
    + destruct (f !! (base ++ [x])) as [[c|]|] eqn:Hl; [by destruct (Hnf c) | done | done].
    + intros q [-> | Hq]%elem_of_cons; [|by apply Hin].
      destruct (decide (base ++ [x] ∈ made (base ++ [x]) rest)) as [Hm | Hm].
      * by apply Hin.
      * rewrite Hout by done. by rewrite lookup_insert_eq.
    + intros q Hq. apply not_elem_of_cons in Hq as [Hne Hq].
      rewrite Hout by done. by rewrite lookup_insert_ne.
Qed.

Lemma way_clearb_spec p f : way_clearb p f = true → way_clear p f.
Proof.
  unfold way_clearb, way_clear. rewrite forallb_forall.
  intros H q c Hq Hf. specialize (H (length q)).
  assert (Hk : In (length q) (seq 0 (S (length p)))).
  { apply in_seq. apply prefix_length in Hq. lia. }
  specialize (H Hk). destruct Hq as [r ->].
  rewrite take_app_length in H. by rewrite Hf in H.
Qed.

Lemma mkdir_p_ok p w :
  way_clear p (files w) →
  ∃ f', mkdir_p p w = (Ok tt, set_files f' w) ∧
        node_at p f' = Some Dir ∧
        (∀ q c, f' !! q = Some (File c) ↔ files w !! q = Some (File c)) ∧
        (∀ q, ¬ q `prefix_of` p → f' !! q = files w !! q).
Proof.
  intros Hclear.
  destruct (mkdir_from_ok [] p (files w)) as (f' & Hmk & Hin & Hout).
  { intros q c Hq. apply Hclear. by apply made_prefix in Hq. }
  exists f'. unfold mkdir_p. rewrite Hmk. split; [done |]. split; [|split].
  - destruct p as [|x p]; [done |]. simpl. apply Hin.
    apply (made_last [] (x :: p)). done.
  - intros q c. destruct (decide (q ∈ made [] p)) as [Hq | Hq].
    + rewrite (Hin q Hq). split; [done |]. intros Hf.
      exfalso. eapply Hclear; [by apply made_prefix in Hq | done].
    + by rewrite (Hout q Hq).
  - intros q Hq. apply Hout. intros Hm. by apply made_prefix in Hm.
Qed.
End FsFacts.

(* ===================================================================== *)
(** * The organizer *)
(* ===================================================================== *)

Section OrganizerFacts.
Import Py Re Fs.
Variable ROOT_DIR : list string.
Variable today : string.

Lemma exists_found p w n :
  node_at p (files w) = Some n → exists_ p w = (Ok true, w).
Proof. intros H. unfold exists_. rewrite H. by rewrite bool_decide_eq_true_2. Qed.


Lemma read_text_file p w c :
  node_at p (files w) = Some (File c) → read_text p w = (Ok c, w).
Proof. intros H. unfold read_text. by rewrite H. Qed.

Lemma write_text_ok p c w :
  node_at p (files w) ≠ Some Dir → node_at (parent p) (files w) = Some Dir →
  write_text p c w = (Ok tt, set_files (<[p := File c]> (files w)) w).
Proof.
  intros Hp Hpar. unfold write_text. rewrite Hpar.
  by destruct (node_at p (files w)) as [[|]|].
Qed.

Lemma remove_file p w c :
  node_at p (files w) = Some (File c) →
  remove p w = (Ok tt, set_files (delete p (files w)) w).
Proof. intros H. unfold remove. by rewrite H. Qed.

Lemma node_at_file p f c :
  node_at p f = Some (File c) → f !! p = Some (File c) ∧ p ≠ [].
Proof. by destruct p. Qed.

Lemma node_at_app_singleton q x f : node_at (q ++ [x]) f = f !! (q ++ [x]).
Proof. by destruct q. Qed.

Lemma parent_app_singleton q x : parent (q ++ [x]) = q.
Proof. unfold parent. apply removelast_last. Qed.

Lemma not_prefix_app_singleton (q : list string) x : ¬ (q ++ [x]) `prefix_of` q.
Proof.
  intros H%prefix_length. rewrite length_app in H. simpl in H. lia.
Qed.

Ltac io_step H :=
  unfold bind at 1; rewrite H; cbv beta iota;
  unfold set_files; cbn [files out success_count].

(** The root variant on a row whose source is a file and whose
    destination can be written: the destination receives the new header
    and the stripped content, the source is removed, the counter grows. *)
Lemma toolkit_row_archived row w original_path filename content :
  row !! "original_path" = Some original_path →
  row !! "filename" = Some filename →
  let source := pjoin ROOT_DIR original_path in
  let dir := Toolkit.target_dir ROOT_DIR row in
  let target := Toolkit.target_path ROOT_DIR today row filename in
  node_at source (files w) = Some (File content) →
  way_clear dir (files w) →
  target = dir ++ [Toolkit.new_filename today row filename] →
  files w !! target ≠ Some Dir →
  ∃ f' ev,
    Toolkit.organize_row ROOT_DIR today row w =
      (Ok tt,
       World (delete source (<[target := File (Toolkit.archived_text today row content)]> f'))
             (out w ++ [ev]) (S (success_count w))) ∧
    (∀ q c, f' !! q = Some (File c) ↔ files w !! q = Some (File c)).
Proof.
  intros Hop Hfn source dir target Hsrc Hclear Htarget Hnodir.
  destruct (mkdir_p_ok dir w Hclear) as (f' & Hmk & Hdir & Hfile & Hout).
  destruct w as [f o n]. unfold set_files in Hmk. cbn [files out success_count] in *.
  apply node_at_file in Hsrc as Hsrc'. destruct Hsrc' as [Hsrc' Hne].
  assert (Hsrc1 : node_at source f' = Some (File content)).
  { destruct source; [done |]. simpl. by apply Hfile. }
  assert (Hnd : node_at target f' ≠ Some Dir).
  { rewrite Htarget, node_at_app_singleton, Hout, <- Htarget; [done |].
    apply not_prefix_app_singleton. }
  assert (Hpar : node_at (parent target) f' = Some Dir).
  { by rewrite Htarget, parent_app_singleton. }
  set (text := Toolkit.archived_text today row content).
  assert (Hsrc2 : node_at source (<[target := File text]> f')
                  = Some (File (if decide (target = source) then text else content))).
  { destruct source as [|x source]; [done |]. simpl. simpl in Hsrc1.
    rewrite lookup_insert. by destruct (decide (target = x :: source)). }
  exists f'.
  assert (Hrun : ∀ shown_or,
    relative_to ROOT_DIR target = shown_or →
    Toolkit.process_row ROOT_DIR today row (World f o n) =
      match shown_or with
      | Ok shown => print (Moved filename shown)
      | Raise e => raise e
      end (World (delete source (<[target := File text]> f')) o (S n))).
  { intros shown_or Hrel. subst source dir target text.
    unfold Toolkit.process_row.
    unfold bind at 1. unfold lift at 1, getitem at 1. rewrite Hop. cbv beta iota.
    io_step (exists_found _ (World f o n) _ Hsrc). unfold negb.
    io_step Hmk.
    unfold bind at 1. unfold lift at 1, getitem at 1. rewrite Hfn. cbv beta iota.
    io_step (read_text_file _ (World f' o n) content Hsrc1).
    io_step (write_text_ok _ (Toolkit.archived_text today row content)
               (World f' o n) Hnd Hpar).
    io_step (remove_file _ (World _ o n) _ Hsrc2).
    unfold bind at 1. unfold incr_success. cbv beta iota.
    unfold bind at 1. unfold lift at 1. rewrite Hrel.
    by destruct shown_or. }
  destruct (relative_to ROOT_DIR target) as [shown | e] eqn:Hrel.
  - exists (Moved filename shown). split; [|done].
    unfold Toolkit.organize_row, try_except. by rewrite (Hrun _ eq_refl).
  - exists (Error_processing (get row "filename" "unknown") e). split; [|done].
    unfold Toolkit.organize_row, try_except. by rewrite (Hrun _ eq_refl).
Qed.

(** The directive variant on a classified row whose source is a file and
    whose destination can be written: the destination receives the new
    header and the content as it is. *)
Lemma directive_row_archived row w pattern_domain maturation_stage
    filepath filename content :
  row !! "pattern_domain" = Some pattern_domain → pattern_domain ≠ "" →
  row !! "maturation_stage" = Some maturation_stage →
  row !! "filepath" = Some filepath →
  row !! "filename" = Some filename →
  let source := pjoin (Directive.STAGING_DIR ROOT_DIR) filepath in
  let dir := Directive.dest_dir ROOT_DIR pattern_domain maturation_stage in
  let dest := Directive.dest_path ROOT_DIR pattern_domain maturation_stage filename in
  node_at source (files w) = Some (File content) →
  way_clear dir (files w) →
  dest = dir ++ [Directive.dest_filename filename] →
  files w !! dest ≠ Some Dir →
  ∃ f',
    Directive.organize_row ROOT_DIR today row w =
      (Ok tt,
       World (<[dest := File (Directive.archived_text today row pattern_domain
                                maturation_stage content)]> f')
             (out w ++ [MOVE (name source) dest]) (success_count w)) ∧
    (∀ q c, f' !! q = Some (File c) ↔ files w !! q = Some (File c)).
Proof.
  intros Hpd Hne Hms Hfp Hfn source dir dest Hsrc Hclear Hdest Hnodir.
  destruct (mkdir_p_ok dir w Hclear) as (f' & Hmk & Hdir & Hfile & Hout).
  destruct w as [f o n]. unfold set_files in Hmk. cbn [files out success_count] in *.
  apply node_at_file in Hsrc as Hsrc'. destruct Hsrc' as [Hsrc' Hne'].
  assert (Hsrc1 : node_at source f' = Some (File content)).
  { destruct source; [done |]. simpl. by apply Hfile. }
  assert (Hnd : node_at dest f' ≠ Some Dir).
  { rewrite Hdest, node_at_app_singleton, Hout, <- Hdest; [done |].
    apply not_prefix_app_singleton. }
  assert (Hpar : node_at (parent dest) f' = Some Dir).
  { by rewrite Hdest, parent_app_singleton. }
  exists f'. split; [|done]. subst source dir dest.
  unfold Directive.organize_row, get. rewrite Hpd.
  replace (negb (truthy pattern_domain)) with false by (by destruct pattern_domain).
  unfold bind at 1. unfold lift at 1, getitem at 1. rewrite Hfp. cbv beta iota.
  io_step (exists_found _ (World f o n) _ Hsrc). unfold negb.
  unfold bind at 1. unfold lift at 1, getitem at 1. rewrite Hpd. cbv beta iota.
  unfold bind at 1. unfold lift at 1, getitem at 1. rewrite Hms. cbv beta iota.
  io_step Hmk.
  unfold bind at 1. unfold lift at 1, getitem at 1. rewrite Hfn. cbv beta iota.
  unfold try_except at 1.
  io_step (read_text_file _ (World f' o n) content Hsrc1).
  unfold try_except at 1.
  io_step (write_text_ok _ (Directive.archived_text today row pattern_domain
                              maturation_stage content) (World f' o n) Hnd Hpar).
  done.
Qed.

(** C1 (as amended): in the directive variant a row whose
    [pattern_domain] is empty or absent leaves every file as it was; when
    the row has a file name the skip is reported and the loop goes on. *)
Theorem C1_unclassified_row_untouched (row : gmap string string) (w : world) :
  get row "pattern_domain" "" = "" →
  files (Directive.organize_row ROOT_DIR today row w).2 = files w ∧
  ∀ filename, row !! "filename" = Some filename →
    Directive.organize_row ROOT_DIR today row w =
      (Ok tt, World (files w) (out w ++ [SKIP_no_domain filename]) (success_count w)).
Proof.
  intros Hd. unfold Directive.organize_row. rewrite Hd. cbn [truthy negb].
  unfold bind, lift, getitem, print.
  destruct (row !! "filename") as [fn|]; split; try done.
  intros filename [= ->]. done.
Qed.


(** C2 (as amended), for the root variant and a row with a text in every
    cell, as the rows of this model are.  When the source of the row is a
    file that holds a text, no file lies on the way to the target
    directory, the new file name is one path component, the target is
    no directory, and neither the source path nor the target has a step
    up: the row is processed, nothing is left at the source
    path, and, unless the target is the source path itself, the target
    holds the new header followed by the source content with its leading
    header block removed once: a content that starts with a block, taken
    up to its first closing line, is replaced by what follows the block,
    and a content without one is kept whole.  A row whose target is its
    own source loses the note: it is written and removed again. *)
Theorem C2_source_removed_header_replaced
    (row : gmap string string) (w : world)
    (original_path filename content : string) :
  row !! "original_path" = Some original_path →
  row !! "filename" = Some filename →
  node_at (pjoin ROOT_DIR original_path) (files w) = Some (File content) →
  way_clear (Toolkit.target_dir ROOT_DIR row) (files w) →
  Toolkit.target_path ROOT_DIR today row filename =
    Toolkit.target_dir ROOT_DIR row ++ [Toolkit.new_filename today row filename] →
  files w !! Toolkit.target_path ROOT_DIR today row filename ≠ Some Dir →
  Spec.plain (pjoin ROOT_DIR original_path) →
  Spec.plain (Toolkit.target_path ROOT_DIR today row filename) →
  ∃ w',
    Toolkit.organize_row ROOT_DIR today row w = (Ok tt, w') ∧
    node_at (pjoin ROOT_DIR original_path) (files w') = None ∧
    (Toolkit.target_path ROOT_DIR today row filename ≠ pjoin ROOT_DIR original_path →
     files w' !! Toolkit.target_path ROOT_DIR today row filename =
       Some (File (Toolkit.frontmatter today row +:+ strip_frontmatter content))) ∧
    (∀ h body,
       content = fm_open +:+ h +:+ fm_close +:+ body →
       (∀ h' body', content = fm_open +:+ h' +:+ fm_close +:+ body' →
                    String.length h ≤ String.length h') →
       strip_frontmatter content = body) ∧
    ((∀ h body, content ≠ fm_open +:+ h +:+ fm_close +:+ body) →
     strip_frontmatter content = content) ∧
    (Toolkit.target_path ROOT_DIR today row filename = pjoin ROOT_DIR original_path →
     files w' !! Toolkit.target_path ROOT_DIR today row filename = None).
Proof.
  intros Hop Hfn Hsrc Hclear Htarget Hnodir _ _.
  destruct (toolkit_row_archived row w original_path filename content
              Hop Hfn Hsrc Hclear Htarget Hnodir) as (f' & ev & Hrun & Hfile).
  eexists. split; [exact Hrun |]. cbn [files].
  apply node_at_file in Hsrc as [_ Hne].
  split; [|split; [|split; [|split]]].
  - destruct (pjoin ROOT_DIR original_path) as [|x q] eqn:Hq; [done |].
    simpl. apply lookup_delete_eq.
  - intros Hdiff. rewrite lookup_delete_ne by done. by rewrite lookup_insert_eq.
  - intros h body. apply strip_frontmatter_block.
  - apply strip_frontmatter_none.
  - intros ->. apply lookup_delete_eq.
Qed.

Lemma directive_dest_dir_tradecraft :
  Directive.dest_dir ROOT_DIR "Tradecraft " "Formalized Framework" =
    Directive.ARCHIVE_DIR ROOT_DIR ++ ["tradecraft"; "formalized_frameworks"].
Proof.
  transitivity ((Directive.ARCHIVE_DIR ROOT_DIR ++ ["tradecraft"])
                ++ ["formalized_frameworks"]); [reflexivity |].
  by rewrite <- app_assoc.
Qed.

Lemma directive_tags_value row tags :
  row !! "pattern_tags" = Some tags → startswith "[" tags = false →
  Directive.tags_value row = Json.dumps (stripped_items "," tags).
Proof.
  intros Hrow Hsw. unfold Directive.tags_value, get. rewrite Hrow, Hsw.
  by destruct tags.
Qed.

(** C3 (as amended): the directive variant files a row with domain
    "Tradecraft " and stage "Formalized Framework" under
    [tradecraft/formalized_frameworks] in the archive, and the header
    starts with the lowercased, hyphenated domain, the stage as given, and
    the tag field written as a JSON array of strings: the field is cut at
    commas, so a field that only has semicolons is one string of the
    array.  The root variant writes the semicolon-separated items of the
    tag field as a JSON array, after the domain and the stage as given. *)
Theorem C3_tradecraft_formalized_framework
    (row : gmap string string) (w : world)
    (filepath filename tags content : string) :
  row !! "pattern_domain" = Some "Tradecraft " →
  row !! "maturation_stage" = Some "Formalized Framework" →
  row !! "pattern_tags" = Some tags → startswith "[" tags = false →
  row !! "filepath" = Some filepath →
  row !! "filename" = Some filename →
  node_at (pjoin (Directive.STAGING_DIR ROOT_DIR) filepath) (files w)
    = Some (File content) →
  way_clear (Directive.ARCHIVE_DIR ROOT_DIR ++ ["tradecraft"; "formalized_frameworks"])
            (files w) →
  pjoin (Directive.ARCHIVE_DIR ROOT_DIR ++ ["tradecraft"; "formalized_frameworks"])
        (Directive.dest_filename filename)
    = Directive.ARCHIVE_DIR ROOT_DIR
      ++ ["tradecraft"; "formalized_frameworks"] ++ [Directive.dest_filename filename] →
  files w !! (Directive.ARCHIVE_DIR ROOT_DIR
              ++ ["tradecraft"; "formalized_frameworks"]
              ++ [Directive.dest_filename filename]) ≠ Some Dir →
  (∃ w' rest,
     Directive.organize_row ROOT_DIR today row w = (Ok tt, w') ∧
     files w' !! (Directive.ARCHIVE_DIR ROOT_DIR
                  ++ ["tradecraft"; "formalized_frameworks"]
                  ++ [Directive.dest_filename filename])
       = Some (File ("---" +:+ nl
                     +:+ "patterndomain: tradecraft" +:+ nl
                     +:+ "maturationstage: Formalized Framework" +:+ nl
                     +:+ "patterntags: " +:+ Json.dumps (stripped_items "," tags)
                     +:+ nl +:+ rest)) ∧
     Json.loads (Json.dumps (stripped_items "," tags))
       = Some (stripped_items "," tags)) ∧
  (∀ row', ∃ rest,
     Toolkit.frontmatter today row' =
       "---" +:+ nl
       +:+ "patterndomain: " +:+ get row' "suggested_domain" "mixed-pattern" +:+ nl
       +:+ "maturationstage: " +:+ get row' "maturation_stage" "experientialdata"
       +:+ nl
       +:+ "patterntags: "
       +:+ Json.dumps (stripped_items ";" (get row' "suggested_tags" "")) +:+ nl
       +:+ rest ∧
     Json.loads (Json.dumps (stripped_items ";" (get row' "suggested_tags" "")))
       = Some (stripped_items ";" (get row' "suggested_tags" ""))).
Proof.
  intros Hpd Hms Htags Hsw Hfp Hfn Hsrc Hclear Hleaf Hnodir.
  split.
  - destruct (directive_row_archived row w "Tradecraft " "Formalized Framework"
                filepath filename content) as (f' & Hrun & _); try done.
    + by rewrite directive_dest_dir_tradecraft.
    + unfold Directive.dest_path.
      by rewrite directive_dest_dir_tradecraft, Hleaf, app_assoc.
    + unfold Directive.dest_path.
      by rewrite directive_dest_dir_tradecraft, Hleaf.
    + eexists _, _. split; [exact Hrun |]. split; [|apply loads_dumps].
      cbn [files]. unfold Directive.dest_path.
      rewrite directive_dest_dir_tradecraft, Hleaf, lookup_insert_eq.
      unfold Directive.archived_text.
      rewrite (directive_tags_value row tags Htags Hsw).
      reflexivity.
  - intros row'. eexists. split; [reflexivity | apply loads_dumps].
Qed.

End OrganizerFacts.

(* ===================================================================== *)
(** * Worked examples of the organizer *)
(* ===================================================================== *)

Section OrganizerExamples.
Import Py Re Fs.

Lemma C1_unclassified_row_untouched_witness :
  files (Directive.organize_row Sample.ROOT_DIR Sample.today
           (Sample.directive_row "" "raw" "") (Sample.start "Hello")).2
    = files (Sample.start "Hello") ∧
  Directive.organize_row Sample.ROOT_DIR Sample.today
    (Sample.directive_row "" "raw" "") (Sample.start "Hello")
    = (Ok tt, World (files (Sample.start "Hello"))
                    (out (Sample.start "Hello") ++ [SKIP_no_domain "foo.md"])
                    (success_count (Sample.start "Hello"))).
Proof.
  destruct (C1_unclassified_row_untouched Sample.ROOT_DIR Sample.today
              (Sample.directive_row "" "raw" "") (Sample.start "Hello"))
    as [H1 H2]; [reflexivity |].
  split; [exact H1 | apply H2; reflexivity].
Defined.

(** C1, as stated, fails in the root variant, which has no guard on the
    domain: a row with an empty domain and an existing source is
    archived, under the archive root itself, and its source removed. *)
Lemma C1_counterexample :
  get (Sample.toolkit_row "" "" "") "suggested_domain" "mixed-pattern" = "" ∧
  files (Sample.start "Hello") !! Sample.staged = Some (File "Hello") ∧
  files (Toolkit.organize_row Sample.ROOT_DIR Sample.today
           (Sample.toolkit_row "" "" "") (Sample.start "Hello")).2
    !! Sample.staged = None ∧
  files (Toolkit.organize_row Sample.ROOT_DIR Sample.today
           (Sample.toolkit_row "" "" "") (Sample.start "Hello")).2
    !! ["home"; "user"; "knowledge-archive"; "experiential_data";
        "-foo-2026-11-03.md"]
    = Some (File (Toolkit.archived_text Sample.today (Sample.toolkit_row "" "" "")
                    "Hello")).
Proof. by vm_compute. Qed.



Lemma C2_source_removed_header_replaced_witness :
  ∃ w',
    Toolkit.organize_row Sample.ROOT_DIR Sample.today
      (Sample.toolkit_row "tradecraft" "formalizedframework" "humint;code-snippet")
      (Sample.start Sample.headed_note) = (Ok tt, w') ∧
    node_at Sample.staged (files w') = None ∧
    files w' !! ["home"; "user"; "knowledge-archive"; "tradecraft";
                 "formalized_frameworks"; "tradecraft-foo-2026-11-03.md"]
      = Some (File (Toolkit.frontmatter Sample.today
                      (Sample.toolkit_row "tradecraft" "formalizedframework"
                         "humint;code-snippet") +:+ "Body")).
Proof.
  destruct (C2_source_removed_header_replaced Sample.ROOT_DIR Sample.today
              (Sample.toolkit_row "tradecraft" "formalizedframework"
                 "humint;code-snippet")
              (Sample.start Sample.headed_note)
              "notebooklm-import-raw/foo.md" "foo.md" Sample.headed_note)
    as (w' & Hrun & Hgone & Hfile & _ & _).
  - reflexivity.
  - reflexivity.
  - reflexivity.
  - apply way_clearb_spec. by vm_compute.
  - by vm_compute.
  - by vm_compute.
  - apply (bool_decide_eq_false_1 _). by vm_compute.
  - apply (bool_decide_eq_false_1 _). by vm_compute.
  - exists w'. split; [exact Hrun |]. split; [exact Hgone |].
    apply Hfile. by vm_compute.
Defined.

(** C2, as stated, fails.  The directive variant writes the source
    content as it is: a source that starts with a header keeps it below
    the new one.  The root variant removes one leading block: of two
    blocks in a row the second stays at the start of the body. *)
Lemma C2_counterexample :
  Sample.headed_note = fm_open +:+ "old: 1" +:+ fm_close +:+ "Body" ∧
  files (Directive.organize_row Sample.ROOT_DIR Sample.today
           (Sample.directive_row "tradecraft" "raw" "humint")
           (Sample.start Sample.headed_note)).2
    !! ["home"; "user"; "archive"; "tradecraft"; "experiential_data"; "foo.md"]
    = Some (File (join nl ("---"
                    :: Directive.header_lines Sample.today "tradecraft" "raw"
                         (Json.dumps ["humint"])
                    ++ ["---"; ""]) +:+ nl +:+ Sample.headed_note)) ∧
  strip_frontmatter (fm_open +:+ "older: 0" +:+ fm_close +:+ Sample.headed_note)
    = Sample.headed_note.
Proof. by vm_compute. Qed.

Lemma C3_tradecraft_formalized_framework_witness :
  ∃ w' rest,
    Directive.organize_row Sample.ROOT_DIR Sample.today
      (Sample.directive_row "Tradecraft " "Formalized Framework" "humint;code-snippet")
      (Sample.start "Hello") = (Ok tt, w') ∧
    files w' !! ["home"; "user"; "archive"; "tradecraft"; "formalized_frameworks";
                 "foo.md"]
      = Some (File ("---" +:+ nl
                    +:+ "patterndomain: tradecraft" +:+ nl
                    +:+ "maturationstage: Formalized Framework" +:+ nl
                    +:+ "patterntags: " +:+ Json.dumps ["humint;code-snippet"]
                    +:+ nl +:+ rest)).
Proof.
  destruct (C3_tradecraft_formalized_framework Sample.ROOT_DIR Sample.today
              (Sample.directive_row "Tradecraft " "Formalized Framework"
                 "humint;code-snippet")
              (Sample.start "Hello") "foo.md" "foo.md" "humint;code-snippet" "Hello")
    as [(w' & rest & Hrun & Hfile & _) _].
  - reflexivity.
  - reflexivity.
  - reflexivity.
  - reflexivity.
  - reflexivity.
  - reflexivity.
  - reflexivity.
  - apply way_clearb_spec. by vm_compute.
  - by vm_compute.
  - by vm_compute.
  - exists w', rest. split; [exact Hrun | exact Hfile].
Defined.

(** C3, as stated, fails in the root variant, which takes the domain and
    the stage as the manifest gives them: the file goes under a folder
    named after the raw domain, in the default stage folder, and the
    header carries the raw domain. *)
Lemma C3_counterexample :
  ∃ rest,
    files (Toolkit.organize_row Sample.ROOT_DIR Sample.today
             (Sample.toolkit_row "Tradecraft " "Formalized Framework"
                "humint;code-snippet")
             (Sample.start "Hello")).2
      !! ["home"; "user"; "knowledge-archive"; "Tradecraft "; "experiential_data";
          "Tradecraft -foo-2026-11-03.md"]
      = Some (File ("---" +:+ nl +:+ "patterndomain: Tradecraft " +:+ nl +:+ rest)) ∧
    files (Toolkit.organize_row Sample.ROOT_DIR Sample.today
             (Sample.toolkit_row "Tradecraft " "Formalized Framework"
                "humint;code-snippet")
             (Sample.start "Hello")).2
      !! ["home"; "user"; "knowledge-archive"; "tradecraft"; "formalized_frameworks";
          "Tradecraft -foo-2026-11-03.md"] = None.
Proof. eexists. by vm_compute. Qed.
End OrganizerExamples.

(* ===================================================================== *)
(** * The taxonomy validator *)
(* ===================================================================== *)

Section Validator.
Import Py Spec Toolkit.

Lemma row_issues_flagged vd vt row filename :
  row !! "filename" = Some filename →
  ∃ here, row_issues vd vt row = Ok here ∧
          ∀ i, i ∈ here ↔ flagged vd vt row filename i.
Proof.
  intros Hfn. unfold row_issues, getitem. rewrite Hfn. cbn [rbind].
  eexists. split; [reflexivity |]. intros i. rewrite elem_of_app. unfold flagged.
  assert (Hdom :
    i ∈ match row !! "suggested_domain" with
        | Some domain =>
            if truthy domain && bool_decide (domain ∉ vd)
            then [Invalid_domain filename domain (sorted_ids vd)] else []
        | None => []
        end ↔
    ∃ domain, row !! "suggested_domain" = Some domain ∧ domain ≠ "" ∧
              (domain ∉ vd) ∧ i = Invalid_domain filename domain (sorted_ids vd)).
  { destruct (row !! "suggested_domain") as [d|] eqn:Hd.
    - destruct d as [|c d]; cbn [truthy andb].
      + split; [by intros ?%elem_of_nil |]. by intros (? & [= <-] & ? & _).
      + case_bool_decide as Hin.
        * rewrite list_elem_of_singleton. split.
          -- intros ->. by exists (String c d).
          -- by intros (? & [= <-] & _ & _ & ->).
        * split; [by intros ?%elem_of_nil |]. by intros (? & [= <-] & _ & ? & _).
    - split; [by intros ?%elem_of_nil |]. by intros (? & ? & _). }
  assert (Htag :
    i ∈ (λ tag, Invalid_tag filename tag (sorted_ids vt))
          <$> filter (λ tag, tag ∉ vt) (stripped_items ";" (get row "suggested_tags" "")) ↔
    ∃ tag, tag ∈ stripped_items ";" (get row "suggested_tags" "") ∧
           (tag ∉ vt) ∧ i = Invalid_tag filename tag (sorted_ids vt)).
  { rewrite list_elem_of_fmap. split.
    - intros (t & -> & [Ht Hin]%list_elem_of_filter). eauto.
    - intros (t & Hin & Ht & ->). exists t. split; [done |].
      by apply list_elem_of_filter. }
  tauto.
Qed.

Lemma collect_issues_flagged vd vt rows :
  (∀ row, row ∈ rows → is_Some (row !! "filename")) →
  ∃ issues,
    collect_issues vd vt rows = Ok issues ∧
    ∀ i, i ∈ issues ↔
         ∃ row filename, row ∈ rows ∧ row !! "filename" = Some filename ∧
                         flagged vd vt row filename i.
Proof.
  induction rows as [|row rows IH]; intros Hfn.
  - exists []. split; [done |]. intros i. split.
    + by intros ?%elem_of_nil.
    + by intros (? & ? & ?%elem_of_nil & _).
  - destruct (Hfn row) as [filename Hrow]; [by left |].
    destruct (row_issues_flagged vd vt row filename Hrow) as (here & Hhere & Hin).
    destruct IH as (there & Hthere & Hin').
    { intros r Hr. apply Hfn. by right. }
    exists (here ++ there). cbn [collect_issues]. rewrite Hhere, Hthere.
    split; [done |]. intros i. rewrite elem_of_app, Hin, Hin'. split.
    + intros [Hf | (r & fn & Hr & Hfnr & Hf)].
      * exists row, filename. split; [by left | done].
      * exists r, fn. split; [by right | done].
    + intros (r & fn & [-> | Hr]%elem_of_cons & Hfnr & Hf).
      * left. by simplify_eq.
      * right. eauto.
Qed.

Lemma sorted_ids_spec (ids : gset string) :
  Sorted String.le (sorted_ids ids) ∧ ∀ x, x ∈ sorted_ids ids ↔ x ∈ ids.
Proof.
  unfold sorted_ids. split.
  - apply (Sorted_merge_sort String.le).
  - intros x. rewrite (merge_sort_Permutation String.le). apply elem_of_elements.
Qed.

Lemma elem_of_valid_ids (table : option taxonomy) (x : string) :
  x ∈ valid_ids table ↔ table_id table x.
Proof.
  destruct table as [[ids|entries]|]; simpl.
  - apply elem_of_list_to_set.
  - rewrite elem_of_list_to_set, list_elem_of_fmap. split.
    + intros (e & -> & He). by exists e.
    + intros (e & He & <-). by exists e.
  - apply elem_of_empty.
Qed.

Lemma elem_of_row_tags (row : gmap string string) (tag : string) :
  tag ∈ stripped_items ";" (get row "suggested_tags" "") ↔ row_tag row tag.
Proof.
  unfold stripped_items, row_tag. rewrite list_elem_of_filter, list_elem_of_fmap.
  split; intros (Hne & piece & Ha & Hb); (split; [done | by exists piece]).
Qed.

Lemma expected_ids_sorted (table : option taxonomy) :
  expected_ids table (sorted_ids (valid_ids table)).
Proof.
  split; [|split].
  - apply sorted_ids_spec.
  - unfold sorted_ids. rewrite (merge_sort_Permutation String.le).
    apply NoDup_elements.
  - intros x. rewrite <- elem_of_valid_ids. apply sorted_ids_spec.
Qed.

Lemma expected_ids_unique (table : option taxonomy) (l : list string) :
  expected_ids table l → l = sorted_ids (valid_ids table).
Proof.
  intros (Hs & Hn & Hin).
  destruct (expected_ids_sorted table) as (Hs' & Hn' & Hin').
  apply (Sorted_unique String.le); [done | done |].
  apply NoDup_Permutation; [done | done |]. intros x. by rewrite Hin, Hin'.
Qed.

Lemma flagged_must_flag domains tags row filename i :
  flagged (valid_ids domains) (valid_ids tags) row filename i ↔
  must_flag domains tags row filename i.
Proof.
  unfold flagged, must_flag. split.
  - intros [(d & Hd & Hne & Hnin & ->) | (t & Ht & Hnin & ->)].
    + left. exists d, (sorted_ids (valid_ids domains)).
      split; [done |]. split; [done |]. split; [by rewrite <- elem_of_valid_ids |].
      split; [apply expected_ids_sorted | done].
    + right. exists t, (sorted_ids (valid_ids tags)).
      split; [by apply elem_of_row_tags |].
      split; [by rewrite <- elem_of_valid_ids |].
      split; [apply expected_ids_sorted | done].
  - intros [(d & e & Hd & Hne & Hnin & He & ->) | (t & e & Ht & Hnin & He & ->)].
    + left. exists d. rewrite (expected_ids_unique _ _ He).
      split; [done |]. split; [done |]. split; [by rewrite elem_of_valid_ids | done].
    + right. exists t. rewrite (expected_ids_unique _ _ He).
      split; [by apply elem_of_row_tags |].
      split; [by rewrite elem_of_valid_ids | done].
Qed.

(** The table [load_table] gets from what is at the place of a taxonomy
    file. *)
Local Abbreviation loaded json_load at_file :=
  (match at_file with
   | None => Ok None
   | Some (Fs.File text) => rbind (json_load text) (λ t : taxonomy, Ok (Some t))
   | Some Fs.Dir => Raise IsADirectoryError
   end).

Lemma load_table_run json_load file f (o : list validate_line) :
  load_table json_load file (Cmd.Session f o)
  = (loaded json_load (Fs.node_at file f), Cmd.Session f o).
Proof.
  unfold load_table, Cmd.bind, Cmd.on_disk, Fs.exists_, Fs.read_text, Cmd.lift, Cmd.ret.
  cbn. destruct (Fs.node_at file f) as [[text|]|] eqn:Hat; cbn; rewrite ?Hat; [|done..].
  by destruct (json_load text).
Qed.

Lemma load_taxonomy_run ROOT_DIR json_load f (o : list validate_line) :
  load_taxonomy ROOT_DIR json_load (Cmd.Session f o)
  = match loaded json_load
            (Fs.node_at (Fs.pjoin (TAXONOMY_DIR ROOT_DIR) "domains.json") f) with
    | Ok domains =>
        match loaded json_load
                (Fs.node_at (Fs.pjoin (TAXONOMY_DIR ROOT_DIR) "tags.json") f) with
        | Ok tags => (Ok (Some (domains, tags)), Cmd.Session f o)
        | Raise e => (Ok None, Cmd.Session f (o ++ [Error_loading_taxonomy e]))
        end
    | Raise e => (Ok None, Cmd.Session f (o ++ [Error_loading_taxonomy e]))
    end.
Proof.
  unfold load_taxonomy, Cmd.try_except, Cmd.bind. rewrite load_table_run.
  destruct (loaded json_load
              (Fs.node_at (Fs.pjoin (TAXONOMY_DIR ROOT_DIR) "domains.json") f))
    as [domains|e]; [|done].
  rewrite load_table_run.
  by destruct (loaded json_load
                 (Fs.node_at (Fs.pjoin (TAXONOMY_DIR ROOT_DIR) "tags.json") f)).
Qed.

(** What the command returns and prints is fixed by what is at the
    places of the manifest and of the two taxonomy files, and the files
    are as they were. *)
Lemma validate_manifest_command_run ROOT_DIR read_rows json_load
    (at_manifest at_domains at_tags : option Fs.node) :
  ∃ (r : result unit) (lines : list validate_line), ∀ f,
    Fs.node_at (MANIFEST_FILE ROOT_DIR) f = at_manifest →
    Fs.node_at (Fs.pjoin (TAXONOMY_DIR ROOT_DIR) "domains.json") f = at_domains →
    Fs.node_at (Fs.pjoin (TAXONOMY_DIR ROOT_DIR) "tags.json") f = at_tags →
    ∀ o, validate_manifest_command ROOT_DIR read_rows json_load (Cmd.Session f o)
         = (r, Cmd.Session f (o ++ lines)).
Proof.
  destruct at_manifest as [at_manifest|].
  2:{ exists (Ok tt), [Report Validation_manifest_not_found]. intros f Hm _ _ o.
      unfold validate_manifest_command, Cmd.bind, Cmd.on_disk, Fs.exists_.
      cbn -[validate_manifest]. by rewrite Hm. }
  destruct (loaded json_load at_domains) as [domains|e] eqn:Hdomains.
  2:{ exists (Ok tt), [Error_loading_taxonomy e]. intros f Hm Hd Ht o.
      unfold validate_manifest_command, Cmd.bind at 1, Cmd.on_disk, Fs.exists_.
      cbn -[validate_manifest]. rewrite Hm. cbn -[validate_manifest]. unfold Cmd.bind. rewrite load_taxonomy_run, Hd, Hdomains.
      done. }
  destruct (loaded json_load at_tags) as [tags|e] eqn:Htags.
  2:{ exists (Ok tt), [Error_loading_taxonomy e]. intros f Hm Hd Ht o.
      unfold validate_manifest_command, Cmd.bind at 1, Cmd.on_disk, Fs.exists_.
      cbn -[validate_manifest]. rewrite Hm. cbn -[validate_manifest]. unfold Cmd.bind.
      rewrite load_taxonomy_run, Hd, Hdomains, Ht, Htags. done. }
  destruct at_manifest as [text|].
  2:{ exists (Raise IsADirectoryError), [Validating_manifest_against_taxonomy].
      intros f Hm Hd Ht o.
      unfold validate_manifest_command, Cmd.bind at 1, Cmd.on_disk, Fs.exists_.
      cbn -[validate_manifest]. rewrite Hm. cbn -[validate_manifest]. unfold Cmd.bind.
      rewrite load_taxonomy_run, Hd, Hdomains, Ht, Htags.
      unfold Cmd.print, Cmd.on_disk, Fs.read_text. cbn -[validate_manifest]. by rewrite Hm. }
  destruct (validate_manifest (Some (read_rows text)) domains tags) as [rep|e] eqn:Hrep.
  - exists (Ok tt), [Validating_manifest_against_taxonomy; Report rep].
    intros f Hm Hd Ht o.
    unfold validate_manifest_command, Cmd.bind at 1, Cmd.on_disk, Fs.exists_.
    cbn -[validate_manifest]. rewrite Hm. cbn -[validate_manifest]. unfold Cmd.bind.
    rewrite load_taxonomy_run, Hd, Hdomains, Ht, Htags.
    unfold Cmd.print, Cmd.on_disk, Fs.read_text, Cmd.lift. cbn -[validate_manifest].
    rewrite Hm, Hrep. cbn -[validate_manifest]. by rewrite <- app_assoc.
  - exists (Raise e), [Validating_manifest_against_taxonomy].
    intros f Hm Hd Ht o.
    unfold validate_manifest_command, Cmd.bind at 1, Cmd.on_disk, Fs.exists_.
    cbn -[validate_manifest]. rewrite Hm. cbn -[validate_manifest]. unfold Cmd.bind.
    rewrite load_taxonomy_run, Hd, Hdomains, Ht, Htags.
    unfold Cmd.print, Cmd.on_disk, Fs.read_text, Cmd.lift. cbn -[validate_manifest].
    by rewrite Hm, Hrep.
Qed.

Lemma holds_table_loaded json_load f file table :
  holds_table json_load f file table →
  loaded json_load (Fs.node_at file f) = Ok table.
Proof.
  destruct table as [t|]; simpl.
  - intros (text & -> & Hload). by rewrite Hload.
  - by intros ->.
Qed.

(** C4 (as amended): on a manifest whose rows all have a [filename] cell
    and a text in every cell, whatever the shape of the two taxonomy
    tables (missing, bare ids, or records with an id), the validator
    collects exactly the issues of the specification: one for each row
    whose non-empty domain is no id of the domain table, one for each tag
    of a row that is no id of the tag table, each naming the ids of its
    table in ascending order, and no other.  The report is the success
    message exactly when there is no issue; otherwise it gives the number
    of all issues and shows the first ten.  Run on files that hold the
    manifest and the tables, the command prints that report and leaves
    every file as it was.  The valid ids of a table are its ids: a table
    of records and the table of its bare ids give the same.  Whatever
    the files hold, the command changes none of them, and what it
    returns and prints is fixed by what is at the places of the manifest
    and of the two taxonomy files: it is the same whatever was printed
    before and whatever else the files hold, so a second run after the
    first gives the same lines. *)
Theorem C4_validator_flags_exactly_the_unknown
    (ROOT_DIR : list string)
    (read_rows : string → list (gmap string string))
    (json_load : string → result taxonomy)
    (rows : list (gmap string string)) (domains tags : option taxonomy) :
  (∀ row, row ∈ rows → is_Some (row !! "filename")) →
  let manifest_file := MANIFEST_FILE ROOT_DIR in
  let domains_file := Fs.pjoin (TAXONOMY_DIR ROOT_DIR) "domains.json" in
  let tags_file := Fs.pjoin (TAXONOMY_DIR ROOT_DIR) "tags.json" in
  let run := validate_manifest_command ROOT_DIR read_rows json_load in
  (∃ issues,
     collect_issues (valid_ids domains) (valid_ids tags) rows = Ok issues ∧
     (∀ i, i ∈ issues ↔
           ∃ row filename, row ∈ rows ∧ row !! "filename" = Some filename ∧
                           must_flag domains tags row filename i) ∧
     let report :=
       match issues with
       | [] => Validation_successful
       | _ => Validation_failed (length issues) (take 10 issues)
                (if bool_decide (10 < length issues)
                 then Some (length issues - 10) else None)
       end in
     validate_manifest (Some rows) domains tags = Ok report ∧
     (∀ f text o,
        Fs.node_at manifest_file f = Some (Fs.File text) → read_rows text = rows →
        holds_table json_load f domains_file domains →
        holds_table json_load f tags_file tags →
        run (Cmd.Session f o)
        = (Ok tt, Cmd.Session f (o ++ [Validating_manifest_against_taxonomy;
                                       Report report])))) ∧
  (∀ table x, x ∈ valid_ids table ↔ table_id table x) ∧
  (∀ entries, valid_ids (Some (Entries entries))
              = valid_ids (Some (Bare (id <$> entries)))) ∧
  (∀ table, expected_ids table (sorted_ids (valid_ids table))) ∧
  (∀ f, ∃ r lines, ∀ g,
     Fs.node_at manifest_file g = Fs.node_at manifest_file f →
     Fs.node_at domains_file g = Fs.node_at domains_file f →
     Fs.node_at tags_file g = Fs.node_at tags_file f →
     ∀ o, run (Cmd.Session g o) = (r, Cmd.Session g (o ++ lines))).
Proof.
  intros Hfn manifest_file domains_file tags_file run.
  split; [|split; [|split; [|split]]].
  - destruct (collect_issues_flagged (valid_ids domains) (valid_ids tags) rows Hfn)
      as (issues & Hcollect & Hin).
    exists issues. split; [done |]. split.
    { intros i. rewrite Hin. split.
      - intros (row & fn & Hrow & Hname & Hflag). exists row, fn.
        split; [done |]. split; [done |]. by apply flagged_must_flag.
      - intros (row & fn & Hrow & Hname & Hflag). exists row, fn.
        split; [done |]. split; [done |]. by apply flagged_must_flag. }
    intros report.
    assert (Hreport : validate_manifest (Some rows) domains tags = Ok report).
    { unfold validate_manifest. by rewrite Hcollect. }
    split; [done |]. intros f text o Hm Hrows Hd Ht.
    unfold run, validate_manifest_command, Cmd.bind at 1, Cmd.on_disk, Fs.exists_.
    cbn -[validate_manifest]. fold manifest_file. rewrite Hm. cbn -[validate_manifest]. unfold Cmd.bind.
    rewrite load_taxonomy_run.
    fold domains_file tags_file.
    rewrite (holds_table_loaded _ _ _ _ Hd), (holds_table_loaded _ _ _ _ Ht).
    unfold Cmd.print, Cmd.on_disk, Fs.read_text, Cmd.lift. cbn -[validate_manifest].
    fold manifest_file. rewrite Hm, Hrows, Hreport. cbn -[validate_manifest]. by rewrite <- app_assoc.
  - apply elem_of_valid_ids.
  - done.
  - apply expected_ids_sorted.
  - intros f.
    destruct (validate_manifest_command_run ROOT_DIR read_rows json_load
                (Fs.node_at manifest_file f) (Fs.node_at domains_file f)
                (Fs.node_at tags_file f)) as (r & lines & Hrun).
    exists r, lines. intros g Hm Hd Ht o. by apply Hrun.
Qed.

Lemma C4_validator_flags_exactly_the_unknown_witness :
  ∃ issues,
    collect_issues (valid_ids (Some DEFAULT_DOMAINS)) (valid_ids (Some DEFAULT_TAGS))
      Sample.manifest = Ok issues ∧
    validate_manifest_command Sample.ROOT_DIR (λ _, Sample.manifest) Sample.load_stub
      (Cmd.Session Sample.validated [])
    = (Ok tt,
       Cmd.Session Sample.validated
         [Validating_manifest_against_taxonomy;
          Report (Validation_failed (length issues) (take 10 issues) None)]).
Proof.
  destruct (C4_validator_flags_exactly_the_unknown Sample.ROOT_DIR
              (λ _, Sample.manifest) Sample.load_stub Sample.manifest
              (Some DEFAULT_DOMAINS) (Some DEFAULT_TAGS))
    as [(issues & Hcollect & _ & Hreport) _].
  - intros row Hrow. unfold Sample.manifest in Hrow.
    apply elem_of_cons in Hrow as [-> | Hrow]; [by eexists |].
    apply list_elem_of_singleton in Hrow as ->. by eexists.
  - cbv zeta in Hreport. destruct Hreport as [_ Hrun].
    specialize (Hrun Sample.validated "manifest" []).
    exists issues. split; [exact Hcollect |].
    rewrite Hrun.
    + vm_compute in Hcollect. injection Hcollect as <-. reflexivity.
    + vm_compute. reflexivity.
    + reflexivity.
    + exists (dump_stub DEFAULT_DOMAINS). split; vm_compute; reflexivity.
    + exists (dump_stub DEFAULT_TAGS). split; vm_compute; reflexivity.
Defined.

Lemma C4_counterexample :
  Sample.toolkit_row_unnamed !! "suggested_domain" = Some "astrology" ∧
  ¬ table_id (Some DEFAULT_DOMAINS) "astrology" ∧
  validate_manifest (Some [Sample.toolkit_row_unnamed])
    (Some DEFAULT_DOMAINS) (Some DEFAULT_TAGS) = Raise (KeyError "filename") ∧
  validate_manifest_command Sample.ROOT_DIR (λ _, [Sample.toolkit_row_unnamed])
    Sample.load_stub (Cmd.Session Sample.validated [])
  = (Raise (KeyError "filename"),
     Cmd.Session Sample.validated [Validating_manifest_against_taxonomy]).
Proof.
  split; [vm_compute; reflexivity |]. split; [|split].
  - intros Hid%elem_of_valid_ids. revert Hid.
    apply (bool_decide_eq_false_1 _). vm_compute. reflexivity.
  - vm_compute. reflexivity.
  - vm_compute. reflexivity.
Qed.

End Validator.

(* ===================================================================== *)
(** * Reading the header back *)
(* ===================================================================== *)

Section HeaderRoundTrip.
Import Py Re Spec Fs.
Local Arguments String.append : simpl nomatch.
Variable today : string.

Lemma split_once_prefix sep y : split_once sep (sep +:+ y) = Some ("", y).
Proof.
  rewrite split_once_eq.
  rewrite (proj2 (startswith_spec sep (sep +:+ y))) by eauto.
  by rewrite drop_sapp.
Qed.

Lemma rstrip_nospace_app key y :
  nospace key = true → rstrip (key +:+ y) = key +:+ rstrip y.
Proof.
  induction key as [|c key IH]; intros Hk; [done |].
  simpl in Hk. apply andb_true_iff in Hk as [Hc Hk]. apply negb_true_iff in Hc.
  rewrite sapp_cons, rstrip_cons_nonspace by done. by rewrite IH.
Qed.

(** A line made of a key with its colon, one space and a value, once
    stripped. *)
Lemma strip_key_line c key v :
  nospace (String c key) = true →
  strip (String c key +:+ String " " v) = String c key +:+ rstrip (String " " v).
Proof.
  intros Hk. unfold strip.
  assert (Hc : isspace c = false).
  { simpl in Hk. apply andb_true_iff in Hk as [Hc _]. by apply negb_true_iff. }
  rewrite sapp_cons. cbn [lstrip]. rewrite Hc. rewrite <- sapp_cons.
  by apply rstrip_nospace_app.
Qed.

Lemma split_once_colon key x :
  contains ":" key = false →
  split_once ":" (key +:+ String ":" x) = Some (key, x).
Proof.
  induction key as [|c key IH]; intros Hk; [done |].
  rewrite contains_cons in Hk. apply orb_false_iff in Hk as [Hs Hk].
  rewrite split_once_eq, sapp_cons.
  assert (Hs' : startswith ":" (String c (key +:+ String ":" x)) = false).
  { cbn [startswith] in *. rewrite andb_true_r in *. done. }
  by rewrite Hs', (IH Hk).
Qed.

(** [line.split(":", 1)[1].strip()] on a key, a colon and a text. *)
Lemma value_of_key key x :
  contains ":" key = false →
  Directive.value_of (key +:+ String ":" x) = Ok (strip x).
Proof.
  intros Hk. unfold Directive.value_of. cbn [splitn].
  by rewrite (split_once_colon key x Hk).
Qed.

Lemma report_line_other h l : other_line l → Directive.report_line h l = Ok h.
Proof.
  intros (H1 & H2 & H3). unfold Directive.report_line. cbv zeta.
  by rewrite H1, H2, H3.
Qed.

Lemma report_lines_other h ls :
  Forall other_line ls → Directive.report_lines h ls = Ok h.
Proof.
  induction 1 as [|l ls Hl Hls IH]; [done |].
  cbn [Directive.report_lines]. by rewrite report_line_other.
Qed.

Lemma report_line_domain h v :
  strip v = v →
  Directive.report_line h ("patterndomain: " +:+ v)
    = Ok (Directive.Header v (Directive.h_stage h) (Directive.h_tags h)).
Proof.
  intros Hv. unfold Directive.report_line. cbv zeta.
  change ("patterndomain: " +:+ v) with ("patterndomain:" +:+ String " " v).
  rewrite (strip_key_line "p" "atterndomain:" v) by done.
  assert (Hx : strip (rstrip (String " " v)) = v) by by apply strip_after_space.
  generalize dependent (rstrip (String " " v)). intros x Hx.
  replace (startswith "patterndomain:" ("patterndomain:" +:+ x)) with true by done.
  change ("patterndomain:" +:+ x) with ("patterndomain" +:+ String ":" x).
  rewrite value_of_key by done. cbn [rbind]. by rewrite Hx.
Qed.

Lemma report_line_stage h v :
  strip v = v →
  Directive.report_line h ("maturationstage: " +:+ v)
    = Ok (Directive.Header (Directive.h_domain h) v (Directive.h_tags h)).
Proof.
  intros Hv. unfold Directive.report_line. cbv zeta.
  change ("maturationstage: " +:+ v) with ("maturationstage:" +:+ String " " v).
  rewrite (strip_key_line "m" "aturationstage:" v) by done.
  assert (Hx : strip (rstrip (String " " v)) = v) by by apply strip_after_space.
  generalize dependent (rstrip (String " " v)). intros x Hx.
  replace (startswith "patterndomain:" ("maturationstage:" +:+ x)) with false by done.
  replace (startswith "maturationstage:" ("maturationstage:" +:+ x)) with true by done.
  change ("maturationstage:" +:+ x) with ("maturationstage" +:+ String ":" x).
  rewrite value_of_key by done. cbn [rbind]. by rewrite Hx.
Qed.

Lemma report_line_tags h v :
  strip v = v →
  Directive.report_line h ("patterntags: " +:+ v)
    = Ok (match Json.loads v with
          | Some tags => Directive.Header (Directive.h_domain h) (Directive.h_stage h) tags
          | None => h
          end).
Proof.
  intros Hv. unfold Directive.report_line. cbv zeta.
  change ("patterntags: " +:+ v) with ("patterntags:" +:+ String " " v).
  rewrite (strip_key_line "p" "atterntags:" v) by done.
  assert (Hx : strip (rstrip (String " " v)) = v) by by apply strip_after_space.
  generalize dependent (rstrip (String " " v)). intros x Hx.
  replace (startswith "patterndomain:" ("patterntags:" +:+ x)) with false by done.
  replace (startswith "maturationstage:" ("patterntags:" +:+ x)) with false by done.
  replace (startswith "patterntags:" ("patterntags:" +:+ x)) with true by done.
  change ("patterntags:" +:+ x) with ("patterntags" +:+ String ":" x).
  rewrite value_of_key by done. cbn [rbind]. by rewrite Hx.
Qed.

(** The report on a file that starts with a header of this shape. *)
Lemma report_header_shape domain stage tags others tail :
  Forall header_safe
    (("patterndomain: " +:+ domain) :: ("maturationstage: " +:+ stage)
       :: ("patterntags: " +:+ Json.dumps tags) :: others) →
  Forall other_line others →
  strip domain = domain → strip stage = stage →
  Directive.report_header
    ("---" +:+ nl
     +:+ unlines (("patterndomain: " +:+ domain) :: ("maturationstage: " +:+ stage)
                    :: ("patterntags: " +:+ Json.dumps tags) :: others)
     +:+ "---" +:+ tail)
  = Ok (Directive.Header domain stage tags).
Proof.
  intros Hsafe Hothers Hd Hs.
  set (ls := ("patterndomain: " +:+ domain) :: ("maturationstage: " +:+ stage)
               :: ("patterntags: " +:+ Json.dumps tags) :: others) in *.
  unfold Directive.report_header.
  replace (startswith "---" ("---" +:+ nl +:+ unlines ls +:+ "---" +:+ tail))
    with true by done.
  cbn [splitn]. rewrite split_once_prefix.
  change (nl +:+ unlines ls +:+ "---" +:+ tail)
    with (unlines ("" :: ls) +:+ "---" +:+ tail).
  rewrite split_once_unlines.
  2:{ constructor; [done |]. eapply Forall_impl; [exact Hsafe |]. by intros l [? ?]. }
  rewrite split_char_unlines.
  2:{ constructor; [done |]. eapply Forall_impl; [exact Hsafe |]. by intros l [? ?]. }
  subst ls. cbn [app Directive.report_lines].
  rewrite report_line_other by done. cbn [rbind].
  rewrite report_line_domain by done. cbn [rbind].
  rewrite report_line_stage by done. cbn [rbind].
  rewrite report_line_tags by apply strip_dumps. cbn [rbind].
  rewrite loads_dumps. cbn [Directive.h_domain Directive.h_stage].
  apply report_lines_other. apply Forall_app. split; [done |].
  by constructor.
Qed.

(** A line whose first two characters, once the leading white space is
    gone, tell it apart from the three lines the report reads. *)
Lemma other_line_head l c1 c2 x :
  lstrip l = String c1 (String c2 x) →
  isspace c1 = false → isspace c2 = false →
  startswith "pa" (String c1 (String c2 "")) = false →
  startswith "ma" (String c1 (String c2 "")) = false →
  other_line l.
Proof.
  intros Hl H1 H2 Hpa Hma. unfold other_line, strip. rewrite Hl.
  rewrite !rstrip_cons_nonspace by done. cbn [startswith] in *.
  rewrite andb_true_r in Hpa, Hma.
  repeat split.
  - rewrite andb_assoc, Hpa. done.
  - rewrite andb_assoc, Hma. done.
  - rewrite andb_assoc, Hpa. done.
Qed.

Lemma toolkit_other_lines row :
  Forall other_line (List.skipn 3 (Toolkit.header_lines today row)).
Proof.
  repeat (constructor; [by eapply other_line_head |]). constructor.
Qed.

Lemma directive_other_lines domain stage tags :
  Forall other_line (List.skipn 3 (Directive.header_lines today domain stage tags)).
Proof.
  repeat (constructor; [by eapply other_line_head |]). constructor.
Qed.

Lemma toolkit_archived_shape row content :
  Toolkit.archived_text today row content =
    "---" +:+ nl +:+ unlines (Toolkit.header_lines today row)
    +:+ "---" +:+ (nl +:+ nl +:+ strip_frontmatter content).
Proof.
  unfold Toolkit.archived_text, Toolkit.frontmatter.
  cbn [unlines]. rewrite unlines_app. cbn [unlines].
  by rewrite !sapp_assoc.
Qed.

Lemma directive_archived_shape row pattern_domain maturation_stage content :
  Directive.archived_text today row pattern_domain maturation_stage content =
    "---" +:+ nl
    +:+ unlines (Directive.header_lines today
                   (Directive.normalize_domain pattern_domain)
                   (strip maturation_stage) (Directive.tags_value row))
    +:+ "---" +:+ (nl +:+ nl +:+ content).
Proof.
  unfold Directive.archived_text, Directive.frontmatter.
  rewrite app_comm_cons, join_unlines. cbn [join unlines].
  by rewrite !sapp_assoc.
Qed.

Lemma search_patterndomain_hit after g :
  Toolkit.match_value after = Some g →
  Toolkit.search_patterndomain ("patterndomain:" +:+ after) = Some g.
Proof.
  intros Hm.
  change ("patterndomain:" +:+ after) with (String "p" ("atterndomain:" +:+ after)).
  cbn [Toolkit.search_patterndomain].
  rewrite (proj2 (strip_prefix_spec "patterndomain:"
                    (String "p" ("atterndomain:" +:+ after)) after) eq_refl).
  by rewrite Hm.
Qed.

Lemma search_patterndomain_skip c s :
  c ≠ "p"%char →
  Toolkit.search_patterndomain (String c s) = Toolkit.search_patterndomain s.
Proof.
  intros Hc. cbn [Toolkit.search_patterndomain strip_prefix].
  by rewrite (bool_decide_eq_false_2 ("p"%char = c)) by (by intros <-).
Qed.

(** The domain [generate_indices] finds in a file that starts with the
    delimiter and the domain line. *)
Lemma index_domain_shape domain rest :
  domain ≠ "" → strip domain = domain → contains nl domain = false →
  Toolkit.index_domain
    ("---" +:+ nl +:+ ("patterndomain: " +:+ domain) +:+ nl +:+ rest)
  = Some domain.
Proof.
  intros Hne Hd Hnl. destruct (strip_fixed_head domain Hd Hne) as (c & v & -> & Hc).
  unfold Toolkit.index_domain.
  assert (Hm : Toolkit.match_value (String " " (String c v +:+ nl +:+ rest))
               = Some (String c v)).
  { unfold Toolkit.match_value. cbn [lstrip].
    replace (isspace " ") with true by done.
    rewrite sapp_cons. cbn [lstrip]. rewrite Hc.
    by rewrite <- sapp_cons, until_LF_line. }
  rewrite sapp_assoc.
  change ("---" +:+ nl +:+ "patterndomain: " +:+ String c v +:+ nl +:+ rest)
    with (String "-" (String "-" (String "-" (String LF
            ("patterndomain:" +:+ String " " (String c v +:+ nl +:+ rest)))))).
  rewrite !search_patterndomain_skip by done.
  rewrite (search_patterndomain_hit _ _ Hm).
  cbn [fmap option_fmap option_map]. by rewrite Hd.
Qed.
Lemma lstrip_fixed_head c s : lstrip (String c s) = String c s → isspace c = false.
Proof.
  intros H. destruct (isspace c) eqn:Hc; [|done].
  cbn [lstrip] in H. rewrite Hc in H. apply (f_equal String.length) in H.
  pose proof (lstrip_length s). simpl in H. lia.
Qed.

Lemma isspace_lower_char c : isspace (lower_char c) = isspace c.
Proof. by destruct c as [[] [] [] [] [] [] [] []]. Qed.

Lemma lstrip_lower s : lstrip s = s → lstrip (lower s) = lower s.
Proof.
  destruct s as [|c s]; [done |]. intros Hc%lstrip_fixed_head.
  cbn [lower lstrip]. by rewrite isspace_lower_char, Hc.
Qed.

Lemma rstrip_lower s : rstrip (lower s) = lower (rstrip s).
Proof.
  induction s as [|c s IH]; [done |].
  cbn [lower rstrip]. rewrite IH, isspace_lower_char.
  destruct (rstrip s); [by destruct (isspace c) | done].
Qed.

Lemma replace_space_cons c s :
  replace " " "-" (String c s) =
    String (if bool_decide (c = " "%char) then "-"%char else c) (replace " " "-" s).
Proof.
  unfold replace. cbn [replace_aux startswith String.length Nat.sub].
  rewrite andb_true_r. by repeat case_bool_decide.
Qed.

Lemma lstrip_replace_space s :
  lstrip s = s → lstrip (replace " " "-" s) = replace " " "-" s.
Proof.
  destruct s as [|c s]; [done |]. intros Hc%lstrip_fixed_head.
  rewrite replace_space_cons. case_bool_decide as Heq; [by subst c |].
  cbn [lstrip]. by rewrite Hc.
Qed.

Lemma rstrip_replace_space s :
  rstrip s = s → rstrip (replace " " "-" s) = replace " " "-" s.
Proof.
  induction s as [|c s IH]; [done |].
  rewrite replace_space_cons. cbn [rstrip].
  destruct (rstrip s) as [|d r] eqn:Hr.
  - destruct (isspace c) eqn:Hc; [done |]. intros [= <-].
    case_bool_decide as Heq; [by subst c |]. cbn. by rewrite Hc.
  - intros [= Hs]. rewrite IH by done. rewrite <- Hs, replace_space_cons. done.
Qed.

(** The domain the directive variant writes has no white space around
    it. *)
Lemma strip_normalize_domain pattern_domain :
  strip (Directive.normalize_domain pattern_domain)
    = Directive.normalize_domain pattern_domain.
Proof.
  unfold Directive.normalize_domain.
  assert (Hl : lstrip (strip pattern_domain) = strip pattern_domain).
  { unfold strip. by rewrite lstrip_rstrip, lstrip_idem. }
  assert (Hr : rstrip (strip pattern_domain) = strip pattern_domain).
  { unfold strip. by rewrite rstrip_idem. }
  generalize dependent (strip pattern_domain). intros t Hl Hr.
  unfold strip.
  rewrite lstrip_replace_space by by apply lstrip_lower.
  apply rstrip_replace_space. by rewrite rstrip_lower, Hr.
Qed.

(** C9 (as amended): the header the Organizer writes is read back by
    the report and index parsers when no line of it contains a line feed
    inside a value or the delimiter.  Root variant: with a domain and a
    stage that have no white space around them, [report_statistics]
    finds the domain, the stage and the list of tags of the row, and
    [generate_indices] finds the domain when it is not empty.  Directive
    variant: for a tag field that does not start with a bracket,
    [report_statistics] finds the normalized domain, the stripped stage
    and the comma-separated items of the tag field.  Decoding what was
    written after [patterntags:] gives the tag list. *)
Theorem C9_header_round_trip
    (row : gmap string string)
    (content pattern_domain maturation_stage tags : string) :
  (Forall header_safe (Toolkit.header_lines today row) →
   strip (Toolkit.domain_of row) = Toolkit.domain_of row →
   strip (Toolkit.stage_of row) = Toolkit.stage_of row →
   Directive.report_header (Toolkit.archived_text today row content)
     = Ok (Directive.Header (Toolkit.domain_of row) (Toolkit.stage_of row)
             (Toolkit.tags_of row)) ∧
   Json.loads (Json.dumps (Toolkit.tags_of row)) = Some (Toolkit.tags_of row) ∧
   (Toolkit.domain_of row ≠ "" →
    Toolkit.index_domain (Toolkit.archived_text today row content)
      = Some (Toolkit.domain_of row))) ∧
  (row !! "pattern_tags" = Some tags → startswith "[" tags = false →
   Forall header_safe
     (Directive.header_lines today (Directive.normalize_domain pattern_domain)
        (strip maturation_stage) (Directive.tags_value row)) →
   Directive.report_header
     (Directive.archived_text today row pattern_domain maturation_stage content)
     = Ok (Directive.Header (Directive.normalize_domain pattern_domain)
             (strip maturation_stage) (stripped_items "," tags)) ∧
   Json.loads (Directive.tags_value row) = Some (stripped_items "," tags)).
Proof.
  split.
  - intros Hsafe Hd Hs. split; [|split].
    + rewrite toolkit_archived_shape.
      apply report_header_shape; [done | apply toolkit_other_lines | done | done].
    + apply loads_dumps.
    + intros Hne. rewrite toolkit_archived_shape.
      change (Toolkit.header_lines today row)
        with (("patterndomain: " +:+ Toolkit.domain_of row)
                :: List.skipn 1 (Toolkit.header_lines today row)).
      cbn [unlines]. rewrite !sapp_assoc. rewrite <- (sapp_assoc "patterndomain: ").
      apply index_domain_shape; [done | done |].
      apply Forall_cons in Hsafe as [[_ Hnl] _].
      change ("patterndomain: " +:+ Toolkit.domain_of row)
        with (String "p" (String "a" (String "t" (String "t" (String "e"
               (String "r" (String "n" (String "d" (String "o" (String "m"
               (String "a" (String "i" (String "n" (String ":" (String " "
                 (Toolkit.domain_of row)))))))))))))))) in Hnl.
      repeat (rewrite contains_cons in Hnl; apply orb_false_iff in Hnl as [_ Hnl]).
      exact Hnl.
  - intros Htags Hsw Hsafe.
    rewrite (directive_tags_value row tags Htags Hsw) in *.
    split; [|apply loads_dumps].
    rewrite directive_archived_shape.
    rewrite (directive_tags_value row tags Htags Hsw).
    apply report_header_shape.
    + done.
    + apply (directive_other_lines (Directive.normalize_domain pattern_domain)
               (strip maturation_stage) (Json.dumps (stripped_items "," tags))).
    + apply strip_normalize_domain.
    + apply strip_idem.
Qed.
End HeaderRoundTrip.

Section HeaderExamples.
Import Py Re Spec Fs.

Lemma header_safeb_spec ls : forallb header_safeb ls = true → Forall header_safe ls.
Proof.
  intros H. apply Forall_forall. intros l Hl%list_elem_of_In.
  rewrite forallb_forall in H. specialize (H l Hl). unfold header_safeb in H.
  apply andb_true_iff in H as [H1 H2]. split; by apply negb_true_iff.
Qed.

Lemma C9_header_round_trip_witness :
  Directive.report_header
    (Toolkit.archived_text Sample.today
       (Sample.toolkit_row "tradecraft" "formalizedframework" "humint;code-snippet")
       "Hello doctrine world")
    = Ok (Directive.Header "tradecraft" "formalizedframework"
            ["humint"; "code-snippet"]) ∧
  Toolkit.index_domain
    (Toolkit.archived_text Sample.today
       (Sample.toolkit_row "tradecraft" "formalizedframework" "humint;code-snippet")
       "Hello doctrine world")
    = Some "tradecraft" ∧
  Directive.report_header
    (Directive.archived_text Sample.today
       (Sample.directive_row "Tradecraft " "Formalized Framework" "humint, code-snippet")
       "Tradecraft " "Formalized Framework" "Hello doctrine world")
    = Ok (Directive.Header "tradecraft" "Formalized Framework"
            ["humint"; "code-snippet"]).
Proof.
  destruct (C9_header_round_trip Sample.today
              (Sample.toolkit_row "tradecraft" "formalizedframework"
                 "humint;code-snippet")
              "Hello doctrine world" "" "" "") as [Hroot _].
  destruct (C9_header_round_trip Sample.today
              (Sample.directive_row "Tradecraft " "Formalized Framework"
                 "humint, code-snippet")
              "Hello doctrine world" "Tradecraft " "Formalized Framework"
              "humint, code-snippet") as [_ Hdir].
  destruct Hroot as (Hreport & _ & Hindex).
  - apply header_safeb_spec. by vm_compute.
  - by vm_compute.
  - by vm_compute.
  - destruct Hdir as [Hreport' _].
    + reflexivity.
    + reflexivity.
    + apply header_safeb_spec. by vm_compute.
    + split; [exact Hreport |]. split; [by apply Hindex | exact Hreport'].
Defined.

(** C9, as stated, fails: the header values are written as they are,
    and the parsers cut the file at the first delimiter and strip what
    they read.  A domain given as "ops - field" is written as
    "ops---field" by the directive variant and read back as "ops", with
    the stage and the tags lost; a domain with a space at its end,
    written by the root variant, is read back without it. *)
Lemma C9_counterexample :
  Directive.normalize_domain "ops - field" = "ops---field" ∧
  Directive.report_header
    (Directive.archived_text Sample.today
       (Sample.directive_row "ops - field" "raw" "humint")
       "ops - field" "raw" "Hello")
    = Ok (Directive.Header "ops" "unknown" []) ∧
  Toolkit.domain_of (Sample.toolkit_row "Tradecraft " "raw" "humint") = "Tradecraft " ∧
  Toolkit.index_domain
    (Toolkit.archived_text Sample.today
       (Sample.toolkit_row "Tradecraft " "raw" "humint") "Hello")
    = Some "Tradecraft".
Proof. by vm_compute. Qed.
End HeaderExamples.

(* ===================================================================== *)
(** * Separated lists: tags and links *)
(* ===================================================================== *)

Section ItemFacts.
Import Py Spec.
Local Arguments String.append : simpl nomatch.

Lemma contains_char_cons c d s :
  contains (String c "") (String d s) = bool_decide (c = d) || contains (String c "") s.
Proof. rewrite contains_cons. cbn [startswith]. by rewrite andb_true_r. Qed.

Lemma free_of_cons c d s : free_of c (String d s) ↔ c ≠ d ∧ free_of c s.
Proof.
  unfold free_of. rewrite contains_char_cons, orb_false_iff, bool_decide_eq_false.
  done.
Qed.

Lemma free_of_app c a b : free_of c (a +:+ b) ↔ free_of c a ∧ free_of c b.
Proof.
  induction a as [|d a IH]; [by split; [|intros [_ ?]] |].
  rewrite sapp_cons, !free_of_cons, IH. tauto.
Qed.

Lemma split_char_no_sep c s : Forall (free_of c) (split_char c s).
Proof.
  induction s as [|d s IH]; [by repeat constructor |].
  cbn [split_char]. case_bool_decide as Hd.
  - by constructor.
  - destruct (split_char c s) as [|w ws].
    + apply Forall_singleton, free_of_cons. split; [congruence | done].
    + apply Forall_cons in IH as [Hw Hws]. constructor; [|done].
      apply free_of_cons. split; [congruence | done].
Qed.

Lemma split_char_app c a b :
  free_of c a → split_char c (a +:+ String c b) = a :: split_char c b.
Proof.
  induction a as [|d a IH]; intros Ha.
  - cbn [String.append split_char]. by rewrite bool_decide_eq_true_2.
  - apply free_of_cons in Ha as [Hd Ha]. rewrite sapp_cons. cbn [split_char].
    rewrite bool_decide_eq_false_2 by congruence. by rewrite (IH Ha).
Qed.

Lemma split_char_single c a : free_of c a → split_char c a = [a].
Proof.
  induction a as [|d a IH]; intros Ha; [done |].
  apply free_of_cons in Ha as [Hd Ha]. cbn [split_char].
  rewrite bool_decide_eq_false_2 by congruence. by rewrite (IH Ha).
Qed.

Lemma split_char_join c l :
  l ≠ [] → Forall (free_of c) l → split_char c (join (String c "") l) = l.
Proof.
  intros Hne Hl. induction Hl as [|x l Hx Hl IH]; [done |].
  destruct l as [|y l]; [by apply split_char_single |].
  rewrite join_cons2.
  change (x +:+ String c "" +:+ join (String c "") (y :: l))
    with (x +:+ String c (join (String c "") (y :: l))).
  rewrite split_char_app by done. f_equal. by apply IH.
Qed.

Lemma lstrip_free_of c s : free_of c s → free_of c (lstrip s).
Proof.
  induction s as [|d s IH]; [done |]. intros Hs. cbn [lstrip].
  destruct (isspace d); [|done]. apply IH. by apply free_of_cons in Hs as [_ ?].
Qed.

Lemma rstrip_free_of c s : free_of c s → free_of c (rstrip s).
Proof.
  induction s as [|d s IH]; [done |]. intros [Hd Hs]%free_of_cons.
  cbn [rstrip]. specialize (IH Hs). destruct (rstrip s) as [|e r].
  - destruct (isspace d); [done |]. by apply free_of_cons.
  - by apply free_of_cons.
Qed.

Lemma strip_free_of c s : free_of c s → free_of c (strip s).
Proof. intros H. by apply rstrip_free_of, lstrip_free_of. Qed.

(** X1: every item the toolkit reads from a separated field (tags,
    links) is clean: it is not empty, has no white space around it and
    does not contain the separator. *)
Theorem X1_stripped_items_clean (c : ascii) (s : string) :
  Forall (clean_item c) (stripped_items c s).
Proof.
  unfold stripped_items. apply Forall_forall. intros t Ht.
  apply list_elem_of_filter in Ht as [Hne Ht].
  apply list_elem_of_fmap in Ht as (u & -> & Hu).
  split; [done |]. split; [apply strip_idem |].
  apply strip_free_of.
  pose proof (split_char_no_sep c s) as Hall.
  rewrite Forall_forall in Hall. by apply Hall.
Qed.

(** X2: a list of clean items joined by the separator is read back as
    the same list, in the same order; this is how the tags
    [suggest_metadata] joins with a semicolon reach the organizer and the
    validator. *)
Theorem X2_joined_items_read_back (c : ascii) (l : list string) :
  Forall (clean_item c) l → stripped_items c (join (String c "") l) = l.
Proof.
  intros Hl. unfold stripped_items.
  assert (Hid : ∀ l', Forall (clean_item c) l' →
                      filter (λ t, t ≠ "") (strip <$> l') = l').
  { induction 1 as [|t l' (Hne & Hs & _) Hl' IH]; [done |].
    cbn [fmap list_fmap]. rewrite Hs, filter_cons_True by done. by rewrite IH. }
  destruct l as [|x l]; [done |].
  rewrite split_char_join; [by apply Hid | done |].
  eapply Forall_impl; [exact Hl |]. by intros t (_ & _ & ?).
Qed.

Lemma X2_joined_items_read_back_witness :
  stripped_items ";" (join ";" ["code-snippet"; "reflection"])
    = ["code-snippet"; "reflection"].
Proof.
  apply (X2_joined_items_read_back ";" ["code-snippet"; "reflection"]).
  repeat constructor; by vm_compute.
Defined.
End ItemFacts.

(* ===================================================================== *)
(** * More on snippets and names *)
(* ===================================================================== *)

Section SnippetFacts.
Import Py Re Spec Fs.
Local Arguments String.append : simpl nomatch.
Variable today : string.

Lemma slice_to_tokens (n : Z) s : Forall token (slice_to n (split_ws s)).
Proof. unfold slice_to. destruct (n <? 0)%Z; apply Forall_take, split_ws_tokens. Qed.

Lemma single_spaced_join ws : Forall token ws → single_spaced (join " " ws).
Proof. intros H. unfold single_spaced. by rewrite split_ws_join. Qed.

Lemma nospace_free_of_LF w : nospace w = true → free_of LF w.
Proof.
  induction w as [|c w IH]; [done |]. simpl. intros [Hc Hw]%andb_true_iff.
  apply free_of_cons. split; [|by apply IH].
  intros <-. done.
Qed.

Lemma join_free_of_LF ws : Forall token ws → free_of LF (join " " ws).
Proof.
  induction 1 as [|w ws [_ Hw] Hws IH]; [done |].
  destruct ws as [|w' ws]; [by apply nospace_free_of_LF |].
  rewrite join_cons2. apply free_of_app. split; [by apply nospace_free_of_LF |].
  apply free_of_app. split; [done | exact IH].
Qed.

(** A snippet with the ellipsis glued to it is still a list of tokens. *)
Lemma ellipsis_tokens ws :
  Forall token ws → ∃ ws', join " " ws +:+ "..." = join " " ws' ∧ Forall token ws'.
Proof.
  intros Hws. destruct ws as [|w ws].
  - exists ["..."]. split; [done |]. by repeat constructor.
  - exists (glue_last "..." (w :: ws)). split.
    + by apply join_glue_last.
    + by apply glue_last_tokens.
Qed.

(** X3: in both variants the snippet is made of tokens with single
    spaces between them and holds no line feed, whatever the text and the
    word count: it fits on one line of the manifest and of an index. *)
Theorem X3_snippet_is_one_line (text : string) (word_count : Z) :
  (∃ s, Directive.extract_snippet text word_count = Ok s ∧
        single_spaced s ∧ free_of LF s) ∧
  single_spaced (Toolkit.extract_snippet text word_count) ∧
  free_of LF (Toolkit.extract_snippet text word_count).
Proof.
  split.
  - destruct (skip_frontmatter_total (strip text)) as [body Hbody].
    rewrite (directive_snippet_eq _ _ _ Hbody). eexists. split; [done |].
    cbv zeta. pose proof (slice_to_tokens word_count (sub_hashes body)) as Htok.
    destruct (word_count <? _)%Z.
    + destruct (ellipsis_tokens _ Htok) as (ws' & -> & Hws').
      split; [by apply single_spaced_join | by apply join_free_of_LF].
    + split; [by apply single_spaced_join | by apply join_free_of_LF].
  - unfold Toolkit.extract_snippet.
    pose proof (slice_to_tokens word_count (strip_frontmatter text)) as Htok.
    split; [by apply single_spaced_join | by apply join_free_of_LF].
Qed.

Lemma strip_frontmatter_one_line s : free_of LF s → strip_frontmatter s = s.
Proof.
  intros Hs. apply strip_frontmatter_none. intros h body ->.
  apply free_of_app in Hs as [Hs _]. done.
Qed.

(** X4: the root variant's snippet of a snippet is the snippet, for a
    word count of at least 0. *)
Theorem X4_root_snippet_idempotent (content : string) (word_count : Z) :
  (0 ≤ word_count)%Z →
  Toolkit.extract_snippet (Toolkit.extract_snippet content word_count) word_count
    = Toolkit.extract_snippet content word_count.
Proof.
  intros Hwc. unfold Toolkit.extract_snippet.
  rewrite !slice_to_nonneg by done.
  set (ws := take (Z.to_nat word_count) (split_ws (strip_frontmatter content))).
  assert (Hws : Forall token ws) by apply take_tokens.
  rewrite strip_frontmatter_one_line by by apply join_free_of_LF.
  rewrite split_ws_join by done. subst ws.
  by rewrite take_take, Nat.min_id.
Qed.

Lemma X4_root_snippet_idempotent_witness :
  Toolkit.extract_snippet (Toolkit.extract_snippet "one  two three" 2) 2
    = Toolkit.extract_snippet "one  two three" 2.
Proof. apply (X4_root_snippet_idempotent "one  two three" 2). lia. Defined.

Lemma rev_app_spec s acc : rev_app s acc = rev s +:+ acc.
Proof.
  unfold rev. revert acc. induction s as [|c s IH]; intros acc; [done |].
  cbn [rev_app]. rewrite (IH (String c acc)), (IH (String c "")).
  by rewrite sapp_assoc.
Qed.

Lemma rev_sapp a b : rev (a +:+ b) = rev b +:+ rev a.
Proof.
  induction a as [|c a IH]; [by rewrite sapp_nil_r |].
  rewrite sapp_cons. unfold rev at 1 3. cbn [rev_app].
  by rewrite !rev_app_spec, IH, sapp_assoc.
Qed.

Lemma rev_involutive s : rev (rev s) = s.
Proof.
  induction s as [|c s IH]; [done |].
  unfold rev at 2. cbn [rev_app]. rewrite rev_app_spec, rev_sapp, IH. done.
Qed.

(** [s.endswith(p)] holds exactly when [s] is some text followed by [p]. *)
Lemma endswith_spec p s : endswith p s = true ↔ ∃ a, s = a +:+ p.
Proof.
  unfold endswith. rewrite startswith_spec. split.
  - intros [t Ht]. exists (rev t).
    rewrite <- (rev_involutive s), Ht, rev_sapp. by rewrite rev_involutive.
  - intros [a ->]. exists (rev a). apply rev_sapp.
Qed.

(** X5: the file name the directive variant gives an archived note
    always ends in [.md]; a name that already does is kept as it is, so
    the renaming changes nothing when it is applied again. *)
Theorem X5_dest_filename_ends_in_md (filename : string) :
  (∃ a, Directive.dest_filename filename = a +:+ ".md") ∧
  ((∃ a, filename = a +:+ ".md") → Directive.dest_filename filename = filename) ∧
  Directive.dest_filename (Directive.dest_filename filename)
    = Directive.dest_filename filename.
Proof.
  assert (Hkeep : ∀ f, (∃ a, f = a +:+ ".md") → Directive.dest_filename f = f).
  { intros f Hf. unfold Directive.dest_filename.
    by rewrite (proj2 (endswith_spec ".md" f) Hf). }
  assert (Hends : ∃ a, Directive.dest_filename filename = a +:+ ".md").
  { unfold Directive.dest_filename.
    destruct (endswith ".md" filename) eqn:He; [by apply endswith_spec | eauto]. }
  split; [done |]. split; [apply Hkeep |]. by apply Hkeep.
Qed.
End SnippetFacts.

(* ===================================================================== *)
(** * Where the root variant puts a note, and what its index shows *)
(* ===================================================================== *)

Section TargetFacts.
Import Py Re Spec Fs.
Local Arguments String.append : simpl nomatch.
Variable ROOT_DIR : list string.
Variable today : string.

Lemma free_of_not_startswith c s : free_of c s → startswith (String c "") s = false.
Proof.
  destruct s as [|d s]; [done |]. intros [Hd _]%free_of_cons.
  cbn [startswith]. by rewrite bool_decide_eq_false_2.
Qed.

Lemma parts_component x : component x → parts x = [x].
Proof.
  intros (Hne & Hdot & Hfree). unfold parts.
  rewrite split_char_single by done. by rewrite filter_cons_True.
Qed.

(** Joining a proper component to a path adds it at the end. *)
Lemma pjoin_component p x : component x → pjoin p x = p ++ [x].
Proof.
  intros Hx. unfold pjoin. rewrite parts_component by done.
  destruct Hx as (_ & _ & Hfree). by rewrite free_of_not_startswith.
Qed.

Lemma sub_non_slug_free_of c s : slug_char c = false → free_of c (sub_non_slug s).
Proof.
  intros Hc. induction s as [|d s IH]; [done |]. cbn [sub_non_slug].
  destruct (slug_char d) eqn:Hd; [|done].
  apply free_of_cons. split; [congruence | done].
Qed.

Lemma stage_folder_component stage : component (Toolkit.stage_folder stage).
Proof. unfold Toolkit.stage_folder. by repeat case_bool_decide. Qed.

Lemma new_filename_component row filename :
  component (Toolkit.domain_of row) → free_of "/" today →
  component (Toolkit.new_filename today row filename).
Proof.
  intros (Hne & _ & Hd) Ht. unfold Toolkit.new_filename.
  destruct (Toolkit.domain_of row) as [|c d]; [done |].
  split; [done |]. split.
  - rewrite sapp_cons. destruct d; [|done]. done.
  - repeat (apply free_of_app; split); try done.
    by apply sub_non_slug_free_of.
Qed.

Lemma toolkit_target_dir_shape row :
  component (Toolkit.domain_of row) →
  Toolkit.target_dir ROOT_DIR row =
    Toolkit.ARCHIVE_DIR ROOT_DIR
      ++ [Toolkit.domain_of row; Toolkit.stage_folder (Toolkit.stage_of row)].
Proof.
  intros Hd. unfold Toolkit.target_dir.
  rewrite (pjoin_component _ _ Hd), (pjoin_component _ _ (stage_folder_component _)).
  by rewrite <- app_assoc.
Qed.

Lemma toolkit_target_path_shape row filename :
  component (Toolkit.domain_of row) → free_of "/" today →
  Toolkit.target_path ROOT_DIR today row filename =
    Toolkit.target_dir ROOT_DIR row ++ [Toolkit.new_filename today row filename].
Proof.
  intros Hd Ht. unfold Toolkit.target_path.
  by rewrite pjoin_component by by apply new_filename_component.
Qed.

(** X6: in the root variant, when the domain of a row is a proper path
    component and the date has no slash, the target of the row is the
    file [domain-slug-date.md] directly in the stage folder of the domain
    folder of the archive, whatever the file name of the row is: the slug
    keeps none of its slashes and dots. *)
Theorem X6_target_in_stage_folder (row : gmap string string) (filename : string) :
  component (Toolkit.domain_of row) → free_of "/" today →
  Toolkit.target_dir ROOT_DIR row =
    Toolkit.ARCHIVE_DIR ROOT_DIR
      ++ [Toolkit.domain_of row; Toolkit.stage_folder (Toolkit.stage_of row)] ∧
  Toolkit.target_path ROOT_DIR today row filename =
    Toolkit.target_dir ROOT_DIR row ++ [Toolkit.new_filename today row filename] ∧
  free_of "/" (Toolkit.slug filename) ∧ free_of "." (Toolkit.slug filename).
Proof.
  intros Hd Ht.
  split; [by apply toolkit_target_dir_shape |].
  split; [by apply toolkit_target_path_shape |].
  unfold Toolkit.slug. split; by apply sub_non_slug_free_of.
Qed.

(** The closing line of a header is found after its last line when no
    line before it holds a line feed or the delimiter. *)
Lemma split_once_close_line l r :
  free_of LF l →
  split_once fm_close (l +:+ nl +:+ r) =
    if startswith fm_open r then Some (l, drop (String.length fm_open) r)
    else match split_once fm_close r with
         | Some (a, b) => Some (l +:+ nl +:+ a, b)
         | None => None
         end.
Proof.
  induction l as [|c l IH]; intros Hl.
  - rewrite split_once_eq.
    change ("" +:+ nl +:+ r) with (String LF r).
    change (startswith fm_close (String LF r)) with (startswith fm_open r).
    destruct (startswith fm_open r); [done |].
    by destruct (split_once fm_close r) as [[a b]|].
  - apply free_of_cons in Hl as [Hc Hl]. rewrite split_once_eq, sapp_cons.
    replace (startswith fm_close (String c (l +:+ nl +:+ r))) with false.
    2:{ unfold fm_close, nl. cbn [String.append startswith].
        by rewrite bool_decide_eq_false_2. }
    rewrite (IH Hl). destruct (startswith fm_open r); [done |].
    by destruct (split_once fm_close r) as [[a b]|].
Qed.

Lemma startswith_fm_open_line l r :
  contains "---" l = false → startswith fm_open (l +:+ nl +:+ r) = false.
Proof.
  intros Hl. destruct (startswith fm_open (l +:+ nl +:+ r)) eqn:Hs; [|done].
  apply startswith_spec in Hs as [t Ht].
  assert (Hd : startswith "---" (l +:+ String LF r) = true).
  { apply startswith_spec. exists (nl +:+ t). exact Ht. }
  rewrite startswith_dashes_line in Hd.
  destruct l as [|c l]; [done |]. rewrite contains_cons, Hd in Hl. done.
Qed.

Lemma split_once_close ls tail :
  ls ≠ [] → Forall header_safe ls →
  split_once fm_close (unlines ls +:+ fm_open +:+ tail) = Some (join nl ls, tail).
Proof.
  intros Hne Hls. induction Hls as [|l ls [Hd Hn] Hls IH]; [done |].
  cbn [unlines]. rewrite !sapp_assoc, split_once_close_line by done.
  destruct ls as [|l' ls].
  - cbn [unlines String.append].
    rewrite (proj2 (startswith_spec fm_open (fm_open +:+ tail))) by eauto.
    by rewrite drop_sapp.
  - specialize (IH ltac:(done)).
    apply Forall_cons in Hls as [[Hd' _] _].
    cbn [unlines] in *. rewrite !sapp_assoc in *.
    rewrite startswith_fm_open_line by done. by rewrite IH.
Qed.

(** What the snippet pattern leaves of an archived file: the empty line
    after the header and the body. *)
Lemma strip_frontmatter_archived row content :
  Forall header_safe (Toolkit.header_lines today row) →
  strip_frontmatter (Toolkit.archived_text today row content)
    = nl +:+ strip_frontmatter content.
Proof.
  intros Hsafe. rewrite toolkit_archived_shape.
  unfold strip_frontmatter at 1.
  change ("---" +:+ nl +:+ unlines (Toolkit.header_lines today row)
          +:+ "---" +:+ nl +:+ nl +:+ strip_frontmatter content)
    with (fm_open +:+ (unlines (Toolkit.header_lines today row)
          +:+ fm_open +:+ (nl +:+ strip_frontmatter content))).
  rewrite (proj2 (strip_prefix_spec _ _ _) eq_refl).
  by rewrite split_once_close.
Qed.

(** X7: in the root variant, the snippet of an archived file is the
    snippet of the note it was made from, when no line of the header
    written for it holds a line feed or the delimiter: the index shows
    the text the manifest showed. *)
Theorem X7_archived_snippet_is_source_snippet
    (row : gmap string string) (content : string) (word_count : Z) :
  Forall header_safe (Toolkit.header_lines today row) →
  Toolkit.extract_snippet (Toolkit.archived_text today row content) word_count
    = Toolkit.extract_snippet content word_count.
Proof.
  intros Hsafe. unfold Toolkit.extract_snippet.
  by rewrite strip_frontmatter_archived.
Qed.
End TargetFacts.

Section TargetExamples.
Import Py Re Spec Fs.

Lemma X6_target_in_stage_folder_witness :
  Toolkit.target_path Sample.ROOT_DIR Sample.today
    (Sample.toolkit_row "tradecraft" "formalizedframework" "") "../../My Note.md"
  = ["home"; "user"; "knowledge-archive"; "tradecraft"; "formalized_frameworks";
     "tradecraft-my-note-2026-11-03.md"].
Proof.
  destruct (X6_target_in_stage_folder Sample.ROOT_DIR Sample.today
              (Sample.toolkit_row "tradecraft" "formalizedframework" "")
              "../../My Note.md") as (Hdir & Hpath & _).
  - by vm_compute.
  - by vm_compute.
  - rewrite Hpath, Hdir. by vm_compute.
Defined.

Lemma X7_archived_snippet_is_source_snippet_witness :
  Toolkit.extract_snippet
    (Toolkit.archived_text Sample.today
       (Sample.toolkit_row "tradecraft" "formalizedframework" "humint")
       Sample.headed_note) 75
  = "Body".
Proof.
  rewrite (X7_archived_snippet_is_source_snippet Sample.today
             (Sample.toolkit_row "tradecraft" "formalizedframework" "humint")
             Sample.headed_note 75).
  - by vm_compute.
  - apply header_safeb_spec. by vm_compute.
Defined.
End TargetExamples.

(* ===================================================================== *)
(** * Whole runs of the organizer *)
(* ===================================================================== *)

Section RunFacts.
Import Py Re Spec Fs.
Variable ROOT_DIR : list string.
Variable today : string.




(** X9: the loop of the directive variant has no handler around a row.
    A classified row whose source exists but which has no
    [maturation_stage] raises [KeyError]: the run stops there, before
    anything is made or printed for the row, and the rows after it are
    not processed. *)
Theorem X9_directive_row_without_stage_stops_run
    (row : gmap string string) (rows : list (gmap string string)) (w : world)
    (pattern_domain filepath : string) (n : node) :
  row !! "pattern_domain" = Some pattern_domain → pattern_domain ≠ "" →
  row !! "filepath" = Some filepath →
  node_at (pjoin (Directive.STAGING_DIR ROOT_DIR) filepath) (files w) = Some n →
  row !! "maturation_stage" = None →
  Directive.organize_archive ROOT_DIR today (Some (row :: rows)) w
    = (Raise (KeyError "maturation_stage"), w).
Proof.
  intros Hpd Hne Hfp Hsrc Hms.
  unfold Directive.organize_archive. cbn [for_each]. unfold bind at 1.
  unfold Directive.organize_row, get. rewrite Hpd.
  replace (negb (truthy pattern_domain)) with false by (by destruct pattern_domain).
  unfold bind at 1. unfold lift at 1, getitem at 1. rewrite Hfp. cbv beta iota.
  unfold bind at 1. rewrite (exists_found _ _ _ Hsrc). cbv beta iota. unfold negb.
  unfold bind at 1. unfold lift at 1, getitem at 1. rewrite Hpd. cbv beta iota.
  unfold bind at 1. unfold lift at 1, getitem at 1. rewrite Hms. done.
Qed.

(** What [mkdir_from] did when it returned: directories on the way only,
    and no file was replaced. *)
Lemma mkdir_from_result base rest f f' :
  mkdir_from base rest f = Ok f' →
  (∀ q, ¬ q `prefix_of` base ++ rest → f' !! q = f !! q) ∧
  (∀ q c, f' !! q = Some (File c) ↔ f !! q = Some (File c)).
Proof.
  revert base f. induction rest as [|x rest IH]; intros base f; simpl.
  - intros [= ->]. done.
  - intros Hmk.
    assert (Hnf : ∀ c, f !! (base ++ [x]) ≠ Some (File c)).
    { intros c Hc. by rewrite Hc in Hmk; destruct rest. }
    assert (Hmk' : mkdir_from (base ++ [x]) rest (<[base ++ [x] := Dir]> f) = Ok f').
    { by destruct (f !! (base ++ [x])) as [[c|]|] eqn:Hl; [destruct (Hnf c) | |]. }
    destruct (IH _ _ Hmk') as [Hout Hfile]. split.
    + intros q Hq. rewrite Hout.
      * apply lookup_insert_ne. intros <-. apply Hq.
        rewrite (cons_middle x base rest), app_assoc. by apply prefix_app_r.
      * by rewrite <- app_assoc.
    + intros q c. rewrite Hfile. destruct (decide (q = base ++ [x])) as [-> | Hne].
      * rewrite lookup_insert_eq. split; [done |]. intros Hc. by destruct (Hnf c).
      * by rewrite lookup_insert_ne.
Qed.

(** One turn of the root variant's loop changes nothing at a path that
    is not the source of the row, not its target, and not on the way to
    its target directory. *)
Lemma toolkit_row_frame row w q :
  (∀ op, row !! "original_path" = Some op → q ≠ pjoin ROOT_DIR op) →
  (∀ fn, row !! "filename" = Some fn →
         q ≠ Toolkit.target_path ROOT_DIR today row fn) →
  ¬ q `prefix_of` Toolkit.target_dir ROOT_DIR row →
  files (Toolkit.organize_row ROOT_DIR today row w).2 !! q = files w !! q.
Proof.
  intros Hsrc Htgt Hdir.
  unfold Toolkit.organize_row, try_except, Toolkit.process_row.
  unfold bind, lift, getitem, exists_, mkdir_p, read_text, write_text, remove,
    incr_success, print, set_files, get.
  destruct w as [f o n]. cbn [files out success_count].
  destruct (row !! "original_path") as [op|] eqn:Hop; [|done].
  specialize (Hsrc op eq_refl).
  case_bool_decide as Hex; cbn [negb files out success_count snd]; [|done].
  destruct (mkdir_from [] (Toolkit.target_dir ROOT_DIR row) f) as [f'|e] eqn:Hmk; [|done].
  apply mkdir_from_result in Hmk as [Hout _]. specialize (Hout q Hdir).
  cbn [files out success_count].
  destruct (row !! "filename") as [fn|] eqn:Hfn; [|done].
  specialize (Htgt fn eq_refl).
  repeat (case_match; simplify_eq; cbn [files out success_count negb snd] in * );
    rewrite ?lookup_delete_ne, ?lookup_insert_ne by done; done.
Qed.

Lemma toolkit_rows_frame rows w q :
  Forall (λ row,
    (∀ op, row !! "original_path" = Some op → q ≠ pjoin ROOT_DIR op) ∧
    (∀ fn, row !! "filename" = Some fn →
           q ≠ Toolkit.target_path ROOT_DIR today row fn) ∧
    ¬ q `prefix_of` Toolkit.target_dir ROOT_DIR row) rows →
  files (for_each rows (Toolkit.organize_row ROOT_DIR today) w).2 !! q = files w !! q.
Proof.
  intros Hrows. revert w. induction Hrows as [|row rows (H1 & H2 & H3) Hrows IH]; intros w.
  - done.
  - cbn [for_each]. unfold bind at 1.
    pose proof (toolkit_row_frame row w q H1 H2 H3) as Hrow.
    destruct (Toolkit.organize_row ROOT_DIR today row w) as [[[]|e] w1];
      cbn [snd] in *; [|done].
    by rewrite IH.
Qed.

(** X10: a run of the root variant over rows whose source, target
    directory and target have no step up changes nothing at a path that
    is, for every row, not the source of the row, not its target, and
    not a directory on the way to its target directory: whether a row is
    archived, skipped or fails, the rest of the disk is left alone. *)
Theorem X10_root_run_changes_only_row_paths
    (rows : list (gmap string string)) (w : world) (q : list string) :
  Forall (λ row,
    (∀ op, row !! "original_path" = Some op →
           plain (pjoin ROOT_DIR op) ∧ q ≠ pjoin ROOT_DIR op) ∧
    (∀ fn, row !! "filename" = Some fn →
           plain (Toolkit.target_path ROOT_DIR today row fn) ∧
           q ≠ Toolkit.target_path ROOT_DIR today row fn) ∧
    plain (Toolkit.target_dir ROOT_DIR row) ∧
    ¬ q `prefix_of` Toolkit.target_dir ROOT_DIR row) rows →
  files (Toolkit.organize_archive ROOT_DIR today (Some rows) w).2 !! q = files w !! q.
Proof.
  intros Hrows. unfold Toolkit.organize_archive, bind.
  assert (Hlex : Forall (λ row,
    (∀ op, row !! "original_path" = Some op → q ≠ pjoin ROOT_DIR op) ∧
    (∀ fn, row !! "filename" = Some fn →
           q ≠ Toolkit.target_path ROOT_DIR today row fn) ∧
    ¬ q `prefix_of` Toolkit.target_dir ROOT_DIR row) rows).
  { eapply Forall_impl; [exact Hrows |]. intros row (Hsrc & Htgt & _ & Hway).
    split; [|split; [|done]].
    - intros op Hop. by destruct (Hsrc op Hop).
    - intros fn Hfn. by destruct (Htgt fn Hfn). }
  pose proof (toolkit_rows_frame rows w q Hlex) as Hrun.
  by destruct (for_each rows (Toolkit.organize_row ROOT_DIR today) w) as [[[]|e] w1].
Qed.

(** One turn of the directive variant's loop keeps every file there is,
    with its text, but for the destination of the row. *)
Lemma directive_row_keeps_files row w q c :
  (∀ pd ms fn, row !! "pattern_domain" = Some pd →
               row !! "maturation_stage" = Some ms → row !! "filename" = Some fn →
               q ≠ Directive.dest_path ROOT_DIR pd ms fn) →
  files w !! q = Some (File c) →
  files (Directive.organize_row ROOT_DIR today row w).2 !! q = Some (File c).
Proof.
  intros Hdest Hq. unfold Directive.organize_row.
  destruct (truthy (get row "pattern_domain" "")); cbn [negb].
  2:{ unfold bind, lift, getitem, print. by destruct (row !! "filename"). }
  unfold bind at 1. unfold lift at 1, getitem at 1.
  destruct (row !! "filepath") as [fp|]; [|done]. cbv beta iota.
  unfold bind at 1, exists_ at 1. case_bool_decide; cbn [negb]; [|done].
  unfold bind at 1. unfold lift at 1, getitem at 1.
  destruct (row !! "pattern_domain") as [pd|] eqn:Hpd; [|done]. cbv beta iota.
  unfold bind at 1. unfold lift at 1, getitem at 1.
  destruct (row !! "maturation_stage") as [ms|] eqn:Hms; [|done]. cbv beta iota.
  unfold bind at 1, mkdir_p at 1.
  destruct (mkdir_from [] (Directive.dest_dir ROOT_DIR pd ms) (files w))
    as [f'|e] eqn:Hmk; [|done].
  apply mkdir_from_result in Hmk as [_ Hfile]. apply Hfile in Hq.
  unfold bind at 1. unfold lift at 1, getitem at 1.
  destruct (row !! "filename") as [fn|] eqn:Hfn; [|done]. cbv beta iota.
  specialize (Hdest pd ms fn eq_refl eq_refl eq_refl).
  unfold try_except, bind, read_text, write_text, print, set_files.
  destruct w as [f o n]. cbn [files out success_count] in *.
  repeat (case_match; simplify_eq; cbn [files out success_count snd] in * );
    rewrite ?lookup_insert_ne by done; done.
Qed.

(** X11: a run of the directive variant over rows whose destination has
    no step up removes no file and changes the text of none but the
    destinations of its rows, wherever it stops: a staged source is still
    in staging after it was archived. *)
Theorem X11_directive_run_keeps_every_file
    (rows : list (gmap string string)) (w : world) (q : list string) (c : string) :
  Forall (λ row,
    ∀ pd ms fn, row !! "pattern_domain" = Some pd →
                row !! "maturation_stage" = Some ms → row !! "filename" = Some fn →
                plain (Directive.dest_path ROOT_DIR pd ms fn) ∧
                q ≠ Directive.dest_path ROOT_DIR pd ms fn) rows →
  files w !! q = Some (File c) →
  files (Directive.organize_archive ROOT_DIR today (Some rows) w).2 !! q
    = Some (File c).
Proof.
  unfold Directive.organize_archive.
  intros Hrows. revert w. induction Hrows as [|row rows Hrow Hrows IH]; intros w Hq.
  - done.
  - cbn [for_each]. unfold bind at 1.
    assert (Hlex : ∀ pd ms fn, row !! "pattern_domain" = Some pd →
                     row !! "maturation_stage" = Some ms → row !! "filename" = Some fn →
                     q ≠ Directive.dest_path ROOT_DIR pd ms fn).
    { intros pd ms fn Hpd Hms Hfn. by destruct (Hrow pd ms fn Hpd Hms Hfn). }
    pose proof (directive_row_keeps_files row w q c Hlex Hq) as Hkept.
    destruct (Directive.organize_row ROOT_DIR today row w) as [[[]|e] w1];
      cbn [snd] in *; [|done].
    by apply IH.
Qed.

Lemma node_at_lookup (q : list string) (f : gmap (list string) node) :
  q ≠ [] → node_at q f = f !! q.
Proof. by destruct q. Qed.

(** X12: the target of a row of the root variant is made of the domain,
    the stage folder, the slug of the file name and the date, not of the
    place of the source.  Two notes with the same slug, filed on the same
    day under the same domain and stage folder, share their target: the
    run counts two successes, removes both sources, and leaves one
    archived file, which holds the second note. *)
Theorem X12_same_slug_same_target
    (row1 row2 : gmap string string) (w : world)
    (op1 op2 fn1 fn2 c1 c2 : string) :
  row1 !! "original_path" = Some op1 → row1 !! "filename" = Some fn1 →
  row2 !! "original_path" = Some op2 → row2 !! "filename" = Some fn2 →
  component (Toolkit.domain_of row1) → free_of "/" today →
  Toolkit.domain_of row2 = Toolkit.domain_of row1 →
  Toolkit.stage_folder (Toolkit.stage_of row2)
    = Toolkit.stage_folder (Toolkit.stage_of row1) →
  Toolkit.slug fn2 = Toolkit.slug fn1 →
  let source1 := pjoin ROOT_DIR op1 in
  let source2 := pjoin ROOT_DIR op2 in
  let target := Toolkit.target_path ROOT_DIR today row1 fn1 in
  node_at source1 (files w) = Some (File c1) →
  node_at source2 (files w) = Some (File c2) →
  source1 ≠ source2 → source1 ≠ target → source2 ≠ target →
  way_clear (Toolkit.target_dir ROOT_DIR row1) (files w) →
  files w !! target ≠ Some Dir →
  ∃ w',
    Toolkit.organize_archive ROOT_DIR today (Some [row1; row2]) w = (Ok tt, w') ∧
    success_count w' = 2 + success_count w ∧
    Toolkit.target_path ROOT_DIR today row2 fn2 = target ∧
    files w' !! target = Some (File (Toolkit.archived_text today row2 c2)) ∧
    node_at source1 (files w') = None ∧
    node_at source2 (files w') = None.
Proof.
  intros Hop1 Hfn1 Hop2 Hfn2 Hd Ht Hdom Hstage Hslug source1 source2 target
    Hs1 Hs2 Hne12 Hne1 Hne2 Hclear Hnodir.
  assert (Hd2 : component (Toolkit.domain_of row2)) by by rewrite Hdom.
  pose proof (toolkit_target_dir_shape ROOT_DIR row1 Hd) as Hdir1.
  pose proof (toolkit_target_dir_shape ROOT_DIR row2 Hd2) as Hdir2.
  pose proof (toolkit_target_path_shape ROOT_DIR today row1 fn1 Hd Ht) as Hshape1.
  pose proof (toolkit_target_path_shape ROOT_DIR today row2 fn2 Hd2 Ht) as Hshape2.
  assert (Hdirs : Toolkit.target_dir ROOT_DIR row2 = Toolkit.target_dir ROOT_DIR row1).
  { by rewrite Hdir1, Hdir2, Hdom, Hstage. }
  assert (Hsame : Toolkit.target_path ROOT_DIR today row2 fn2 = target).
  { subst target. rewrite Hshape1, Hshape2, Hdirs. unfold Toolkit.new_filename.
    by rewrite Hdom, Hslug. }
  fold target in Hshape1.
  (* the first row *)
  destruct (toolkit_row_archived ROOT_DIR today row1 w op1 fn1 c1
              Hop1 Hfn1 Hs1 Hclear Hshape1 Hnodir) as (f1 & ev1 & Hrun1 & Hfile1).
  fold source1 target in Hrun1.
  set (w1 := World (delete source1
                      (<[target := File (Toolkit.archived_text today row1 c1)]> f1))
                   (out w ++ [ev1]) (S (success_count w))) in *.
  apply node_at_file in Hs1 as [Hs1 Hnil1]. apply node_at_file in Hs2 as [Hs2 Hnil2].
  assert (Hsrc2 : node_at source2 (files w1) = Some (File c2)).
  { rewrite node_at_lookup by done. subst w1. cbn [files].
    rewrite lookup_delete_ne, lookup_insert_ne by done. by apply Hfile1. }
  assert (Hclear1 : way_clear (Toolkit.target_dir ROOT_DIR row2) (files w1)).
  { rewrite Hdirs. intros q c Hq. subst w1. cbn [files].
    destruct (decide (q = source1)) as [-> | Hq1]; [by rewrite lookup_delete_eq |].
    rewrite lookup_delete_ne by done.
    destruct (decide (q = target)) as [-> | Hq2].
    { exfalso. rewrite Hshape1 in Hq. by apply not_prefix_app_singleton in Hq. }
    rewrite lookup_insert_ne by done. rewrite Hfile1. by apply Hclear. }
  assert (Hnodir1 : files w1 !! Toolkit.target_path ROOT_DIR today row2 fn2 ≠ Some Dir).
  { rewrite Hsame. subst w1. cbn [files].
    rewrite lookup_delete_ne, lookup_insert_eq by done. done. }
  (* the second row *)
  destruct (toolkit_row_archived ROOT_DIR today row2 w1 op2 fn2 c2
              Hop2 Hfn2 Hsrc2 Hclear1 Hshape2 Hnodir1) as (f2 & ev2 & Hrun2 & Hfile2).
  fold source2 in Hrun2. rewrite Hsame in Hrun2.
  eexists. split; [|split; [|split; [done |split; [|split]]]].
  - unfold Toolkit.organize_archive. cbn [for_each]. unfold bind.
    rewrite Hrun1. fold w1. rewrite Hrun2. reflexivity.
  - done.
  - cbn [files]. by rewrite lookup_delete_ne, lookup_insert_eq.
  - (* the first source is not made again by the second row *)
    pose proof (toolkit_row_frame row2 w1 source1) as Hframe.
    rewrite Hrun2 in Hframe. cbn [snd files] in Hframe. cbn [files].
    rewrite node_at_lookup by done. rewrite Hframe.
    + subst w1. cbn [files]. apply lookup_delete_eq.
    + intros op. rewrite Hop2. by intros [= <-].
    + intros fn. rewrite Hfn2. intros [= <-]. by rewrite Hsame.
    + rewrite Hdirs. intros Hpre. by apply (Hclear _ c1) in Hpre.
  - cbn [files]. rewrite node_at_lookup by done. apply lookup_delete_eq.
Qed.
End RunFacts.

Section RunExamples.
Import Py Re Spec Fs.

Lemma X9_directive_row_without_stage_stops_run_witness :
  Directive.organize_archive Sample.ROOT_DIR Sample.today
    (Some [delete "maturation_stage" (Sample.directive_row "tradecraft" "raw" "");
           Sample.directive_row "tradecraft" "raw" ""])
    (Sample.start "Hello")
  = (Raise (KeyError "maturation_stage"), Sample.start "Hello").
Proof.
  apply (X9_directive_row_without_stage_stops_run Sample.ROOT_DIR Sample.today
           (delete "maturation_stage" (Sample.directive_row "tradecraft" "raw" ""))
           [Sample.directive_row "tradecraft" "raw" ""] (Sample.start "Hello")
           "tradecraft" "foo.md" (File "Hello")); by vm_compute.
Defined.

Lemma X10_root_run_changes_only_row_paths_witness :
  files (Toolkit.organize_archive Sample.ROOT_DIR Sample.today
           (Some [Sample.toolkit_row_in "a"]) Sample.two_notes).2
    !! ["home"; "user"; "notebooklm-import-raw"; "b"; "note.md"]
  = Some (File "Second").
Proof.
  rewrite (X10_root_run_changes_only_row_paths Sample.ROOT_DIR Sample.today
             [Sample.toolkit_row_in "a"] Sample.two_notes
             ["home"; "user"; "notebooklm-import-raw"; "b"; "note.md"]).
  - by vm_compute.
  - apply Forall_cons. split; [|apply Forall_nil_2].
    split; [|split; [|split]].
    + intros op [= <-]. split; [|by vm_compute].
      apply (bool_decide_eq_false_1 _). by vm_compute.
    + intros fn [= <-]. split; [|by vm_compute].
      apply (bool_decide_eq_false_1 _). by vm_compute.
    + apply (bool_decide_eq_false_1 _). by vm_compute.
    + apply (bool_decide_eq_false_1 _). by vm_compute.
Defined.

Lemma X11_directive_run_keeps_every_file_witness :
  files (Directive.organize_archive Sample.ROOT_DIR Sample.today
           (Some [Sample.directive_row "tradecraft" "raw" ""])
           (Sample.start "Hello")).2 !! Sample.staged
  = Some (File "Hello").
Proof.
  apply (X11_directive_run_keeps_every_file Sample.ROOT_DIR Sample.today
           [Sample.directive_row "tradecraft" "raw" ""] (Sample.start "Hello")
           Sample.staged "Hello").
  - apply Forall_cons. split; [|apply Forall_nil_2].
    intros pd ms fn [= <-] [= <-] [= <-]. split; [|by vm_compute].
    apply (bool_decide_eq_false_1 _). by vm_compute.
  - by vm_compute.
Defined.

Lemma X12_same_slug_same_target_witness :
  ∃ w',
    Toolkit.organize_archive Sample.ROOT_DIR Sample.today
      (Some [Sample.toolkit_row_in "a"; Sample.toolkit_row_in "b"]) Sample.two_notes
      = (Ok tt, w') ∧
    success_count w' = 2 ∧
    files w' !! ["home"; "user"; "knowledge-archive"; "tradecraft";
                 "experiential_data"; "tradecraft-note-2026-11-03.md"]
      = Some (File (Toolkit.archived_text Sample.today (Sample.toolkit_row_in "b")
                      "Second")) ∧
    node_at ["home"; "user"; "notebooklm-import-raw"; "a"; "note.md"] (files w') = None ∧
    node_at ["home"; "user"; "notebooklm-import-raw"; "b"; "note.md"] (files w') = None.
Proof.
  destruct (X12_same_slug_same_target Sample.ROOT_DIR Sample.today
              (Sample.toolkit_row_in "a") (Sample.toolkit_row_in "b") Sample.two_notes
              "notebooklm-import-raw/a/note.md" "notebooklm-import-raw/b/note.md"
              "note.md" "note.md" "First" "Second")
    as (w' & Hrun & Hn & _ & Hfile & Hgone1 & Hgone2).
  1-4: reflexivity.
  1-10: by vm_compute.
  - apply way_clearb_spec. by vm_compute.
  - by vm_compute.
  - exists w'. split; [exact Hrun |]. split; [exact Hn |].
    split; [exact Hfile |]. split; [exact Hgone1 | exact Hgone2].
Defined.
End RunExamples.

(* ===================================================================== *)
(** * The manifest [generate_manifest] writes *)
(* ===================================================================== *)

Section ManifestFacts.
Import Py Re Spec Fs.
Local Arguments String.append : simpl nomatch.
Variable ROOT_DIR : list string.
Variable today : string.
Variable csv : list string → list (gmap string string) → string.

Lemma join_slash_head x l :
  x ≠ "" → free_of "/" x → startswith "/" (join "/" (x :: l)) = false.
Proof.
  intros Hne Hx. destruct x as [|c x]; [done |].
  apply free_of_cons in Hx as [Hc _].
  destruct l; cbn [join]; rewrite ?sapp_cons; cbn [startswith];
    by rewrite bool_decide_eq_false_2.
Qed.

(** The text of a relative path is read back as the same components. *)
Lemma parts_as_posix rel : Forall component rel → parts (as_posix rel) = rel.
Proof.
  intros Hrel. destruct rel as [|x rel]; [done |].
  unfold as_posix, parts. rewrite split_char_join; [|done |].
  2:{ eapply Forall_impl; [exact Hrel |]. by intros y (_ & _ & ?). }
  induction Hrel as [|y l (Hne & Hdot & _) Hl IH]; [done |].
  by rewrite filter_cons_True, IH.
Qed.

Lemma pjoin_as_posix base rel :
  Forall component rel → pjoin base (as_posix rel) = base ++ rel.
Proof.
  intros Hrel. unfold pjoin. rewrite parts_as_posix by done.
  destruct rel as [|x rel]; [done |]. unfold as_posix.
  apply Forall_cons in Hrel as [(Hne & _ & Hx) _].
  by rewrite join_slash_head.
Qed.

Lemma relative_to_app (base rel : list string) : relative_to base (base ++ rel) = Ok rel.
Proof.
  unfold relative_to. rewrite bool_decide_eq_true_2 by by apply prefix_app_r.
  by rewrite drop_app_length.
Qed.

Lemma directive_snippet_total text wc : ∃ s, Directive.extract_snippet text wc = Ok s.
Proof.
  destruct (skip_frontmatter_total (strip text)) as [body Hbody].
  rewrite (directive_snippet_eq _ _ _ Hbody). eauto.
Qed.

(** X13: the path a manifest row records leads back to the file the row
    was made from, when the components of the file's place are proper
    names.  Root variant: [ROOT_DIR / row["original_path"]] is the file;
    directive variant: [STAGING_DIR / row["filepath"]] is the file.  In
    both, [row["filename"]] is the last component. *)
Theorem X13_manifest_row_leads_to_its_file (rel : list string) (content : string) :
  Forall component rel →
  (∃ row original_path,
     Toolkit.manifest_record ROOT_DIR today (ROOT_DIR ++ rel) content = Ok row ∧
     row !! "original_path" = Some original_path ∧
     pjoin ROOT_DIR original_path = ROOT_DIR ++ rel ∧
     row !! "filename" = Some (name (ROOT_DIR ++ rel))) ∧
  (∃ row filepath,
     Directive.manifest_record ROOT_DIR (Directive.STAGING_DIR ROOT_DIR ++ rel) content
       = Ok row ∧
     row !! "filepath" = Some filepath ∧
     pjoin (Directive.STAGING_DIR ROOT_DIR) filepath
       = Directive.STAGING_DIR ROOT_DIR ++ rel ∧
     row !! "filename" = Some (name (Directive.STAGING_DIR ROOT_DIR ++ rel))).
Proof.
  intros Hrel. split.
  - unfold Toolkit.manifest_record.
    destruct (Toolkit.suggest_metadata content (name (ROOT_DIR ++ rel)))
      as [[domain tags] stage].
    rewrite relative_to_app. cbn [rbind].
    eexists _, (as_posix rel). split; [reflexivity |].
    split; [reflexivity |]. split; [by apply pjoin_as_posix | reflexivity].
  - unfold Directive.manifest_record.
    destruct (directive_snippet_total content 75) as [snippet ->].
    rewrite relative_to_app. cbn [rbind].
    eexists _, (as_posix rel). split; [reflexivity |].
    split; [reflexivity |]. split; [by apply pjoin_as_posix | reflexivity].
Qed.

(** A record of the root variant names a domain and tags of the stub
    taxonomy. *)
Lemma toolkit_record_no_issues p c r :
  Toolkit.manifest_record ROOT_DIR today p c = Ok r →
  Toolkit.row_issues (Toolkit.valid_ids (Some Toolkit.DEFAULT_DOMAINS))
    (Toolkit.valid_ids (Some Toolkit.DEFAULT_TAGS)) r = Ok [].
Proof.
  unfold Toolkit.manifest_record, Toolkit.suggest_metadata. cbv zeta.
  set (lc := lower c).
  destruct (relative_to ROOT_DIR p) as [rel|e].
  - destruct (contains "doctrine" lc),
      (contains "code" lc || contains "function" lc || contains "def " lc),
      (contains "journal" lc || contains "diary" lc || contains "felt" lc);
      cbn [rbind]; intros [= <-]; by vm_compute.
  - destruct (contains "doctrine" lc),
      (contains "code" lc || contains "function" lc || contains "def " lc),
      (contains "journal" lc || contains "diary" lc || contains "felt" lc);
      cbn [rbind]; done.
Qed.

(** One turn of the loop of the root variant reads; it changes no file,
    and gives one record or one error line. *)
Lemma toolkit_collect_record p s :
  ∃ here errs,
    Toolkit.collect_record ROOT_DIR today p s
      = (Ok here, Cmd.Session (Cmd.disk s) (Cmd.printed s ++ errs)) ∧
    Forall (λ r, ∃ p c, Toolkit.manifest_record ROOT_DIR today p c = Ok r) here ∧
    length here + length errs = 1.
Proof.
  unfold Toolkit.collect_record, Cmd.try_except, Cmd.bind, Cmd.on_disk, read_text,
    Cmd.lift, Cmd.print, Cmd.ret.
  destruct s as [f o]. cbn [Cmd.disk Cmd.printed files].
  destruct (node_at p f) as [[c|]|] eqn:Hp.
  - destruct (Toolkit.manifest_record ROOT_DIR today p c) as [r|e] eqn:Hr.
    + exists [r], []. rewrite app_nil_r. split; [done |].
      split; [constructor; eauto | done].
    + by eexists [], [_].
  - by eexists [], [_].
  - by eexists [], [_].
Qed.

Lemma toolkit_collect_records found s :
  ∃ rows errs,
    Toolkit.collect_records ROOT_DIR today found s
      = (Ok rows, Cmd.Session (Cmd.disk s) (Cmd.printed s ++ errs)) ∧
    Forall (λ r, ∃ p c, Toolkit.manifest_record ROOT_DIR today p c = Ok r) rows ∧
    length rows + length errs = length found.
Proof.
  revert s. induction found as [|p found IH]; intros s.
  - exists [], []. rewrite app_nil_r. by destruct s.
  - destruct (toolkit_collect_record p s) as (here & errs1 & Hone & Hhere & Hlen1).
    destruct (IH (Cmd.Session (Cmd.disk s) (Cmd.printed s ++ errs1)))
      as (rows & errs2 & Hrest & Hrows & Hlen2).
    exists (here ++ rows), (errs1 ++ errs2).
    cbn [Toolkit.collect_records]. unfold Cmd.bind at 1. rewrite Hone.
    unfold Cmd.bind at 1. rewrite Hrest. cbn [Cmd.disk Cmd.printed].
    rewrite <- app_assoc. split; [done |].
    split; [by apply Forall_app |]. rewrite !length_app. simpl. lia.
Qed.

Lemma toolkit_print_analyses_disk i l (s : Cmd.session Toolkit.manifest_line) :
  Cmd.disk (Toolkit.print_analyses i l s).2 = Cmd.disk s.
Proof.
  revert i s. induction l as [|data l IH]; intros i s; [done |].
  cbn [Toolkit.print_analyses]. unfold Cmd.bind at 1.
  assert (Hone : Cmd.disk (Toolkit.print_analysis i data s).2 = Cmd.disk s).
  { unfold Toolkit.print_analysis, Cmd.bind, Cmd.lift, Cmd.print, getitem.
    by repeat (case_match; simplify_eq; cbn [Cmd.disk Cmd.printed snd] in * ). }
  destruct (Toolkit.print_analysis i data s) as [[[]|e] s1]; cbn [snd] in *; [|done].
  by rewrite IH.
Qed.

(** What a run of the root [generate_manifest] comes to. *)
Lemma toolkit_generate_manifest_run found s :
  ∃ rows,
    Forall (λ r, ∃ p c, Toolkit.manifest_record ROOT_DIR today p c = Ok r) rows ∧
    length rows ≤ length found ∧
    (∀ q, q ≠ Toolkit.MANIFEST_FILE ROOT_DIR →
          Cmd.disk (Toolkit.generate_manifest ROOT_DIR today csv found s).2 !! q
            = Cmd.disk s !! q) ∧
    (∀ rows', (Toolkit.generate_manifest ROOT_DIR today csv found s).1 = Ok (Some rows') →
       rows' = rows ∧
       Cmd.disk (Toolkit.generate_manifest ROOT_DIR today csv found s).2
         !! Toolkit.MANIFEST_FILE ROOT_DIR
         = Some (File (csv Toolkit.fieldnames rows))).
Proof.
  destruct (toolkit_collect_records found s) as (rows & errs & Hrun & Hrows & Hlen).
  exists rows. split; [done |]. split; [lia |].
  destruct s as [f o]. cbn [Cmd.disk Cmd.printed] in *.
  destruct (Toolkit.generate_manifest ROOT_DIR today csv found (Cmd.Session f o))
    as [r s'] eqn:Hgm.
  cbn [fst snd]. unfold Toolkit.generate_manifest in Hgm.
  unfold Cmd.bind at 1, Cmd.on_disk at 1, exists_ at 1 in Hgm.
  cbn [files Cmd.disk Cmd.printed] in Hgm.
  destruct (negb _) in Hgm.
  { unfold Cmd.bind, Cmd.print, Cmd.ret in Hgm. simplify_eq. cbn.
    split; [done | by intros ? [=]]. }
  unfold Cmd.bind at 1 in Hgm. rewrite Hrun in Hgm.
  unfold Cmd.bind at 1, Cmd.on_disk at 1, write_text at 1, set_files in Hgm.
  cbn [files out success_count Cmd.disk Cmd.printed] in Hgm.
  set (m := Toolkit.MANIFEST_FILE ROOT_DIR) in *.
  assert (Hm : ∀ g, node_at m g = g !! m) by (intros g; apply node_at_app_singleton).
  rewrite Hm in Hgm.
  assert (Hwritten : ∀ s0 : Cmd.session Toolkit.manifest_line,
    Cmd.disk s0 = <[m := File (csv Toolkit.fieldnames rows)]> f →
    (let (r1, s'1) := Toolkit.print_analyses 0 (take 5 rows) s0 in
     match r1 with
     | Ok _ => (Ok (Some rows), s'1)
     | Raise e => (Raise e, s'1)
     end) = (r, s') →
    (∀ q, q ≠ m → Cmd.disk s' !! q = f !! q) ∧
    (∀ rows', r = Ok (Some rows') →
       rows' = rows ∧ Cmd.disk s' !! m = Some (File (csv Toolkit.fieldnames rows)))).
  { intros s0 Hs0 Hrest.
    pose proof (toolkit_print_analyses_disk 0 (take 5 rows) s0) as Hdisk.
    destruct (Toolkit.print_analyses 0 (take 5 rows) s0) as [[[]|e] s1];
      cbn [snd] in Hdisk; simplify_eq; rewrite Hdisk, Hs0.
    - split; [intros q Hq; by rewrite lookup_insert_ne |].
      intros rows' [= <-]. by rewrite lookup_insert_eq.
    - split; [intros q Hq; by rewrite lookup_insert_ne | by intros ? [=]]. }
  destruct (f !! m) as [[c|]|] eqn:Hat;
    destruct (node_at (parent m) f) as [[c'|]|] eqn:Hpar;
    try (simplify_eq; cbn; split; [done | by intros ? [=]]);
    unfold Cmd.bind, Cmd.print, Cmd.ret in Hgm; cbn [Cmd.disk Cmd.printed] in Hgm;
    by eapply Hwritten; [|exact Hgm].
Qed.

(** The keys the closing analysis reads are in every record. *)
Lemma toolkit_record_keys p c r :
  Toolkit.manifest_record ROOT_DIR today p c = Ok r →
  ∃ filename domain tags snippet,
    r !! "filename" = Some filename ∧ r !! "suggested_domain" = Some domain ∧
    r !! "suggested_tags" = Some tags ∧ r !! "snippet" = Some snippet.
Proof.
  unfold Toolkit.manifest_record.
  destruct (Toolkit.suggest_metadata c (name p)) as [[domain tags] stage].
  destruct (relative_to ROOT_DIR p) as [rel|e]; [|done].
  cbn [rbind]. intros [= <-]. eexists _, _, _, _. repeat split; reflexivity.
Qed.

Lemma toolkit_print_analyses_ok i rows (s : Cmd.session Toolkit.manifest_line) :
  Forall (λ r, ∃ p c, Toolkit.manifest_record ROOT_DIR today p c = Ok r) rows →
  ∃ s', Toolkit.print_analyses i rows s = (Ok tt, s').
Proof.
  intros Hrows. revert i s.
  induction Hrows as [|r rows (p & c & Hr) Hrows IH]; intros i s; [by eexists |].
  destruct (toolkit_record_keys p c r Hr) as (fn & d & t & sn & Hfn & Hd & Ht & Hsn).
  cbn [Toolkit.print_analyses]. unfold Cmd.bind at 1.
  unfold Toolkit.print_analysis, Cmd.bind, Cmd.lift, Cmd.print, getitem.
  rewrite Hfn, Hd, Ht, Hsn. apply IH.
Qed.

(** The root [generate_manifest] returns when the staging directory is
    there and the manifest can be written. *)
Lemma toolkit_generate_manifest_returns found (s : Cmd.session Toolkit.manifest_line) :
  is_Some (node_at (Toolkit.STAGING_DIR ROOT_DIR) (Cmd.disk s)) →
  node_at ROOT_DIR (Cmd.disk s) = Some Dir →
  Cmd.disk s !! Toolkit.MANIFEST_FILE ROOT_DIR ≠ Some Dir →
  ∃ rows s', Toolkit.generate_manifest ROOT_DIR today csv found s = (Ok (Some rows), s').
Proof.
  intros Hstaging Hroot Hnodir.
  destruct (toolkit_collect_records found s) as (rows & errs & Hrun & Hrows & _).
  destruct s as [f o]. cbn [Cmd.disk Cmd.printed] in *.
  unfold Toolkit.generate_manifest.
  unfold Cmd.bind at 1, Cmd.on_disk at 1, exists_ at 1.
  cbn [files Cmd.disk Cmd.printed].
  rewrite bool_decide_eq_true_2 by done. cbn [negb].
  unfold Cmd.bind at 1. rewrite Hrun.
  unfold Cmd.bind at 1, Cmd.on_disk at 1.
  cbn [Cmd.disk Cmd.printed].
  rewrite (write_text_ok (Toolkit.MANIFEST_FILE ROOT_DIR) _ (World f [] 0)).
  2:{ unfold Toolkit.MANIFEST_FILE. by rewrite node_at_app_singleton. }
  2:{ unfold Toolkit.MANIFEST_FILE. by rewrite parent_app_singleton. }
  unfold set_files. cbn [files out success_count].
  unfold Cmd.bind at 1, Cmd.print at 1. cbn [Cmd.disk Cmd.printed].
  unfold Cmd.bind at 1, Cmd.print at 1. cbn [Cmd.disk Cmd.printed].
  unfold Cmd.bind at 1.
  edestruct (toolkit_print_analyses_ok 0 (take 5 rows)) as [s' ->];
    [by apply Forall_take |].
  by eexists _, _.
Qed.

(** X14: the manifest the root [generate_manifest] has just written
    passes [validate_manifest] against the stub taxonomy that
    [initialize_directories] writes: every domain and tag that
    [suggest_metadata] proposes is one of the stubs. *)
Theorem X14_fresh_manifest_validates
    (found : list (list string)) (s s' : Cmd.session Toolkit.manifest_line)
    (rows : list (gmap string string)) :
  Toolkit.generate_manifest ROOT_DIR today csv found s = (Ok (Some rows), s') →
  Toolkit.validate_manifest (Some rows)
    (Some Toolkit.DEFAULT_DOMAINS) (Some Toolkit.DEFAULT_TAGS)
  = Ok Toolkit.Validation_successful.
Proof.
  intros Hrun.
  destruct (toolkit_generate_manifest_run found s) as (rows0 & Hrows & _ & _ & Hres).
  destruct (Hres rows) as [-> _]; [by rewrite Hrun |].
  unfold Toolkit.validate_manifest.
  assert (Hall : Toolkit.collect_issues
                   (Toolkit.valid_ids (Some Toolkit.DEFAULT_DOMAINS))
                   (Toolkit.valid_ids (Some Toolkit.DEFAULT_TAGS)) rows0 = Ok []).
  { clear Hrun Hres. induction Hrows as [|r rows (p & c & Hr) Hrows IH]; [done |].
    cbn [Toolkit.collect_issues]. rewrite (toolkit_record_no_issues p c r Hr).
    cbn [rbind]. by rewrite IH. }
  by rewrite Hall.
Qed.

(** X15: the root [generate_manifest] changes no file but the manifest,
    whatever the listing and the disk, and however it ends.  When it
    returns rows, the manifest holds them, at most one for each path of
    the listing; and it does return rows when the staging directory is
    there, [ROOT_DIR] is a directory and the manifest path is not one:
    a file that cannot be read costs a line, not the run. *)
Theorem X15_generate_manifest_writes_only_the_manifest
    (found : list (list string)) (s : Cmd.session Toolkit.manifest_line) :
  (∀ q, q ≠ Toolkit.MANIFEST_FILE ROOT_DIR →
        Cmd.disk (Toolkit.generate_manifest ROOT_DIR today csv found s).2 !! q
          = Cmd.disk s !! q) ∧
  (∀ rows, (Toolkit.generate_manifest ROOT_DIR today csv found s).1 = Ok (Some rows) →
     Cmd.disk (Toolkit.generate_manifest ROOT_DIR today csv found s).2
       !! Toolkit.MANIFEST_FILE ROOT_DIR
       = Some (File (csv Toolkit.fieldnames rows)) ∧
     length rows ≤ length found) ∧
  (is_Some (node_at (Toolkit.STAGING_DIR ROOT_DIR) (Cmd.disk s)) →
   node_at ROOT_DIR (Cmd.disk s) = Some Dir →
   Cmd.disk s !! Toolkit.MANIFEST_FILE ROOT_DIR ≠ Some Dir →
   ∃ rows, (Toolkit.generate_manifest ROOT_DIR today csv found s).1 = Ok (Some rows)).
Proof.
  destruct (toolkit_generate_manifest_run found s) as (rows0 & _ & Hlen & Hframe & Hres).
  split; [done |]. split.
  - intros rows Hrows. destruct (Hres rows Hrows) as [-> Hfile]. done.
  - intros H1 H2 H3.
    destruct (toolkit_generate_manifest_returns found s H1 H2 H3) as (rows & s' & ->).
    by exists rows.
Qed.

Lemma directive_collect_record p s :
  ∃ here errs,
    Directive.collect_record ROOT_DIR p s
      = (Ok here, Cmd.Session (Cmd.disk s) (Cmd.printed s ++ errs)) ∧
    Forall (λ r, ∃ p c, Directive.manifest_record ROOT_DIR p c = Ok r) here.
Proof.
  unfold Directive.collect_record.
  destruct (endswith ".txt" (name p) || endswith ".md" (name p)).
  2:{ exists [], []. rewrite app_nil_r. by destruct s. }
  unfold Cmd.try_except, Cmd.bind, Cmd.on_disk, read_text,
    Cmd.lift, Cmd.print, Cmd.ret.
  destruct s as [f o]. cbn [Cmd.disk Cmd.printed files].
  destruct (node_at p f) as [[c|]|] eqn:Hp.
  - destruct (Directive.manifest_record ROOT_DIR p c) as [r|e] eqn:Hr.
    + exists [r], []. rewrite app_nil_r. split; [done |]. constructor; eauto.
    + by eexists [], [_].
  - by eexists [], [_].
  - by eexists [], [_].
Qed.

Lemma directive_collect_records walked s :
  ∃ rows errs,
    Directive.collect_records ROOT_DIR walked s
      = (Ok rows, Cmd.Session (Cmd.disk s) (Cmd.printed s ++ errs)) ∧
    Forall (λ r, ∃ p c, Directive.manifest_record ROOT_DIR p c = Ok r) rows.
Proof.
  revert s. induction walked as [|p walked IH]; intros s.
  - exists [], []. rewrite app_nil_r. by destruct s.
  - destruct (directive_collect_record p s) as (here & errs1 & Hone & Hhere).
    destruct (IH (Cmd.Session (Cmd.disk s) (Cmd.printed s ++ errs1)))
      as (rows & errs2 & Hrest & Hrows).
    exists (here ++ rows), (errs1 ++ errs2).
    cbn [Directive.collect_records]. unfold Cmd.bind at 1. rewrite Hone.
    unfold Cmd.bind at 1. rewrite Hrest. cbn [Cmd.disk Cmd.printed].
    rewrite <- app_assoc. split; [done | by apply Forall_app].
Qed.

Lemma directive_generate_manifest_rows walked s s' rows :
  Directive.generate_manifest ROOT_DIR csv walked s = (Ok (Some rows), s') →
  Forall (λ r, ∃ p c, Directive.manifest_record ROOT_DIR p c = Ok r) rows.
Proof.
  unfold Directive.generate_manifest.
  unfold Cmd.bind at 1, Cmd.on_disk at 1, exists_ at 1.
  destruct s as [f o]. cbn [files Cmd.disk Cmd.printed].
  destruct (negb _); [by unfold Cmd.bind, Cmd.print, Cmd.ret |].
  unfold Cmd.bind at 1, Cmd.print at 1. cbn [Cmd.disk Cmd.printed].
  destruct (directive_collect_records walked
              (Cmd.Session f (o ++ [Directive.INFO_scanning
                                      (Directive.STAGING_DIR ROOT_DIR)])))
    as (rows0 & errs & Hrun & Hrows).
  unfold Cmd.bind at 1. rewrite Hrun.
  unfold Cmd.bind, Cmd.on_disk, Cmd.print, Cmd.ret.
  destruct (write_text _ _ _) as [[[]|e] w1]; [|done].
  by intros [= <- _].
Qed.

(** The directive [generate_manifest] returns when the staging directory
    is there and the manifest can be written. *)
Lemma directive_generate_manifest_returns walked
    (s : Cmd.session Directive.manifest_line) :
  is_Some (node_at (Directive.STAGING_DIR ROOT_DIR) (Cmd.disk s)) →
  node_at (Directive.MANIFEST_DIR ROOT_DIR) (Cmd.disk s) = Some Dir →
  Cmd.disk s !! Directive.MANIFEST_FILE ROOT_DIR ≠ Some Dir →
  ∃ rows s', Directive.generate_manifest ROOT_DIR csv walked s = (Ok (Some rows), s').
Proof.
  intros Hstaging Hdir Hnodir.
  destruct s as [f o]. cbn [Cmd.disk Cmd.printed] in *.
  unfold Directive.generate_manifest.
  unfold Cmd.bind at 1, Cmd.on_disk at 1, exists_ at 1.
  cbn [files Cmd.disk Cmd.printed].
  rewrite bool_decide_eq_true_2 by done. cbn [negb].
  unfold Cmd.bind at 1, Cmd.print at 1. cbn [Cmd.disk Cmd.printed].
  destruct (directive_collect_records walked
              (Cmd.Session f (o ++ [Directive.INFO_scanning
                                      (Directive.STAGING_DIR ROOT_DIR)])))
    as (rows & errs & Hrun & _).
  unfold Cmd.bind at 1. rewrite Hrun.
  unfold Cmd.bind at 1, Cmd.on_disk at 1.
  cbn [Cmd.disk Cmd.printed].
  rewrite (write_text_ok (Directive.MANIFEST_FILE ROOT_DIR) _ (World f [] 0)).
  2:{ unfold Directive.MANIFEST_FILE. by rewrite node_at_app_singleton. }
  2:{ unfold Directive.MANIFEST_FILE. by rewrite parent_app_singleton. }
  by eexists _, _.
Qed.

(** A record of the directive variant is not classified: the organizer
    skips it. *)
Lemma directive_record_skipped p c r w :
  Directive.manifest_record ROOT_DIR p c = Ok r →
  Directive.organize_row ROOT_DIR today r w
    = (Ok tt, World (files w) (out w ++ [SKIP_no_domain (name p)]) (success_count w)).
Proof.
  unfold Directive.manifest_record.
  destruct (Directive.extract_snippet c 75) as [snippet|e]; [|done].
  destruct (relative_to (Directive.STAGING_DIR ROOT_DIR) p) as [rel|e]; [|done].
  cbn [rbind]. intros [= <-]. reflexivity.
Qed.

(** X16: the manifest the directive [generate_manifest] has just
    written classifies nothing.  Run on it as it is, the organizer
    archives nothing: it changes no file and prints one skip line for
    each row. *)
Theorem X16_fresh_directive_manifest_archives_nothing
    (walked : list (list string)) (s s' : Cmd.session Directive.manifest_line)
    (rows : list (gmap string string)) (w : world) :
  Directive.generate_manifest ROOT_DIR csv walked s = (Ok (Some rows), s') →
  ∃ names,
    Directive.organize_archive ROOT_DIR today (Some rows) w
      = (Ok tt, World (files w) (out w ++ (SKIP_no_domain <$> names)) (success_count w)) ∧
    length names = length rows.
Proof.
  intros Hrows%directive_generate_manifest_rows.
  unfold Directive.organize_archive. revert w.
  induction Hrows as [|r rows (p & c & Hr) Hrows IH]; intros w.
  - exists []. cbn. rewrite app_nil_r. by destruct w.
  - destruct (IH (World (files w) (out w ++ [SKIP_no_domain (name p)])
                    (success_count w))) as (names & Hrest & Hlen).
    exists (name p :: names). cbn [for_each]. unfold bind at 1.
    rewrite (directive_record_skipped p c r w Hr), Hrest.
    cbn [files out success_count fmap list_fmap]. rewrite <- app_assoc.
    split; [done | simpl; lia].
Qed.
End ManifestFacts.

Section ManifestExamples.
Import Py Re Spec Fs.

Lemma X13_manifest_row_leads_to_its_file_witness :
  ∃ row original_path,
    Toolkit.manifest_record Sample.ROOT_DIR Sample.today
      (Sample.ROOT_DIR ++ ["notebooklm-import-raw"; "foo.md"]) "Hello" = Ok row ∧
    row !! "original_path" = Some original_path ∧
    pjoin Sample.ROOT_DIR original_path
      = Sample.ROOT_DIR ++ ["notebooklm-import-raw"; "foo.md"] ∧
    row !! "filename"
      = Some (name (Sample.ROOT_DIR ++ ["notebooklm-import-raw"; "foo.md"])).
Proof.
  apply (X13_manifest_row_leads_to_its_file Sample.ROOT_DIR Sample.today
           ["notebooklm-import-raw"; "foo.md"] "Hello").
  repeat constructor; by vm_compute.
Defined.

Lemma X14_fresh_manifest_validates_witness :
  ∃ rows s',
    Toolkit.generate_manifest Sample.ROOT_DIR Sample.today (λ _ _, "")
      [Sample.staged] (Cmd.Session (Sample.staging "def f(): pass") [])
      = (Ok (Some rows), s') ∧
    Toolkit.validate_manifest (Some rows)
      (Some Toolkit.DEFAULT_DOMAINS) (Some Toolkit.DEFAULT_TAGS)
    = Ok Toolkit.Validation_successful.
Proof.
  destruct (toolkit_generate_manifest_returns Sample.ROOT_DIR Sample.today
              (λ _ _, "") [Sample.staged]
              (Cmd.Session (Sample.staging "def f(): pass") []))
    as (rows & s' & Hrun).
  - exists Dir. by vm_compute.
  - by vm_compute.
  - by vm_compute.
  - exists rows, s'. split; [exact Hrun |].
    exact (X14_fresh_manifest_validates Sample.ROOT_DIR Sample.today (λ _ _, "")
             [Sample.staged] _ s' rows Hrun).
Defined.

Lemma X16_fresh_directive_manifest_archives_nothing_witness :
  ∃ rows s' names,
    Directive.generate_manifest Sample.ROOT_DIR (λ _ _, "")
      [Sample.staged] (Cmd.Session (Sample.with_manifests "Hello") [])
      = (Ok (Some rows), s') ∧
    Directive.organize_archive Sample.ROOT_DIR Sample.today (Some rows)
      (Sample.start "Hello")
    = (Ok tt, World (files (Sample.start "Hello"))
                    (out (Sample.start "Hello") ++ (SKIP_no_domain <$> names))
                    (success_count (Sample.start "Hello"))) ∧
    length names = length rows.
Proof.
  destruct (directive_generate_manifest_returns Sample.ROOT_DIR (λ _ _, "")
              [Sample.staged] (Cmd.Session (Sample.with_manifests "Hello") []))
    as (rows & s' & Hrun).
  - exists Dir. by vm_compute.
  - by vm_compute.
  - by vm_compute.
  - destruct (X16_fresh_directive_manifest_archives_nothing Sample.ROOT_DIR
                Sample.today (λ _ _, "") [Sample.staged] _ s' rows
                (Sample.start "Hello") Hrun) as (names & Horg & Hlen).
    exists rows, s', names. split; [exact Hrun |]. split; [exact Horg | exact Hlen].
Defined.
End ManifestExamples.

(* ===================================================================== *)
(** * The statistics of [generate_report] *)
(* ===================================================================== *)

Section ReportFacts.
Import Py Re Spec Fs.
Local Arguments String.append : simpl nomatch.
Variable ROOT_DIR : list string.

Lemma item_le_total : Total item_le.
Proof.
  intros [k1 n1] [k2 n2]. unfold item_le. cbn [fst snd].
  destruct (decide (k1 = k2)) as [-> | Hne].
  - destruct (Nat.le_ge_cases n1 n2); [left | right]; by right.
  - destruct (total String.le k1 k2); [left | right]; left; split; congruence.
Qed.

Lemma sorted_items_Sorted d : Sorted item_le (sorted_items d).
Proof. apply (@Sorted_merge_sort _ item_le item_le_dec item_le_total). Qed.

Lemma sorted_items_Permutation d : sorted_items d ≡ₚ map_to_list d.
Proof. apply merge_sort_Permutation. Qed.

Lemma elem_of_sorted_items d k n : (k, n) ∈ sorted_items d ↔ d !! k = Some n.
Proof. by rewrite sorted_items_Permutation, elem_of_map_to_list. Qed.

Lemma sorted_items_NoDup d : NoDup (sorted_items d).*1.
Proof. rewrite sorted_items_Permutation. apply NoDup_fst_map_to_list. Qed.

Lemma lookup_count_up k d x :
  default 0 (count_up k d !! x) = default 0 (d !! x) + (if decide (x = k) then 1 else 0).
Proof.
  unfold count_up. destruct (decide (x = k)) as [-> | Hne].
  - by rewrite lookup_insert_eq.
  - rewrite lookup_insert_ne by done. lia.
Qed.

Lemma count_up_positive k d :
  (∀ x, d !! x ≠ Some 0) → ∀ x, count_up k d !! x ≠ Some 0.
Proof.
  intros Hd x. unfold count_up. destruct (decide (x = k)) as [-> | Hne].
  - rewrite lookup_insert_eq. intros [=]. lia.
  - by rewrite lookup_insert_ne.
Qed.

(** What one file adds to the statistics. *)
Lemma report_file_counts st p :
  let st' := Toolkit.report_file ROOT_DIR st p in
  let archive := Toolkit.ARCHIVE_DIR ROOT_DIR in
  Toolkit.total_files st'
    = Toolkit.total_files st + (if counted p then 1 else 0) ∧
  (∀ x, default 0 (Toolkit.domains st' !! x)
        = default 0 (Toolkit.domains st !! x)
          + (if decide (counted p = true ∧ level archive 0 p = Some x) then 1 else 0)) ∧
  (∀ x, default 0 (Toolkit.stages st' !! x)
        = default 0 (Toolkit.stages st !! x)
          + (if decide (counted p = true ∧ level archive 1 p = Some x) then 1 else 0)) ∧
  ((∀ x, Toolkit.domains st !! x ≠ Some 0) → ∀ x, Toolkit.domains st' !! x ≠ Some 0) ∧
  ((∀ x, Toolkit.stages st !! x ≠ Some 0) → ∀ x, Toolkit.stages st' !! x ≠ Some 0).
Proof.
  cbv zeta. unfold Toolkit.report_file, counted, level.
  destruct (bool_decide ("taxonomy" ∈ p)); cbn [orb negb andb].
  { repeat split; try done; intros x; rewrite decide_False by (by intros [? ?]); lia. }
  destruct (bool_decide (lower (name p) = "readme.md")); cbn [orb negb andb].
  { repeat split; try done; intros x; rewrite decide_False by (by intros [? ?]); lia. }
  destruct (relative_to (Toolkit.ARCHIVE_DIR ROOT_DIR) p) as [[|d [|g rel]]|e];
    cbn [Toolkit.total_files Toolkit.domains Toolkit.stages length].
  1,2,4: repeat split; try done; intros x;
         rewrite decide_False by (by intros [? ?]); lia.
  rewrite bool_decide_eq_true_2 by (simpl; lia). cbn [lookup list_lookup].
  split; [done |]. split; [|split; [|split]].
  - intros x. rewrite lookup_count_up.
    destruct (decide (x = d)) as [-> | Hne].
    + by rewrite decide_True.
    + by rewrite decide_False by (by intros [_ [= ->]]).
  - intros x. rewrite lookup_count_up.
    destruct (decide (x = g)) as [-> | Hne].
    + by rewrite decide_True.
    + by rewrite decide_False by (by intros [_ [= ->]]).
  - apply count_up_positive.
  - apply count_up_positive.
Qed.

Lemma tally_cons archive k p found x :
  tally archive k (p :: found) x
    = (if decide (counted p = true ∧ level archive k p = Some x) then 1 else 0)
      + tally archive k found x.
Proof.
  unfold tally. destruct (decide _) as [H | H].
  - by rewrite filter_cons_True.
  - by rewrite filter_cons_False.
Qed.

(** The statistics after the whole listing. *)
Lemma report_counts found st :
  let st' := foldl (Toolkit.report_file ROOT_DIR) st found in
  let archive := Toolkit.ARCHIVE_DIR ROOT_DIR in
  Toolkit.total_files st'
    = Toolkit.total_files st + length (filter (λ p, counted p = true) found) ∧
  (∀ x, default 0 (Toolkit.domains st' !! x)
        = default 0 (Toolkit.domains st !! x) + tally archive 0 found x) ∧
  (∀ x, default 0 (Toolkit.stages st' !! x)
        = default 0 (Toolkit.stages st !! x) + tally archive 1 found x) ∧
  ((∀ x, Toolkit.domains st !! x ≠ Some 0) → ∀ x, Toolkit.domains st' !! x ≠ Some 0) ∧
  ((∀ x, Toolkit.stages st !! x ≠ Some 0) → ∀ x, Toolkit.stages st' !! x ≠ Some 0).
Proof.
  cbv zeta. revert st. induction found as [|p found IH]; intros st.
  - cbn [foldl]. unfold tally. rewrite !filter_nil. cbn [length].
    repeat split; try done; intros; lia.
  - cbn [foldl].
    destruct (report_file_counts st p) as (Ht & Hd & Hs & Hpd & Hps).
    destruct (IH (Toolkit.report_file ROOT_DIR st p)) as (Ht' & Hd' & Hs' & Hpd' & Hps').
    split; [|split; [|split; [|split]]].
    + rewrite Ht', Ht. destruct (counted p) eqn:Hc.
      * rewrite filter_cons_True by done. simpl. lia.
      * rewrite filter_cons_False by (by rewrite Hc). lia.
    + intros x. rewrite Hd', Hd, tally_cons. lia.
    + intros x. rewrite Hs', Hs, tally_cons. lia.
    + auto.
    + auto.
Qed.

Lemma table_of_sorted_items (count : string → nat) d :
  (∀ x, default 0 (d !! x) = count x) → (∀ x, d !! x ≠ Some 0) →
  table_of count (sorted_items d).
Proof.
  intros Hcount Hpos. split; [apply sorted_items_Sorted |].
  split; [apply sorted_items_NoDup |].
  intros x n. rewrite elem_of_sorted_items. specialize (Hcount x). specialize (Hpos x).
  destruct (d !! x) as [m|]; simpl in Hcount.
  - split.
    + intros [= <-]. split; [|done]. destruct m; [done | lia].
    + intros [_ ->]. congruence.
  - split; [done |]. intros [Hn ->]. lia.
Qed.

Lemma print_counts_lines d (s : Cmd.session Toolkit.report_line) :
  Toolkit.print_counts d s
    = (Ok tt, Cmd.Session (Cmd.disk s)
                (Cmd.printed s ++ (uncurry Toolkit.Count <$> sorted_items d))).
Proof.
  unfold Toolkit.print_counts. generalize (sorted_items d). intros items. revert s.
  induction items as [|[k n] items IH]; intros s.
  - cbn. rewrite app_nil_r. by destruct s.
  - cbn [Cmd.for_each]. unfold Cmd.bind at 1, Cmd.print at 1.
    rewrite IH. cbn [Cmd.disk Cmd.printed fmap list_fmap uncurry].
    by rewrite <- app_assoc.
Qed.

(** X17: when the archive directory is there, the root [generate_report]
    changes no file and prints, between its headings, the number of the
    listed files it counts (no [taxonomy] component, no readme), then one
    line for each first-level folder that holds counted files at least two
    levels below the archive, with their number, in the order of the
    names, and the same for each second-level component. *)
Theorem X17_report_counts_files_by_folder
    (found : list (list string)) (s : Cmd.session Toolkit.report_line) :
  is_Some (node_at (Toolkit.ARCHIVE_DIR ROOT_DIR) (Cmd.disk s)) →
  ∃ by_domain by_stage,
    Toolkit.generate_report ROOT_DIR found s
      = (Ok tt,
         Cmd.Session (Cmd.disk s)
           (Cmd.printed s
            ++ [Toolkit.Generating_Archive_Report; Toolkit.Knowledge_Archive_Statistics;
                Toolkit.Total_Documents (length (filter (λ p, counted p = true) found));
                Toolkit.By_Domain]
            ++ (uncurry Toolkit.Count <$> by_domain)
            ++ [Toolkit.By_Maturation_Stage]
            ++ (uncurry Toolkit.Count <$> by_stage)
            ++ [Toolkit.Closing_rule])) ∧
    table_of (tally (Toolkit.ARCHIVE_DIR ROOT_DIR) 0 found) by_domain ∧
    table_of (tally (Toolkit.ARCHIVE_DIR ROOT_DIR) 1 found) by_stage.
Proof.
  intros Hthere.
  destruct (report_counts found (Toolkit.Stats 0 ∅ ∅)) as (Ht & Hd & Hs & Hpd & Hps).
  set (st := foldl (Toolkit.report_file ROOT_DIR) (Toolkit.Stats 0 ∅ ∅) found) in *.
  exists (sorted_items (Toolkit.domains st)), (sorted_items (Toolkit.stages st)).
  split; [|split].
  - unfold Toolkit.generate_report.
    unfold Cmd.bind at 1, Cmd.print at 1.
    unfold Cmd.bind at 1, Cmd.on_disk at 1, exists_ at 1.
    cbn [files Cmd.disk Cmd.printed].
    rewrite bool_decide_eq_true_2 by done. cbn [negb]. fold st.
    unfold Cmd.bind at 1, Cmd.print at 1. cbn [Cmd.disk Cmd.printed].
    unfold Cmd.bind at 1, Cmd.print at 1. cbn [Cmd.disk Cmd.printed].
    unfold Cmd.bind at 1, Cmd.print at 1. cbn [Cmd.disk Cmd.printed].
    unfold Cmd.bind at 1. rewrite print_counts_lines. cbn [Cmd.disk Cmd.printed].
    unfold Cmd.bind at 1, Cmd.print at 1. cbn [Cmd.disk Cmd.printed].
    unfold Cmd.bind at 1. rewrite print_counts_lines. cbn [Cmd.disk Cmd.printed].
    unfold Cmd.print. cbn [Cmd.disk Cmd.printed].
    rewrite Ht. cbn [Toolkit.total_files]. rewrite Nat.add_0_l.
    do 2 f_equal. rewrite <- !app_assoc. reflexivity.
  - apply table_of_sorted_items.
    + intros x. rewrite Hd. cbn [Toolkit.domains]. by rewrite lookup_empty.
    + apply Hpd. intros x. cbn [Toolkit.domains]. by rewrite lookup_empty.
  - apply table_of_sorted_items.
    + intros x. rewrite Hs. cbn [Toolkit.stages]. by rewrite lookup_empty.
    + apply Hps. intros x. cbn [Toolkit.stages]. by rewrite lookup_empty.
Qed.

Lemma lower_sapp a b : lower (a +:+ b) = lower a +:+ lower b.
Proof. induction a as [|c a IH]; [done |]. rewrite sapp_cons. cbn [lower]. by rewrite IH. Qed.

Lemma lower_free_of_dash s : free_of "-" (lower s) → free_of "-" s.
Proof.
  induction s as [|c s IH]; [done |]. cbn [lower].
  intros [Hc Hs]%free_of_cons. apply free_of_cons. split; [|by apply IH].
  intros <-. by apply Hc.
Qed.

Lemma new_filename_has_dash today row filename :
  ¬ free_of "-" (Toolkit.new_filename today row filename).
Proof.
  unfold Toolkit.new_filename. intros H.
  apply free_of_app in H as [_ H]. by apply free_of_app in H as [H _].
Qed.

(** One turn of the loop of [generate_report] on the target of a row. *)
Lemma report_file_archived
    (today : string) (row : gmap string string) (filename : string)
    (st : Toolkit.stats) :
  component (Toolkit.domain_of row) → free_of "/" today →
  "taxonomy" ∉ ROOT_DIR →
  let target := Toolkit.target_path ROOT_DIR today row filename in
  (Toolkit.domain_of row ≠ "taxonomy" →
   Toolkit.report_file ROOT_DIR st target
     = Toolkit.Stats (Toolkit.total_files st + 1)
         (count_up (Toolkit.domain_of row) (Toolkit.domains st))
         (count_up (Toolkit.stage_folder (Toolkit.stage_of row)) (Toolkit.stages st))) ∧
  (Toolkit.domain_of row = "taxonomy" →
   Toolkit.report_file ROOT_DIR st target = st).
Proof.
  intros Hd Ht Hroot target.
  assert (Hshape : target = Toolkit.ARCHIVE_DIR ROOT_DIR
            ++ [Toolkit.domain_of row; Toolkit.stage_folder (Toolkit.stage_of row);
                Toolkit.new_filename today row filename]).
  { subst target. rewrite toolkit_target_path_shape, toolkit_target_dir_shape by done.
    by rewrite <- app_assoc. }
  assert (Hname : name target = Toolkit.new_filename today row filename).
  { rewrite Hshape. unfold name.
    replace (Toolkit.ARCHIVE_DIR ROOT_DIR
               ++ [Toolkit.domain_of row; Toolkit.stage_folder (Toolkit.stage_of row);
                   Toolkit.new_filename today row filename])
      with ((Toolkit.ARCHIVE_DIR ROOT_DIR
               ++ [Toolkit.domain_of row; Toolkit.stage_folder (Toolkit.stage_of row)])
            ++ [Toolkit.new_filename today row filename])
      by (by rewrite <- app_assoc).
    apply last_last. }
  assert (Hreadme : lower (name target) ≠ "readme.md").
  { rewrite Hname. intros Heq.
    apply (new_filename_has_dash today row filename).
    apply lower_free_of_dash. by rewrite Heq. }
  assert (Hfile : Toolkit.new_filename today row filename ≠ "taxonomy").
  { intros Heq. apply (new_filename_has_dash today row filename). by rewrite Heq. }
  assert (Hfolder : Toolkit.stage_folder (Toolkit.stage_of row) ≠ "taxonomy").
  { unfold Toolkit.stage_folder. by repeat case_bool_decide. }
  unfold Toolkit.report_file. split.
  - intros Hdom.
    rewrite bool_decide_eq_false_2.
    2:{ rewrite Hshape. unfold Toolkit.ARCHIVE_DIR.
        rewrite !elem_of_app, !elem_of_cons, elem_of_nil.
        intros [[? | [? | ?]] | [? | [? | [? | ?]]]]; congruence. }
    rewrite bool_decide_eq_false_2 by done. cbn [orb].
    by rewrite Hshape, relative_to_app.
  - intros Hdom. rewrite bool_decide_eq_true_2; [done |].
    rewrite Hshape, Hdom. apply elem_of_app. right. by left.
Qed.

Lemma tally_middle archive k pre p post x :
  tally archive k (pre ++ p :: post) x
    = (if decide (counted p = true ∧ level archive k p = Some x) then 1 else 0)
      + tally archive k (pre ++ post) x.
Proof.
  unfold tally. rewrite !filter_app, !length_app.
  destruct (decide _) as [H | H].
  - rewrite filter_cons_True by done. simpl. lia.
  - by rewrite filter_cons_False.
Qed.

(** The run of [generate_report] in terms of the statistics it
    gathers. *)
Lemma generate_report_run found (s : Cmd.session Toolkit.report_line) :
  is_Some (node_at (Toolkit.ARCHIVE_DIR ROOT_DIR) (Cmd.disk s)) →
  let st := foldl (Toolkit.report_file ROOT_DIR) (Toolkit.Stats 0 ∅ ∅) found in
  Toolkit.generate_report ROOT_DIR found s
    = (Ok tt,
       Cmd.Session (Cmd.disk s)
         (Cmd.printed s
          ++ [Toolkit.Generating_Archive_Report; Toolkit.Knowledge_Archive_Statistics;
              Toolkit.Total_Documents (Toolkit.total_files st); Toolkit.By_Domain]
          ++ (uncurry Toolkit.Count <$> sorted_items (Toolkit.domains st))
          ++ [Toolkit.By_Maturation_Stage]
          ++ (uncurry Toolkit.Count <$> sorted_items (Toolkit.stages st))
          ++ [Toolkit.Closing_rule])).
Proof.
  intros Hthere st. unfold Toolkit.generate_report.
  unfold Cmd.bind at 1, Cmd.print at 1.
  unfold Cmd.bind at 1, Cmd.on_disk at 1, exists_ at 1.
  cbn [files Cmd.disk Cmd.printed].
  rewrite bool_decide_eq_true_2 by done. cbn [negb]. fold st.
  unfold Cmd.bind at 1, Cmd.print at 1. cbn [Cmd.disk Cmd.printed].
  unfold Cmd.bind at 1, Cmd.print at 1. cbn [Cmd.disk Cmd.printed].
  unfold Cmd.bind at 1, Cmd.print at 1. cbn [Cmd.disk Cmd.printed].
  unfold Cmd.bind at 1. rewrite print_counts_lines. cbn [Cmd.disk Cmd.printed].
  unfold Cmd.bind at 1, Cmd.print at 1. cbn [Cmd.disk Cmd.printed].
  unfold Cmd.bind at 1. rewrite print_counts_lines. cbn [Cmd.disk Cmd.printed].
  unfold Cmd.print. cbn [Cmd.disk Cmd.printed].
  do 2 f_equal. rewrite <- !app_assoc. reflexivity.
Qed.

(** X18: the report finds what the organizer filed.  Take a row whose
    domain is a proper path component and no step up, a date without a
    slash and a [ROOT_DIR] without a [taxonomy] component and without a
    step up.  The target of the row then has no step up and lies three
    levels below the archive, where [rglob] finds it.  In a run of
    [generate_report] over a listing that holds the target, the note
    adds one to the number of documents, one to the line of the domain
    of the row and one to the line of its stage folder, next to what the
    other listed files give.  When the domain is [taxonomy] itself the
    note lies in the taxonomy folder and is passed over: the run is the
    run over the listing without it. *)
Theorem X18_report_counts_an_archived_note
    (today : string) (row : gmap string string) (filename : string)
    (pre post : list (list string)) (s : Cmd.session Toolkit.report_line) :
  component (Toolkit.domain_of row) → Toolkit.domain_of row ≠ ".." →
  free_of "/" today → "taxonomy" ∉ ROOT_DIR → plain ROOT_DIR →
  is_Some (node_at (Toolkit.ARCHIVE_DIR ROOT_DIR) (Cmd.disk s)) →
  let target := Toolkit.target_path ROOT_DIR today row filename in
  let archive := Toolkit.ARCHIVE_DIR ROOT_DIR in
  let domain := Toolkit.domain_of row in
  let folder := Toolkit.stage_folder (Toolkit.stage_of row) in
  plain target ∧
  target = archive ++ [domain; folder; Toolkit.new_filename today row filename] ∧
  (domain ≠ "taxonomy" →
   ∃ by_domain by_stage,
     Toolkit.generate_report ROOT_DIR (pre ++ target :: post) s
       = (Ok tt,
          Cmd.Session (Cmd.disk s)
            (Cmd.printed s
             ++ [Toolkit.Generating_Archive_Report; Toolkit.Knowledge_Archive_Statistics;
                 Toolkit.Total_Documents
                   (S (length (filter (λ p, counted p = true) (pre ++ post))));
                 Toolkit.By_Domain]
             ++ (uncurry Toolkit.Count <$> by_domain)
             ++ [Toolkit.By_Maturation_Stage]
             ++ (uncurry Toolkit.Count <$> by_stage)
             ++ [Toolkit.Closing_rule])) ∧
     table_of (tally archive 0 (pre ++ target :: post)) by_domain ∧
     table_of (tally archive 1 (pre ++ target :: post)) by_stage ∧
     (domain, S (tally archive 0 (pre ++ post) domain)) ∈ by_domain ∧
     (folder, S (tally archive 1 (pre ++ post) folder)) ∈ by_stage) ∧
  (domain = "taxonomy" →
   Toolkit.generate_report ROOT_DIR (pre ++ target :: post) s
     = Toolkit.generate_report ROOT_DIR (pre ++ post) s).
Proof.
  intros Hd Hup Ht Hroot Hplain Hthere target archive domain folder.
  assert (Hshape : target = archive
            ++ [domain; folder; Toolkit.new_filename today row filename]).
  { subst target. rewrite toolkit_target_path_shape, toolkit_target_dir_shape by done.
    by rewrite <- app_assoc. }
  assert (Hfile : Toolkit.new_filename today row filename ≠ "..").
  { intros Heq. apply (new_filename_has_dash today row filename). by rewrite Heq. }
  assert (Hfolder : folder ≠ "..").
  { subst folder. unfold Toolkit.stage_folder. by repeat case_bool_decide. }
  split; [|split; [exact Hshape |split]].
  - rewrite Hshape. subst archive. unfold plain, Toolkit.ARCHIVE_DIR in *.
    rewrite !elem_of_app, !elem_of_cons, elem_of_nil.
    intros [[? | [? | ?]] | [? | [? | [? | ?]]]]; try done; congruence.
  - intros Hdom.
    destruct (report_file_archived today row filename (Toolkit.Stats 0 ∅ ∅)
                Hd Ht Hroot) as [Hturn _].
    specialize (Hturn Hdom). fold target in Hturn.
    assert (Hcounted : counted target = true).
    { destruct (counted target) eqn:Hc; [done |].
      unfold Toolkit.report_file in Hturn. unfold counted in Hc.
      apply andb_false_iff in Hc.
      assert (Hskip : bool_decide ("taxonomy" ∈ target)
                      || bool_decide (lower (name target) = "readme.md") = true).
      { destruct Hc as [Hc | Hc]; apply negb_false_iff in Hc; rewrite Hc;
          [done | apply orb_true_r]. }
      rewrite Hskip in Hturn. by injection Hturn. }
    assert (Hlevel : ∀ k, level archive k target
              = [domain; folder; Toolkit.new_filename today row filename] !! k).
    { intros k. unfold level. rewrite Hshape. subst archive.
      by rewrite relative_to_app. }
    destruct (report_counts (pre ++ target :: post) (Toolkit.Stats 0 ∅ ∅))
      as (Htotal & Hdoms & Hstages & Hpd & Hps).
    set (st := foldl (Toolkit.report_file ROOT_DIR) (Toolkit.Stats 0 ∅ ∅)
                 (pre ++ target :: post)) in *.
    assert (Htd : table_of (tally archive 0 (pre ++ target :: post))
                    (sorted_items (Toolkit.domains st))).
    { apply table_of_sorted_items.
      - intros x. rewrite Hdoms. cbn [Toolkit.domains]. by rewrite lookup_empty.
      - apply Hpd. intros x. cbn [Toolkit.domains]. by rewrite lookup_empty. }
    assert (Hts : table_of (tally archive 1 (pre ++ target :: post))
                    (sorted_items (Toolkit.stages st))).
    { apply table_of_sorted_items.
      - intros x. rewrite Hstages. cbn [Toolkit.stages]. by rewrite lookup_empty.
      - apply Hps. intros x. cbn [Toolkit.stages]. by rewrite lookup_empty. }
    exists (sorted_items (Toolkit.domains st)), (sorted_items (Toolkit.stages st)).
    split; [|split; [exact Htd | split; [exact Hts | split]]].
    + rewrite (generate_report_run (pre ++ target :: post) s Hthere). cbv zeta. fold st.
      rewrite Htotal. cbn [Toolkit.total_files]. rewrite Nat.add_0_l.
      rewrite !filter_app, filter_cons_True, !length_app by done.
      cbn [length]. by rewrite Nat.add_succ_r.
    + destruct Htd as (_ & _ & Hin). apply Hin.
      rewrite (tally_middle archive 0 pre target post domain).
      rewrite decide_True by (by rewrite Hlevel). split; [lia | done].
    + destruct Hts as (_ & _ & Hin). apply Hin.
      rewrite (tally_middle archive 1 pre target post folder).
      rewrite decide_True by (by rewrite Hlevel). split; [lia | done].
  - intros Hdom.
    destruct (report_file_archived today row filename (Toolkit.Stats 0 ∅ ∅)
                Hd Ht Hroot) as [_ Hturn].
    assert (Hpass : ∀ st, Toolkit.report_file ROOT_DIR st target = st).
    { intros st.
      destruct (report_file_archived today row filename st Hd Ht Hroot) as [_ H].
      by apply H. }
    unfold Toolkit.generate_report.
    rewrite foldl_app. cbn [foldl]. rewrite Hpass. by rewrite <- foldl_app.
Qed.
End ReportFacts.

Section ReportExamples.
Import Py Re Spec Fs.

Lemma X17_report_counts_files_by_folder_witness :
  ∃ by_domain by_stage,
    Toolkit.generate_report Sample.ROOT_DIR
      [["home"; "user"; "knowledge-archive"; "tradecraft"; "experiential_data"; "a.md"];
       ["home"; "user"; "knowledge-archive"; "taxonomy"; "notes"; "b.md"]]
      (Cmd.Session (<[ ["home"; "user"; "knowledge-archive"] := Dir ]> ∅) [])
    = (Ok tt,
       Cmd.Session (<[ ["home"; "user"; "knowledge-archive"] := Dir ]> ∅)
         ([Toolkit.Generating_Archive_Report; Toolkit.Knowledge_Archive_Statistics;
           Toolkit.Total_Documents 1; Toolkit.By_Domain]
          ++ (uncurry Toolkit.Count <$> by_domain)
          ++ [Toolkit.By_Maturation_Stage]
          ++ (uncurry Toolkit.Count <$> by_stage)
          ++ [Toolkit.Closing_rule])) ∧
    ("tradecraft", 1) ∈ by_domain ∧ ("experiential_data", 1) ∈ by_stage.
Proof.
  destruct (X17_report_counts_files_by_folder Sample.ROOT_DIR
    [["home"; "user"; "knowledge-archive"; "tradecraft"; "experiential_data"; "a.md"];
     ["home"; "user"; "knowledge-archive"; "taxonomy"; "notes"; "b.md"]]
    (Cmd.Session (<[ ["home"; "user"; "knowledge-archive"] := Dir ]> ∅) []))
    as (by_domain & by_stage & Hrun & (_ & _ & Hd) & (_ & _ & Hs)).
  - exists Dir. by vm_compute.
  - exists by_domain, by_stage. split; [exact Hrun |]. split.
    + apply Hd. split; [lia | by vm_compute].
    + apply Hs. split; [lia | by vm_compute].
Defined.

Lemma X18_report_counts_an_archived_note_witness :
  ∃ by_domain by_stage,
    Toolkit.generate_report Sample.ROOT_DIR
      [Toolkit.target_path Sample.ROOT_DIR Sample.today
         (Sample.toolkit_row "tradecraft" "formalizedframework" "") "foo.md"]
      (Cmd.Session (<[ ["home"; "user"; "knowledge-archive"] := Dir ]> ∅) [])
    = (Ok tt,
       Cmd.Session (<[ ["home"; "user"; "knowledge-archive"] := Dir ]> ∅)
         ([Toolkit.Generating_Archive_Report; Toolkit.Knowledge_Archive_Statistics;
           Toolkit.Total_Documents 1; Toolkit.By_Domain]
          ++ (uncurry Toolkit.Count <$> by_domain)
          ++ [Toolkit.By_Maturation_Stage]
          ++ (uncurry Toolkit.Count <$> by_stage)
          ++ [Toolkit.Closing_rule])) ∧
    ("tradecraft", 1) ∈ by_domain ∧ ("formalized_frameworks", 1) ∈ by_stage.
Proof.
  destruct (X18_report_counts_an_archived_note Sample.ROOT_DIR Sample.today
              (Sample.toolkit_row "tradecraft" "formalizedframework" "") "foo.md"
              [] [] (Cmd.Session (<[ ["home"; "user"; "knowledge-archive"] := Dir ]> ∅) []))
    as (_ & _ & Hcounted & _).
  - by vm_compute.
  - by vm_compute.
  - by vm_compute.
  - apply (bool_decide_eq_false_1 _). by vm_compute.
  - apply (bool_decide_eq_false_1 _). by vm_compute.
  - exists Dir. by vm_compute.
  - destruct Hcounted as (by_domain & by_stage & Hrun & _ & _ & Hd & Hs);
      [by vm_compute |].
    exists by_domain, by_stage. split; [exact Hrun |]. split; [exact Hd | exact Hs].
Defined.
End ReportExamples.

(* ===================================================================== *)
(** * Setting up the directories *)
(* ===================================================================== *)

Section MkdirFacts.
Import Py Fs.

(** The files after [mkdir_from] returned: the paths of [made] are
    directories, the rest is as before. *)
Lemma mkdir_from_lookup base rest f f' :
  mkdir_from base rest f = Ok f' →
  ∀ q, f' !! q = if decide (q ∈ made base rest) then Some Dir else f !! q.
Proof.
  revert base f. induction rest as [|x rest IH]; intros base f;
    cbn [mkdir_from made].
  - intros [= ->] q. by rewrite decide_False by by intros ?%elem_of_nil.
  - intros Hmk.
    assert (Hnf : ∀ c, f !! (base ++ [x]) ≠ Some (File c)).
    { intros c Hc. by rewrite Hc in Hmk; destruct rest. }
    assert (Hmk' : mkdir_from (base ++ [x]) rest (<[base ++ [x] := Dir]> f) = Ok f').
    { by destruct (f !! (base ++ [x])) as [[c|]|] eqn:Hl; [destruct (Hnf c) | |]. }
    intros q. rewrite (IH _ _ Hmk' q).
    destruct (decide (q ∈ made (base ++ [x]) rest)) as [Hin | Hout].
    + rewrite decide_True; [done |]. apply elem_of_cons. by right.
    + destruct (decide (q = base ++ [x])) as [-> | Hne].
      * rewrite lookup_insert_eq. rewrite decide_True; [done |].
        apply elem_of_cons. by left.
      * rewrite lookup_insert_ne by done.
        rewrite decide_False; [done |]. by intros [? | ?]%elem_of_cons.
Qed.

(** Nothing changes when the directories are all there. *)
Lemma mkdir_from_id base rest f :
  (∀ q, q ∈ made base rest → f !! q = Some Dir) → mkdir_from base rest f = Ok f.
Proof.
  revert base. induction rest as [|x rest IH]; intros base Hall; [done |].
  simpl. assert (Hx : f !! (base ++ [x]) = Some Dir).
  { apply Hall. simpl. apply elem_of_cons. by left. }
  rewrite Hx, insert_id by done. apply IH. intros q Hq. apply Hall.
  simpl. apply elem_of_cons. by right.
Qed.

(** The paths of [made] from the root are the prefixes that are not
    empty. *)
Lemma made_of_prefix (base rest q : list string) :
  base `prefix_of` q → q `prefix_of` base ++ rest → q ≠ base → q ∈ made base rest.
Proof.
  revert base. induction rest as [|x rest IH]; intros base [t ->] Hq Hne.
  - rewrite app_nil_r in Hq. apply prefix_length in Hq.
    rewrite length_app in Hq. destruct t; [by rewrite app_nil_r in Hne |].
    simpl in Hq. lia.
  - destruct t as [|y t]; [by rewrite app_nil_r in Hne |].
    apply prefix_app_inv in Hq. apply prefix_cons_inv_1 in Hq as Hy. subst y.
    apply prefix_cons_inv_2 in Hq. simpl. apply elem_of_cons.
    destruct t as [|z t]; [by left |]. right. apply (IH (base ++ [x])).
    + rewrite (cons_middle x base (z :: t)), app_assoc. by apply prefix_app_r.
    + rewrite <- app_assoc. apply prefix_app. cbn. by apply prefix_cons.
    + by intros Heq%app_inv_head.
Qed.

Lemma made_root_last (p : list string) : p ≠ [] → p ∈ made [] p.
Proof. intros Hne. by apply (made_last [] p). Qed.
End MkdirFacts.

Section InitFacts.
Import Py Spec Fs.
Context {L : Type} (line : list string → L).

Lemma make_directories_result dirs s s' :
  Cmd.make_directories line dirs s = (Ok tt, s') →
  Cmd.printed s' = Cmd.printed s ++ (line <$> dirs) ∧
  ∀ q, Cmd.disk s' !! q
       = if decide (Exists (λ d, q ∈ made [] d) dirs) then Some Dir
         else Cmd.disk s !! q.
Proof.
  unfold Cmd.make_directories. revert s.
  induction dirs as [|d dirs IH]; intros s.
  - cbn. intros [= <-]. rewrite app_nil_r. split; [done |]. intros q.
    by rewrite decide_False by by intros ?%Exists_nil.
  - cbn [Cmd.for_each]. unfold Cmd.bind at 1, Cmd.bind at 1, Cmd.on_disk, mkdir_p.
    cbn [files]. destruct (mkdir_from [] d (Cmd.disk s)) as [f1|e] eqn:Hmk; [|done].
    unfold set_files, Cmd.print. cbn [files Cmd.disk Cmd.printed].
    intros Hrest. apply IH in Hrest as [Hp Hd]. cbn [Cmd.disk Cmd.printed] in *.
    split; [by rewrite Hp, <- app_assoc |].
    intros q. rewrite Hd, (mkdir_from_lookup _ _ _ _ Hmk q).
    destruct (decide (Exists (λ d0, q ∈ made [] d0) dirs)) as [Hex | Hnex].
    + rewrite decide_True; [done |]. by apply Exists_cons_tl.
    + destruct (decide (q ∈ made [] d)) as [Hin | Hout].
      * rewrite decide_True; [done |]. by apply Exists_cons_hd.
      * rewrite decide_False; [done |]. by intros [? | ?]%Exists_cons.
Qed.

Lemma make_directories_ok dirs s :
  Forall (λ d, way_clear d (Cmd.disk s)) dirs →
  ∃ s', Cmd.make_directories line dirs s = (Ok tt, s').
Proof.
  unfold Cmd.make_directories. revert s.
  induction dirs as [|d dirs IH]; intros s Hclear; [by eexists |].
  apply Forall_cons in Hclear as [Hd Hdirs].
  destruct (mkdir_from_ok [] d (Cmd.disk s)) as (f' & Hmk & _ & _).
  { intros q c Hq. apply Hd. by apply made_prefix in Hq. }
  cbn [Cmd.for_each]. unfold Cmd.bind at 1, Cmd.bind at 1, Cmd.on_disk, mkdir_p.
  cbn [files]. rewrite Hmk. unfold set_files, Cmd.print.
  cbn [files Cmd.disk Cmd.printed]. apply IH. cbn [Cmd.disk].
  eapply Forall_impl; [exact Hdirs |]. intros d' Hd' q c Hq.
  rewrite (mkdir_from_lookup _ _ _ _ Hmk q).
  destruct (decide (q ∈ made [] d)); [done | by apply Hd'].
Qed.

Lemma make_directories_id dirs s :
  (∀ d q, d ∈ dirs → q ∈ made [] d → Cmd.disk s !! q = Some Dir) →
  Cmd.make_directories line dirs s
    = (Ok tt, Cmd.Session (Cmd.disk s) (Cmd.printed s ++ (line <$> dirs))).
Proof.
  unfold Cmd.make_directories. revert s.
  induction dirs as [|d dirs IH]; intros s Hall.
  - cbn. rewrite app_nil_r. by destruct s.
  - cbn [Cmd.for_each]. unfold Cmd.bind at 1, Cmd.bind at 1, Cmd.on_disk, mkdir_p.
    cbn [files]. rewrite mkdir_from_id.
    2:{ intros q Hq. apply (Hall d q); [by left | done]. }
    unfold set_files, Cmd.print. cbn [files Cmd.disk Cmd.printed].
    rewrite IH.
    + cbn [Cmd.disk Cmd.printed fmap list_fmap]. by rewrite <- app_assoc.
    + intros d' q Hd' Hq. cbn [Cmd.disk]. apply (Hall d' q); [by right | done].
Qed.
End InitFacts.

Section ToolkitInit.
Import Py Spec Fs.
Variable ROOT_DIR : list string.

Local Abbreviation STAGING := (Toolkit.STAGING_DIR ROOT_DIR).
Local Abbreviation ARCHIVE := (Toolkit.ARCHIVE_DIR ROOT_DIR).
Local Abbreviation TAXONOMY := (Toolkit.TAXONOMY_DIR ROOT_DIR).
Local Abbreviation domains_file := (Toolkit.TAXONOMY_DIR ROOT_DIR ++ ["domains.json"]).
Local Abbreviation tags_file := (Toolkit.TAXONOMY_DIR ROOT_DIR ++ ["tags.json"]).
Local Abbreviation dirs :=
  [Toolkit.STAGING_DIR ROOT_DIR; Toolkit.ARCHIVE_DIR ROOT_DIR;
   Toolkit.TAXONOMY_DIR ROOT_DIR].

(** The stub is written exactly when nothing is at its path. *)
Lemma toolkit_stub_result dir x table (s : Cmd.session Toolkit.init_line) :
  node_at dir (Cmd.disk s) = Some Dir →
  Toolkit.write_stub_if_missing (dir ++ [x]) table s
    = (Ok tt,
       Cmd.Session
         (match Cmd.disk s !! (dir ++ [x]) with
          | Some _ => Cmd.disk s
          | None => <[dir ++ [x] := File (Toolkit.dump_stub table)]> (Cmd.disk s)
          end) (Cmd.printed s)).
Proof.
  intros Hdir. unfold Toolkit.write_stub_if_missing.
  unfold Cmd.bind, Cmd.on_disk at 1, exists_. cbn [files].
  rewrite node_at_app_singleton. destruct s as [f o]. cbn [Cmd.disk Cmd.printed] in *.
  destruct (f !! (dir ++ [x])) as [n|] eqn:Hat.
  - by rewrite bool_decide_eq_true_2 by eauto.
  - rewrite bool_decide_eq_false_2 by (by intros [? ?]). cbn [negb].
    unfold Cmd.on_disk. cbn [Cmd.disk Cmd.printed].
    rewrite (write_text_ok (dir ++ [x]) _ (World f [] 0)).
    + done.
    + cbn [files]. by rewrite node_at_app_singleton, Hat.
    + by rewrite parent_app_singleton.
Qed.

Lemma toolkit_made_short q :
  Exists (λ d, q ∈ made [] d) dirs → length q ≤ length ROOT_DIR + 2.
Proof.
  rewrite !Exists_cons, Exists_nil.
  intros [H | [H | [H | []]]]; apply made_length in H;
    unfold Toolkit.TAXONOMY_DIR, Toolkit.STAGING_DIR, Toolkit.ARCHIVE_DIR in H;
    rewrite ?length_app in H; simpl in H; lia.
Qed.

Lemma toolkit_stub_long x :
  length (TAXONOMY ++ [x]) = length ROOT_DIR + 3.
Proof.
  unfold Toolkit.TAXONOMY_DIR, Toolkit.ARCHIVE_DIR. rewrite !length_app. simpl. lia.
Qed.

(** What [initialize_directories] comes to once its directories are
    made. *)
Lemma initialize_directories_lookup (s s1 : Cmd.session Toolkit.init_line) :
  Cmd.make_directories Toolkit.Verified_directory dirs s = (Ok tt, s1) →
  ∃ f',
    Toolkit.initialize_directories ROOT_DIR s
      = (Ok tt, Cmd.Session f'
                  (Cmd.printed s ++ (Toolkit.Verified_directory <$> dirs))) ∧
    ∀ q, f' !! q =
      if decide (q = tags_file)
      then Some (default (File (Toolkit.dump_stub Toolkit.DEFAULT_TAGS))
                         (Cmd.disk s !! tags_file))
      else if decide (q = domains_file)
      then Some (default (File (Toolkit.dump_stub Toolkit.DEFAULT_DOMAINS))
                         (Cmd.disk s !! domains_file))
      else if decide (Exists (λ d, q ∈ made [] d) dirs) then Some Dir
      else Cmd.disk s !! q.
Proof.
  intros Hmk. destruct (make_directories_result _ _ _ _ Hmk) as [Hp Hd].
  assert (Hlong : ∀ x, ¬ Exists (λ d, TAXONOMY ++ [x] ∈ made [] d) dirs).
  { intros x Hex%toolkit_made_short. rewrite toolkit_stub_long in Hex. lia. }
  assert (Htax : Cmd.disk s1 !! TAXONOMY = Some Dir).
  { rewrite Hd, decide_True; [done |]. do 2 apply Exists_cons_tl. apply Exists_cons_hd.
    apply made_root_last. unfold Toolkit.TAXONOMY_DIR. by destruct (ARCHIVE). }
  assert (Hnode : ∀ g, node_at TAXONOMY g = g !! TAXONOMY).
  { intros g. unfold Toolkit.TAXONOMY_DIR. apply node_at_app_singleton. }
  unfold Toolkit.initialize_directories. unfold Cmd.bind at 1. rewrite Hmk.
  rewrite !pjoin_component by (by vm_compute).
  unfold Cmd.bind at 1. rewrite toolkit_stub_result by by rewrite Hnode.
  set (f2 := match Cmd.disk s1 !! domains_file with
             | Some _ => Cmd.disk s1
             | None => <[domains_file :=
                           File (Toolkit.dump_stub Toolkit.DEFAULT_DOMAINS)]> (Cmd.disk s1)
             end).
  assert (Htax2 : f2 !! TAXONOMY = Some Dir).
  { subst f2. destruct (Cmd.disk s1 !! domains_file); [done |].
    rewrite lookup_insert_ne; [done |].
    intros Heq%(f_equal length). rewrite length_app in Heq. simpl in Heq. lia. }
  rewrite toolkit_stub_result by by rewrite Hnode.
  cbn [Cmd.disk Cmd.printed]. eexists. split; [by rewrite Hp |].
  assert (Hdt : domains_file ≠ tags_file) by (by intros [= ?]%app_inv_head).
  assert (Hd1 : Cmd.disk s1 !! domains_file = Cmd.disk s !! domains_file).
  { rewrite Hd. by rewrite decide_False by apply Hlong. }
  assert (Hd2 : Cmd.disk s1 !! tags_file = Cmd.disk s !! tags_file).
  { rewrite Hd. by rewrite decide_False by apply Hlong. }
  assert (Hf2 : ∀ q, f2 !! q =
            if decide (q = domains_file)
            then Some (default (File (Toolkit.dump_stub Toolkit.DEFAULT_DOMAINS))
                               (Cmd.disk s !! domains_file))
            else Cmd.disk s1 !! q).
  { intros q. subst f2. rewrite <- Hd1.
    destruct (decide (q = domains_file)) as [-> | Hne].
    - destruct (Cmd.disk s1 !! domains_file) eqn:Heq; [done |].
      by rewrite lookup_insert_eq.
    - destruct (Cmd.disk s1 !! domains_file); [done |]. by rewrite lookup_insert_ne. }
  intros q. destruct (decide (q = tags_file)) as [-> | Hne].
  - rewrite <- Hd2. rewrite (Hf2 tags_file), decide_False by done.
    destruct (Cmd.disk s1 !! tags_file) eqn:Heq.
    + by rewrite Hf2, decide_False, Heq by done.
    + by rewrite lookup_insert_eq.
  - assert (Hq : (match f2 !! tags_file with
                  | Some _ => f2
                  | None => <[tags_file :=
                                File (Toolkit.dump_stub Toolkit.DEFAULT_TAGS)]> f2
                  end) !! q = f2 !! q).
    { destruct (f2 !! tags_file); [done |]. by rewrite lookup_insert_ne. }
    rewrite Hq, Hf2. destruct (decide (q = domains_file)); [done |]. apply Hd.
Qed.

Lemma toolkit_made_lookup (f' : gmap (list string) node) (f : gmap (list string) node) q :
  (∀ q, f' !! q =
      if decide (q = tags_file)
      then Some (default (File (Toolkit.dump_stub Toolkit.DEFAULT_TAGS)) (f !! tags_file))
      else if decide (q = domains_file)
      then Some (default (File (Toolkit.dump_stub Toolkit.DEFAULT_DOMAINS))
                         (f !! domains_file))
      else if decide (Exists (λ d, q ∈ made [] d) dirs) then Some Dir
      else f !! q) →
  Exists (λ d, q ∈ made [] d) dirs → f' !! q = Some Dir.
Proof.
  intros Hlook Hex. rewrite Hlook. pose proof (toolkit_made_short q Hex) as Hlen.
  rewrite decide_False, decide_False, decide_True; [done | done | |].
  - intros ->. rewrite toolkit_stub_long in Hlen. lia.
  - intros ->. rewrite toolkit_stub_long in Hlen. lia.
Qed.

Lemma toolkit_dirs_made :
  Forall (λ d, Exists (λ d', d ∈ made [] d') dirs) dirs.
Proof.
  apply Forall_cons. split; [|apply Forall_cons; split; [|apply Forall_cons; split]].
  - apply Exists_cons_hd, made_root_last. unfold Toolkit.STAGING_DIR. by destruct ROOT_DIR.
  - apply Exists_cons_tl, Exists_cons_hd, made_root_last.
    unfold Toolkit.ARCHIVE_DIR. by destruct ROOT_DIR.
  - do 2 apply Exists_cons_tl. apply Exists_cons_hd, made_root_last.
    unfold Toolkit.TAXONOMY_DIR. by destruct (ARCHIVE).
  - apply Forall_nil_2.
Qed.

Lemma toolkit_initialize_returns (s : Cmd.session Toolkit.init_line) :
  way_clear (Toolkit.STAGING_DIR ROOT_DIR) (Cmd.disk s) →
  way_clear (Toolkit.TAXONOMY_DIR ROOT_DIR) (Cmd.disk s) →
  ∃ s1, Toolkit.initialize_directories ROOT_DIR s = (Ok tt, s1).
Proof.
  intros Hstaging Htaxonomy.
  assert (Harchive : way_clear ARCHIVE (Cmd.disk s)).
  { intros q c Hq. apply Htaxonomy. etrans; [exact Hq |].
    unfold Toolkit.TAXONOMY_DIR. by apply prefix_app_r. }
  destruct (make_directories_ok Toolkit.Verified_directory dirs s) as [s1 Hmk].
  { by repeat constructor. }
  destruct (initialize_directories_lookup s s1 Hmk) as (f' & Hrun & _).
  by eexists.
Qed.

(** X19: when no file lies on the way to the staging directory or to the
    taxonomy directory, the root [initialize_directories] returns; it
    reports the three directories, which are there afterwards, and each
    stub file holds the default table unless something was at its path.
    Whatever was on the disk is kept as it was, and nothing is made but
    directories on the two ways and the two stubs. *)
Theorem X19_initialize_directories_sets_up (s : Cmd.session Toolkit.init_line) :
  way_clear (Toolkit.STAGING_DIR ROOT_DIR) (Cmd.disk s) →
  way_clear (Toolkit.TAXONOMY_DIR ROOT_DIR) (Cmd.disk s) →
  ∃ f',
    Toolkit.initialize_directories ROOT_DIR s
      = (Ok tt,
         Cmd.Session f'
           (Cmd.printed s
            ++ [Toolkit.Verified_directory (Toolkit.STAGING_DIR ROOT_DIR);
                Toolkit.Verified_directory (Toolkit.ARCHIVE_DIR ROOT_DIR);
                Toolkit.Verified_directory (Toolkit.TAXONOMY_DIR ROOT_DIR)])) ∧
    f' !! Toolkit.STAGING_DIR ROOT_DIR = Some Dir ∧
    f' !! Toolkit.ARCHIVE_DIR ROOT_DIR = Some Dir ∧
    f' !! Toolkit.TAXONOMY_DIR ROOT_DIR = Some Dir ∧
    f' !! (Toolkit.TAXONOMY_DIR ROOT_DIR ++ ["domains.json"])
      = Some (default (File (Toolkit.dump_stub Toolkit.DEFAULT_DOMAINS))
                      (Cmd.disk s !! (Toolkit.TAXONOMY_DIR ROOT_DIR ++ ["domains.json"]))) ∧
    f' !! (Toolkit.TAXONOMY_DIR ROOT_DIR ++ ["tags.json"])
      = Some (default (File (Toolkit.dump_stub Toolkit.DEFAULT_TAGS))
                      (Cmd.disk s !! (Toolkit.TAXONOMY_DIR ROOT_DIR ++ ["tags.json"]))) ∧
    (∀ q, is_Some (Cmd.disk s !! q) → f' !! q = Cmd.disk s !! q) ∧
    (∀ q, ¬ q `prefix_of` Toolkit.STAGING_DIR ROOT_DIR →
          ¬ q `prefix_of` Toolkit.TAXONOMY_DIR ROOT_DIR →
          q ≠ Toolkit.TAXONOMY_DIR ROOT_DIR ++ ["domains.json"] →
          q ≠ Toolkit.TAXONOMY_DIR ROOT_DIR ++ ["tags.json"] →
          f' !! q = Cmd.disk s !! q).
Proof.
  intros Hstaging Htaxonomy.
  assert (Harchive : way_clear ARCHIVE (Cmd.disk s)).
  { intros q c Hq. apply Htaxonomy. etrans; [exact Hq |].
    unfold Toolkit.TAXONOMY_DIR. by apply prefix_app_r. }
  destruct (make_directories_ok Toolkit.Verified_directory dirs s) as [s1 Hmk].
  { by repeat constructor. }
  destruct (initialize_directories_lookup s s1 Hmk) as (f' & Hrun & Hlook).
  pose proof toolkit_dirs_made as Hmade.
  apply Forall_cons in Hmade as [Hm1 Hmade]. apply Forall_cons in Hmade as [Hm2 Hmade].
  apply Forall_cons in Hmade as [Hm3 _].
  assert (Hway : ∀ q, Exists (λ d, q ∈ made [] d) dirs →
                      ∀ c, Cmd.disk s !! q ≠ Some (File c)).
  { intros q Hex c. rewrite !Exists_cons, Exists_nil in Hex.
    destruct Hex as [H | [H | [H | []]]]; apply made_prefix in H; simpl in H; eauto. }
  exists f'. split; [exact Hrun |].
  split; [by apply (toolkit_made_lookup f' (Cmd.disk s)) |].
  split; [by apply (toolkit_made_lookup f' (Cmd.disk s)) |].
  split; [by apply (toolkit_made_lookup f' (Cmd.disk s)) |].
  split.
  { rewrite Hlook. rewrite decide_False by (by intros [= ?]%app_inv_head).
    by rewrite decide_True. }
  split; [by rewrite Hlook, decide_True |].
  split.
  - intros q [n Hn]. rewrite Hlook.
    destruct (decide (q = tags_file)) as [-> | ?]; [by rewrite Hn |].
    destruct (decide (q = domains_file)) as [-> | ?]; [by rewrite Hn |].
    destruct (decide (Exists (λ d, q ∈ made [] d) dirs)) as [Hex | ?]; [|done].
    rewrite Hn. destruct n as [c|]; [|done]. by destruct (Hway q Hex c).
  - intros q Hq1 Hq2 Hq3 Hq4. rewrite Hlook.
    rewrite decide_False, decide_False, decide_False; [done | | done | done].
    rewrite !Exists_cons, Exists_nil.
    intros [H | [H | [H | []]]]; apply made_prefix in H; simpl in H.
    + done.
    + apply Hq2. etrans; [exact H |]. unfold Toolkit.TAXONOMY_DIR. by apply prefix_app_r.
    + done.
Qed.

(** X20: [initialize_directories] can be run again: after a run that
    returned, a second run returns too and leaves every file and
    directory as the first run left it; the stubs are not written
    anew. *)
Theorem X20_initialize_directories_again (s s1 : Cmd.session Toolkit.init_line) :
  Toolkit.initialize_directories ROOT_DIR s = (Ok tt, s1) →
  Toolkit.initialize_directories ROOT_DIR s1
    = (Ok tt,
       Cmd.Session (Cmd.disk s1)
         (Cmd.printed s1
          ++ [Toolkit.Verified_directory (Toolkit.STAGING_DIR ROOT_DIR);
              Toolkit.Verified_directory (Toolkit.ARCHIVE_DIR ROOT_DIR);
              Toolkit.Verified_directory (Toolkit.TAXONOMY_DIR ROOT_DIR)])).
Proof.
  intros Hfirst.
  assert (Hmk : ∃ s0, Cmd.make_directories Toolkit.Verified_directory dirs s = (Ok tt, s0)).
  { unfold Toolkit.initialize_directories in Hfirst. unfold Cmd.bind at 1 in Hfirst.
    destruct (Cmd.make_directories Toolkit.Verified_directory dirs s)
      as [[[]|e] s0]; [by eexists | done]. }
  destruct Hmk as [s0 Hmk].
  destruct (initialize_directories_lookup s s0 Hmk) as (f' & Hrun & Hlook).
  rewrite Hrun in Hfirst. injection Hfirst as <-. cbn [Cmd.disk Cmd.printed].
  set (s1 := Cmd.Session f' (Cmd.printed s ++ (Toolkit.Verified_directory <$> dirs))).
  assert (Hmk1 : Cmd.make_directories Toolkit.Verified_directory dirs s1
                 = (Ok tt, Cmd.Session f'
                             (Cmd.printed s1 ++ (Toolkit.Verified_directory <$> dirs)))).
  { apply (make_directories_id Toolkit.Verified_directory dirs s1).
    intros d q Hd Hq. cbn [Cmd.disk].
    apply (toolkit_made_lookup f' (Cmd.disk s)); [done |].
    apply Exists_exists. exists d. by split. }
  destruct (initialize_directories_lookup s1 _ Hmk1) as (f'' & Hrun1 & Hlook1).
  change (Toolkit.initialize_directories ROOT_DIR s1
          = (Ok tt, Cmd.Session f'
                      (Cmd.printed s1 ++ (Toolkit.Verified_directory <$> dirs)))).
  rewrite Hrun1. f_equal. f_equal. apply map_eq. intros q.
  rewrite Hlook1. cbn [Cmd.disk].
  destruct (decide (q = tags_file)) as [-> | ?].
  { rewrite !Hlook, decide_True by done. done. }
  destruct (decide (q = domains_file)) as [-> | ?].
  { rewrite !Hlook, decide_False, decide_True by done. done. }
  destruct (decide (Exists (λ d, q ∈ made [] d) dirs)) as [Hex | ?]; [|done].
  symmetry. by apply (toolkit_made_lookup f' (Cmd.disk s)).
Qed.
End ToolkitInit.

Section InitExamples.
Import Py Spec Fs.

Lemma X19_initialize_directories_sets_up_witness :
  ∃ f',
    Toolkit.initialize_directories Sample.ROOT_DIR
      (Cmd.Session (Sample.staging "Hello") [])
      = (Ok tt,
         Cmd.Session f'
           ([] ++ [Toolkit.Verified_directory (Toolkit.STAGING_DIR Sample.ROOT_DIR);
                   Toolkit.Verified_directory (Toolkit.ARCHIVE_DIR Sample.ROOT_DIR);
                   Toolkit.Verified_directory (Toolkit.TAXONOMY_DIR Sample.ROOT_DIR)])) ∧
    f' !! Toolkit.STAGING_DIR Sample.ROOT_DIR = Some Dir ∧
    f' !! Toolkit.ARCHIVE_DIR Sample.ROOT_DIR = Some Dir ∧
    f' !! Toolkit.TAXONOMY_DIR Sample.ROOT_DIR = Some Dir ∧
    f' !! (Toolkit.TAXONOMY_DIR Sample.ROOT_DIR ++ ["domains.json"])
      = Some (default (File (Toolkit.dump_stub Toolkit.DEFAULT_DOMAINS))
                (Sample.staging "Hello"
                   !! (Toolkit.TAXONOMY_DIR Sample.ROOT_DIR ++ ["domains.json"]))) ∧
    f' !! (Toolkit.TAXONOMY_DIR Sample.ROOT_DIR ++ ["tags.json"])
      = Some (default (File (Toolkit.dump_stub Toolkit.DEFAULT_TAGS))
                (Sample.staging "Hello"
                   !! (Toolkit.TAXONOMY_DIR Sample.ROOT_DIR ++ ["tags.json"]))) ∧
    (∀ q, is_Some (Sample.staging "Hello" !! q) → f' !! q = Sample.staging "Hello" !! q) ∧
    (∀ q, ¬ q `prefix_of` Toolkit.STAGING_DIR Sample.ROOT_DIR →
          ¬ q `prefix_of` Toolkit.TAXONOMY_DIR Sample.ROOT_DIR →
          q ≠ Toolkit.TAXONOMY_DIR Sample.ROOT_DIR ++ ["domains.json"] →
          q ≠ Toolkit.TAXONOMY_DIR Sample.ROOT_DIR ++ ["tags.json"] →
          f' !! q = Sample.staging "Hello" !! q).
Proof.
  apply (X19_initialize_directories_sets_up Sample.ROOT_DIR
           (Cmd.Session (Sample.staging "Hello") [])).
  - apply way_clearb_spec. by vm_compute.
  - apply way_clearb_spec. by vm_compute.
Defined.

Lemma X20_initialize_directories_again_witness :
  ∃ s1,
    Toolkit.initialize_directories Sample.ROOT_DIR
      (Cmd.Session (Sample.staging "Hello") []) = (Ok tt, s1) ∧
    Toolkit.initialize_directories Sample.ROOT_DIR s1
      = (Ok tt,
         Cmd.Session (Cmd.disk s1)
           (Cmd.printed s1
            ++ [Toolkit.Verified_directory (Toolkit.STAGING_DIR Sample.ROOT_DIR);
                Toolkit.Verified_directory (Toolkit.ARCHIVE_DIR Sample.ROOT_DIR);
                Toolkit.Verified_directory (Toolkit.TAXONOMY_DIR Sample.ROOT_DIR)])).
Proof.
  destruct (toolkit_initialize_returns Sample.ROOT_DIR
              (Cmd.Session (Sample.staging "Hello") [])) as [s1 Hrun].
  - apply way_clearb_spec. by vm_compute.
  - apply way_clearb_spec. by vm_compute.
  - exists s1. split; [exact Hrun |].
    exact (X20_initialize_directories_again Sample.ROOT_DIR _ s1 Hrun).
Defined.
End InitExamples.

Section DirectiveInit.
Import Py Spec Fs.
Variable ROOT_DIR : list string.
Variable csv : list string → list (gmap string string) → string.

Local Abbreviation TAXONOMY := (Directive.TAXONOMY_DIR ROOT_DIR).
Local Abbreviation domains_file := (Directive.TAXONOMY_DIR ROOT_DIR ++ ["domains.json"]).
Local Abbreviation tags_file := (Directive.TAXONOMY_DIR ROOT_DIR ++ ["tags.json"]).
Local Abbreviation dirs :=
  [Directive.STAGING_DIR ROOT_DIR; Directive.ARCHIVE_DIR ROOT_DIR;
   Directive.TAXONOMY_DIR ROOT_DIR; Directive.MANIFEST_DIR ROOT_DIR].
Local Abbreviation created f file :=
  (match f !! file%list with
   | Some _ => nil
   | None => cons (Directive.INFO_created_taxonomy_stub file) nil
   end).

(** The stub is written, and reported, exactly when nothing is at its
    path. *)
Lemma directive_stub_result dir x table (s : Cmd.session Directive.init_line) :
  node_at dir (Cmd.disk s) = Some Dir →
  Directive.write_stub_if_missing (dir ++ [x]) table s
    = (Ok tt,
       Cmd.Session
         (match Cmd.disk s !! (dir ++ [x]) with
          | Some _ => Cmd.disk s
          | None => <[dir ++ [x] := File (Toolkit.dump_stub table)]> (Cmd.disk s)
          end)
         (Cmd.printed s ++ created (Cmd.disk s) (dir ++ [x]))).
Proof.
  intros Hdir. unfold Directive.write_stub_if_missing.
  unfold Cmd.bind at 1, Cmd.on_disk at 1, exists_. cbn [files].
  rewrite node_at_app_singleton. destruct s as [f o]. cbn [Cmd.disk Cmd.printed] in *.
  destruct (f !! (dir ++ [x])) as [n|] eqn:Hat.
  - rewrite bool_decide_eq_true_2 by eauto. cbn [negb]. unfold Cmd.ret.
    by rewrite app_nil_r.
  - rewrite bool_decide_eq_false_2 by (by intros [? ?]). cbn [negb].
    unfold Cmd.bind, Cmd.on_disk, Cmd.print. cbn [Cmd.disk Cmd.printed].
    rewrite (write_text_ok (dir ++ [x]) _ (World f [] 0)).
    + done.
    + cbn [files]. by rewrite node_at_app_singleton, Hat.
    + by rewrite parent_app_singleton.
Qed.

Lemma directive_made_short q :
  Exists (λ d, q ∈ made [] d) dirs → length q ≤ length ROOT_DIR + 1.
Proof.
  rewrite !Exists_cons, Exists_nil.
  intros [H | [H | [H | [H | []]]]]; apply made_length in H;
    unfold Directive.TAXONOMY_DIR, Directive.STAGING_DIR, Directive.ARCHIVE_DIR,
      Directive.MANIFEST_DIR in H;
    rewrite ?length_app in H; simpl in H; lia.
Qed.

Lemma directive_stub_long x :
  length (TAXONOMY ++ [x]) = length ROOT_DIR + 2.
Proof. unfold Directive.TAXONOMY_DIR. rewrite !length_app. simpl. lia. Qed.

Lemma directive_dirs_made :
  Forall (λ d, Exists (λ d', d ∈ made [] d') dirs) dirs.
Proof.
  apply Forall_cons.
  split; [|apply Forall_cons; split; [|apply Forall_cons; split;
                                        [|apply Forall_cons; split]]].
  - apply Exists_cons_hd, made_root_last. unfold Directive.STAGING_DIR.
    by destruct ROOT_DIR.
  - apply Exists_cons_tl, Exists_cons_hd, made_root_last.
    unfold Directive.ARCHIVE_DIR. by destruct ROOT_DIR.
  - do 2 apply Exists_cons_tl. apply Exists_cons_hd, made_root_last.
    unfold Directive.TAXONOMY_DIR. by destruct ROOT_DIR.
  - do 3 apply Exists_cons_tl. apply Exists_cons_hd, made_root_last.
    unfold Directive.MANIFEST_DIR. by destruct ROOT_DIR.
  - apply Forall_nil_2.
Qed.

(** What [init_directories] comes to once its directories are made. *)
Lemma init_directories_lookup (s s1 : Cmd.session Directive.init_line) :
  Cmd.make_directories Directive.INFO_verified_directory dirs s = (Ok tt, s1) →
  ∃ f',
    Directive.init_directories ROOT_DIR s
      = (Ok tt,
         Cmd.Session f'
           ((Cmd.printed s ++ (Directive.INFO_verified_directory <$> dirs))
              ++ created (Cmd.disk s) domains_file
              ++ created (Cmd.disk s) tags_file)) ∧
    ∀ q, f' !! q =
      if decide (q = tags_file)
      then Some (default (File (Toolkit.dump_stub Directive.DEFAULT_TAGS))
                         (Cmd.disk s !! tags_file))
      else if decide (q = domains_file)
      then Some (default (File (Toolkit.dump_stub Directive.DEFAULT_DOMAINS))
                         (Cmd.disk s !! domains_file))
      else if decide (Exists (λ d, q ∈ made [] d) dirs) then Some Dir
      else Cmd.disk s !! q.
Proof.
  intros Hmk. destruct (make_directories_result _ _ _ _ Hmk) as [Hp Hd].
  assert (Hlong : ∀ x, ¬ Exists (λ d, TAXONOMY ++ [x] ∈ made [] d) dirs).
  { intros x Hex%directive_made_short. rewrite directive_stub_long in Hex. lia. }
  assert (Htax : Cmd.disk s1 !! TAXONOMY = Some Dir).
  { rewrite Hd, decide_True; [done |]. do 2 apply Exists_cons_tl. apply Exists_cons_hd.
    apply made_root_last. unfold Directive.TAXONOMY_DIR. by destruct ROOT_DIR. }
  assert (Hnode : ∀ g, node_at TAXONOMY g = g !! TAXONOMY).
  { intros g. unfold Directive.TAXONOMY_DIR. apply node_at_app_singleton. }
  unfold Directive.init_directories. unfold Cmd.bind at 1. rewrite Hmk.
  rewrite !pjoin_component by (by vm_compute).
  unfold Cmd.bind at 1. rewrite directive_stub_result by by rewrite Hnode.
  set (f2 := match Cmd.disk s1 !! domains_file with
             | Some _ => Cmd.disk s1
             | None => <[domains_file :=
                           File (Toolkit.dump_stub Directive.DEFAULT_DOMAINS)]>
                         (Cmd.disk s1)
             end).
  assert (Htax2 : f2 !! TAXONOMY = Some Dir).
  { subst f2. destruct (Cmd.disk s1 !! domains_file); [done |].
    rewrite lookup_insert_ne; [done |].
    intros Heq%(f_equal length). rewrite length_app in Heq. simpl in Heq. lia. }
  rewrite directive_stub_result by by rewrite Hnode.
  cbn [Cmd.disk Cmd.printed].
  assert (Hdt : domains_file ≠ tags_file) by (by intros [= ?]%app_inv_head).
  assert (Hd1 : Cmd.disk s1 !! domains_file = Cmd.disk s !! domains_file).
  { rewrite Hd. by rewrite decide_False by apply Hlong. }
  assert (Hd2 : Cmd.disk s1 !! tags_file = Cmd.disk s !! tags_file).
  { rewrite Hd. by rewrite decide_False by apply Hlong. }
  assert (Hf2 : ∀ q, f2 !! q =
            if decide (q = domains_file)
            then Some (default (File (Toolkit.dump_stub Directive.DEFAULT_DOMAINS))
                               (Cmd.disk s !! domains_file))
            else Cmd.disk s1 !! q).
  { intros q. subst f2. rewrite <- Hd1.
    destruct (decide (q = domains_file)) as [-> | Hne].
    - destruct (Cmd.disk s1 !! domains_file) eqn:Heq; [done |].
      by rewrite lookup_insert_eq.
    - destruct (Cmd.disk s1 !! domains_file); [done |]. by rewrite lookup_insert_ne. }
  assert (Ht2 : f2 !! tags_file = Cmd.disk s !! tags_file).
  { by rewrite Hf2, decide_False, Hd2 by done. }
  eexists. split.
  { do 2 f_equal. rewrite Hp, Hd1, Ht2. by rewrite <- !app_assoc. }
  intros q. destruct (decide (q = tags_file)) as [-> | Hne].
  - rewrite Ht2. destruct (Cmd.disk s !! tags_file) eqn:Heq.
    + rewrite Ht2. by rewrite ?Heq.
    + by rewrite lookup_insert_eq.
  - assert (Hq : (match f2 !! tags_file with
                  | Some _ => f2
                  | None => <[tags_file :=
                                File (Toolkit.dump_stub Directive.DEFAULT_TAGS)]> f2
                  end) !! q = f2 !! q).
    { destruct (f2 !! tags_file); [done |]. by rewrite lookup_insert_ne. }
    rewrite Hq, Hf2. destruct (decide (q = domains_file)); [done |]. apply Hd.
Qed.

Lemma directive_made_lookup (f' f : gmap (list string) node) q :
  (∀ q, f' !! q =
      if decide (q = tags_file)
      then Some (default (File (Toolkit.dump_stub Directive.DEFAULT_TAGS))
                         (f !! tags_file))
      else if decide (q = domains_file)
      then Some (default (File (Toolkit.dump_stub Directive.DEFAULT_DOMAINS))
                         (f !! domains_file))
      else if decide (Exists (λ d, q ∈ made [] d) dirs) then Some Dir
      else f !! q) →
  Exists (λ d, q ∈ made [] d) dirs → f' !! q = Some Dir.
Proof.
  intros Hlook Hex. rewrite Hlook. pose proof (directive_made_short q Hex) as Hlen.
  rewrite decide_False, decide_False, decide_True; [done | done | |].
  - intros ->. rewrite directive_stub_long in Hlen. lia.
  - intros ->. rewrite directive_stub_long in Hlen. lia.
Qed.

Lemma directive_init_returns (s : Cmd.session Directive.init_line) :
  Forall (λ d, way_clear d (Cmd.disk s)) dirs →
  ∃ s1, Directive.init_directories ROOT_DIR s = (Ok tt, s1).
Proof.
  intros Hclear.
  destruct (make_directories_ok Directive.INFO_verified_directory dirs s Hclear)
    as [s1 Hmk].
  destruct (init_directories_lookup s s1 Hmk) as (f' & Hrun & _).
  by eexists.
Qed.

Lemma directive_stub_frame file table (s s' : Cmd.session Directive.init_line) q :
  Directive.write_stub_if_missing file table s = (Ok tt, s') →
  q ≠ file → Cmd.disk s' !! q = Cmd.disk s !! q.
Proof.
  unfold Directive.write_stub_if_missing, Cmd.bind, Cmd.on_disk, Cmd.print, Cmd.ret,
    exists_, write_text, set_files.
  destruct s as [f o]. cbn [files out success_count Cmd.disk Cmd.printed].
  intros Hrun Hq.
  repeat (case_match; simplify_eq; cbn [files Cmd.disk Cmd.printed negb] in * );
    rewrite ?lookup_insert_ne by done; done.
Qed.

(** X21: [init_directories] prepares what the directive
    [generate_manifest] needs.  After a run of [init_directories] that
    returned, [generate_manifest] returns rows for every listing, unless
    the manifest path itself is a directory. *)
Theorem X21_init_prepares_generate_manifest
    (s s1 : Cmd.session Directive.init_line)
    (walked : list (list string)) (lines : list Directive.manifest_line) :
  Directive.init_directories ROOT_DIR s = (Ok tt, s1) →
  Cmd.disk s1 !! Directive.MANIFEST_FILE ROOT_DIR ≠ Some Dir →
  ∃ rows s2,
    Directive.generate_manifest ROOT_DIR csv walked (Cmd.Session (Cmd.disk s1) lines)
      = (Ok (Some rows), s2).
Proof.
  intros Hinit Hnodir. unfold Directive.init_directories in Hinit.
  unfold Cmd.bind at 1 in Hinit.
  destruct (Cmd.make_directories _ _ s) as [[[]|e] s0] eqn:Hmk; [|done].
  destruct (make_directories_result _ _ _ _ Hmk) as [_ Hd].
  rewrite !pjoin_component in Hinit by (by vm_compute).
  unfold Cmd.bind at 1 in Hinit.
  destruct (Directive.write_stub_if_missing _ _ s0) as [[[]|e] s0'] eqn:Hstub1; [|done].
  assert (Hkept : ∀ q, length q = length ROOT_DIR + 1 →
                       Cmd.disk s1 !! q = Cmd.disk s0 !! q).
  { intros q Hlen.
    rewrite (directive_stub_frame _ _ _ _ q Hinit), (directive_stub_frame _ _ _ _ q Hstub1).
    - done.
    - intros ->. unfold Directive.TAXONOMY_DIR in Hlen. rewrite !length_app in Hlen.
      simpl in Hlen. lia.
    - intros ->. unfold Directive.TAXONOMY_DIR in Hlen. rewrite !length_app in Hlen.
      simpl in Hlen. lia. }
  apply directive_generate_manifest_returns; cbn [Cmd.disk].
  - exists Dir. unfold Directive.STAGING_DIR. rewrite node_at_app_singleton.
    rewrite Hkept by (rewrite length_app; simpl; lia).
    rewrite Hd, decide_True; [done |].
    apply Exists_cons_hd, made_root_last. by destruct ROOT_DIR.
  - unfold Directive.MANIFEST_DIR. rewrite node_at_app_singleton.
    rewrite Hkept by (rewrite length_app; simpl; lia).
    rewrite Hd, decide_True; [done |].
    do 3 apply Exists_cons_tl. apply Exists_cons_hd, made_root_last.
    unfold Directive.MANIFEST_DIR. by destruct ROOT_DIR.
  - done.
Qed.

(** X22: the directive [generate_manifest] does not make the directory
    of its manifest.  When the staging directory is there but
    [manifests] is not, the files are scanned and the run then ends in
    [FileNotFoundError], with no manifest written and no file changed. *)
Theorem X22_manifest_directory_missing
    (walked : list (list string)) (s : Cmd.session Directive.manifest_line) :
  is_Some (node_at (Directive.STAGING_DIR ROOT_DIR) (Cmd.disk s)) →
  Cmd.disk s !! Directive.MANIFEST_DIR ROOT_DIR = None →
  Cmd.disk s !! Directive.MANIFEST_FILE ROOT_DIR = None →
  ∃ lines,
    Directive.generate_manifest ROOT_DIR csv walked s
      = (Raise FileNotFoundError,
         Cmd.Session (Cmd.disk s)
           (Cmd.printed s
            ++ Directive.INFO_scanning (Directive.STAGING_DIR ROOT_DIR) :: lines)).
Proof.
  intros Hstaging Hdir Hfile.
  destruct s as [f o]. cbn [Cmd.disk Cmd.printed] in *.
  unfold Directive.generate_manifest.
  unfold Cmd.bind at 1, Cmd.on_disk at 1, exists_ at 1.
  cbn [files Cmd.disk Cmd.printed].
  rewrite bool_decide_eq_true_2 by done. cbn [negb].
  unfold Cmd.bind at 1, Cmd.print at 1. cbn [Cmd.disk Cmd.printed].
  destruct (directive_collect_records ROOT_DIR walked
              (Cmd.Session f (o ++ [Directive.INFO_scanning
                                      (Directive.STAGING_DIR ROOT_DIR)])))
    as (rows & errs & Hrun & _).
  unfold Cmd.bind at 1. rewrite Hrun.
  unfold Cmd.bind at 1, Cmd.on_disk at 1, write_text.
  cbn [files Cmd.disk Cmd.printed].
  assert (Hat : node_at (Directive.MANIFEST_FILE ROOT_DIR) f = None).
  { unfold Directive.MANIFEST_FILE. rewrite node_at_app_singleton. exact Hfile. }
  assert (Hup : node_at (parent (Directive.MANIFEST_FILE ROOT_DIR)) f = None).
  { unfold Directive.MANIFEST_FILE. rewrite parent_app_singleton.
    unfold Directive.MANIFEST_DIR. rewrite node_at_app_singleton. exact Hdir. }
  rewrite Hat, Hup. exists errs. cbn [files]. by rewrite <- app_assoc.
Qed.

(** X23: the directive [init_directories] can be run again: after a run
    that returned, a second run returns too, leaves every file and
    directory as the first run left it, and prints the four directory
    lines only, no stub being reported as created. *)
Theorem X23_init_directories_again (s s1 : Cmd.session Directive.init_line) :
  Directive.init_directories ROOT_DIR s = (Ok tt, s1) →
  Directive.init_directories ROOT_DIR s1
    = (Ok tt,
       Cmd.Session (Cmd.disk s1)
         (Cmd.printed s1
          ++ [Directive.INFO_verified_directory (Directive.STAGING_DIR ROOT_DIR);
              Directive.INFO_verified_directory (Directive.ARCHIVE_DIR ROOT_DIR);
              Directive.INFO_verified_directory (Directive.TAXONOMY_DIR ROOT_DIR);
              Directive.INFO_verified_directory (Directive.MANIFEST_DIR ROOT_DIR)])).
Proof.
  intros Hfirst.
  assert (Hmk : ∃ s0, Cmd.make_directories Directive.INFO_verified_directory dirs s
                      = (Ok tt, s0)).
  { unfold Directive.init_directories in Hfirst. unfold Cmd.bind at 1 in Hfirst.
    destruct (Cmd.make_directories Directive.INFO_verified_directory dirs s)
      as [[[]|e] s0]; [by eexists | done]. }
  destruct Hmk as [s0 Hmk].
  destruct (init_directories_lookup s s0 Hmk) as (f' & Hrun & Hlook).
  rewrite Hrun in Hfirst. injection Hfirst as <-. cbn [Cmd.disk Cmd.printed].
  set (o1 := (Cmd.printed s ++ (Directive.INFO_verified_directory <$> dirs))
               ++ created (Cmd.disk s) domains_file ++ created (Cmd.disk s) tags_file).
  assert (Hmk1 : Cmd.make_directories Directive.INFO_verified_directory dirs
                   (Cmd.Session f' o1)
                 = (Ok tt, Cmd.Session f'
                             (o1 ++ (Directive.INFO_verified_directory <$> dirs)))).
  { apply (make_directories_id Directive.INFO_verified_directory dirs
             (Cmd.Session f' o1)).
    intros d q Hd Hq. cbn [Cmd.disk].
    apply (directive_made_lookup f' (Cmd.disk s)); [done |].
    apply Exists_exists. exists d. by split. }
  destruct (init_directories_lookup (Cmd.Session f' o1) _ Hmk1) as (f'' & Hrun1 & Hlook1).
  cbn [Cmd.disk Cmd.printed] in Hrun1, Hlook1.
  assert (Hdom : f' !! domains_file
                 = Some (default (File (Toolkit.dump_stub Directive.DEFAULT_DOMAINS))
                                 (Cmd.disk s !! domains_file))).
  { rewrite Hlook, decide_False by (by intros [= ?]%app_inv_head).
    by rewrite decide_True. }
  assert (Htag : f' !! tags_file
                 = Some (default (File (Toolkit.dump_stub Directive.DEFAULT_TAGS))
                                 (Cmd.disk s !! tags_file))).
  { by rewrite Hlook, decide_True. }
  rewrite Hdom, Htag, !app_nil_r in Hrun1.
  change (Directive.init_directories ROOT_DIR (Cmd.Session f' o1)
          = (Ok tt, Cmd.Session f'
                      (o1 ++ (Directive.INFO_verified_directory <$> dirs)))).
  rewrite Hrun1. do 2 f_equal. apply map_eq. intros q.
  rewrite Hlook1.
  destruct (decide (q = tags_file)) as [-> | ?]; [by rewrite Htag |].
  destruct (decide (q = domains_file)) as [-> | ?]; [by rewrite Hdom |].
  destruct (decide (Exists (λ d, q ∈ made [] d) dirs)) as [Hex | ?]; [|done].
  symmetry. by apply (directive_made_lookup f' (Cmd.disk s)).
Qed.

(** X24: when no file lies on the way to one of its four directories,
    the directive [init_directories] returns with the four directories
    there.  A stub is reported as created exactly when nothing was at
    its path; a file that was there is kept as it was, and so is every
    other file and directory. *)
Theorem X24_init_directories_reports_new_stubs (s : Cmd.session Directive.init_line) :
  Forall (λ d, way_clear d (Cmd.disk s))
    [Directive.STAGING_DIR ROOT_DIR; Directive.ARCHIVE_DIR ROOT_DIR;
     Directive.TAXONOMY_DIR ROOT_DIR; Directive.MANIFEST_DIR ROOT_DIR] →
  ∃ f',
    Directive.init_directories ROOT_DIR s
      = (Ok tt,
         Cmd.Session f'
           ((Cmd.printed s
             ++ [Directive.INFO_verified_directory (Directive.STAGING_DIR ROOT_DIR);
                 Directive.INFO_verified_directory (Directive.ARCHIVE_DIR ROOT_DIR);
                 Directive.INFO_verified_directory (Directive.TAXONOMY_DIR ROOT_DIR);
                 Directive.INFO_verified_directory (Directive.MANIFEST_DIR ROOT_DIR)])
            ++ match Cmd.disk s !! (Directive.TAXONOMY_DIR ROOT_DIR ++ ["domains.json"]) with
               | Some _ => []
               | None => [Directive.INFO_created_taxonomy_stub
                            (Directive.TAXONOMY_DIR ROOT_DIR ++ ["domains.json"])]
               end
            ++ match Cmd.disk s !! (Directive.TAXONOMY_DIR ROOT_DIR ++ ["tags.json"]) with
               | Some _ => []
               | None => [Directive.INFO_created_taxonomy_stub
                            (Directive.TAXONOMY_DIR ROOT_DIR ++ ["tags.json"])]
               end)) ∧
    Forall (λ d, f' !! d = Some Dir)
      [Directive.STAGING_DIR ROOT_DIR; Directive.ARCHIVE_DIR ROOT_DIR;
       Directive.TAXONOMY_DIR ROOT_DIR; Directive.MANIFEST_DIR ROOT_DIR] ∧
    f' !! (Directive.TAXONOMY_DIR ROOT_DIR ++ ["domains.json"])
      = Some (default (File (Toolkit.dump_stub Directive.DEFAULT_DOMAINS))
                (Cmd.disk s !! (Directive.TAXONOMY_DIR ROOT_DIR ++ ["domains.json"]))) ∧
    f' !! (Directive.TAXONOMY_DIR ROOT_DIR ++ ["tags.json"])
      = Some (default (File (Toolkit.dump_stub Directive.DEFAULT_TAGS))
                (Cmd.disk s !! (Directive.TAXONOMY_DIR ROOT_DIR ++ ["tags.json"]))) ∧
    (∀ q, is_Some (Cmd.disk s !! q) → f' !! q = Cmd.disk s !! q).
Proof.
  intros Hclear.
  destruct (make_directories_ok Directive.INFO_verified_directory dirs s Hclear)
    as [s1 Hmk].
  destruct (init_directories_lookup s s1 Hmk) as (f' & Hrun & Hlook).
  assert (Hway : ∀ q, Exists (λ d, q ∈ made [] d) dirs →
                      ∀ c, Cmd.disk s !! q ≠ Some (File c)).
  { intros q Hex c. apply Exists_exists in Hex as (d & Hd & Hq).
    rewrite Forall_forall in Hclear. apply (Hclear d Hd). by apply made_prefix in Hq. }
  exists f'. split; [exact Hrun |]. split.
  { eapply Forall_impl; [exact directive_dirs_made |]. intros d Hd.
    by apply (directive_made_lookup f' (Cmd.disk s)). }
  split.
  { rewrite Hlook. rewrite decide_False by (by intros [= ?]%app_inv_head).
    by rewrite decide_True. }
  split; [by rewrite Hlook, decide_True |].
  intros q [n Hn]. rewrite Hlook.
  destruct (decide (q = tags_file)) as [-> | ?]; [by rewrite Hn |].
  destruct (decide (q = domains_file)) as [-> | ?]; [by rewrite Hn |].
  destruct (decide (Exists (λ d, q ∈ made [] d) dirs)) as [Hex | ?]; [|done].
  rewrite Hn. destruct n as [c|]; [|done]. by destruct (Hway q Hex c).
Qed.
End DirectiveInit.

Section DirectiveInitExamples.
Import Py Spec Fs.

Lemma X21_init_prepares_generate_manifest_witness :
  ∃ s1 rows s2,
    Directive.init_directories Sample.ROOT_DIR
      (Cmd.Session (Sample.staging "Hello") []) = (Ok tt, s1) ∧
    Directive.generate_manifest Sample.ROOT_DIR (λ _ _, "") [Sample.staged]
      (Cmd.Session (Cmd.disk s1) []) = (Ok (Some rows), s2).
Proof.
  destruct (make_directories_ok Directive.INFO_verified_directory
              [Directive.STAGING_DIR Sample.ROOT_DIR; Directive.ARCHIVE_DIR Sample.ROOT_DIR;
               Directive.TAXONOMY_DIR Sample.ROOT_DIR; Directive.MANIFEST_DIR Sample.ROOT_DIR]
              (Cmd.Session (Sample.staging "Hello") [])) as [s0 Hmk].
  { repeat (apply Forall_cons; split; [apply way_clearb_spec; by vm_compute |]).
    apply Forall_nil_2. }
  destruct (init_directories_lookup Sample.ROOT_DIR _ s0 Hmk) as (f' & Hrun & Hlook).
  destruct (X21_init_prepares_generate_manifest Sample.ROOT_DIR (λ _ _, "")
              _ _ [Sample.staged] [] Hrun) as (rows & s2 & Hgm).
  - cbn [Cmd.disk]. rewrite Hlook. by vm_compute.
  - eexists _, rows, s2. split; [exact Hrun | exact Hgm].
Defined.

Lemma X22_manifest_directory_missing_witness :
  ∃ lines,
    Directive.generate_manifest Sample.ROOT_DIR (λ _ _, "") [Sample.staged]
      (Cmd.Session (Sample.staging "Hello") [])
    = (Raise FileNotFoundError,
       Cmd.Session (Sample.staging "Hello")
         ([] ++ Directive.INFO_scanning (Directive.STAGING_DIR Sample.ROOT_DIR) :: lines)).
Proof.
  apply (X22_manifest_directory_missing Sample.ROOT_DIR (λ _ _, "") [Sample.staged]
           (Cmd.Session (Sample.staging "Hello") [])).
  - exists Dir. by vm_compute.
  - by vm_compute.
  - by vm_compute.
Defined.

Lemma X23_init_directories_again_witness :
  ∃ s1,
    Directive.init_directories Sample.ROOT_DIR
      (Cmd.Session (Sample.staging "Hello") []) = (Ok tt, s1) ∧
    Directive.init_directories Sample.ROOT_DIR s1
      = (Ok tt,
         Cmd.Session (Cmd.disk s1)
           (Cmd.printed s1
            ++ [Directive.INFO_verified_directory (Directive.STAGING_DIR Sample.ROOT_DIR);
                Directive.INFO_verified_directory (Directive.ARCHIVE_DIR Sample.ROOT_DIR);
                Directive.INFO_verified_directory (Directive.TAXONOMY_DIR Sample.ROOT_DIR);
                Directive.INFO_verified_directory (Directive.MANIFEST_DIR Sample.ROOT_DIR)])).
Proof.
  destruct (directive_init_returns Sample.ROOT_DIR
              (Cmd.Session (Sample.staging "Hello") [])) as [s1 Hrun].
  - repeat (apply Forall_cons; split; [apply way_clearb_spec; by vm_compute |]).
    apply Forall_nil_2.
  - exists s1. split; [exact Hrun |].
    exact (X23_init_directories_again Sample.ROOT_DIR _ s1 Hrun).
Defined.

Lemma X24_init_directories_reports_new_stubs_witness :
  ∃ f',
    Directive.init_directories Sample.ROOT_DIR (Cmd.Session (Sample.staging "Hello") [])
      = (Ok tt,
         Cmd.Session f'
           ([Directive.INFO_verified_directory (Directive.STAGING_DIR Sample.ROOT_DIR);
             Directive.INFO_verified_directory (Directive.ARCHIVE_DIR Sample.ROOT_DIR);
             Directive.INFO_verified_directory (Directive.TAXONOMY_DIR Sample.ROOT_DIR);
             Directive.INFO_verified_directory (Directive.MANIFEST_DIR Sample.ROOT_DIR);
             Directive.INFO_created_taxonomy_stub
               (Directive.TAXONOMY_DIR Sample.ROOT_DIR ++ ["domains.json"]);
             Directive.INFO_created_taxonomy_stub
               (Directive.TAXONOMY_DIR Sample.ROOT_DIR ++ ["tags.json"])])) ∧
    Forall (λ d, f' !! d = Some Dir)
      [Directive.STAGING_DIR Sample.ROOT_DIR; Directive.ARCHIVE_DIR Sample.ROOT_DIR;
       Directive.TAXONOMY_DIR Sample.ROOT_DIR; Directive.MANIFEST_DIR Sample.ROOT_DIR] ∧
    f' !! Sample.staged = Some (File "Hello").
Proof.
  destruct (X24_init_directories_reports_new_stubs Sample.ROOT_DIR
              (Cmd.Session (Sample.staging "Hello") []))
    as (f' & Hrun & Hdirs & _ & _ & Hkept).
  - repeat (apply Forall_cons; split; [apply way_clearb_spec; by vm_compute |]).
    apply Forall_nil_2.
  - exists f'. split; [exact Hrun |]. split; [exact Hdirs |].
    rewrite Hkept; [by vm_compute | exists (File "Hello"); by vm_compute].
Defined.
End DirectiveInitExamples.

(* ===================================================================== *)
(** * The indices of [generate_indices] *)
(* ===================================================================== *)

Section IndexFacts.
Import Py Re Spec Fs.
Variable ROOT_DIR : list string.

Local Abbreviation step index_data o :=
  (match o with
   | None => index_data%list
   | Some (d, None) => Toolkit.ensure_domain d index_data
   | Some (d, Some entry) =>
       Toolkit.append_entry d entry (Toolkit.ensure_domain d index_data)
   end).

(** One turn of the scan reads, and the files stay as they are. *)
Lemma index_file_run index_data p (s : Cmd.session Toolkit.index_line) :
  ∃ lines,
    Toolkit.index_file ROOT_DIR index_data p s
      = (Ok (step index_data (filed ROOT_DIR (Cmd.disk s) p)),
         Cmd.Session (Cmd.disk s) (Cmd.printed s ++ lines)) ∧
    length lines ≤ 1.
Proof.
  destruct s as [f o]. unfold Toolkit.index_file, filed. cbn [Cmd.disk Cmd.printed].
  assert (Hquiet : ∀ (r : list (string * list Toolkit.index_entry)),
            ∃ lines, (Ok r, Cmd.Session f o)
                     = (Ok r, Cmd.Session f (o ++ lines)) ∧ length lines ≤ 1).
  { intros r. exists []. rewrite app_nil_r. split; [done | simpl; lia]. }
  assert (Hline : ∀ (r : list (string * list Toolkit.index_entry)) l,
            ∃ lines, (Ok r, Cmd.Session f (o ++ [l]))
                     = (Ok r, Cmd.Session f (o ++ lines)) ∧ length lines ≤ 1).
  { intros r l. exists [l]. split; [done | simpl; lia]. }
  case_bool_decide; [apply Hquiet |].
  unfold Cmd.bind, Cmd.try_except, Cmd.on_disk, Cmd.print, Cmd.ret, read_text.
  cbn [files Cmd.disk Cmd.printed].
  destruct (node_at p f) as [[c|]|]; cbn [files Cmd.disk Cmd.printed].
  - destruct (Toolkit.index_domain c) as [d|]; [|apply Hquiet].
    destruct (relative_to ROOT_DIR p) as [rel|e]; [apply Hquiet | apply Hline].
  - apply Hline.
  - apply Hline.
Qed.

Lemma index_files_run index_data found (s : Cmd.session Toolkit.index_line) :
  ∃ lines,
    Toolkit.index_files ROOT_DIR index_data found s
      = (Ok (foldl (λ data p, step data (filed ROOT_DIR (Cmd.disk s) p))
               index_data found),
         Cmd.Session (Cmd.disk s) (Cmd.printed s ++ lines)) ∧
    length lines ≤ length found.
Proof.
  revert index_data s. induction found as [|p found IH]; intros index_data s.
  - exists []. rewrite app_nil_r. by destruct s.
  - cbn [Toolkit.index_files foldl]. unfold Cmd.bind at 1.
    destruct (index_file_run index_data p s) as (l1 & -> & Hl1).
    destruct (IH (step index_data (filed ROOT_DIR (Cmd.disk s) p))
                 (Cmd.Session (Cmd.disk s) (Cmd.printed s ++ l1))) as (l2 & -> & Hl2).
    cbn [Cmd.disk Cmd.printed]. exists (l1 ++ l2). rewrite app_assoc.
    split; [done |]. rewrite length_app. simpl. lia.
Qed.

Lemma ensure_domain_keys d (l : list (string * list Toolkit.index_entry)) :
  (Toolkit.ensure_domain d l).*1
    = l.*1 ++ (if bool_decide (d ∈ l.*1) then [] else [d]).
Proof.
  unfold Toolkit.ensure_domain. case_bool_decide; [by rewrite app_nil_r |].
  by rewrite fmap_app.
Qed.

Lemma append_entry_keys d e (l : list (string * list Toolkit.index_entry)) :
  (Toolkit.append_entry d e l).*1 = l.*1.
Proof.
  induction l as [|[d' es] l IH]; [done |]. cbn [Toolkit.append_entry].
  case_bool_decide; [done |]. cbn. by rewrite IH.
Qed.

Lemma elem_of_ensure_domain d es d' (l : list (string * list Toolkit.index_entry)) :
  (d, es) ∈ Toolkit.ensure_domain d' l
  ↔ (d, es) ∈ l ∨ (d = d' ∧ es = [] ∧ d' ∉ l.*1).
Proof.
  unfold Toolkit.ensure_domain. case_bool_decide as Hin.
  - split; [by left |]. by intros [? | (_ & _ & ?)].
  - rewrite elem_of_app, list_elem_of_singleton. split.
    + intros [? | [= -> ->]]; [by left | by right].
    + intros [? | (-> & -> & _)]; [by left | by right].
Qed.

Lemma elem_of_append_entry d es d' e (l : list (string * list Toolkit.index_entry)) :
  NoDup l.*1 →
  (d, es) ∈ Toolkit.append_entry d' e l
  ↔ (d ≠ d' ∧ (d, es) ∈ l) ∨ (d = d' ∧ ∃ es0, (d', es0) ∈ l ∧ es = es0 ++ [e]).
Proof.
  induction l as [|[d0 es0] l IH]; intros Hnd.
  - cbn. split; [by intros ?%elem_of_nil |].
    intros [[_ H] | [_ (? & H & _)]]; by apply elem_of_nil in H.
  - apply NoDup_cons in Hnd as [Hd0 Hnd]. cbn [Toolkit.append_entry].
    assert (Hkey : ∀ x, (d0, x) ∈ l → False).
    { intros x Hx. apply Hd0. apply list_elem_of_fmap. by exists (d0, x). }
    case_bool_decide as Heq.
    + subst d0. split.
      * intros [[= -> ->] | Hin]%elem_of_cons.
        -- right. split; [done |]. exists es0. split; [by left | done].
        -- left. split; [|by right]. intros ->. by apply (Hkey es).
      * intros [[Hne [[= ? ?] | Hin]%elem_of_cons]
               | [-> (es1 & [[= ->] | Hin]%elem_of_cons & ->)]].
        -- done.
        -- by right.
        -- by left.
        -- by destruct (Hkey es1).
    + split.
      * intros [[= -> ->] | [[Hne Hin] | [-> (es1 & Hin & ->)]]%(IH Hnd)]%elem_of_cons.
        -- left. split; [done | by left].
        -- left. split; [done | by right].
        -- right. split; [done |]. exists es1. split; [by right | done].
      * intros [[Hne [[= -> ->] | Hin]%elem_of_cons]
               | [-> (es1 & [[= ? ?] | Hin]%elem_of_cons & ->)]].
        -- by left.
        -- right. apply (IH Hnd). left. by split.
        -- done.
        -- right. apply (IH Hnd). right. split; [done |]. by exists es1.
Qed.

Section Scan.
Variable f : gmap (list string) node.

Local Abbreviation inv index_data seen :=
  (NoDup (index_data%list).*1 ∧
   (∀ d, d ∈ (index_data%list).*1 ↔ d ∈ domains_named ROOT_DIR f seen) ∧
   (∀ d es, (d, es) ∈ index_data%list → es = filed_under ROOT_DIR f d seen)).

Lemma domains_named_snoc seen p :
  domains_named ROOT_DIR f (seen ++ [p])
    = domains_named ROOT_DIR f seen
      ++ match filed ROOT_DIR f p with Some (d, _) => [d] | None => [] end.
Proof.
  unfold domains_named. rewrite omap_app. f_equal. cbn.
  by destruct (filed ROOT_DIR f p) as [[d oe]|].
Qed.

Lemma filed_under_snoc d seen p :
  filed_under ROOT_DIR f d (seen ++ [p])
    = filed_under ROOT_DIR f d seen
      ++ match filed ROOT_DIR f p with
         | Some (d', Some e) => if bool_decide (d' = d) then [e] else []
         | _ => []
         end.
Proof.
  unfold filed_under. rewrite omap_app. f_equal. cbn.
  destruct (filed ROOT_DIR f p) as [[d' [e|]]|]; [|done | done].
  by case_bool_decide.
Qed.

Lemma filed_under_unnamed d seen :
  d ∉ domains_named ROOT_DIR f seen → filed_under ROOT_DIR f d seen = [].
Proof.
  induction seen as [|p seen IH]; [done |].
  unfold domains_named, filed_under in *. cbn [omap list_omap].
  destruct (filed ROOT_DIR f p) as [[d' oe]|]; cbn [fmap option_fmap option_map fst].
  - intros Hnot. apply not_elem_of_cons in Hnot as [Hne Hnot].
    rewrite bool_decide_eq_false_2 by done. destruct oe; by apply IH.
  - apply IH.
Qed.

Lemma scan_step index_data seen p :
  inv index_data seen →
  inv (step index_data (filed ROOT_DIR f p)) (seen ++ [p]).
Proof.
  intros (Hnd & Hkeys & Hent).
  rewrite domains_named_snoc.
  destruct (filed ROOT_DIR f p) as [[d' oe]|] eqn:Hfiled.
  2:{ rewrite app_nil_r. split; [done |]. split; [done |].
      intros d es Hin. rewrite filed_under_snoc, Hfiled, app_nil_r. by apply Hent. }
  assert (Hnd' : NoDup (Toolkit.ensure_domain d' index_data).*1).
  { rewrite ensure_domain_keys. case_bool_decide; [by rewrite app_nil_r |].
    apply NoDup_app. split; [done |]. split; [|apply NoDup_singleton].
    by intros x Hx ->%list_elem_of_singleton. }
  assert (Hkeys' : ∀ d, d ∈ (Toolkit.ensure_domain d' index_data).*1
                        ↔ d ∈ domains_named ROOT_DIR f seen ++ [d']).
  { intros d. rewrite ensure_domain_keys, !elem_of_app, list_elem_of_singleton, Hkeys.
    case_bool_decide as Hin.
    - rewrite elem_of_nil. split; [intros [? | []]; by left |].
      intros [? | ->]; left; [done | by apply Hkeys].
    - by rewrite list_elem_of_singleton. }
  assert (Hent' : ∀ d es, (d, es) ∈ Toolkit.ensure_domain d' index_data →
                          es = filed_under ROOT_DIR f d seen).
  { intros d es [Hin | (-> & -> & Hnot)]%elem_of_ensure_domain; [by apply Hent |].
    symmetry. apply filed_under_unnamed. by rewrite <- Hkeys. }
  destruct oe as [e|].
  - split; [by rewrite append_entry_keys |]. split.
    { intros d. by rewrite append_entry_keys. }
    intros d es Hin. apply (elem_of_append_entry _ _ _ _ _ Hnd') in Hin.
    rewrite filed_under_snoc, Hfiled.
    destruct Hin as [[Hne Hin] | [-> (es0 & Hin & ->)]].
    + rewrite bool_decide_eq_false_2, app_nil_r by done. by apply Hent'.
    + rewrite bool_decide_eq_true_2 by done. f_equal. by apply Hent'.
  - split; [done |]. split; [done |].
    intros d es Hin. rewrite filed_under_snoc, Hfiled, app_nil_r. by apply Hent'.
Qed.

Lemma scan_steps found index_data seen :
  inv index_data seen →
  inv (foldl (λ data p, step data (filed ROOT_DIR f p)) index_data found)
      (seen ++ found).
Proof.
  revert index_data seen. induction found as [|p found IH]; intros index_data seen Hinv.
  - by rewrite app_nil_r.
  - cbn [foldl]. rewrite (cons_middle p seen found), app_assoc.
    apply IH. by apply scan_step.
Qed.
End Scan.

(** X25: the scan of [generate_indices] never raises and changes no
    file.  It files every listed path that names a domain under that
    domain, once: the domains of [index_data] differ from one another and
    are the domains the listed files name, and the entries of a domain
    are those of the files that name it, in the order of the listing.  At
    most one line is printed for each path. *)
Theorem X25_scan_files_each_note_under_its_domain
    (found : list (list string)) (s : Cmd.session Toolkit.index_line) :
  ∃ index_data lines,
    Toolkit.index_files ROOT_DIR [] found s
      = (Ok index_data, Cmd.Session (Cmd.disk s) (Cmd.printed s ++ lines)) ∧
    length lines ≤ length found ∧
    NoDup index_data.*1 ∧
    (∀ domain, domain ∈ index_data.*1
               ↔ domain ∈ domains_named ROOT_DIR (Cmd.disk s) found) ∧
    (∀ domain files, (domain, files) ∈ index_data →
                     files = filed_under ROOT_DIR (Cmd.disk s) domain found).
Proof.
  destruct (index_files_run [] found s) as (lines & Hrun & Hlen).
  eexists _, lines. split; [exact Hrun |]. split; [exact Hlen |].
  apply (scan_steps (Cmd.disk s) found [] []).
  split; [apply NoDup_nil_2 |]. split.
  - intros d. by rewrite !elem_of_nil.
  - by intros d es ?%elem_of_nil.
Qed.

Local Abbreviation index_of d :=
  (Toolkit.indices_dir ROOT_DIR ++ [d%string +:+ "-index.md"]).

Lemma sapp_inv_tail a b x : a +:+ x = b +:+ x → a = b.
Proof.
  intros H%(f_equal rev). rewrite !rev_sapp in H. apply sapp_inv_head in H.
  apply (f_equal rev) in H. by rewrite !rev_involutive in H.
Qed.

Lemma index_name_component d : free_of "/" d → component (d +:+ "-index.md").
Proof.
  intros Hd. split; [by destruct d |]. split.
  - destruct d as [|c d]; [done |]. rewrite sapp_cons. by destruct d.
  - apply free_of_app. by split.
Qed.

Lemma index_of_inj d d' : index_of d = index_of d' → d = d'.
Proof. intros [= H%sapp_inv_tail]%app_inv_head. done. Qed.

Lemma index_of_not_dir d : index_of d ≠ Toolkit.indices_dir ROOT_DIR.
Proof. intros H%(f_equal length). rewrite length_app in H. simpl in H. lia. Qed.

(** [mkdir] of a name in a directory that is there. *)
Lemma mkdir_ok dir x (w : world) :
  node_at dir (files w) = Some Dir →
  (∀ c, files w !! (dir ++ [x]) ≠ Some (File c)) →
  mkdir (dir ++ [x]) w = (Ok tt, set_files (<[dir ++ [x] := Dir]> (files w)) w).
Proof.
  intros Hdir Hfile. unfold mkdir.
  rewrite node_at_app_singleton, parent_app_singleton, Hdir.
  destruct (files w !! (dir ++ [x])) as [[c|]|] eqn:Hat.
  - by destruct (Hfile c).
  - rewrite insert_id by done. by destruct w.
  - done.
Qed.

(** Making the directory of the indices changes nothing for the scan. *)
Lemma filed_mkdir (f : gmap (list string) node) p :
  (∀ c, f !! Toolkit.indices_dir ROOT_DIR ≠ Some (File c)) →
  filed ROOT_DIR (<[Toolkit.indices_dir ROOT_DIR := Dir]> f) p = filed ROOT_DIR f p.
Proof.
  intros Hfile. unfold filed. case_bool_decide; [done |].
  destruct (decide (p = Toolkit.indices_dir ROOT_DIR)) as [-> | Hne].
  - unfold Toolkit.indices_dir. rewrite !node_at_app_singleton, lookup_insert_eq.
    fold (Toolkit.indices_dir ROOT_DIR).
    destruct (f !! Toolkit.indices_dir ROOT_DIR) as [[c|]|] eqn:Hat; [|done | done].
    by destruct (Hfile c).
  - destruct p as [|x p]; [done |]. cbn [node_at]. by rewrite lookup_insert_ne.
Qed.

Lemma filed_ext (f g : gmap (list string) node) found :
  (∀ p, filed ROOT_DIR g p = filed ROOT_DIR f p) →
  domains_named ROOT_DIR g found = domains_named ROOT_DIR f found ∧
  ∀ d, filed_under ROOT_DIR g d found = filed_under ROOT_DIR f d found.
Proof.
  intros Heq. unfold domains_named, filed_under. split.
  - induction found as [|p found IH]; [done |]. cbn. by rewrite Heq, IH.
  - intros d. induction found as [|p found IH]; [done |]. cbn. by rewrite Heq, IH.
Qed.

(** The loop that writes the index files, in a directory that is
    there. *)
Lemma write_index_files_run (index_data : list (string * list Toolkit.index_entry))
    (s : Cmd.session Toolkit.index_line) :
  NoDup index_data.*1 →
  Cmd.disk s !! Toolkit.indices_dir ROOT_DIR = Some Dir →
  (∀ d, d ∈ index_data.*1 →
        free_of "/" d ∧ Cmd.disk s !! index_of d ≠ Some Dir) →
  ∃ g,
    Cmd.for_each index_data (Toolkit.write_index_file ROOT_DIR) s
      = (Ok tt, Cmd.Session g (Cmd.printed s)) ∧
    (∀ d es, (d, es) ∈ index_data →
             g !! index_of d = Some (File (Toolkit.index_text d es))) ∧
    (∀ q, (∀ d, d ∈ index_data.*1 → q ≠ index_of d) → g !! q = Cmd.disk s !! q).
Proof.
  revert s. induction index_data as [|[d0 es0] l IH]; intros [f o] Hnd Hdir Hall.
  - exists f. split; [done |]. split; [by intros d es ?%elem_of_nil | done].
  - cbn [Cmd.disk Cmd.printed] in *. apply NoDup_cons in Hnd as [Hd0 Hnd].
    destruct (Hall d0) as [Hfree Hnodir]; [by left |].
    cbn [Cmd.for_each]. unfold Cmd.bind at 1, Toolkit.write_index_file, Cmd.on_disk.
    cbn [Cmd.disk Cmd.printed].
    rewrite pjoin_component by by apply index_name_component.
    rewrite (write_text_ok (index_of d0) _ (World f [] 0)).
    2:{ cbn [files]. by rewrite node_at_app_singleton. }
    2:{ cbn [files]. rewrite parent_app_singleton.
        unfold Toolkit.indices_dir. rewrite node_at_app_singleton. exact Hdir. }
    cbn [files set_files].
    destruct (IH (Cmd.Session (<[index_of d0 := File (Toolkit.index_text d0 es0)]> f) o))
      as (g & Hrun & Hwritten & Hframe); [done | |  |].
    { cbn [Cmd.disk]. rewrite lookup_insert_ne; [done |]. apply index_of_not_dir. }
    { intros d Hd. cbn [Cmd.disk]. destruct (Hall d) as [? ?]; [by right |].
      split; [done |]. rewrite lookup_insert_ne; [done |].
      intros ->%index_of_inj. by apply Hd0. }
    cbn [Cmd.disk Cmd.printed] in *. exists g. split; [exact Hrun |]. split.
    + intros d es [[= -> ->] | Hin]%elem_of_cons; [|by apply Hwritten].
      rewrite Hframe; [by rewrite lookup_insert_eq |].
      intros d Hd ->%index_of_inj. by apply Hd0.
    + intros q Hq. rewrite Hframe.
      * rewrite lookup_insert_ne; [done |]. intros <-. apply (Hq d0); [by left | done].
      * intros d Hd. apply Hq. by right.
Qed.

(** X26: [generate_indices] in a [ROOT_DIR] that is there, whose
    [_indexes] is no file, for notes whose domains have no slash and
    whose index paths are no directories.  It returns and leaves one
    index file for each domain that the listed files name, holding the
    entries of the files that name the domain in the order of the
    listing; [_indexes] is a directory and every other path is as it
    was.  The line printed last tells the number of domains. *)
Theorem X26_generate_indices_writes_one_index_per_domain
    (found : list (list string)) (s : Cmd.session Toolkit.index_line) :
  node_at ROOT_DIR (Cmd.disk s) = Some Dir →
  (∀ c, Cmd.disk s !! Toolkit.indices_dir ROOT_DIR ≠ Some (File c)) →
  (∀ d, d ∈ domains_named ROOT_DIR (Cmd.disk s) found →
        free_of "/" d ∧
        Cmd.disk s !! (Toolkit.indices_dir ROOT_DIR ++ [d +:+ "-index.md"]) ≠ Some Dir) →
  ∃ index_data g lines,
    Toolkit.generate_indices ROOT_DIR found s
      = (Ok index_data,
         Cmd.Session g
           (Cmd.printed s ++ Toolkit.Generating_indices :: lines
              ++ [Toolkit.Generated_indices (length index_data)])) ∧
    NoDup index_data.*1 ∧
    (∀ d, d ∈ index_data.*1 ↔ d ∈ domains_named ROOT_DIR (Cmd.disk s) found) ∧
    g !! Toolkit.indices_dir ROOT_DIR = Some Dir ∧
    (∀ d, d ∈ domains_named ROOT_DIR (Cmd.disk s) found →
          g !! (Toolkit.indices_dir ROOT_DIR ++ [d +:+ "-index.md"])
            = Some (File (Toolkit.index_text d
                            (filed_under ROOT_DIR (Cmd.disk s) d found)))) ∧
    (∀ q, q ≠ Toolkit.indices_dir ROOT_DIR →
          (∀ d, d ∈ domains_named ROOT_DIR (Cmd.disk s) found →
                q ≠ Toolkit.indices_dir ROOT_DIR ++ [d +:+ "-index.md"]) →
          g !! q = Cmd.disk s !! q).
Proof.
  destruct s as [f o]. cbn [Cmd.disk Cmd.printed]. intros Hroot Hfile Hdoms.
  set (f1 := <[Toolkit.indices_dir ROOT_DIR := Dir]> f).
  destruct (filed_ext f f1 found) as [Hnamed Hunder].
  { intros p. by apply filed_mkdir. }
  destruct (index_files_run [] found
              (Cmd.Session f1 (o ++ [Toolkit.Generating_indices])))
    as (lines & Hscan & _).
  cbn [Cmd.disk Cmd.printed] in Hscan.
  destruct (scan_steps f1 found [] []) as (Hnd & Hkeys & Hent).
  { split; [apply NoDup_nil_2 |]. split.
    - intros d. by rewrite !elem_of_nil.
    - by intros d es ?%elem_of_nil. }
  cbn [app] in Hkeys, Hent.
  set (index_data := foldl _ [] found) in *.
  destruct (write_index_files_run index_data
              (Cmd.Session f1 ((o ++ [Toolkit.Generating_indices]) ++ lines)))
    as (g & Hwrite & Hwritten & Hframe); [done | | |].
  { cbn [Cmd.disk]. subst f1. by rewrite lookup_insert_eq. }
  { intros d Hd. cbn [Cmd.disk]. apply Hkeys in Hd. rewrite Hnamed in Hd.
    destruct (Hdoms d Hd) as [? ?]. split; [done |]. subst f1.
    rewrite lookup_insert_ne; [done |]. apply not_eq_sym, index_of_not_dir. }
  cbn [Cmd.disk Cmd.printed] in *.
  exists index_data, g, lines. split.
  { unfold Toolkit.generate_indices.
    unfold Cmd.bind at 1, Cmd.print at 1. cbn [Cmd.disk Cmd.printed].
    unfold Cmd.bind at 1, Cmd.on_disk at 1. cbn [Cmd.disk Cmd.printed].
    unfold Toolkit.indices_dir at 1.
    rewrite (mkdir_ok ROOT_DIR "_indexes" (World f [] 0)) by done.
    cbn [files set_files]. fold (Toolkit.indices_dir ROOT_DIR). fold f1.
    unfold Cmd.bind at 1. rewrite Hscan.
    unfold Cmd.bind at 1. rewrite Hwrite.
    unfold Cmd.bind, Cmd.print, Cmd.ret. cbn [Cmd.disk Cmd.printed].
    do 2 f_equal. by rewrite <- !app_assoc. }
  split; [exact Hnd |]. split.
  { intros d. by rewrite Hkeys, Hnamed. }
  split.
  { rewrite Hframe; [subst f1; by rewrite lookup_insert_eq |].
    intros d _. apply not_eq_sym, index_of_not_dir. }
  split.
  - intros d Hd. rewrite <- Hnamed in Hd. apply Hkeys in Hd.
    apply list_elem_of_fmap in Hd as ([d' es] & -> & Hin). cbn [fst].
    rewrite (Hwritten d' es Hin). by rewrite (Hent d' es Hin), Hunder.
  - intros q Hq1 Hq2. rewrite Hframe.
    + subst f1. by rewrite lookup_insert_ne.
    + intros d Hd. apply Hq2. rewrite <- Hnamed. by apply Hkeys.
Qed.

(** The domain [generate_indices] finds in a file the organizer wrote. *)
Lemma index_domain_archived today row content :
  Forall header_safe (Toolkit.header_lines today row) →
  Toolkit.domain_of row ≠ "" →
  strip (Toolkit.domain_of row) = Toolkit.domain_of row →
  Toolkit.index_domain (Toolkit.archived_text today row content)
    = Some (Toolkit.domain_of row).
Proof.
  intros Hsafe Hne Hd. rewrite toolkit_archived_shape.
  change (Toolkit.header_lines today row)
    with (("patterndomain: " +:+ Toolkit.domain_of row)
            :: List.skipn 1 (Toolkit.header_lines today row)).
  cbn [unlines]. rewrite !sapp_assoc. rewrite <- (sapp_assoc "patterndomain: ").
  apply index_domain_shape; [done | done |].
  apply Forall_cons in Hsafe as [[_ Hnl] _].
  apply (free_of_app LF "patterndomain: " (Toolkit.domain_of row)) in Hnl.
  by destruct Hnl.
Qed.

(** X27: the index finds what the organizer filed.  For a row whose
    domain is a proper path component without white space around it and
    other than [taxonomy], with a header that is safe to write, a date
    without a slash and no [taxonomy] component in [ROOT_DIR]: the scan
    of [generate_indices] files the note the organizer wrote under the
    domain of the row, with the new file name, its path below [ROOT_DIR]
    and the snippet of the source; nothing is printed and no file is
    changed. *)
Theorem X27_archived_note_is_indexed
    (today : string) (row : gmap string string) (filename content : string)
    (index_data : list (string * list Toolkit.index_entry))
    (s : Cmd.session Toolkit.index_line) :
  component (Toolkit.domain_of row) →
  strip (Toolkit.domain_of row) = Toolkit.domain_of row →
  Toolkit.domain_of row ≠ "taxonomy" →
  Forall header_safe (Toolkit.header_lines today row) →
  free_of "/" today → "taxonomy" ∉ ROOT_DIR →
  Cmd.disk s !! Toolkit.target_path ROOT_DIR today row filename
    = Some (File (Toolkit.archived_text today row content)) →
  Toolkit.index_file ROOT_DIR index_data
    (Toolkit.target_path ROOT_DIR today row filename) s
  = (Ok (Toolkit.append_entry (Toolkit.domain_of row)
           (Toolkit.IndexEntry (Toolkit.new_filename today row filename)
              (replace (String Json.bs "") "/"
                 (join "/" ["knowledge-archive"; Toolkit.domain_of row;
                            Toolkit.stage_folder (Toolkit.stage_of row);
                            Toolkit.new_filename today row filename]))
              (Toolkit.extract_snippet content 75))
           (Toolkit.ensure_domain (Toolkit.domain_of row) index_data)),
     s).
Proof.
  intros Hd Hstrip Hdom Hsafe Ht Hroot Hat.
  set (target := Toolkit.target_path ROOT_DIR today row filename) in *.
  assert (Hshape : target = ROOT_DIR
            ++ ["knowledge-archive"; Toolkit.domain_of row;
                Toolkit.stage_folder (Toolkit.stage_of row);
                Toolkit.new_filename today row filename]).
  { subst target. rewrite toolkit_target_path_shape, toolkit_target_dir_shape by done.
    unfold Toolkit.ARCHIVE_DIR. by rewrite <- !app_assoc. }
  assert (Hname : name target = Toolkit.new_filename today row filename).
  { rewrite Hshape. unfold name.
    change ["knowledge-archive"; Toolkit.domain_of row;
            Toolkit.stage_folder (Toolkit.stage_of row);
            Toolkit.new_filename today row filename]
      with (["knowledge-archive"; Toolkit.domain_of row;
             Toolkit.stage_folder (Toolkit.stage_of row)]
            ++ [Toolkit.new_filename today row filename]).
    rewrite app_assoc. apply last_last. }
  assert (Hfile : Toolkit.new_filename today row filename ≠ "taxonomy").
  { intros Heq. apply (new_filename_has_dash today row filename). by rewrite Heq. }
  assert (Hfolder : Toolkit.stage_folder (Toolkit.stage_of row) ≠ "taxonomy").
  { unfold Toolkit.stage_folder. by repeat case_bool_decide. }
  assert (Hnode : node_at target (Cmd.disk s)
                  = Some (File (Toolkit.archived_text today row content))).
  { rewrite node_at_lookup; [done |]. rewrite Hshape. by destruct ROOT_DIR. }
  destruct s as [f o]. cbn [Cmd.disk] in *.
  unfold Toolkit.index_file.
  rewrite bool_decide_eq_false_2.
  2:{ rewrite Hshape. rewrite elem_of_app, !elem_of_cons, elem_of_nil.
      intros [? | [? | [? | [? | [? | ?]]]]]; congruence. }
  unfold Cmd.bind at 1, Cmd.try_except, Cmd.bind at 1, Cmd.on_disk.
  cbn [Cmd.disk Cmd.printed].
  rewrite (read_text_file target (World f [] 0) _ Hnode).
  unfold Cmd.ret at 1. cbn [files].
  rewrite index_domain_archived; [|done | by destruct Hd | done].
  assert (Hrel : relative_to ROOT_DIR target
                 = Ok ["knowledge-archive"; Toolkit.domain_of row;
                       Toolkit.stage_folder (Toolkit.stage_of row);
                       Toolkit.new_filename today row filename]).
  { rewrite Hshape. apply relative_to_app. }
  rewrite Hrel, Hname.
  unfold Toolkit.extract_snippet. rewrite strip_frontmatter_archived by done.
  done.
Qed.
End IndexFacts.

Section IndexExamples.
Import Py Re Spec Fs.

Lemma X26_generate_indices_writes_one_index_per_domain_witness :
  ∃ index_data g lines,
    Toolkit.generate_indices Sample.ROOT_DIR [Sample.archive_note]
      (Cmd.Session (Sample.archived "Hello") [])
      = (Ok index_data,
         Cmd.Session g
           ([] ++ Toolkit.Generating_indices :: lines
               ++ [Toolkit.Generated_indices (length index_data)])) ∧
    g !! (Toolkit.indices_dir Sample.ROOT_DIR ++ ["tradecraft-index.md"])
      = Some (File (Toolkit.index_text "tradecraft"
                      (filed_under Sample.ROOT_DIR (Sample.archived "Hello")
                         "tradecraft" [Sample.archive_note]))).
Proof.
  assert (Hnamed : domains_named Sample.ROOT_DIR (Sample.archived "Hello")
                     [Sample.archive_note] = ["tradecraft"]) by (by vm_compute).
  destruct (X26_generate_indices_writes_one_index_per_domain Sample.ROOT_DIR
              [Sample.archive_note] (Cmd.Session (Sample.archived "Hello") []))
    as (index_data & g & lines & Hrun & _ & _ & _ & Hwritten & _).
  - by vm_compute.
  - intros c. by vm_compute.
  - intros d Hd. cbn [Cmd.disk] in Hd. rewrite Hnamed in Hd.
    apply list_elem_of_singleton in Hd as ->. split; by vm_compute.
  - exists index_data, g, lines. split; [exact Hrun |].
    apply (Hwritten "tradecraft"). cbn [Cmd.disk]. rewrite Hnamed.
    by apply list_elem_of_singleton.
Defined.

Lemma X27_archived_note_is_indexed_witness :
  Toolkit.index_file Sample.ROOT_DIR []
    (Toolkit.target_path Sample.ROOT_DIR Sample.today
       (Sample.toolkit_row "tradecraft" "formalizedframework" "humint") "foo.md")
    (Cmd.Session (Sample.archived "Hello") [])
  = (Ok (Toolkit.append_entry "tradecraft"
           (Toolkit.IndexEntry
              (Toolkit.new_filename Sample.today
                 (Sample.toolkit_row "tradecraft" "formalizedframework" "humint")
                 "foo.md")
              (replace (String Json.bs "") "/"
                 (join "/" ["knowledge-archive"; "tradecraft"; "formalized_frameworks";
                            Toolkit.new_filename Sample.today
                              (Sample.toolkit_row "tradecraft" "formalizedframework"
                                 "humint") "foo.md"]))
              (Toolkit.extract_snippet "Hello" 75))
           (Toolkit.ensure_domain "tradecraft" [])),
     Cmd.Session (Sample.archived "Hello") []).
Proof.
  apply (X27_archived_note_is_indexed Sample.ROOT_DIR Sample.today
           (Sample.toolkit_row "tradecraft" "formalizedframework" "humint")
           "foo.md" "Hello" [] (Cmd.Session (Sample.archived "Hello") [])).
  - by vm_compute.
  - by vm_compute.
  - by vm_compute.
  - apply header_safeb_spec. by vm_compute.
  - by vm_compute.
  - apply (bool_decide_eq_false_1 _). by vm_compute.
  - by vm_compute.
Defined.
End IndexExamples.

(* ===================================================================== *)
(** * The indexes of [generate_indexes] *)
(* ===================================================================== *)

Section GroupFacts.
Import Py Re Spec Fs.

Lemma key_le_total {A} : Total (@key_le A).
Proof. intros [k1 x1] [k2 x2]. unfold key_le. apply (total String.le). Qed.

Lemma sorted_by_key_Sorted {A} (d : gmap string A) : Sorted key_le (sorted_by_key d).
Proof. apply (@Sorted_merge_sort _ key_le key_le_dec key_le_total). Qed.

Lemma sorted_by_key_Permutation {A} (d : gmap string A) :
  sorted_by_key d ≡ₚ map_to_list d.
Proof. apply merge_sort_Permutation. Qed.

Lemma elem_of_sorted_by_key {A} (d : gmap string A) k x :
  (k, x) ∈ sorted_by_key d ↔ d !! k = Some x.
Proof. by rewrite sorted_by_key_Permutation, elem_of_map_to_list. Qed.

Lemma sorted_by_key_NoDup {A} (d : gmap string A) : NoDup (sorted_by_key d).*1.
Proof. rewrite sorted_by_key_Permutation. apply NoDup_fst_map_to_list. Qed.

Lemma grouped_snoc key g docs d :
  grouped key g (docs ++ [d])
    = grouped key g docs
      ++ (if decide (get (Directive.doc_meta d) key "Uncategorized" = g)
          then [d] else []).
Proof.
  unfold grouped. by rewrite filter_app.
Qed.

(** The groups after the loop: a group for each value that some entry
    has, with the entries of that value in their order. *)
Lemma group_docs_lookup key docs g :
  Directive.group_docs key docs !! g
    = if decide (grouped key g docs = []) then None
      else Some (grouped key g docs).
Proof.
  induction docs as [|d docs IH] using rev_ind; [done |].
  unfold Directive.group_docs in *. rewrite foldl_app. cbn [foldl].
  rewrite grouped_snoc. unfold Directive.group_doc at 1. cbv zeta.
  destruct (decide (get (Directive.doc_meta d) key "Uncategorized" = g)) as [<- | Hne].
  - rewrite lookup_insert_eq, IH.
    destruct (decide (grouped key _ docs ++ [d] = [])) as [[_ ?]%app_eq_nil | _];
      [done |].
    by destruct (decide (grouped key _ docs = [])) as [-> | ?].
  - rewrite lookup_insert_ne by done. by rewrite IH, app_nil_r.
Qed.

(** X29: an index of [generate_indexes] lists every entry once, in the
    group of the value its header gives for the key of the index, or in
    [Uncategorized] when it has none.  The groups come in the order of
    their names, no two have the same name and none is empty; the
    entries of a group keep the order of the scan. *)
Theorem X29_index_lists_each_doc_in_its_group (key : string)
    (docs : list Directive.doc) :
  let groups := sorted_by_key (Directive.group_docs key docs) in
  Sorted key_le groups ∧ NoDup groups.*1 ∧
  (∀ g items, (g, items) ∈ groups ↔ items ≠ [] ∧ items = grouped key g docs) ∧
  (∀ d, d ∈ docs →
        ∃ items, (get (Directive.doc_meta d) key "Uncategorized", items) ∈ groups ∧
                 d ∈ items).
Proof.
  intros groups. subst groups.
  split; [apply sorted_by_key_Sorted |]. split; [apply sorted_by_key_NoDup |].
  assert (Hin : ∀ g items, (g, items) ∈ sorted_by_key (Directive.group_docs key docs)
                           ↔ items ≠ [] ∧ items = grouped key g docs).
  { intros g items. rewrite elem_of_sorted_by_key, group_docs_lookup.
    destruct (decide (grouped key g docs = [])) as [Hnil | Hne].
    - split; [done |]. intros [Hne ->]. done.
    - split; [by intros [= <-] | by intros [_ ->]]. }
  split; [exact Hin |].
  intros d Hd. exists (grouped key (get (Directive.doc_meta d) key "Uncategorized") docs).
  assert (Hd' : d ∈ grouped key (get (Directive.doc_meta d) key "Uncategorized") docs).
  { unfold grouped. apply list_elem_of_filter. by split. }
  split; [|exact Hd']. apply Hin. split; [|done].
  intros Hnil. rewrite Hnil in Hd'. by apply elem_of_nil in Hd'.
Qed.
End GroupFacts.

Section IndexesFacts.
Import Py Re Spec Fs.
Local Arguments String.append : simpl nomatch.
Variable ROOT_DIR : list string.

Lemma rstrip_nl s : rstrip (s +:+ nl) = rstrip s.
Proof.
  induction s as [|c s IH]; [done |]. rewrite sapp_cons. cbn [rstrip]. by rewrite IH.
Qed.

Lemma rstrip_app_keep a b : rstrip b ≠ "" → rstrip (a +:+ b) = a +:+ rstrip b.
Proof.
  intros Hb. induction a as [|c a IH]; [done |].
  rewrite !sapp_cons. cbn [rstrip]. rewrite IH.
  destruct (a +:+ rstrip b) as [|d r] eqn:Heq; [|done].
  destruct a; [by destruct Hb | done].
Qed.

Lemma strip_nl_cons s : strip (String LF s) = strip s.
Proof. done. Qed.

Lemma strip_space_cons s : strip (String " " s) = strip s.
Proof. done. Qed.

Lemma split_char_unlines_tail ls z :
  Forall (λ l, contains nl l = false) ls → free_of LF z →
  split_char LF (unlines ls +:+ z) = ls ++ [z].
Proof.
  induction 1 as [|l ls Hl Hls IH]; intros Hz; [by apply split_char_single |].
  cbn [unlines]. rewrite !sapp_assoc, split_char_line by done. by rewrite IH.
Qed.

(** A header line made of a key, a colon and a text. *)
Lemma meta_line_key meta key x :
  contains ":" key = false →
  Directive.meta_line meta (key +:+ String ":" x) = Ok (<[strip key := strip x]> meta).
Proof.
  intros Hk. unfold Directive.meta_line.
  assert (Hc : contains ":" (key +:+ String ":" x) = true).
  { apply contains_spec. by exists key, x. }
  rewrite Hc. cbn [splitn]. by rewrite (split_once_colon key x Hk).
Qed.

Lemma meta_lines_keys meta (kvs : list (string * string)) :
  Forall (λ kv, contains ":" kv.1 = false) kvs →
  Directive.meta_lines meta ((λ kv, kv.1 +:+ String ":" kv.2) <$> kvs)
    = Ok (foldl (λ m kv, <[strip kv.1 := strip kv.2]> m) meta kvs).
Proof.
  intros Hkvs. revert meta. induction Hkvs as [|[k x] kvs Hk Hkvs IH]; intros meta.
  - done.
  - cbn [fmap list_fmap Directive.meta_lines fst snd foldl].
    rewrite meta_line_key by done. cbn [rbind]. apply IH.
Qed.

(** The header and the rest of a text that starts with a header whose
    lines are safe, the first of them starting at once and the last
    having more than white space. *)
Lemma split_frontmatter_shape ls z tail :
  Forall header_safe (ls ++ [z]) →
  lstrip (unlines (ls ++ [z])) = unlines (ls ++ [z]) →
  rstrip z ≠ "" →
  Directive.split_frontmatter
    ("---" +:+ nl +:+ unlines (ls ++ [z]) +:+ "---" +:+ tail)
  = rbind (Directive.meta_lines ∅ (ls ++ [rstrip z])) (λ meta, Ok (meta, tail)).
Proof.
  intros Hsafe Hl Hz. unfold Directive.split_frontmatter.
  replace (startswith "---" ("---" +:+ nl +:+ unlines (ls ++ [z]) +:+ "---" +:+ tail))
    with true by done.
  cbn [splitn]. rewrite split_once_prefix.
  change (nl +:+ unlines (ls ++ [z]) +:+ "---" +:+ tail)
    with (unlines ("" :: ls ++ [z]) +:+ "---" +:+ tail).
  rewrite split_once_unlines.
  2:{ constructor; [done |]. eapply Forall_impl; [exact Hsafe |]. by intros l [? ?]. }
  f_equal. f_equal.
  change (unlines ("" :: ls ++ [z])) with (String LF (unlines (ls ++ [z]))).
  unfold strip. cbn [lstrip]. replace (isspace LF) with true by done. rewrite Hl.
  rewrite unlines_app. cbn [unlines]. rewrite sapp_nil_r.
  rewrite rstrip_app_keep by by rewrite rstrip_nl.
  rewrite rstrip_nl. apply Forall_app in Hsafe as [Hls Hsz].
  apply split_char_unlines_tail.
  - eapply Forall_impl; [exact Hls |]. by intros l [? ?].
  - apply rstrip_free_of. apply Forall_cons in Hsz as [[_ Hnl] _]. exact Hnl.
Qed.

(** X28: the indexes list what the directive organizer filed.  A file
    below [ROOT_DIR] that holds what the organizer writes for a row,
    with a header that is safe to write, gives an entry of [docs] whose
    header names the normalized domain, the stripped stage and the
    validation status [singleobservation], the three values the indexes
    group by, and whose snippet is the snippet of the source, the one
    the manifest shows. *)
Theorem X28_archived_note_is_listed
    (today : string) (row : gmap string string)
    (pattern_domain maturation_stage content : string) (p rel : list string) :
  Forall header_safe
    (Directive.header_lines today (Directive.normalize_domain pattern_domain)
       (strip maturation_stage) (Directive.tags_value row)) →
  relative_to ROOT_DIR p = Ok rel →
  ∃ meta snippet,
    Directive.extract_snippet content 75 = Ok snippet ∧
    Directive.index_doc ROOT_DIR p
      (Directive.archived_text today row pattern_domain maturation_stage content)
    = Ok (Directive.Doc (as_posix rel) (stem p) meta snippet) ∧
    meta !! "patterndomain" = Some (Directive.normalize_domain pattern_domain) ∧
    meta !! "maturationstage" = Some (strip maturation_stage) ∧
    meta !! "validationstatus" = Some "singleobservation".
Proof.
  intros Hsafe Hrel.
  set (d := Directive.normalize_domain pattern_domain) in *.
  set (st := strip maturation_stage) in *.
  set (tg := Directive.tags_value row) in *.
  destruct (directive_snippet_total content 75) as [snippet Hsnippet].
  set (kvs := [ ("patterndomain", String " " d);
                ("maturationstage", String " " st);
                ("patterntags", String " " tg);
                ("validationstatus", " singleobservation");
                ("instructionalreadiness", " internalreference");
                ("temporal_context", "");
                ("  experience_date", " ''");
                ("  analysis_date", String " " today);
                ("provenance", " personaldocumentation");
                ("source", " notebooklm");
                ("import_date", rstrip (String " " today)) ]).
  exists (foldl (λ m kv, <[strip kv.1 := strip kv.2]> m) ∅ kvs), snippet.
  split; [exact Hsnippet |]. split.
  - unfold Directive.index_doc. rewrite directive_archived_shape. fold d st tg.
    change (Directive.header_lines today d st tg)
      with ([ "patterndomain: " +:+ d; "maturationstage: " +:+ st;
              "patterntags: " +:+ tg; "validationstatus: singleobservation";
              "instructionalreadiness: internalreference"; "temporal_context:";
              "  experience_date: ''"; "  analysis_date: " +:+ today;
              "provenance: personaldocumentation"; "source: notebooklm" ]
            ++ ["import_date: " +:+ today]) in *.
    assert (Hlast : rstrip ("import_date: " +:+ today)
                    = "import_date:" +:+ rstrip (String " " today)).
    { by apply (rstrip_nospace_app "import_date:" (String " " today)). }
    rewrite split_frontmatter_shape; [|done | done | by rewrite Hlast].
    rewrite Hlast.
    rewrite (meta_lines_keys ∅ kvs) by (by repeat constructor).
    cbn [rbind].
    assert (Hbody : Directive.extract_snippet (nl +:+ nl +:+ content) 75 = Ok snippet).
    { rewrite <- Hsnippet. unfold Directive.extract_snippet.
      change (nl +:+ nl +:+ content) with (String LF (String LF content)).
      by rewrite !strip_nl_cons. }
    rewrite Hbody. cbn [rbind]. by rewrite Hrel.
  - subst kvs. cbn [foldl fst snd].
    split; [|split].
    + rewrite !lookup_insert_ne by (by vm_compute).
      change (strip "patterndomain") with "patterndomain".
      rewrite lookup_insert_eq, strip_space_cons. subst d.
      by rewrite strip_normalize_domain.
    + rewrite !lookup_insert_ne by (by vm_compute).
      change (strip "maturationstage") with "maturationstage".
      rewrite lookup_insert_eq, strip_space_cons. subst st. by rewrite strip_idem.
    + rewrite !lookup_insert_ne by (by vm_compute).
      change (strip "validationstatus") with "validationstatus".
      by rewrite lookup_insert_eq.
Qed.

Local Abbreviation index_dir := (Directive.index_dir ROOT_DIR).

(** One turn of the scan: an entry or a warning. *)
Lemma scan_doc_run p (s : Cmd.session Directive.index_line) :
  ∃ lines,
    Directive.scan_doc ROOT_DIR p s
      = (Ok (option_list (listed ROOT_DIR (Cmd.disk s) p)),
         Cmd.Session (Cmd.disk s) (Cmd.printed s ++ lines)) ∧
    length (option_list (listed ROOT_DIR (Cmd.disk s) p)) + length lines = 1.
Proof.
  destruct s as [f o]. unfold Directive.scan_doc, listed. cbn [Cmd.disk Cmd.printed].
  unfold Cmd.try_except, Cmd.bind, Cmd.on_disk, Cmd.lift, Cmd.print, Cmd.ret, read_text.
  cbn [files Cmd.disk Cmd.printed].
  destruct (node_at p f) as [[text|]|]; cbn [files Cmd.disk Cmd.printed].
  - destruct (Directive.index_doc ROOT_DIR p text) as [d|e].
    + exists []. by rewrite app_nil_r.
    + by eexists [_].
  - by eexists [_].
  - by eexists [_].
Qed.

Lemma scan_docs_run found (s : Cmd.session Directive.index_line) :
  ∃ lines,
    Directive.scan_docs ROOT_DIR found s
      = (Ok (omap (listed ROOT_DIR (Cmd.disk s)) found),
         Cmd.Session (Cmd.disk s) (Cmd.printed s ++ lines)) ∧
    length (omap (listed ROOT_DIR (Cmd.disk s)) found) + length lines = length found.
Proof.
  revert s. induction found as [|p found IH]; intros s.
  - exists []. rewrite app_nil_r. by destruct s.
  - cbn [Directive.scan_docs]. unfold Cmd.bind at 1.
    destruct (scan_doc_run p s) as (l1 & -> & Hl1).
    destruct (IH (Cmd.Session (Cmd.disk s) (Cmd.printed s ++ l1))) as (l2 & Hrun & Hl2).
    unfold Cmd.bind at 1. rewrite Hrun. unfold Cmd.ret.
    cbn [Cmd.disk Cmd.printed] in *. exists (l1 ++ l2). rewrite app_assoc.
    assert (Homap : omap (listed ROOT_DIR (Cmd.disk s)) (p :: found)
                    = option_list (listed ROOT_DIR (Cmd.disk s) p)
                      ++ omap (listed ROOT_DIR (Cmd.disk s)) found).
    { cbn. by destruct (listed ROOT_DIR (Cmd.disk s) p). }
    rewrite Homap. split; [done |]. rewrite !length_app. simpl. lia.
Qed.

(** Making the directory of the indexes changes nothing for the scan. *)
Lemma listed_mkdir (f : gmap (list string) node) p :
  (∀ c, f !! index_dir ≠ Some (File c)) →
  listed ROOT_DIR (<[index_dir := Dir]> f) p = listed ROOT_DIR f p.
Proof.
  intros Hfile. unfold listed.
  destruct (decide (p = index_dir)) as [-> | Hne].
  - unfold Directive.index_dir. rewrite !node_at_app_singleton, lookup_insert_eq.
    fold index_dir.
    destruct (f !! index_dir) as [[c|]|] eqn:Hat; [|done | done].
    by destruct (Hfile c).
  - destruct p as [|x p]; [done |]. cbn [node_at]. by rewrite lookup_insert_ne.
Qed.

(** [write_index] in a directory that is there. *)
Lemma write_index_run docs filename title key (s : Cmd.session Directive.index_line) :
  component filename →
  Cmd.disk s !! index_dir = Some Dir →
  Cmd.disk s !! (index_dir ++ [filename]) ≠ Some Dir →
  Directive.write_index ROOT_DIR docs filename title key s
    = (Ok tt,
       Cmd.Session
         (<[index_dir ++ [filename] := File (Directive.index_text title key docs)]>
            (Cmd.disk s))
         (Cmd.printed s ++ [Directive.INDEX_generated (index_dir ++ [filename])])).
Proof.
  intros Hname Hdir Hnodir. destruct s as [f o]. cbn [Cmd.disk Cmd.printed] in *.
  unfold Directive.write_index. cbv zeta. rewrite pjoin_component by done.
  unfold Cmd.bind, Cmd.on_disk, Cmd.print. cbn [Cmd.disk Cmd.printed].
  rewrite (write_text_ok (index_dir ++ [filename]) _ (World f [] 0)).
  - done.
  - cbn [files]. by rewrite node_at_app_singleton.
  - cbn [files]. rewrite parent_app_singleton.
    unfold Directive.index_dir. rewrite node_at_app_singleton. exact Hdir.
Qed.

(** X30: [generate_indexes] in a [ROOT_DIR] that is there, whose
    [_indexes] is no file and holds no directory under the name of an
    index.  It returns the entries of the listed paths that are files
    below [ROOT_DIR], in the order of the listing, and prints a warning
    for each of the others.  [_indexes] is a directory afterwards, the
    three index files hold the index of these entries by stage, by
    domain and by validation status, and every other path is as it
    was. *)
Theorem X30_generate_indexes_writes_three_indexes
    (found : list (list string)) (s : Cmd.session Directive.index_line) :
  node_at ROOT_DIR (Cmd.disk s) = Some Dir →
  (∀ c, Cmd.disk s !! Directive.index_dir ROOT_DIR ≠ Some (File c)) →
  Forall (λ n, Cmd.disk s !! (Directive.index_dir ROOT_DIR ++ [n]) ≠ Some Dir)
    ["index-maturation.md"; "index-domains.md"; "index-validation.md"] →
  let docs := omap (listed ROOT_DIR (Cmd.disk s)) found in
  ∃ g lines,
    Directive.generate_indexes ROOT_DIR found s
      = (Ok docs,
         Cmd.Session g
           (Cmd.printed s ++ Directive.INFO_scanning_archive :: lines
              ++ [Directive.INDEX_generated
                    (Directive.index_dir ROOT_DIR ++ ["index-maturation.md"]);
                  Directive.INDEX_generated
                    (Directive.index_dir ROOT_DIR ++ ["index-domains.md"]);
                  Directive.INDEX_generated
                    (Directive.index_dir ROOT_DIR ++ ["index-validation.md"])])) ∧
    length docs + length lines = length found ∧
    g !! Directive.index_dir ROOT_DIR = Some Dir ∧
    g !! (Directive.index_dir ROOT_DIR ++ ["index-maturation.md"])
      = Some (File (Directive.index_text "Index by Maturation Stage"
                      "maturationstage" docs)) ∧
    g !! (Directive.index_dir ROOT_DIR ++ ["index-domains.md"])
      = Some (File (Directive.index_text "Index by Pattern Domain"
                      "patterndomain" docs)) ∧
    g !! (Directive.index_dir ROOT_DIR ++ ["index-validation.md"])
      = Some (File (Directive.index_text "Index by Validation Status"
                      "validationstatus" docs)) ∧
    (∀ q, q ≠ Directive.index_dir ROOT_DIR →
          (∀ n, n ∈ ["index-maturation.md"; "index-domains.md"; "index-validation.md"] →
                q ≠ Directive.index_dir ROOT_DIR ++ [n]) →
          g !! q = Cmd.disk s !! q).
Proof.
  destruct s as [f o]. cbn [Cmd.disk Cmd.printed]. intros Hroot Hfile Hnodir.
  set (docs := omap (listed ROOT_DIR f) found).
  apply Forall_cons in Hnodir as [Hm Hnodir]. apply Forall_cons in Hnodir as [Hd Hnodir].
  apply Forall_cons in Hnodir as [Hv _].
  set (f1 := <[index_dir := Dir]> f).
  assert (Hdocs : omap (listed ROOT_DIR f1) found = docs).
  { subst docs. clear -Hfile. induction found as [|p found IH]; [done |].
    cbn. subst f1. by rewrite listed_mkdir, IH. }
  destruct (scan_docs_run found
              (Cmd.Session f1 (o ++ [Directive.INFO_scanning_archive])))
    as (lines & Hscan & Hlen).
  cbn [Cmd.disk Cmd.printed] in Hscan, Hlen. rewrite Hdocs in Hscan, Hlen.
  assert (Hlong : ∀ n, index_dir ++ [n] ≠ index_dir).
  { intros n H%(f_equal length). rewrite length_app in H. simpl in H. lia. }
  eexists _, lines. split.
  { unfold Directive.generate_indexes.
    unfold Cmd.bind at 1, Cmd.on_disk at 1. cbn [Cmd.disk Cmd.printed].
    unfold Directive.index_dir at 1.
    rewrite (mkdir_ok ROOT_DIR "_indexes" (World f [] 0)) by done.
    cbn [files set_files]. fold index_dir. fold f1.
    unfold Cmd.bind at 1, Cmd.print at 1. cbn [Cmd.disk Cmd.printed].
    unfold Cmd.bind at 1. rewrite Hscan.
    unfold Cmd.bind at 1. rewrite write_index_run; cbn [Cmd.disk Cmd.printed].
    2:{ by vm_compute. }
    2:{ subst f1. by rewrite lookup_insert_eq. }
    2:{ subst f1. by rewrite lookup_insert_ne by apply not_eq_sym, Hlong. }
    unfold Cmd.bind at 1. rewrite write_index_run; cbn [Cmd.disk Cmd.printed].
    2:{ by vm_compute. }
    2:{ subst f1. rewrite lookup_insert_ne by apply Hlong. by rewrite lookup_insert_eq. }
    2:{ subst f1. rewrite lookup_insert_ne by (by intros [= ?]%app_inv_head).
        by rewrite lookup_insert_ne by apply not_eq_sym, Hlong. }
    unfold Cmd.bind at 1. rewrite write_index_run; cbn [Cmd.disk Cmd.printed].
    2:{ by vm_compute. }
    2:{ subst f1. rewrite !lookup_insert_ne by apply Hlong. by rewrite lookup_insert_eq. }
    2:{ subst f1. rewrite !lookup_insert_ne by (by intros [= ?]%app_inv_head).
        by rewrite lookup_insert_ne by apply not_eq_sym, Hlong. }
    unfold Cmd.ret. do 2 f_equal. by rewrite <- !app_assoc. }
  split; [exact Hlen |]. subst f1. split.
  { rewrite !lookup_insert_ne by apply Hlong. by rewrite lookup_insert_eq. }
  split.
  { rewrite !lookup_insert_ne by (by intros [= ?]%app_inv_head).
    by rewrite lookup_insert_eq. }
  split.
  { rewrite lookup_insert_ne by (by intros [= ?]%app_inv_head).
    by rewrite lookup_insert_eq. }
  split; [by rewrite lookup_insert_eq |].
  intros q Hq Hqn.
  rewrite !lookup_insert_ne; [done | by apply not_eq_sym | | |];
    apply not_eq_sym, Hqn; repeat constructor.
Qed.
End IndexesFacts.

Section IndexesExamples.
Import Py Re Spec Fs.

Lemma X28_archived_note_is_listed_witness :
  ∃ meta snippet,
    Directive.extract_snippet "Hello" 75 = Ok snippet ∧
    Directive.index_doc Sample.ROOT_DIR
      (Sample.ROOT_DIR ++ ["archive"; "tradecraft"; "formalized_frameworks"; "foo.md"])
      (Directive.archived_text Sample.today
         (Sample.directive_row "Tradecraft " "Formalized Framework" "humint, code")
         "Tradecraft " "Formalized Framework" "Hello")
    = Ok (Directive.Doc
            (as_posix ["archive"; "tradecraft"; "formalized_frameworks"; "foo.md"])
            (stem (Sample.ROOT_DIR
                     ++ ["archive"; "tradecraft"; "formalized_frameworks"; "foo.md"]))
            meta snippet) ∧
    meta !! "patterndomain" = Some (Directive.normalize_domain "Tradecraft ") ∧
    meta !! "maturationstage" = Some (strip "Formalized Framework") ∧
    meta !! "validationstatus" = Some "singleobservation".
Proof.
  apply (X28_archived_note_is_listed Sample.ROOT_DIR Sample.today
           (Sample.directive_row "Tradecraft " "Formalized Framework" "humint, code")
           "Tradecraft " "Formalized Framework" "Hello").
  - apply header_safeb_spec. by vm_compute.
  - by vm_compute.
Defined.

Lemma X30_generate_indexes_writes_three_indexes_witness :
  ∃ g lines,
    Directive.generate_indexes Sample.ROOT_DIR [Sample.archive_note]
      (Cmd.Session (Sample.archived "Hello") [])
      = (Ok (omap (listed Sample.ROOT_DIR (Sample.archived "Hello"))
               [Sample.archive_note]),
         Cmd.Session g
           ([] ++ Directive.INFO_scanning_archive :: lines
               ++ [Directive.INDEX_generated
                     (Directive.index_dir Sample.ROOT_DIR ++ ["index-maturation.md"]);
                   Directive.INDEX_generated
                     (Directive.index_dir Sample.ROOT_DIR ++ ["index-domains.md"]);
                   Directive.INDEX_generated
                     (Directive.index_dir Sample.ROOT_DIR ++ ["index-validation.md"])])) ∧
    g !! (Directive.index_dir Sample.ROOT_DIR ++ ["index-domains.md"])
      = Some (File (Directive.index_text "Index by Pattern Domain" "patterndomain"
                      (omap (listed Sample.ROOT_DIR (Sample.archived "Hello"))
                         [Sample.archive_note]))).
Proof.
  destruct (X30_generate_indexes_writes_three_indexes Sample.ROOT_DIR
              [Sample.archive_note] (Cmd.Session (Sample.archived "Hello") []))
    as (g & lines & Hrun & _ & _ & _ & Hdomains & _).
  - by vm_compute.
  - intros c. by vm_compute.
  - repeat (apply Forall_cons; split; [by vm_compute |]). apply Forall_nil_2.
  - exists g, lines. split; [exact Hrun | exact Hdomains].
Defined.
End IndexesExamples.
